(** * Harmonisation: Monte Carlo evaluation of ODR fit coefficients

    A shallow embedding of
      - [src/main/ODR_MC/branches/v11/MCerrst.py]   (the Monte Carlo driver script),
      - [src/main/ODR_MC/branches/v11/plotMCres.py] ([plotSDfit]),
      - [src/main/ODR_MC/branches/v3/readHD.py]     ([rHDpair], [sensors], [sInCoeff],
        [rHData]),
      - [src/main/tools/AVHRR_to_updated_spec.py]   ([return_valid_averages_mask],
        [return_w_matrices], [write_input_file], [append_W_to_input_file], [main]),
    with numpy arrays as lists, Python exceptions as an error result, and the
    effects of the script (random draws, calls into the regression library,
    files written, plots drawn) as a state that is threaded through. *)

From stdpp Require Import base list strings gmap sorting.
From stdpp Require pretty.
From Stdlib Require Import ZArith Floats.

Local Open Scope Z_scope.
Local Open Scope nat_scope.

(** ** Scalars

    The arrays hold double-precision numbers.  The programs only add, multiply,
    divide, take square roots, store integers into float arrays and test for
    NaN, so the embedding is written once over this interface; [float64] below
    is the instance the examples run on. *)

Class Scalar := {
  num : Type;
  add : num → num → num;
  mul : num → num → num;
  div : num → num → num;
  sqrt : num → num;
  zero : num;
  one : num;
  nan : num;
  of_int : Z → num;
  isnan : num → bool;
  isnan_nan : isnan nan = true
}.

(** One- and two-dimensional arrays: the list of the entries, the list of the
    rows. *)
Abbreviation vec := (list num).
Abbreviation mat := (list (list num)).

Definition float_of_Z (z : Z) : float :=
  match z with
  | Z0 => PrimFloat.of_uint63 (Uint63.of_Z 0)
  | Zpos _ => PrimFloat.of_uint63 (Uint63.of_Z z)
  | Zneg _ => PrimFloat.opp (PrimFloat.of_uint63 (Uint63.of_Z (Z.opp z)))
  end.

#[export] Instance float64 : Scalar := {|
  num := float;
  add := PrimFloat.add;
  mul := PrimFloat.mul;
  div := PrimFloat.div;
  sqrt := PrimFloat.sqrt;
  zero := PrimFloat.zero;
  one := PrimFloat.one;
  nan := PrimFloat.nan;
  of_int := float_of_Z;
  isnan := PrimFloat.is_nan;
  isnan_nan := eq_refl
|}.

(** ** Exceptions and results *)

Inductive exn :=
| IndexError
| KeyError
| ValueError
| NameError (name : string)
| UnboundLocalError (name : string).

(** [UnboundLocalError] is a subclass of [NameError]. *)
Definition is_NameError (e : exn) : bool :=
  match e with
  | NameError _ | UnboundLocalError _ => true
  | _ => false
  end.

Inductive result (A : Type) :=
| Ok (a : A)
| Raise (e : exn).
Arguments Ok {A} a.
Arguments Raise {A} e.

#[export] Instance result_ret : MRet result := λ A a, Ok a.
#[export] Instance result_bind : MBind result := λ A B f r,
  match r with
  | Ok a => f a
  | Raise e => Raise e
  end.
#[export] Instance result_fmap : FMap result := λ A B f r,
  match r with
  | Ok a => Ok (f a)
  | Raise e => Raise e
  end.

(** A computation over a world [W]: it ends in a value or in an exception, and
    the world it leaves behind is kept in both cases. *)
Definition M (W A : Type) : Type := W → result A * W.

#[export] Instance M_ret {W} : MRet (M W) := λ A a w, (Ok a, w).
#[export] Instance M_bind {W} : MBind (M W) := λ A B f m w,
  match m w with
  | (Ok a, w') => f a w'
  | (Raise e, w') => (Raise e, w')
  end.

Definition lift {W A} (r : result A) : M W A := λ w, (r, w).
Definition raise {W A} (e : exn) : M W A := λ w, (Raise e, w).

(** [for x in xs: acc = body(x, acc)] *)
Fixpoint for_each {W A B} (xs : list A) (body : A → B → M W B) (acc : B) : M W B :=
  match xs with
  | [] => mret acc
  | x :: xs' => acc' ← body x acc; for_each xs' body acc'
  end.

(** ** numpy arrays

    A one-dimensional array is the list of its entries, a two-dimensional one
    the list of its rows. *)

Module np.
Section Arrays.
Context {Num : Scalar}.


(** [a[i]]: IndexError out of range. *)
Definition getitem {A} (a : list A) (i : nat) : result A :=
  match a !! i with
  | Some x => Ok x
  | None => Raise IndexError
  end.

(** [a[i] = x] *)
Definition setitem {A} (a : list A) (i : nat) (x : A) : result (list A) :=
  if decide (i < length a) then Ok (<[i:=x]> a) else Raise IndexError.

(** [a[i, j]] *)
Definition getitem2 {A} (a : list (list A)) (i j : nat) : result A :=
  r ← getitem a i; getitem r j.

(** The entry in row [i] and column [j], when there is one. *)
Definition cell (a : mat) (i j : nat) : option num :=
  r ← a !! i; r !! j.

(** [a[:, j]] *)
Definition column (a : mat) (j : nat) : result vec :=
  mapM (λ r, getitem r j) a.

(** [a[:, lo:hi]]: a slice never raises, it is cut to the columns there are. *)
Definition columns (a : mat) (lo hi : nat) : mat :=
  (λ r, take (hi - lo) (drop lo r)) <$> a.

(** [a[idx, :]] for an index array [idx]. *)
Definition take_rows (a : mat) (idx : list nat) : result mat :=
  mapM (getitem a) idx.

(** [a[idx]] for a one-dimensional [a] and an index list. *)
Definition take_items {A} (a : list A) (idx : list nat) : result (list A) :=
  mapM (getitem a) idx.

(** [a[:, j] = x] for a scalar [x]. *)
Definition set_column (a : mat) (j : nat) (x : num) : result mat :=
  mapM (λ r, setitem r j x) a.

(** [a.T] of a two-dimensional array: row [j] of the result is column [j]. *)
Definition transpose (a : mat) : mat :=
  match a with
  | [] => []
  | r0 :: _ => (λ j, (λ r, default zero (r !! j)) <$> a) <$> seq 0 (length r0)
  end.

(** Elementwise application with numpy's broadcasting along one axis: equal
    lengths pair up, a length-1 operand is stretched, anything else is a
    ValueError. *)
Definition broadcast {A} (f : A → A → result A) (a b : list A) : result (list A) :=
  if decide (length a = length b) then mapM (λ p, f p.1 p.2) (zip a b)
  else match a, b with
       | [x], _ => mapM (f x) b
       | _, [y] => mapM (λ x, f x y) a
       | _, _ => Raise ValueError
       end.

Definition lift2 (f : num → num → num) (x y : num) : result num := Ok (f x y).

(** [a + b], [a / b] on one- and two-dimensional arrays. *)
Definition add1 : vec → vec → result vec := broadcast (lift2 add).
Definition add2 : mat → mat → result mat := broadcast add1.
Definition div1 : vec → vec → result vec := broadcast (lift2 div).
Definition div2 : mat → mat → result mat := broadcast div1.

(** [ones(n, dtype=...)] *)
Definition ones {A} (n : nat) (x : A) : list A := replicate n x.

(** [where(mask)[0]]: the indices at which [mask] holds. *)
Definition where_ (mask : list bool) : list nat :=
  (λ p, p.1) <$> filter (λ p, p.2 = true) (zip (seq 0 (length mask)) mask).

(** [isnan(a)] elementwise. *)
Definition isnan_ (a : vec) : list bool := isnan <$> a.

End Arrays.
End np.

(** ** AVHRR_to_updated_spec.py *)

Module AVHRR.
Section Mask.
Context {Num : Scalar}.
Import np.

(** [where(isnan(row))[0].size != 0] *)
Definition has_nan (row : vec) : bool :=
  negb (length (where_ (isnan_ row)) =? 0).

(** Python 2's [zip] of four sequences stops at the shortest. *)
Definition zip4 {A} (a b c d : list A) : list (A * A * A * A) :=
  zip (zip (zip a b) c) d.

(** [enumerate] *)
Definition enumerate {A} (l : list A) : list (nat * A) := zip (seq 0 (length l)) l.

(** The condition and the body of the loop over the matchups. *)
Definition any_nan (rows : vec * vec * vec * vec) : bool :=
  let '(row11, row12, row21, row22) := rows in
  has_nan row11 || has_nan row12 || has_nan row21 || has_nan row22.

Definition mark (acc : result (list bool)) (it : nat * (vec * vec * vec * vec))
  : result (list bool) :=
  valid_averages ← acc;
  if any_nan it.2 then setitem valid_averages it.1 false else Ok valid_averages.

Definition return_valid_averages_mask (u11 u12 u21 u22 : mat) (label : num)
  : result (list bool) :=
  let valid_averages := ones (length u11) true in
  if isnan label then
    foldl mark (Ok valid_averages) (enumerate (zip4 u11 u12 u21 u22))
  else Ok valid_averages.

(** The call with the default [label=nan]. *)
Definition return_valid_averages_mask_default (u11 u12 u21 u22 : mat) :=
  return_valid_averages_mask u11 u12 u21 u22 nan.

End Mask.
End AVHRR.

(** ** The objects the driver and the plots pass around *)

Module Har.
Section Objects.
Context {Num : Scalar}.
Import np.

(** The sensor series [upf.avhrr(datadir, filelist)]; only what the sources
    read of it. *)
Record Series := {
  nocoefs : nat;
  novars : nat;
  nosensors : nat;
  sslab : list string;
  preHcoef : gmap string vec;
  measEq : mat → vec → vec
}.

(** The regression library's output object ([scipy.odr.Output]). *)
Record Output := {
  beta : vec;
  cov_beta : mat;
  y : vec;
  xplus : mat;
  delta : mat;
  eps : vec;
  info : Z
}.

(** What [rhd.rHDpair] of branch v11 returns, in the order the driver unpacks it. *)
Record HDpair := {
  rsp : Z;
  Im : list (list Z);
  Hd : mat;
  Hr : mat;
  Hs : mat;
  corIdx : list Z;
  corLen : vec;
  csUr : mat;
  cictUr : mat
}.

(** [har.odrP(Hd, Hr, beta, series[, fixb, fixx, Hs])]: an optional argument
    that the call leaves out is [None]. *)
Record odrP_args := {
  p_Hd : mat;
  p_Hr : mat;
  p_beta : vec;
  p_series : Series;
  p_fixb : option (list Z);
  p_fixx : option (list Z);
  p_Hs : option mat
}.

(** [har.odr4MC(Xdt, Ydt, Hr, b0, series[, fixb, fixx, Hs])] *)
Record odr4MC_args := {
  m_X : mat;
  m_Y : vec;
  m_Hr : mat;
  m_b0 : vec;
  m_series : Series;
  m_fixb : option (list Z);
  m_fixx : option (list Z);
  m_Hs : option mat
}.

(** [mce.genErr(Hr, sLict, sTo, rCSar, rCICTar, slt, corLen, mcnt)] *)
Record genErr_args := {
  g_Hr : mat;
  g_sLict : num;
  g_sTo : num;
  g_rCSar : mat;
  g_rCICTar : mat;
  g_slt : list Z;
  g_corLen : vec;
  g_mcnt : list nat
}.

(** What a run leaves behind for an observer, in the order it happened: the
    calls into the regression and error-structure modules with what they
    returned, the files written and the graphs drawn. *)
Inductive event :=
| EvOdrP (a : odrP_args) (out : Output)
| EvGenErr (a : genErr_args) (errStr : mat)
| EvOdr4MC (a : odr4MC_args) (out : Output)
| EvSavetxt (fname : string) (X : mat) (delimiter : string)
| EvResLfit (a b : vec) (xlab ylab ttl : string).

(** The world of a run: the state of the random generator, the contents of
    memory that [numpy.empty] hands out uninitialised, and the trace so far. *)
Record World (G : Type) := {
  rng : G;
  uninit : nat → nat → num;
  trace : list event
}.

Definition emit {G} (e : event) : M (World G) () := λ w,
  (Ok (), {| rng := rng G w; uninit := uninit G w; trace := trace G w ++ [e] |}).

(** The calls and the files of a trace, each kind in the order it happened. *)
Definition best_fits (tr : list event) : list (odrP_args * Output) :=
  omap (λ e, match e with EvOdrP a o => Some (a, o) | _ => None end) tr.
Definition trial_fits (tr : list event) : list (odr4MC_args * Output) :=
  omap (λ e, match e with EvOdr4MC a o => Some (a, o) | _ => None end) tr.
Definition error_draws (tr : list event) : list (genErr_args * mat) :=
  omap (λ e, match e with EvGenErr a E => Some (a, E) | _ => None end) tr.
Definition saved (tr : list event) : list (string * mat * string) :=
  omap (λ e, match e with EvSavetxt fn X d => Some (fn, X, d) | _ => None end) tr.
Definition graphs (tr : list event) : list (vec * vec * string * string * string) :=
  omap (λ e, match e with EvResLfit a b xl yl t => Some (a, b, xl, yl, t) | _ => None end) tr.

(** What a computation adds to the trace of the world it starts in. *)
Definition log {G A} (m : M (World G) A) (w : World G) : list event :=
  drop (length (trace G w)) (trace G (m w).2).

(** Two computations agree up to [R] when, started with the same generator
    state (whatever the traces so far and the uninitialised memory are), they
    add the same events to the trace, leave the same generator state, and
    either raise the same exception or return values related by [R]. *)
Definition agree {G A} (R : A → A → Prop) (m1 m2 : M (World G) A) : Prop :=
  ∀ w1 w2, rng G w1 = rng G w2 →
    ∃ evs,
      trace G (m1 w1).2 = trace G w1 ++ evs
      ∧ trace G (m2 w2).2 = trace G w2 ++ evs
      ∧ rng G (m1 w1).2 = rng G (m2 w2).2
      ∧ match (m1 w1).1, (m2 w2).1 with
        | Ok a1, Ok a2 => R a1 a2
        | Raise e1, Raise e2 => e1 = e2
        | _, _ => False
        end.

(** Reading a local variable: unbound until its first assignment. *)
Definition local {W A} (name : string) (v : option A) : M W A :=
  match v with
  | Some x => mret x
  | None => raise (UnboundLocalError name)
  end.

(** Reading a module-level name of a script: a NameError while unbound. *)
Definition global {W A} (name : string) (v : option A) : M W A :=
  match v with
  | Some x => mret x
  | None => raise (NameError name)
  end.

(** [d[k]] on a dict *)
Definition dict_get {A} (d : gmap string A) (k : string) : result A :=
  match d !! k with
  | Some v => Ok v
  | None => Raise KeyError
  end.

End Objects.
Arguments rng {Num G} w.
Arguments uninit {Num G} w.
Arguments trace {Num G} w.
End Har.

(** ** plotMCres.py *)

Module plotMCres.
Section Plots.
Context {Num : Scalar}.
Import np Har.

(** The state of Python's [random] module, and how [random.sample] picks [k]
    of a population once it has accepted [k]. *)
Context {G : Type}.
Variable choose : G → list nat → nat → list nat * G.

(** [range(n)] *)
Definition range (n : Z) : list nat := seq 0 (Z.to_nat n).

(** [random.sample(population, k)]: ValueError unless [0 <= k <= len(population)]. *)
Definition sample (population : list nat) (k : Z) : M (World G) (list nat) := λ w,
  if decide (0 ≤ k ≤ Z.of_nat (length population))%Z then
    let '(sel, g) := choose (rng w) population (Z.to_nat k) in
    (Ok sel, {| rng := g; uninit := uninit w; trace := trace w |})
  else (Raise ValueError, w).

(** [vis.resLfit(a, b, xlabel, ylabel, title)] draws one graph. *)
Definition resLfit (a b : vec) (xlab ylab ttl : string) : M (World G) () :=
  emit (EvResLfit a b xlab ylab ttl).

(** [a[sel, j]] *)
Definition take_column (a : mat) (sel : list nat) (j : nat) : result vec :=
  rows ← take_rows a sel; column rows j.

(** [a**2] elementwise *)
Definition square (a : vec) : vec := (λ x, mul x x) <$> a.

Definition plotSDfit (avhrrS : Series) (noMU nobj : Z) (slab : string)
    (muTime : vec) (Hrnd : mat) (odrSD : Output) (weight : option Z)
  : M (World G) () :=
  let bodr := beta odrSD in
  let Xdata := transpose (xplus odrSD) in
  let calL := measEq avhrrS Xdata bodr in
  let Xerr := transpose (delta odrSD) in
  '(wlab, LEres, Xerr) ←
    match weight with
    | Some _ =>
        let wlab := " weighted" in
        h0 ← lift (column Hrnd 0);
        h6 ← lift (column Hrnd 6);
        s ← lift (add1 (square h0) (square h6));
        let sigY := sqrt <$> s in
        LEres ← lift (div1 (eps odrSD) sigY);
        Xerr ← lift (div2 Xerr (columns Hrnd 1 6));
        mret (Some wlab, Some LEres, Xerr)
    | None => mret (None, None, Xerr)
    end;
  selMU ← sample (range noMU) nobj;
  wl ← local "wlab" wlab;
  let plot_ttl := slab +:+ wl +:+ " residuals from ODR fit" in
  le ← local "LEres" LEres;
  a ← lift (take_items le selMU);
  b ← lift (take_items calL selMU);
  resLfit a b "Radiance" "Fit residuals" plot_ttl;;
  sLict ← lift (take_column Xdata selMU 3);
  a ← lift (take_items le selMU);
  resLfit a sLict "ICT radiance" "Fit residuals" plot_ttl;;
  sTo ← lift (take_column Xdata selMU 4);
  a ← lift (take_items le selMU);
  resLfit a sTo "Orbit temperature (K)" "Fit residuals" plot_ttl;;
  let ttl := slab +:+ wl +:+ " ODR evaluated true error of " in
  let xerr_graph (j : nat) (what unit_ : string) : M (World G) () :=
    a ← lift (take_column Xerr selMU j);
    b ← lift (take_items muTime selMU);
    resLfit a b "Time" unit_ (ttl +:+ what) in
  xerr_graph 0 "space counts" "Counts";;
  xerr_graph 1 "ICT counts" "Counts";;
  xerr_graph 2 "Earth counts" "Counts";;
  xerr_graph 3 "ICT radiance" "Radiance";;
  xerr_graph 4 "orbit temperature" "Temperature".

End Plots.
End plotMCres.

(** ** errStruct.py

    Modelled from the spec: the module [errStruct] (imported by the driver as
    [mce]) is not among the sources, so [genErr] below follows section 4.2 of
    the specification: one standard-normal draw per scanline group for each
    scanline-correlated variable (space counts, internal-target counts),
    broadcast to the group's records and scaled by the group's scanline
    uncertainty; one draw per record for each independent-random variable
    (reference radiance, Earth counts, internal-target radiance, orbit
    temperature, K), scaled by the record's random uncertainty; one draw per
    trial for each fully-systematic variable (internal-target radiance, orbit
    temperature), scaled by the systematic magnitude; the three contributions
    are summed per variable.  The driver hands over the groups as the sorted
    scanline values [slt] with their sizes [mcnt], so the broadcast repeats
    group [k]'s value [mcnt[k]] times, group after group.  How a group's row of
    per-scanline uncertainties (the window of the rolling average) becomes the
    group's one scanline uncertainty is left open by the specification; it is
    the parameter [group_unc]. *)

Module errStruct.
Section Generator.
Context {Num : Scalar} {G : Type}.
Import np Har.

Variable normal : G → num * G.
Variable group_unc : vec → num.

(** [n] successive standard-normal draws. *)
Fixpoint draws (n : nat) (g : G) : vec * G :=
  match n with
  | 0 => ([], g)
  | S n' =>
      let '(z, g1) := normal g in
      let '(zs, g2) := draws n' g1 in
      (z :: zs, g2)
  end.

(** [numpy.repeat(vals, cnts)] *)
Definition expand {A} (vals : list A) (cnts : list nat) : list A :=
  mjoin (zip_with (λ v c, replicate c v) vals cnts).

(** The scanline-correlated error of one variable, per record. *)
Definition scanline_error (z : vec) (rU : mat) (mcnt : list nat) : vec :=
  expand (zip_with mul z (group_unc <$> rU)) mcnt.

Definition at_ (v : vec) (i : nat) : num := default zero (v !! i).

(** The three contributions to the error of record [r], one entry per column
    (reference radiance, space counts, internal-target counts, Earth counts,
    internal-target radiance, orbit temperature, K). *)
Definition independent_part (zL zCE zLict zTo zK : vec) (r : nat) (hr : vec) : vec :=
  [ mul (at_ zL r) (at_ hr 0); zero; zero; mul (at_ zCE r) (at_ hr 3);
    mul (at_ zLict r) (at_ hr 4); mul (at_ zTo r) (at_ hr 5); mul (at_ zK r) (at_ hr 6) ].

Definition scanline_part (eCs eCict : vec) (r : nat) : vec :=
  [ zero; at_ eCs r; at_ eCict r; zero; zero; zero; zero ].

Definition systematic_part (zsLict zsTo sLict sTo : num) : vec :=
  [ zero; zero; zero; zero; mul zsLict sLict; mul zsTo sTo; zero ].

Definition sum3 (a b c : vec) : vec := zip_with add (zip_with add a b) c.

Definition genErr (a : genErr_args) (g : G) : mat * G :=
  let n := length (g_Hr a) in
  let ngroups := length (g_slt a) in
  let '(zCs, g) := draws ngroups g in
  let '(zCict, g) := draws ngroups g in
  let '(zL, g) := draws n g in
  let '(zCE, g) := draws n g in
  let '(zLict, g) := draws n g in
  let '(zTo, g) := draws n g in
  let '(zK, g) := draws n g in
  let '(zsLict, g) := normal g in
  let '(zsTo, g) := normal g in
  let eCs := scanline_error zCs (g_rCSar a) (g_mcnt a) in
  let eCict := scanline_error zCict (g_rCICTar a) (g_mcnt a) in
  (imap (λ r hr, sum3 (independent_part zL zCE zLict zTo zK r hr)
                      (scanline_part eCs eCict r)
                      (systematic_part zsLict zsTo (g_sLict a) (g_sTo a)))
        (g_Hr a),
   g).

End Generator.
End errStruct.

(** ** MCerrst.py *)

Module MCerrst.
Section Driver.
Context {Num : Scalar} {G : Type}.
Import np Har.

(** The modules the script imports and calls into, none of them among the
    sources: [os.path.join], [upf.avhrr], [rhd.rHDpair] and [rhd.resetHs] of
    branch v11, [har.odrP], [har.odr4MC] and [mce.genErr]. *)
Record Imports := {
  pjoin : string → string → string;
  avhrr : string → list string → Series;
  rHDpair : string → string → result HDpair;
  resetHs : mat → Z → mat;
  odrP : odrP_args → Output;
  odr4MC : odr4MC_args → Output;
  genErr : genErr_args → G → mat * G
}.

Variable imp : Imports.

Definition call_odrP (a : odrP_args) : M (World G) Output :=
  let out := odrP imp a in emit (EvOdrP a out);; mret out.

Definition call_odr4MC (a : odr4MC_args) : M (World G) Output :=
  let out := odr4MC imp a in emit (EvOdr4MC a out);; mret out.

Definition call_genErr (a : genErr_args) : M (World G) mat := λ w,
  let '(errStr, g) := genErr imp a (rng w) in
  (Ok errStr, {| rng := g; uninit := uninit w; trace := trace w ++ [EvGenErr a errStr] |}).

(** [savetxt(fname, X, delimiter=...)] *)
Definition savetxt (fname : string) (X : mat) (delimiter : string) : M (World G) () :=
  emit (EvSavetxt fname X delimiter).

(** [empty([r, c])]: whatever the memory held. *)
Definition empty (r c : nat) : M (World G) mat := λ w,
  (Ok ((λ i, (λ j, uninit w i j) <$> seq 0 c) <$> seq 0 r), w).

(** [a[-1] = x] *)
Definition set_last {A} (a : list A) (x : A) : result (list A) :=
  match a with
  | [] => Raise IndexError
  | _ => Ok (<[length a - 1 := x]> a)
  end.

(** Assigning a one-dimensional [v] to a slice of [n] entries: [v] must have
    [n] entries, or one entry and is then stretched. *)
Definition fit_to (n : nat) (v : vec) : result vec :=
  if decide (length v = n) then Ok v
  else match v with
       | [x] => Ok (replicate n x)
       | _ => Raise ValueError
       end.

(** [a[i, lo:hi] = v] *)
Definition set_row_slice (a : mat) (i lo hi : nat) (v : vec) : result mat :=
  r ← getitem a i;
  let n := length (take (hi - lo) (drop lo r)) in
  v' ← fit_to n v;
  Ok (<[i := take lo r ++ v' ++ drop (lo + n) r]> a).

(** [a[i, j] = x] *)
Definition setitem2 (a : mat) (i j : nat) (x : num) : result mat :=
  r ← getitem a i;
  r' ← setitem r j x;
  Ok (<[i := r']> a).

(** [unique(a, return_index=True, return_counts=True)]: the sorted distinct
    values, the index of the first occurrence of each, and how often each
    occurs. *)
Definition first_index (a : list Z) (v : Z) : nat :=
  default 0 (fst <$> list_find (λ x, x = v) a).
Definition count (a : list Z) (v : Z) : nat :=
  length (filter (λ x, x = v) a).
Definition unique (a : list Z) : list Z * list nat * list nat :=
  let values := remove_dups (merge_sort Z.le a) in
  (values, first_index a <$> values, count a <$> values).

Definition datadir : string := "D:\Projects\FIDUCEO\Data\Simulated".
Definition filelist : list string :=
  ["m02_n19.nc"; "m02_n18.nc"; "m02_n17.nc"; "m02_n16.nc"; "m02_n15.nc"].

(** What the two branches of [if notime:] leave in the script's variables. *)
Record Fit := {
  f_data : HDpair;
  f_Hr : mat;
  f_Hs : mat;
  f_fixb : option (list Z);
  f_fixx : option (list Z);
  f_podr : Output;
  f_fn : string
}.

Definition best_estimate (notime : bool) (avhrrNx : Series) (p m : nat)
    (ncfile s2 : string) (beta : vec) : M (World G) Fit :=
  if notime then
    let newdir := pjoin imp datadir "newSim_notime" in
    d ← lift (rHDpair imp newdir ncfile);
    Hr ← lift (set_column (Hr d) 5 one);
    podr ← call_odrP {| p_Hd := Hd d; p_Hr := Hr; p_beta := beta; p_series := avhrrNx;
                        p_fixb := None; p_fixx := None; p_Hs := None |};
    let fn := s2 +:+ "_notd_mcerrst_beta.txt" in
    mret {| f_data := d; f_Hr := Hr; f_Hs := Hs d; f_fixb := None; f_fixx := None;
            f_podr := podr; f_fn := fn |}
  else
    d ← lift (rHDpair imp datadir ncfile);
    let Hs := resetHs imp (Hs d) (rsp d) in
    let parfix := ones p 1%Z in
    parfix ← lift (set_last parfix 0%Z);
    let fixb := parfix in
    let varfix := ones m 1%Z in
    varfix ← lift (set_last varfix 0%Z);
    let fixx := varfix in
    podr ← call_odrP {| p_Hd := Hd d; p_Hr := Hr d; p_beta := beta; p_series := avhrrNx;
                        p_fixb := Some fixb; p_fixx := Some fixx; p_Hs := Some Hs |};
    let fn := s2 +:+ "_mcerrst_beta.txt" in
    mret {| f_data := d; f_Hr := Hr d; f_Hs := Hs; f_fixb := Some fixb; f_fixx := Some fixx;
            f_podr := podr; f_fn := fn |}.

(** The body of [for i in range(notr):]; the loop carries [mcb] and the last
    [mcodr]. *)
Definition trial (notime : bool) (avhrrNx : Series) (p : nat) (f : Fit)
    (X : mat) (Y : vec) (bodr : vec) (ga : genErr_args)
    (i : nat) (st : mat * option Output) : M (World G) (mat * option Output) :=
  let mcb := st.1 in
  errStr ← call_genErr ga;
  Xdt ← lift (add2 (transpose X) (columns errStr 1 6));
  e0 ← lift (column errStr 0);
  Ye ← lift (add1 Y e0);
  e6 ← lift (column errStr 6);
  Ydt ← lift (add1 Ye e6);
  mcodr ← (if notime then
             call_odr4MC {| m_X := Xdt; m_Y := Ydt; m_Hr := f_Hr f; m_b0 := bodr;
                            m_series := avhrrNx;
                            m_fixb := None; m_fixx := None; m_Hs := None |}
           else
             call_odr4MC {| m_X := Xdt; m_Y := Ydt; m_Hr := f_Hr f; m_b0 := bodr;
                            m_series := avhrrNx;
                            m_fixb := f_fixb f; m_fixx := f_fixx f; m_Hs := Some (f_Hs f) |});
  mcb ← lift (set_row_slice mcb i 0 p (beta mcodr));
  mcb ← lift (setitem2 mcb i p (of_int (info mcodr)));
  mret (mcb, Some mcodr).

(** The script up to and including [savetxt], for a given setting of its two
    constants [notime] and [notr]. *)
Definition run (notime : bool) (notr : nat) : M (World G) () :=
  let mcrdir := pjoin imp datadir "Results" in
  let avhrrNx := avhrr imp datadir filelist in
  let p := nocoefs avhrrNx in
  let m := novars avhrrNx in
  let inCoef := preHcoef avhrrNx in
  ncfile ← lift (getitem filelist 4);
  let s2 := String.substring 4 3 ncfile in
  c ← lift (dict_get inCoef s2);
  let beta0 := take p c in
  f ← best_estimate notime avhrrNx p m ncfile s2 beta0;
  _ ← lift (getitem2 (Im (f_data f)) 0 2);
  let podr := f_podr f in
  let bodr := beta podr in
  let p := length beta0 in
  let Y := y podr in
  let X := xplus podr in
  sLict ← lift (getitem2 (f_Hs f) 0 4);
  sTo ← lift (getitem2 (f_Hs f) 0 5);
  let '(slt, midx, mcnt) := unique (corIdx (f_data f)) in
  rCSar ← lift (take_rows (csUr (f_data f)) midx);
  rCICTar ← lift (take_rows (cictUr (f_data f)) midx);
  mcb ← empty notr (p + 1);
  let ga := {| g_Hr := f_Hr f; g_sLict := sLict; g_sTo := sTo; g_rCSar := rCSar;
               g_rCICTar := rCICTar; g_slt := slt; g_corLen := corLen (f_data f);
               g_mcnt := mcnt |} in
  st ← for_each (seq 0 notr) (trial notime avhrrNx p f X Y bodr ga) (mcb, None);
  _ ← global "mcodr" st.2;
  let fn := pjoin imp mcrdir (f_fn f) in
  savetxt fn st.1 ",".

(** What one trial adds to the trace: the error draw, then the fit. *)
Definition trial_events (ga : genErr_args) (t : mat * odr4MC_args * Output) : list event :=
  [EvGenErr ga t.1.1; EvOdr4MC t.1.2 t.2].

(** [Xdt], [Ydt] are the best estimates [X], [Y] with the error matrix [E] added
    as the loop body adds it. *)
Definition perturbed (X : mat) (Y : vec) (E : mat) (Xdt : mat) (Ydt : vec) : Prop :=
  add2 (transpose X) (columns E 1 6) = Ok Xdt
  ∧ ∃ e0 Ye e6, column E 0 = Ok e0 ∧ add1 Y e0 = Ok Ye
                ∧ column E 6 = Ok e6 ∧ add1 Ye e6 = Ok Ydt.

(** The same, entry by entry, for [n] matchups: trial variable [c] of matchup
    [r] is best-estimate variable [c] of matchup [r] plus column [c + 1] of the
    error matrix; the trial response is the best-estimate response plus
    column 0 (response) plus column 6 (K). *)
Definition entrywise_sum (X : mat) (Y : vec) (E Xdt : mat) (Ydt : vec) (n : nat) : Prop :=
  (∀ r c, r < n → c < 5 →
     ∃ x e, cell X c r = Some x ∧ cell E r (S c) = Some e
            ∧ cell Xdt r c = Some (add x e))
  ∧ (∀ r, r < n →
       ∃ yv e0 e6, Y !! r = Some yv ∧ cell E r 0 = Some e0 ∧ cell E r 6 = Some e6
                   ∧ Ydt !! r = Some (add (add yv e0) e6)).

(** The shapes of the data model: five explanatory variables and a response
    for [n] matchups, and an error matrix of [n] rows and seven columns. *)
Definition shaped (X : mat) (Y : vec) (E : mat) (n : nat) : Prop :=
  length X = 5 ∧ Forall (λ r, length r = n) X ∧ length Y = n
  ∧ length E = n ∧ Forall (λ r, length r = 7) E.

(** The fit of a trial is called on the perturbed data, with the settings of
    the branch the script is in. *)
Definition trial_call (notime : bool) (avhrrNx : Series) (f : Fit) (X : mat) (Y bodr : vec)
    (t : mat * odr4MC_args * Output) : Prop :=
  t.2 = odr4MC imp t.1.2
  ∧ perturbed X Y t.1.1 (m_X t.1.2) (m_Y t.1.2)
  ∧ m_Hr t.1.2 = f_Hr f ∧ m_b0 t.1.2 = bodr ∧ m_series t.1.2 = avhrrNx
  ∧ m_fixb t.1.2 = (if notime then None else f_fixb f)
  ∧ m_fixx t.1.2 = (if notime then None else f_fixx f)
  ∧ m_Hs t.1.2 = (if notime then None else Some (f_Hs f)).

(** The generator states along a list of trials, starting from [g]. *)
Fixpoint drawn (ga : genErr_args) (g : G) (trs : list (mat * odr4MC_args * Output)) (g' : G)
  : Prop :=
  match trs with
  | [] => g' = g
  | t :: trs' => t.1.1 = (genErr imp ga g).1 ∧ drawn ga (genErr imp ga g).2 trs' g'
  end.

(** What a completed run went through: the coefficients looked up for the
    sensor, the variables the best-estimate branch left, the best-estimate call,
    the systematic magnitudes and group uncertainties read for the generator,
    the trials (error matrix, call, output) and the table written. *)
Record Run := {
  r_coef : vec;
  r_fit : Fit;
  r_call : odrP_args;
  r_sLict : num;
  r_sTo : num;
  r_rCSar : mat;
  r_rCICTar : mat;
  r_trials : list (mat * odr4MC_args * Output);
  r_table : mat
}.

Definition r_series : Series := avhrr imp datadir filelist.
Definition r_beta0 (R : Run) : vec := take (nocoefs r_series) (r_coef R).
Definition r_groups (R : Run) : list Z * list nat * list nat :=
  unique (corIdx (f_data (r_fit R))).
Definition r_genErr_args (R : Run) : genErr_args :=
  {| g_Hr := f_Hr (r_fit R); g_sLict := r_sLict R; g_sTo := r_sTo R;
     g_rCSar := r_rCSar R; g_rCICTar := r_rCICTar R; g_slt := (r_groups R).1.1;
     g_corLen := corLen (f_data (r_fit R)); g_mcnt := (r_groups R).2 |}.

(** The best-estimate branch: what was read, what was changed before the
    fit, and the call of the fit. *)
Definition best_estimate_call (notime : bool) (R : Run) : Prop :=
  let f := r_fit R in
  let d := f_data f in
  let a0 := r_call R in
  f_podr f = odrP imp a0
  ∧ p_Hd a0 = Hd d ∧ p_Hr a0 = f_Hr f ∧ p_beta a0 = r_beta0 R ∧ p_series a0 = r_series
  ∧ p_fixb a0 = f_fixb f ∧ p_fixx a0 = f_fixx f
  ∧ if notime then
      rHDpair imp (pjoin imp datadir "newSim_notime") "m02_n15.nc" = Ok d
      ∧ set_column (Hr d) 5 one = Ok (f_Hr f)
      ∧ f_Hs f = Hs d ∧ p_Hs a0 = None ∧ f_fixb f = None ∧ f_fixx f = None
      ∧ f_fn f = "n15_notd_mcerrst_beta.txt"
    else
      rHDpair imp datadir "m02_n15.nc" = Ok d
      ∧ f_Hr f = Hr d
      ∧ f_Hs f = resetHs imp (Hs d) (rsp d) ∧ p_Hs a0 = Some (f_Hs f)
      ∧ (∃ fixb, set_last (ones (nocoefs r_series) 1%Z) 0%Z = Ok fixb ∧ f_fixb f = Some fixb)
      ∧ (∃ fixx, set_last (ones (novars r_series) 1%Z) 0%Z = Ok fixx ∧ f_fixx f = Some fixx)
      ∧ f_fn f = "n15_mcerrst_beta.txt".

Definition completed (notime : bool) (notr : nat) (w w' : World G) (R : Run) : Prop :=
  let f := r_fit R in
  let p := length (r_beta0 R) in
  preHcoef r_series !! "n15" = Some (r_coef R)
  ∧ best_estimate_call notime R
  ∧ getitem2 (f_Hs f) 0 4 = Ok (r_sLict R)
  ∧ getitem2 (f_Hs f) 0 5 = Ok (r_sTo R)
  ∧ take_rows (csUr (f_data f)) (r_groups R).1.2 = Ok (r_rCSar R)
  ∧ take_rows (cictUr (f_data f)) (r_groups R).1.2 = Ok (r_rCICTar R)
  ∧ 0 < notr
  ∧ length (r_trials R) = notr
  ∧ Forall (trial_call notime r_series f (xplus (f_podr f)) (y (f_podr f)) (beta (f_podr f)))
           (r_trials R)
  ∧ drawn (r_genErr_args R) (rng w) (r_trials R) (rng w')
  ∧ length (r_table R) = notr
  ∧ Forall (λ r, length r = p + 1) (r_table R)
  ∧ (∀ j t, r_trials R !! j = Some t →
       ∃ v', fit_to p (beta t.2) = Ok v'
             ∧ r_table R !! j = Some (v' ++ [of_int (info t.2)]))
  ∧ uninit w' = uninit w
  ∧ trace w' = trace w ++ EvOdrP (r_call R) (f_podr f)
                 :: (r_trials R ≫= trial_events (r_genErr_args R))
                 ++ [EvSavetxt (pjoin imp (pjoin imp datadir "Results") (f_fn f)) (r_table R) ","].

(** Two states of the loop before trial [k] of [n]: the same last output,
    tables of [n] rows of [p + 1] entries, and the same rows for the trials
    already run. *)
Definition same_so_far (p n k : nat) (st1 st2 : mat * option Output) : Prop :=
  st1.2 = st2.2
  ∧ length st1.1 = n ∧ length st2.1 = n
  ∧ Forall (λ r, length r = p + 1) st1.1
  ∧ Forall (λ r, length r = p + 1) st2.1
  ∧ take k st1.1 = take k st2.1.

(** What the script relies on to run through.  The regression returns as many
    coefficients as it is started from; the generator returns one row of
    seven entries per row of the random uncertainties it is given. *)
Definition solver_contract : Prop :=
  (∀ a0, length (beta (odrP imp a0)) = length (p_beta a0))
  ∧ (∀ a, length (beta (odr4MC imp a)) = length (m_b0 a)).

Definition generator_contract : Prop :=
  ∀ ga g, length (genErr imp ga g).1 = length (g_Hr ga)
          ∧ Forall (λ r, length r = 7) (genErr imp ga g).1.

(** What the specification asks of [rhd.resetHs], which is not among the
    sources: in the columns that the regression needs nonzero ([needed]) no
    entry of the matrix it returns is zero ([is_zero] is the test [x == 0]). *)
Definition resetHs_contract (is_zero : num → bool) (needed : nat → Prop) : Prop :=
  ∀ Hs rsp i j x, needed j → cell (resetHs imp Hs rsp) i j = Some x → is_zero x = false.

(** The sensor has coefficients [c], the file of the pair reads as [d], and
    [d] has what the script indexes: six columns of random uncertainties
    (without time dependence), at least one coefficient and one variable to
    fix (with time dependence), the number of matchups in [Im[0,2]], columns
    4 and 5 in the first row of the systematic uncertainties, a row of
    scanline uncertainties for the first matchup of each scanline, as many
    rows of random uncertainties as of data; and the best-estimate fit of
    these data returns five variables and a response per matchup. *)
Definition data_ok (notime : bool) (c : vec) (d : HDpair) : Prop :=
  preHcoef r_series !! "n15" = Some c
  ∧ rHDpair imp (if notime then pjoin imp datadir "newSim_notime" else datadir)
      "m02_n15.nc" = Ok d
  ∧ (if notime then Forall (λ r, 5 < length r) (Hr d)
     else 0 < nocoefs r_series ∧ 0 < novars r_series)
  ∧ (∃ x, getitem2 (Im d) 0 2 = Ok x)
  ∧ (∃ row, (if notime then Hs d else resetHs imp (Hs d) (rsp d)) !! 0 = Some row
            ∧ 5 < length row)
  ∧ (∃ rCSar, take_rows (csUr d) (unique (corIdx d)).1.2 = Ok rCSar)
  ∧ (∃ rCICTar, take_rows (cictUr d) (unique (corIdx d)).1.2 = Ok rCICTar)
  ∧ length (Hr d) = length (Hd d)
  ∧ (∀ a0, p_Hd a0 = Hd d →
       length (xplus (odrP imp a0)) = 5
       ∧ Forall (λ r, length r = length (Hd d)) (xplus (odrP imp a0))
       ∧ length (y (odrP imp a0)) = length (Hd d)).

(** The script as it stands: [notime = False], [notr = 3]. *)
Definition notime : bool := false.
Definition notr : nat := 3.
Definition main : M (World G) () := run notime notr.

End Driver.
End MCerrst.

(** ** A small data set to run the programs on

    Three matchups of the pair m02/n15 on two scanlines (100, 100, 101), with
    stand-ins for the imported modules: a tape of draws for the generator, a
    reader that returns the data set, a regression that moves every free
    coefficient by the first response value and reports status 4 when that
    value is below 90.25. *)

Module Example.
Import np Har.
Local Open Scope float_scope.

Definition tape : list float := [1; (-1); 0.5; 2; (-0.5); 0.25; (-2); 1.5].
Definition normal (g : nat) : float * nat :=
  (default 0 (tape !! (g mod 8)%nat), S g).
Definition group_unc (row : list float) : float := default 0 (row !! 0%nat).

Definition Hd0 : list (list float) :=
  [ [90; 40; 900; 500; 95; 285; 0.5];
    [91; 41; 901; 510; 96; 286; 0.25];
    [92; 42; 902; 520; 97; 287; 0.125] ].
Definition Hr0 : list (list float) :=
  [ [0.5; 0; 0; 1; 0.25; 0.5; 0.125];
    [0.5; 0; 0; 1; 0.25; 0.5; 0.125];
    [0.5; 0; 0; 1; 0.25; 0.5; 0.125] ].
Definition Hs0 : list (list float) :=
  [ [0; 0; 0; 0; 0.25; 0.5; 0];
    [0; 0; 0; 0; 0.25; 0.5; 0];
    [0; 0; 0; 0; 0.25; 0.5; 0] ].

Definition pair : @HDpair float64 := {|
  rsp := 1;
  Im := [[(-1)%Z; 15%Z; 3%Z]];
  Hd := Hd0;
  Hr := Hr0;
  Hs := Hs0;
  corIdx := [100%Z; 100%Z; 101%Z];
  corLen := [25];
  csUr := [[0.5; 0.5]; [0.5; 0.5]; [2; 2]];
  cictUr := [[0.25; 0.25]; [0.25; 0.25]; [4; 4]]
|}.

Definition coef_n15 : list float := [(-20); 0.5; 0.0625; 0].

Definition series : @Series float64 := {|
  nocoefs := 4;
  novars := 5;
  nosensors := 6;
  sslab := ["m02"; "n19"; "n18"; "n17"; "n16"; "n15"];
  preHcoef := <["n15" := coef_n15]> ∅;
  measEq := λ X b, (λ r, default 0 (b !! 0%nat) + default 0 (b !! 1%nat) * default 0 (r !! 2%nat)) <$> X
|}.

Definition at0 (v : list float) (i : nat) : float := default 0 (v !! i).

Definition odrP (a : @odrP_args float64) : @Output float64 := {|
  beta := p_beta a;
  cov_beta := [];
  y := (λ r, at0 r 0 + at0 r 6) <$> p_Hd a;
  xplus := @transpose float64 (@columns float64 (p_Hd a) 1 6);
  delta := (λ r : list float, (λ _ : float, 0) <$> r)
           <$> @transpose float64 (@columns float64 (p_Hd a) 1 6);
  eps := (λ _ : list float, 0) <$> p_Hd a;
  info := 1
|}.

Definition free (fixb : option (list Z)) (i : nat) : bool :=
  match fixb with
  | Some m => negb (bool_decide (m !! i = Some 0%Z))
  | None => true
  end.

Definition odr4MC (a : @odr4MC_args float64) : @Output float64 := {|
  beta := imap (λ i b, if free (m_fixb a) i then b + at0 (m_Y a) 0 else b) (m_b0 a);
  cov_beta := [];
  y := m_Y a;
  xplus := @transpose float64 (m_X a);
  delta := [];
  eps := [];
  info := if PrimFloat.ltb (at0 (m_Y a) 0) 90.25 then 4 else 1
|}.

Definition imports : @MCerrst.Imports float64 nat := {|
  MCerrst.pjoin := λ a b, a +:+ "/" +:+ b;
  MCerrst.avhrr := λ _ _, series;
  MCerrst.rHDpair := λ _ _, Ok pair;
  MCerrst.resetHs := λ Hs _, Hs;
  MCerrst.odrP := odrP;
  MCerrst.odr4MC := odr4MC;
  MCerrst.genErr := @errStruct.genErr float64 nat normal group_unc
|}.

(** Two worlds with the same generator state and different memory contents. *)
Definition world : @World float64 nat := {| rng := 0%nat; uninit := λ _ _, 0; trace := [] |}.
Definition world' : @World float64 nat :=
  {| rng := 0%nat; uninit := λ i j, float_of_Z (Z.of_nat (i + j)) + 7; trace := [] |}.

(** The script as it stands, and with [notime = True] and two trials, run
    from [world]; what the runs log. *)
Definition final : @World float64 nat := (MCerrst.run imports false 3 world).2.
Definition L : list (@event float64) := log (MCerrst.run imports false 3) world.
Definition final_notime : @World float64 nat := (MCerrst.run imports true 2 world).2.
Definition L_notime : list (@event float64) := log (MCerrst.run imports true 2) world.

(** The best-estimate fit of the data set, for the plots. *)
Definition podr : @Output float64 :=
  odrP {| p_Hd := Hd0; p_Hr := Hr0; p_beta := coef_n15; p_series := series;
          p_fixb := None; p_fixx := None; p_Hs := None |}.

(** [random.sample] taking the first [k] of the population. *)
Definition choose (g : nat) (population : list nat) (k : nat) : list nat * nat :=
  (take k population, S g).

End Example.

(** ** The data set with uncertainties declared as zero

    The file of the pair declares 0 for the random uncertainty of the orbit
    temperature (column 5) and for the systematic uncertainties of the
    internal-target radiance and the orbit temperature (columns 4 and 5); the
    stand-in for [rhd.resetHs] puts 0.0625 where one of the latter is zero. *)

Module ExampleZero.
Import np Har.
Local Open Scope float_scope.

Definition is_zero (x : float) : bool := PrimFloat.eqb x 0.
Definition needed (j : nat) : Prop := j = 4%nat ∨ j = 5%nat.

Definition Hr0 : list (list float) :=
  [ [0.5; 0; 0; 1; 0.25; 0; 0.125];
    [0.5; 0; 0; 1; 0.25; 0; 0.125];
    [0.5; 0; 0; 1; 0.25; 0; 0.125] ].
Definition Hs0 : list (list float) :=
  [ [0; 0; 0; 0; 0; 0; 0];
    [0; 0; 0; 0; 0; 0; 0];
    [0; 0; 0; 0; 0; 0; 0] ].

Definition pair : @HDpair float64 := {|
  rsp := rsp Example.pair;
  Im := Im Example.pair;
  Hd := Hd Example.pair;
  Hr := Hr0;
  Hs := Hs0;
  corIdx := corIdx Example.pair;
  corLen := corLen Example.pair;
  csUr := csUr Example.pair;
  cictUr := cictUr Example.pair
|}.

Definition resetHs (Hs : list (list float)) (rsp : Z) : list (list float) :=
  (λ row, imap (λ j x, if bool_decide (needed j) && is_zero x then 0.0625 else x) row) <$> Hs.

Definition imports : @MCerrst.Imports float64 nat := {|
  MCerrst.pjoin := MCerrst.pjoin Example.imports;
  MCerrst.avhrr := MCerrst.avhrr Example.imports;
  MCerrst.rHDpair := λ _ _, Ok pair;
  MCerrst.resetHs := resetHs;
  MCerrst.odrP := MCerrst.odrP Example.imports;
  MCerrst.odr4MC := MCerrst.odr4MC Example.imports;
  MCerrst.genErr := MCerrst.genErr Example.imports
|}.

(** The script as it stands, and with [notime = True] and two trials. *)
Definition final : @World float64 nat := (MCerrst.run imports false 3 Example.world).2.
Definition L : list (@event float64) := log (MCerrst.run imports false 3) Example.world.
Definition final_notime : @World float64 nat := (MCerrst.run imports true 2 Example.world).2.
Definition L_notime : list (@event float64) := log (MCerrst.run imports true 2) Example.world.

End ExampleZero.

(** ** readHD.py (branch v3): sensors and their input coefficients *)

Module readHD.
Import np.

(** [s[lo:hi]] of a string, for [0 <= lo <= hi]: cut to what the string has. *)
Definition slice (s : string) (lo hi : nat) : string := String.substring lo (hi - lo) s.

(** [l[lo:hi]] of a list. *)
Definition slice_list {A} (l : list A) (lo hi : nat) : list A := take (hi - lo) (drop lo l).

(** [if s not in fsl: fsl.append(s)] *)
Definition append_new (fsl : list string) (s : string) : list string :=
  if decide (s ∈ fsl) then fsl else fsl ++ [s].

(** The body of the loop of [sensors]. *)
Definition sensors_step (fsl : list string) (netcdf : string) : list string :=
  let s1 := slice netcdf 0 3 in
  let s2 := slice netcdf 4 7 in
  let fsl := append_new fsl s1 in
  append_new fsl s2.

Definition sensors (nclist : list string) : list string :=
  foldl sensors_step [] nclist.

(** What [sInCoeff] can end in besides a dictionary: the IOError of [open],
    the StopIteration of [reader.next()] on a file without a line, or an
    exception of the loop. *)
Inductive failure :=
| IOError
| StopIteration
| Exception (e : exn).

Section Coefficients.
Context {Num : Scalar}.

(** [os.path.join]; the files there are, each as the rows [csv.reader] yields
    for it; [float(s)] for a string, undefined where Python raises ValueError. *)
Variable pjoin : string → string → string.
Variable files : string → option (list (list string)).
Variable float_ : string → option num.

(** [np.array(l).astype('float')] for a list of strings. *)
Definition astype_float (l : list string) : result vec :=
  mapM (λ s, match float_ s with Some x => Ok x | None => Raise ValueError end) l.

(** The body of [for row in reader:]. *)
Definition sInCoeff_row (fsl : list string) (inCc : gmap string vec) (row : list string)
  : result (gmap string vec) :=
  sl ← getitem row 0;
  coefs ← astype_float (slice_list row 1 5);
  Ok (if decide (sl ∈ fsl) then <[sl := coefs]> inCc else inCc).

Definition sInCoeff (csvfolder : string) (nclist : list string) : failure + gmap string vec :=
  let fsl := sensors nclist in
  let cfn := pjoin csvfolder "CalCoeff.csv" in
  match files cfn with
  | None => inl IOError
  | Some [] => inl StopIteration
  | Some (_ :: rows) =>
      match foldl (λ acc row, inCc ← acc; sInCoeff_row fsl inCc row) (Ok ∅) rows with
      | Ok inCc => inr inCc
      | Raise e => inl (Exception e)
      end
  end.

End Coefficients.
End readHD.
(** ** MCerrst.py: what a run does to the generator and to the files *)

Module Trials.
Section Trials.
Context {Num : Scalar} {G : Type}.
Import np Har MCerrst.
Variable imp : @Imports Num G.

(** The state of the random generator after [k] calls of [mce.genErr] with
    the arguments [ga], from the state [g]. *)
Fixpoint rng_after (ga : genErr_args) (k : nat) (g : G) : G :=
  match k with
  | 0 => g
  | S k' => rng_after ga k' (genErr imp ga g).2
  end.



End Trials.
End Trials.
(** ** plotMCres.py: what the graphs of [plotSDfit] show *)

Module Graphs.
Section Graphs.
Context {Num : Scalar} {G : Type}.
Import np Har plotMCres.

(** What the function relies on of [random.sample]: a sample of size [k] of a
    population of at least [k] has [k] entries, all from the population. *)
Definition sample_contract (choose : G → list nat → nat → list nat * G) : Prop :=
  ∀ g population k, k ≤ length population →
    length (choose g population k).1 = k
    ∧ Forall (λ i, i ∈ population) (choose g population k).1.

(** The weighted residual of matchup [i]: the estimated error of the response
    over the combined uncertainty of reference radiance (column 0) and K
    (column 6). *)
Definition weighted_residual (odrSD : Output) (Hrnd : mat) (i : nat) : option num :=
  e ← eps odrSD !! i;
  h0 ← cell Hrnd i 0;
  h6 ← cell Hrnd i 6;
  Some (div e (sqrt (add (mul h0 h0) (mul h6 h6)))).

(** The weighted error of variable [j] of matchup [i]: the estimated error over
    the random uncertainty in column [j + 1]. *)
Definition weighted_error (odrSD : Output) (Hrnd : mat) (j i : nat) : option num :=
  d ← cell (delta odrSD) j i;
  h ← cell Hrnd i (S j);
  Some (div d h).

(** The arrays of a call for [n] matchups. *)
Definition plot_data (avhrrS : Series) (muTime : vec) (Hrnd : mat) (odrSD : Output)
    (n : nat) : Prop :=
  length (xplus odrSD) = 5 ∧ Forall (λ r, length r = n) (xplus odrSD)
  ∧ length (delta odrSD) = 5 ∧ Forall (λ r, length r = n) (delta odrSD)
  ∧ length (eps odrSD) = n
  ∧ length Hrnd = n ∧ Forall (λ r, 7 ≤ length r) Hrnd
  ∧ length muTime = n
  ∧ length (measEq avhrrS (transpose (xplus odrSD)) (beta odrSD)) = n.

End Graphs.
End Graphs.
(** ** Arrays with a shape

    numpy keeps the number of columns of a two-dimensional array that has no
    row; where a program reads it ([a.shape[1]]) or indexes columns, the array
    is a list of rows together with its number of columns. *)

Module nd.
Import np.

Record array2 (A : Type) := Array2 { ncols : nat; rows : list (list A) }.
Arguments Array2 {A} ncols rows.
Arguments ncols {A} a.
Arguments rows {A} a.

Section Shaped.
Context {A : Type}.

(** [a.shape[0]] *)
Definition nrows (a : array2 A) : nat := length (rows a).

(** Every row has [a.shape[1]] entries. *)
Definition wf (a : array2 A) : Prop := Forall (λ r, length r = ncols a) (rows a).

(** [a[i, j]] *)
Definition get2 (a : array2 A) (i j : nat) : result A :=
  if decide (j < ncols a) then r ← getitem (rows a) i; getitem r j
  else Raise IndexError.

(** [a[:, j]] *)
Definition col (a : array2 A) (j : nat) : result (list A) :=
  if decide (j < ncols a) then mapM (λ r, getitem r j) (rows a)
  else Raise IndexError.

(** [a[:, lo:hi]]: a slice is cut to the columns there are. *)
Definition slice_cols (a : array2 A) (lo hi : nat) : array2 A :=
  {| ncols := (hi `min` ncols a) - lo;
     rows := (λ r, take (hi - lo) (drop lo r)) <$> rows a |}.

(** [a[:, idx]] for a list of column indices. *)
Definition take_cols (a : array2 A) (idx : list nat) : result (array2 A) :=
  if decide (Forall (λ j, j < ncols a) idx) then
    rs ← mapM (λ r, mapM (getitem r) idx) (rows a);
    Ok {| ncols := length idx; rows := rs |}
  else Raise IndexError.

(** [v[mask]] and [a[mask, :]] for a boolean array [mask]: the entries (rows)
    at which the mask holds; the mask must be as long as the array. *)
Definition mask_items {B} (v : list B) (mask : list bool) : result (list B) :=
  if decide (length mask = length v) then
    Ok ((λ p, p.2) <$> filter (λ p : bool * B, p.1 = true) (zip mask v))
  else Raise IndexError.

Definition mask_rows (a : array2 A) (mask : list bool) : result (array2 A) :=
  rs ← mask_items (rows a) mask;
  Ok {| ncols := ncols a; rows := rs |}.

(** [a[:, idx] = x] for a scalar [x]; [a[:, j].fill(x)] is the case of one
    column. *)
Definition fill_cols (a : array2 A) (idx : list nat) (x : A) : result (array2 A) :=
  if decide (Forall (λ j, j < ncols a) idx) then
    Ok {| ncols := ncols a;
          rows := (λ r, foldl (λ r j, <[j := x]> r) r idx) <$> rows a |}
  else Raise IndexError.

(** [a[:, j] = v] for a one-dimensional [v]: as many entries as [a] has rows,
    or one entry, which is stretched. *)
Definition set_col (a : array2 A) (j : nat) (v : list A) : result (array2 A) :=
  if decide (j < ncols a) then
    if decide (length v = nrows a ∨ length v = 1) then
      Ok {| ncols := ncols a;
            rows := imap (λ i r,
                      match (if decide (length v = 1) then v !! 0 else v !! i) with
                      | Some x => <[j := x]> r
                      | None => r
                      end) (rows a) |}
    else Raise ValueError
  else Raise IndexError.

(** [a[:, lo:hi] = src] for a two-dimensional [src]: along each axis [src] is
    as long as the slice, or has length one and is stretched. *)
Definition stretch (w : nat) (srow : list A) : list A :=
  match srow with
  | [x] => replicate w x
  | _ => srow
  end.

Definition set_slice (a : array2 A) (lo hi : nat) (src : array2 A) : result (array2 A) :=
  let w := (hi `min` ncols a) - lo in
  if decide ((nrows src = nrows a ∨ nrows src = 1) ∧ (ncols src = w ∨ ncols src = 1)) then
    Ok {| ncols := ncols a;
          rows := imap (λ i r,
                    match (if decide (nrows src = 1) then rows src !! 0 else rows src !! i) with
                    | Some srow => take lo r ++ stretch w srow ++ drop (lo + w) r
                    | None => r
                    end) (rows a) |}
  else Raise ValueError.

(** [np.append(a, b, axis=0)] *)
Definition append0 (a b : array2 A) : result (array2 A) :=
  if decide (ncols a = ncols b) then Ok {| ncols := ncols a; rows := rows a ++ rows b |}
  else Raise ValueError.

End Shaped.

(** [np.zeros((r, c))] *)
Definition zeros {Num : Scalar} (r : Z) (c : nat) : result (array2 num) :=
  if decide (r < 0)%Z then Raise ValueError
  else Ok {| ncols := c; rows := replicate (Z.to_nat r) (replicate c zero) |}.

End nd.
(** ** AVHRR_to_updated_spec.py: the conversion of a matchup file *)

Module AVHRR_to_updated_spec.
Import np nd AVHRR.

(** What is handed to the netCDF library for a variable. *)
Inductive ncvalue {Num : Scalar} :=
| Float1 (v : vec)
| Float2 (a : array2 num)
| Int1 (v : list Z)
| Int2 (a : array2 Z).

(** The calls into the netCDF library and into the input checker, as they
    are made ([zlib=True, complevel=9] go with every [createVariable]). *)
Inductive ncop {Num : Scalar} :=
| NcOpen (path mode : string)
| NcSetAttr (name : string) (value : Z)
| NcCreateDimension (name : string) (size : Z)
| NcCreateVariable (name dtype : string) (dims : list string)
| NcDescribe (var attr text : string)
| NcAssign (var : string) (value : ncvalue)
| NcClose
| TestInputFile (path : string).

Section Tool.
Context {Num : Scalar}.

(** What [read_matchup_data] returns, in its order. *)
Record Matchup := {
  H : array2 num;
  Us : array2 num;
  Ur : array2 num;
  K : vec;
  Kr : vec;
  Ks : vec;
  sensor_1_name : Z;
  sensor_2_name : Z;
  time_sensor_1 : vec;
  time_sensor_2 : vec;
  u_C_S_sensor_1 : array2 num;
  u_C_ICT_sensor_1 : array2 num;
  u_C_S_sensor_2 : array2 num;
  u_C_ICT_sensor_2 : array2 num
}.

(** What [return_w_matrix_variables] returns, in its order; [w_matrix_row] is
    one- or two-dimensional. *)
Record WVariables := {
  w_matrix_val : vec;
  w_matrix_row : list Z + array2 Z;
  w_matrix_col : list Z;
  w_matrix_nnz : list Z;
  uncertainty_vector_row_count : list Z;
  uncertainty_vector : vec
}.

(** An entry of the dictionary [additional_variables]. *)
Record Additional := {
  add_data : ncvalue;
  add_dtype : string;
  add_dim : list string;
  add_Description : string
}.

(** The modules the tool imports, none of them among the sources: a sparse
    matrix type, [generate_rolling_average_w_matrix], [return_w_matrix_variables];
    the reading of the netCDF file by [read_matchup_data]; the test [x == 0]
    on a number and the number [0.5]. *)
Variable Wmatrix : Type.
Variable generate_rolling_average_w_matrix : vec → num → array2 num → Wmatrix * vec.
Variable return_w_matrix_variables : list Wmatrix → list vec → WVariables.
Variable read_matchup_data : string → result Matchup.
Variable is_zero : num → bool.
Variable half : num.

Definition return_w_matrices
    (u_C_S_sensor_1 u_C_ICT_sensor_1 u_C_S_sensor_2 u_C_ICT_sensor_2 : array2 num)
    (time_sensor_1 : vec) (width_sensor_1 : num) (time_sensor_2 : vec) (width_sensor_2 : num)
    (sensor_i_name : Z) : list Wmatrix * list vec :=
  let '(w_C_S_sensor_2, uncertainty_vector_S_sensor_2) :=
    generate_rolling_average_w_matrix time_sensor_2 width_sensor_2 u_C_S_sensor_2 in
  let '(_, uncertainty_vector_ICT_sensor_2) :=
    generate_rolling_average_w_matrix time_sensor_2 width_sensor_2 u_C_ICT_sensor_2 in
  let w_matrices := [w_C_S_sensor_2] in
  let uncertainty_vectors := [uncertainty_vector_S_sensor_2; uncertainty_vector_ICT_sensor_2] in
  if decide (sensor_i_name ≠ (-1)%Z) then
    let '(w_C_S_sensor_1, uncertainty_vector_S_sensor_1) :=
      generate_rolling_average_w_matrix time_sensor_1 width_sensor_1 u_C_S_sensor_1 in
    let '(_, uncertainty_vector_ICT_sensor_1) :=
      generate_rolling_average_w_matrix time_sensor_1 width_sensor_1 u_C_ICT_sensor_1 in
    ([w_C_S_sensor_1; w_C_S_sensor_2],
     [uncertainty_vector_S_sensor_1; uncertainty_vector_ICT_sensor_1;
      uncertainty_vector_S_sensor_2; uncertainty_vector_ICT_sensor_2])
  else (w_matrices, uncertainty_vectors).

(** [createVariable], the description and the assignment of one variable. *)
Definition variable (name dtype : string) (dims : list string) (attr text : string)
    (value : ncvalue) : list ncop :=
  [NcCreateVariable name dtype dims; NcDescribe name attr text; NcAssign name value].

Definition type_description : string :=
  "Uncertainty correlation type per X1 column, labelled as, " +:+
  "(1) Independent Error Correlation, " +:+
  "(2) Independent + Systematic Error Correlation, or " +:+
  "(3) Structured Error Correlation".

Definition type_description2 : string :=
  "Uncertainty correlation type per X2 column, labelled as, " +:+
  "(1) Independent Error Correlation, " +:+
  "(2) Independent + Systematic Error Correlation, or " +:+
  "(3) Structured Error Correlation".

(** [write_input_file]: the calls it makes; the dictionary of additional
    variables is given as the list of its items in the order of [keys()]. *)
Definition write_input_file (file_path : string) (X1 X2 Ur1 Ur2 Us1 Us2 : array2 num)
    (uncertainty_type1 uncertainty_type2 : list Z) (K Kr Ks time1 time2 : vec)
    (sensor_1_name sensor_2_name : Z)
    (additional_variables : option (list (string * Additional))) : list ncop :=
  [ NcOpen file_path "w";
    NcSetAttr "sensor_1_name" sensor_1_name;
    NcSetAttr "sensor_2_name" sensor_2_name;
    NcCreateDimension "M" (Z.of_nat (nrows X1));
    NcCreateDimension "m1" (Z.of_nat (ncols X1));
    NcCreateDimension "m2" (Z.of_nat (ncols X2)) ]
  ++ variable "X1" "f4" ["M"; "m1"] "description"
       "Radiances and counts per matchup for sensor 1" (Float2 X1)
  ++ variable "X2" "f4" ["M"; "m2"] "description"
       "Radiances and counts per matchup for sensor 2" (Float2 X2)
  ++ variable "Ur1" "f4" ["M"; "m1"] "description"
       "Random uncertainties for X1 array" (Float2 Ur1)
  ++ variable "Ur2" "f4" ["M"; "m2"] "description"
       "Random uncertainties for X2 array" (Float2 Ur2)
  ++ variable "Us1" "f4" ["M"; "m1"] "description"
       "Systematic uncertainties for X1 array" (Float2 Us1)
  ++ variable "Us2" "f4" ["M"; "m2"] "description"
       "Systematic uncertainties for X2 array" (Float2 Us2)
  ++ variable "uncertainty_type1" "i4" ["m1"] "description" type_description
       (Int1 uncertainty_type1)
  ++ variable "uncertainty_type2" "i4" ["m2"] "description" type_description2
       (Int1 uncertainty_type2)
  ++ variable "K" "f4" ["M"] "description"
       "K (sensor-to-sensor differences) for zero shift case" (Float1 K)
  ++ variable "Kr" "f4" ["M"] "description"
       "K (sensor-to-sensor differences) random uncertainties (matchup uncertainty)"
       (Float1 Kr)
  ++ variable "Ks" "f4" ["M"] "description"
       "K (sensor-to-sensor differences) systematic uncertainties for zero shift case"
       (Float1 Ks)
  ++ variable "time1" "f8" ["M"] "description"
       "Match-up time sensor 1, seconds since 1970-01-01" (Float1 time1)
  ++ variable "time2" "f8" ["M"] "description"
       "Match-up time sensor 2, seconds since 1970-01-01" (Float1 time2)
  ++ match additional_variables with
     | Some items =>
         items ≫= λ it, variable it.1 (add_dtype it.2) (add_dim it.2) "Description"
                          (add_Description it.2) (add_data it.2)
     | None => []
     end
  ++ [NcClose].

(** [len(a)] and [sum(a)] of an integer array. *)
Definition sum_Z (a : list Z) : Z := foldr Z.add 0%Z a.

(** [append_W_to_input_file]: the calls it makes. *)
Definition append_W_to_input_file (filepath : string)
    (w_matrix_val : vec) (w_matrix_row : list Z + array2 Z) (w_matrix_col w_matrix_nnz : list Z)
    (u_matrix_row_count : list Z) (u_matrix_val : vec)
    (w_matrix_use1 w_matrix_use2 u_matrix_use1 u_matrix_use2 : list Z) : list ncop :=
  let num_row :=
    match w_matrix_row with
    | inr a => ncols a
    | inl v => length v
    end in
  let row_dims :=
    match w_matrix_row with
    | inr _ => ["w_matrix_count"; "w_matrix_row_count"]
    | inl _ => ["w_matrix_row_count"]
    end in
  [ NcOpen filepath "a";
    NcCreateDimension "w_matrix_count" (Z.of_nat (length w_matrix_nnz));
    NcCreateDimension "w_matrix_row_count" (Z.of_nat num_row);
    NcCreateDimension "w_matrix_nnz_sum" (sum_Z w_matrix_nnz);
    NcCreateDimension "u_matrix_count" (Z.of_nat (length u_matrix_row_count));
    NcCreateDimension "u_matrix_row_count_sum" (sum_Z u_matrix_row_count);
    NcCreateVariable "w_matrix_nnz" "i4" ["w_matrix_count"];
    NcDescribe "w_matrix_nnz" "description" "number of non-zero elements for each W matrix";
    NcCreateVariable "w_matrix_row" "i4" row_dims;
    NcDescribe "w_matrix_row" "description" "CSR row numbers for each W matrix";
    NcCreateVariable "w_matrix_col" "i4" ["w_matrix_nnz_sum"];
    NcDescribe "w_matrix_col" "description" "CSR column numbers for all W matrices";
    NcCreateVariable "w_matrix_val" "f4" ["w_matrix_nnz_sum"];
    NcDescribe "w_matrix_val" "description" "CSR values for all W matrices";
    NcCreateVariable "w_matrix_use1" "i4" ["m1"];
    NcDescribe "w_matrix_use1" "description" "mapping from X1 array column index to W";
    NcCreateVariable "w_matrix_use2" "i4" ["m2"];
    NcDescribe "w_matrix_use2" "description" "mapping from X2 array column index to W";
    NcCreateVariable "u_matrix_row_count" "i4" ["u_matrix_count"];
    NcDescribe "u_matrix_row_count" "description" "number of rows of each u matrix";
    NcCreateVariable "u_matrix_val" "f4" ["u_matrix_row_count_sum"];
    NcDescribe "u_matrix_val" "description" "u matrix non-zero diagonal elements";
    NcCreateVariable "u_matrix_use1" "i4" ["m1"];
    NcDescribe "u_matrix_use1" "description" "mapping from X1 array column index to U";
    NcCreateVariable "u_matrix_use2" "i4" ["m2"];
    NcDescribe "u_matrix_use2" "description" "mapping from X2 array column index to U";
    NcAssign "w_matrix_nnz" (Int1 w_matrix_nnz);
    NcAssign "w_matrix_row" (match w_matrix_row with inl v => Int1 v | inr a => Int2 a end);
    NcAssign "w_matrix_col" (Int1 w_matrix_col);
    NcAssign "w_matrix_val" (Float1 w_matrix_val);
    NcAssign "w_matrix_use1" (Int1 w_matrix_use1);
    NcAssign "w_matrix_use2" (Int1 w_matrix_use2);
    NcAssign "u_matrix_row_count" (Int1 u_matrix_row_count);
    NcAssign "u_matrix_val" (Float1 u_matrix_val);
    NcAssign "u_matrix_use1" (Int1 u_matrix_use1);
    NcAssign "u_matrix_use2" (Int1 u_matrix_use2);
    NcClose ].

(** [(a == 0).all()] *)
Definition all_zero (a : vec) : bool := forallb is_zero a.

(** What [main] has computed when it starts to write: the arrays of the
    valid matchups, the W matrices with their variables, and the arrays that
    map the columns to them. *)
Record Converted := {
  c_valid : list bool;
  c_X1 : array2 num; c_X2 : array2 num;
  c_Ur1 : array2 num; c_Ur2 : array2 num;
  c_Us1 : array2 num; c_Us2 : array2 num;
  c_K : vec; c_Kr : vec; c_Ks : vec;
  c_time1 : vec; c_time2 : vec;
  c_u11 : array2 num; c_u12 : array2 num; c_u21 : array2 num; c_u22 : array2 num;
  c_w_matrices : list Wmatrix;
  c_uncertainty_vectors : list vec;
  c_wvars : WVariables;
  c_w_matrix_use1 : list Z; c_w_matrix_use2 : list Z;
  c_uncertainty_vector_use1 : list Z; c_uncertainty_vector_use2 : list Z;
  c_uncertainty_type1 : list Z; c_uncertainty_type2 : list Z
}.

(** The arrays that map the columns of [X1] and [X2] to the W matrices and
    uncertainty vectors, and the correlation types of the columns: step 2c
    of [main], for the name of sensor 1 and [X2.shape[1]]. *)
Definition use_arrays (sensor_1_name : Z) (X2_shape_1 : nat)
  : list Z * list Z * list Z * list Z * list Z * list Z :=
  let '(w_matrix_use1, w_matrix_use2, uncertainty_vector_use1, uncertainty_vector_use2,
        uncertainty_type1, uncertainty_type2) :=
    ([1; 1; 0; 0; 0], [2; 2; 0; 0; 0], [1; 2; 0; 0; 0], [3; 4; 0; 0; 0],
     [3; 3; 1; 2; 2], [3; 3; 1; 2; 2])%Z in
  let '(w_matrix_use1, w_matrix_use2, uncertainty_vector_use1, uncertainty_vector_use2,
        uncertainty_type1, uncertainty_type2) :=
    if decide (sensor_1_name = (-1)%Z) then
      ([0], [1; 1; 0; 0; 0], [0], [1; 2; 0; 0; 0], [1], [3; 3; 1; 2; 2])%Z
    else (w_matrix_use1, w_matrix_use2, uncertainty_vector_use1, uncertainty_vector_use2,
          uncertainty_type1, uncertainty_type2) in
  if decide (X2_shape_1 = 4) then
    let '(w_matrix_use1, w_matrix_use2, uncertainty_vector_use1, uncertainty_vector_use2,
          uncertainty_type1, uncertainty_type2) :=
      ([1; 1; 0; 0], [2; 2; 0; 0], [1; 2; 0; 0], [3; 4; 0; 0],
       [3; 3; 1; 1], [3; 3; 1; 1])%Z in
    if decide (sensor_1_name = (-1)%Z) then
      ([0], [1; 1; 0; 0], [0], [1; 2; 0; 0], [1], [3; 3; 1; 1])%Z
    else (w_matrix_use1, w_matrix_use2, uncertainty_vector_use1, uncertainty_vector_use2,
          uncertainty_type1, uncertainty_type2)
  else (w_matrix_use1, w_matrix_use2, uncertainty_vector_use1, uncertainty_vector_use2,
        uncertainty_type1, uncertainty_type2).

(** [main] up to its step 3. *)
Definition convert (d : Matchup) : result Converted :=
  valid_averages ← return_valid_averages_mask
    (rows (u_C_S_sensor_1 d)) (rows (u_C_ICT_sensor_1 d))
    (rows (u_C_S_sensor_2 d)) (rows (u_C_ICT_sensor_2 d)) nan;
  '(Ur, Us) ←
    (if decide (sensor_1_name d ≠ (-1)%Z) then
       Ur ← fill_cols (Ur d) [0; 1; 5; 6] zero;
       Ok (Ur, Us d)
     else
       Ur ← fill_cols (Ur d) [5; 6] zero;
       Us ← fill_cols (Us d) [0] zero;
       Ok (Ur, Us));
  let m1 := 5 in
  let m2 := 5 in
  m1 ← (if decide (sensor_1_name d = (-1)%Z) then Ok 1
        else c9 ← col (H d) 9; Ok (if all_zero c9 then 4 else m1));
  c9 ← col (H d) 9;
  let m2 := if all_zero c9 then 4 else m2 in
  H1 ← mask_rows (H d) valid_averages;
  let X1 := slice_cols H1 0 m1 in
  Ur1 ← mask_rows Ur valid_averages;
  let Ur1 := slice_cols Ur1 0 m1 in
  Us1 ← mask_rows Us valid_averages;
  let Us1 := slice_cols Us1 0 m1 in
  H2 ← mask_rows (H d) valid_averages;
  let X2 := slice_cols H2 5 (5 + m2) in
  Ur2 ← mask_rows Ur valid_averages;
  let Ur2 := slice_cols Ur2 5 (5 + m2) in
  Us2 ← mask_rows Us valid_averages;
  let Us2 := slice_cols Us2 5 (5 + m2) in
  u11 ← mask_rows (u_C_S_sensor_1 d) valid_averages;
  u12 ← mask_rows (u_C_ICT_sensor_1 d) valid_averages;
  u21 ← mask_rows (u_C_S_sensor_2 d) valid_averages;
  u22 ← mask_rows (u_C_ICT_sensor_2 d) valid_averages;
  t1 ← mask_items (time_sensor_1 d) valid_averages;
  t2 ← mask_items (time_sensor_2 d) valid_averages;
  let '(w_matrices, uncertainty_vectors) :=
    return_w_matrices u11 u12 u21 u22 t1 half t2 half (sensor_1_name d) in
  let wv := return_w_matrix_variables w_matrices uncertainty_vectors in
  let '(w_matrix_use1, w_matrix_use2, uncertainty_vector_use1, uncertainty_vector_use2,
        uncertainty_type1, uncertainty_type2) := use_arrays (sensor_1_name d) (ncols X2) in
  Kv ← mask_items (K d) valid_averages;
  Krv ← mask_items (Kr d) valid_averages;
  Ksv ← mask_items (Ks d) valid_averages;
  t1' ← mask_items (time_sensor_1 d) valid_averages;
  t2' ← mask_items (time_sensor_2 d) valid_averages;
  Ok {| c_valid := valid_averages;
        c_X1 := X1; c_X2 := X2; c_Ur1 := Ur1; c_Ur2 := Ur2; c_Us1 := Us1; c_Us2 := Us2;
        c_K := Kv; c_Kr := Krv; c_Ks := Ksv; c_time1 := t1'; c_time2 := t2';
        c_u11 := u11; c_u12 := u12; c_u21 := u21; c_u22 := u22;
        c_w_matrices := w_matrices; c_uncertainty_vectors := uncertainty_vectors;
        c_wvars := wv;
        c_w_matrix_use1 := w_matrix_use1; c_w_matrix_use2 := w_matrix_use2;
        c_uncertainty_vector_use1 := uncertainty_vector_use1;
        c_uncertainty_vector_use2 := uncertainty_vector_use2;
        c_uncertainty_type1 := uncertainty_type1; c_uncertainty_type2 := uncertainty_type2 |}.

(** [main]: the calls it makes into the netCDF library and the checker. *)
Definition main (input_file_path output_file_path : string) : result (list ncop) :=
  d ← read_matchup_data input_file_path;
  c ← convert d;
  Ok (write_input_file output_file_path
        (c_X1 c) (c_X2 c) (c_Ur1 c) (c_Ur2 c) (c_Us1 c) (c_Us2 c)
        (c_uncertainty_type1 c) (c_uncertainty_type2 c)
        (c_K c) (c_Kr c) (c_Ks c) (c_time1 c) (c_time2 c)
        (sensor_1_name d) (sensor_2_name d) None
      ++ append_W_to_input_file output_file_path
           (w_matrix_val (c_wvars c)) (w_matrix_row (c_wvars c))
           (w_matrix_col (c_wvars c)) (w_matrix_nnz (c_wvars c))
           (uncertainty_vector_row_count (c_wvars c)) (uncertainty_vector (c_wvars c))
           (c_w_matrix_use1 c) (c_w_matrix_use2 c)
           (c_uncertainty_vector_use1 c) (c_uncertainty_vector_use2 c)
      ++ [TestInputFile output_file_path]).

End Tool.
End AVHRR_to_updated_spec.
(** ** What the conversion writes *)

Module Written.
Section Written.
Context {Num : Scalar}.
Import np nd AVHRR AVHRR_to_updated_spec.

(** A value has a shape: the sizes along its axes (a two-dimensional array
    with every row as long as its number of columns). *)
Definition has_shape (value : ncvalue) (sizes : list Z) : Prop :=
  match value with
  | Float1 v => sizes = [Z.of_nat (length v)]
  | Int1 v => sizes = [Z.of_nat (length v)]
  | Float2 a => wf a ∧ sizes = [Z.of_nat (nrows a); Z.of_nat (ncols a)]
  | Int2 a => wf a ∧ sizes = [Z.of_nat (nrows a); Z.of_nat (ncols a)]
  end.

(** The names of the dimensions created by a list of calls. *)
Definition created_dimensions (ops : list ncop) : list string :=
  omap (λ op, match op with NcCreateDimension name _ => Some name | _ => None end) ops.

(** The four rows of scanline uncertainties of matchup [i] hold no NaN. *)
Definition complete (d : Matchup) (i : nat) : bool :=
  negb (any_nan (default [] (rows (u_C_S_sensor_1 d) !! i),
                 default [] (rows (u_C_ICT_sensor_1 d) !! i),
                 default [] (rows (u_C_S_sensor_2 d) !! i),
                 default [] (rows (u_C_ICT_sensor_2 d) !! i))).

(** The arrays of a matchup file: [H], [Ur] and [Us] have the same number of
    columns and rows of that length. *)
Definition same_columns (d : Matchup) : Prop :=
  wf (H d) ∧ wf (Ur d) ∧ wf (Us d)
  ∧ ncols (Ur d) = ncols (H d) ∧ ncols (Us d) = ncols (H d).

End Written.
End Written.
(** ** readHD.py (branch v3): the harmonisation arrays *)

Module readHDarrays.
Import np nd readHD.

Section Arrays.
Context {Num : Scalar}.

(** The variables that [rHDpair] reads from a netCDF file. *)
Record Dataset := {
  v_lm : array2 Z;
  v_H : array2 num;
  v_Ur : array2 num;
  v_Us : array2 num;
  v_K : vec;
  v_Kr : vec;
  v_Ks : vec;
  v_CorrIndexArray : vec;
  v_corrData : vec
}.

(** [os.path.join], and [netCDF4.Dataset(pfn, 'r')] with the reading of the
    nine variables. *)
Variable pjoin : string → string → string.
Variable open_dataset : string → result Dataset.

(** What [rHDpair] returns, in its order, under the names [rHData] unpacks
    it to. *)
Record Pair := {
  rsp : Z;
  lm : array2 Z;
  Hd : array2 num;
  Hr : array2 num;
  Hs : array2 num;
  corIdx : vec;
  corLen : vec
}.

(** [A = np.zeros((nor, noc)); A[:, lo:hi] = B; A[:, noc-1] = k] *)
Definition assemble (nor : Z) (noc lo hi : nat) (B : array2 num) (k : vec)
  : result (array2 num) :=
  A ← zeros nor noc;
  A ← set_slice A lo hi B;
  set_col A (noc - 1) k.

Definition rHDpair (folder filename : string) : result Pair :=
  let pfn := pjoin folder filename in
  ncid ← open_dataset pfn;
  let Im := v_lm ncid in
  let H := v_H ncid in
  let Ur := v_Ur ncid in
  let Us := v_Us ncid in
  let K := v_K ncid in
  let Kr := v_Kr ncid in
  let Ks := v_Ks ncid in
  let corIdx := v_CorrIndexArray ncid in
  let corLen := v_corrData ncid in
  nor ← get2 Im 0 2;
  i00 ← get2 Im 0 0;
  if decide (i00 = (-1)%Z) then
    let rspair := 1%Z in
    let didx := [0; 5; 6; 7; 8; 9] in
    H ← take_cols H didx;
    Ur ← take_cols Ur didx;
    Us ← take_cols Us didx;
    let noc := ncols H + 1 in
    Hdata ← assemble nor noc 0 (noc - 1) H K;
    Hrnd ← assemble nor noc 0 (noc - 1) Ur Kr;
    Hsys ← assemble nor noc 0 (noc - 1) Us Ks;
    Ok {| rsp := rspair; lm := Im; Hd := Hdata; Hr := Hrnd; Hs := Hsys;
          corIdx := corIdx; corLen := corLen |}
  else
    let rspair := 0%Z in
    let noc := ncols H + 2 in
    Hdata ← assemble nor noc 1 11 H K;
    Hrnd ← assemble nor noc 1 11 Ur Kr;
    Hsys ← assemble nor noc 1 11 Us Ks;
    Ok {| rsp := rspair; lm := Im; Hd := Hdata; Hr := Hrnd; Hs := Hsys;
          corIdx := corIdx; corLen := corLen |}.

(** [l.index(x)]: ValueError when [x] is not in the list. *)
Definition index (l : list string) (x : string) : result nat :=
  match list_find (λ y, y = x) l with
  | Some (i, _) => Ok i
  | None => Raise ValueError
  end.

(** The state of the loop of [rHData]: [Im], [Hdata], [Hrnd], [tidx]. *)
Definition Series4 : Type := array2 Z * array2 num * array2 num * vec.

(** The body of the loop of [rHData]. *)
Definition rHData_step (folder : string) (fsl : list string) (st : Series4) (ncfile : string)
  : result Series4 :=
  let '(Im, Hdata, Hrnd, tidx) := st in
  p ← rHDpair folder ncfile;
  let rsp := rsp p in
  let lm := lm p in
  let Hd := Hd p in
  let Hr := Hr p in
  let corIdx := corIdx p in
  nor ← get2 lm 0 2;
  tH ← zeros nor 14;
  tHr ← zeros nor 14;
  '(tH, tHr, sl1) ←
    (if decide (rsp ≠ 0%Z) then
       c ← col Hd 0;
       tH ← set_col tH 0 c;
       tH ← fill_cols tH [1] one;
       tH ← fill_cols tH [3] one;
       tH ← set_slice tH 6 12 (slice_cols Hd 1 7);
       c ← col Hr 0;
       tHr ← set_col tHr 0 c;
       tHr ← set_slice tHr 6 12 (slice_cols Hr 1 7);
       Ok (tH, tHr, "m02")
     else
       tH ← set_slice tH 1 12 (slice_cols Hd 0 11);
       tHr ← set_slice tHr 1 12 (slice_cols Hr 0 11);
       l00 ← get2 lm 0 0;
       Ok (tH, tHr, "n" +:+ pretty.pretty l00));
  sidx1 ← index fsl sl1;
  l01 ← get2 lm 0 1;
  let sl2 := "n" +:+ pretty.pretty l01 in
  sidx2 ← index fsl sl2;
  tH ← fill_cols tH [12] (of_int (Z.of_nat sidx1));
  tH ← fill_cols tH [13] (of_int (Z.of_nat sidx2));
  tHr ← fill_cols tHr [12] one;
  tHr ← fill_cols tHr [13] one;
  Im ← append0 Im lm;
  Hdata ← append0 Hdata tH;
  Hrnd ← append0 Hrnd tHr;
  let tidx := tidx ++ corIdx in
  Ok (Im, Hdata, Hrnd, tidx).

Definition rHData (folder : string) (nclist : list string) : result Series4 :=
  let fsl := sensors nclist in
  let Im := {| ncols := 3; rows := [] |} in
  let Hdata := {| ncols := 14; rows := [] |} in
  let Hrnd := {| ncols := 14; rows := [] |} in
  let tidx := [] in
  foldl (λ acc ncfile, st ← acc; rHData_step folder fsl st ncfile)
        (Ok (Im, Hdata, Hrnd, tidx)) nclist.

End Arrays.
End readHDarrays.
(** ** What [rHDpair] puts where *)

Module Layout.
Section Layout.
Context {Num : Scalar}.
Import np nd readHD readHDarrays.

(** The arrays of a file hold [nor] matchups in [c] columns: [lm[0, 2]] is
    [nor], and [H], [Ur], [Us] have [nor] rows of [c] entries, [K], [Kr],
    [Ks] have [nor] entries. *)
Definition consistent (ds : Dataset) (nor : Z) (c : nat) : Prop :=
  get2 (v_lm ds) 0 2 = Ok nor ∧ (0 ≤ nor)%Z
  ∧ Forall (λ a, wf a ∧ nrows a = Z.to_nat nor ∧ ncols a = c) [v_H ds; v_Ur ds; v_Us ds]
  ∧ Forall (λ k : vec, length k = Z.to_nat nor) [v_K ds; v_Kr ds; v_Ks ds].

(** A row of a reference pair: columns 0 and 5 to 9 of the file's row, then
    the K value. *)
Definition reference_row (row : vec) (k : num) (out : vec) : Prop :=
  ∃ x0 x5 x6 x7 x8 x9,
    row !! 0 = Some x0 ∧ row !! 5 = Some x5 ∧ row !! 6 = Some x6 ∧ row !! 7 = Some x7
    ∧ row !! 8 = Some x8 ∧ row !! 9 = Some x9
    ∧ out = [x0; x5; x6; x7; x8; x9; k].

(** A row of a sensor pair: a zero in column 0, the ten entries of the file's
    row, then the K value. *)
Definition sensor_row (row : vec) (k : num) (out : vec) : Prop :=
  length row = 10 ∧ out = zero :: row ++ [k].

(** [A] has a row for every row of [B], made of it and of the entry of [k]
    as [R] says. *)
Definition laid_out (R : vec → num → vec → Prop) (B : array2 num) (k : vec)
    (A : array2 num) : Prop :=
  wf A ∧ nrows A = nrows B
  ∧ ∀ i row x, rows B !! i = Some row → k !! i = Some x →
      ∃ out, rows A !! i = Some out ∧ R row x out.

End Layout.
End Layout.
(** ** What [rHData] puts where *)

Module SeriesLayout.
Section SeriesLayout.
Context {Num : Scalar}.
Import np nd readHD readHDarrays.
Variable pjoin : string → string → string.
Variable open_dataset : string → result Dataset.

(** The number of matchups that [rHData] takes from a file: [lm[0, 2]] of
    what [rHDpair] returns for it. *)
Definition matchups (folder ncfile : string) : nat :=
  match rHDpair pjoin open_dataset folder ncfile with
  | Ok p => match get2 (lm p) 0 2 with
            | Ok nor => Z.to_nat nor
            | Raise _ => 0
            end
  | Raise _ => 0
  end.

(** The row of the series matrix for a matchup of a reference pair: the
    reference radiance, ones for the space and Earth counts of the reference,
    zeros, the five variables of the sensor and K in columns 6 to 11, and the
    positions of the two sensors in the list of sensors. *)
Definition series_reference_row (row : vec) (k : num) (sidx1 sidx2 : nat) (out : vec) : Prop :=
  ∃ x0 x5 x6 x7 x8 x9,
    row !! 0 = Some x0 ∧ row !! 5 = Some x5 ∧ row !! 6 = Some x6 ∧ row !! 7 = Some x7
    ∧ row !! 8 = Some x8 ∧ row !! 9 = Some x9
    ∧ out = [x0; one; zero; one; zero; zero; x5; x6; x7; x8; x9; k;
             of_int (Z.of_nat sidx1); of_int (Z.of_nat sidx2)].

(** The row of the series matrix for a matchup of a sensor pair: two zeros,
    the ten variables of the file's row in columns 2 to 11, and the positions
    of the two sensors. *)
Definition series_sensor_row (row : vec) (sidx1 sidx2 : nat) (out : vec) : Prop :=
  length row = 10
  ∧ out = zero :: zero :: row ++ [of_int (Z.of_nat sidx1); of_int (Z.of_nat sidx2)].

(** The labels that [rHData] looks up for a pair: ['m02'] or the first
    number of [lm] for the first sensor, the second number for the second. *)
Definition labelled (fsl : list string) (p : Pair) : Prop :=
  (∃ l01, get2 (lm p) 0 1 = Ok l01 ∧ "n" +:+ pretty.pretty l01 ∈ fsl)
  ∧ if decide (rsp p ≠ 0%Z) then "m02" ∈ fsl
    else ∃ l00, get2 (lm p) 0 0 = Ok l00 ∧ "n" +:+ pretty.pretty l00 ∈ fsl.

End SeriesLayout.
End SeriesLayout.
(** ** Small files to run the readers and the conversion on *)

Module ExampleFiles.
Import np nd Har readHD readHDarrays.
Local Open Scope float_scope.

Definition pjoin (a b : string) : string := a +:+ "/" +:+ b.

(** A series of two files: a reference pair and a sensor pair. *)
Definition nclist : list string := ["m02_n15.nc"; "n15_n14.nc"].

(** [CalCoeff.csv] in two folders; in [bad] a coefficient of a sensor that is
    not in the series is not a number. *)
Definition header : list string := ["sensor"; "a0"; "a1"; "a2"; "a3"; "source"].
Definition csv_rows : list (list string) :=
  [ ["n15"; "-20"; "0.5"; "0.0625"; "0"; "first"];
    ["n16"; "1"; "2"; "0.5"; "0"; "only"];
    ["n15"; "1"; "0.5"; "2"; "0"; "second"] ].
Definition bad_rows : list (list string) :=
  [ ["n15"; "1"; "0.5"; "2"; "0"];
    ["n16"; "1"; "n/a"; "0.5"; "0"] ].
Definition files (fn : string) : option (list (list string)) :=
  if decide (fn = "csv/CalCoeff.csv") then Some (header :: csv_rows)
  else if decide (fn = "bad/CalCoeff.csv") then Some (header :: bad_rows)
  else None.

(** The numbers of these files. *)
Definition numbers : list (string * float) :=
  [("-20", -20); ("0", 0); ("0.0625", 0.0625); ("0.5", 0.5); ("1", 1); ("2", 2)].
Definition float_ (s : string) : option float :=
  (λ r, r.2.2) <$> list_find (λ p : string * float, p.1 = s) numbers.

Definition coefficients : gmap string (list float) := <["n15" := [1; 0.5; 2; 0]]> ∅.

(** The file of the reference pair: three matchups on scanlines 100, 100 and
    101. *)
Definition H_ref : array2 float := {| ncols := 10; rows :=
  [ [90; 0; 0; 0; 0; 40; 900; 500; 95; 285];
    [91; 0; 0; 0; 0; 41; 901; 510; 96; 286];
    [92; 0; 0; 0; 0; 42; 902; 520; 97; 287] ] |}.
Definition Ur_ref : array2 float := {| ncols := 10; rows :=
  [ [0.5; 0; 0; 0; 0; 2; 4; 1; 0.25; 0.5];
    [0.5; 0; 0; 0; 0; 2; 4; 1; 0.25; 0.5];
    [0.5; 0; 0; 0; 0; 2; 4; 1; 0.25; 0.5] ] |}.
Definition Us_ref : array2 float := {| ncols := 10; rows :=
  [ [0.125; 0; 0; 0; 0; 0; 0; 0; 0.25; 0.5];
    [0.125; 0; 0; 0; 0; 0; 0; 0; 0.25; 0.5];
    [0.125; 0; 0; 0; 0; 0; 0; 0; 0.25; 0.5] ] |}.

Definition ds_ref : @Dataset float64 := {|
  v_lm := {| ncols := 3; rows := [[(-1)%Z; 15%Z; 3%Z]] |};
  v_H := H_ref; v_Ur := Ur_ref; v_Us := Us_ref;
  v_K := [0.5; 0.25; 0.125];
  v_Kr := [0.125; 0.125; 0.125];
  v_Ks := [0; 0; 0];
  v_CorrIndexArray := [100; 100; 101];
  v_corrData := [25]
|}.

(** The file of the sensor pair: two matchups. *)
Definition H_sen : array2 float := {| ncols := 10; rows :=
  [ [41; 901; 511; 96; 286; 43; 903; 530; 98; 288];
    [42; 902; 521; 97; 287; 44; 904; 540; 99; 289] ] |}.
Definition Ur_sen : array2 float := {| ncols := 10; rows :=
  [ [2; 4; 1; 0.25; 0.5; 2; 4; 1; 0.25; 0.5];
    [2; 4; 1; 0.25; 0.5; 2; 4; 1; 0.25; 0.5] ] |}.
Definition Us_sen : array2 float := {| ncols := 10; rows :=
  [ [0; 0; 0; 0.25; 0.5; 0; 0; 0; 0.25; 0.5];
    [0; 0; 0; 0.25; 0.5; 0; 0; 0; 0.25; 0.5] ] |}.

Definition ds_sen : @Dataset float64 := {|
  v_lm := {| ncols := 3; rows := [[15%Z; 14%Z; 2%Z]] |};
  v_H := H_sen; v_Ur := Ur_sen; v_Us := Us_sen;
  v_K := [1.5; 1.25];
  v_Kr := [0.125; 0.125];
  v_Ks := [0; 0];
  v_CorrIndexArray := [200; 201];
  v_corrData := [25]
|}.

(** A file of a reference pair whose arrays have nine columns. *)
Definition ds_narrow : @Dataset float64 := {|
  v_lm := {| ncols := 3; rows := [[(-1)%Z; 15%Z; 1%Z]] |};
  v_H := {| ncols := 9; rows := [[90; 0; 0; 0; 0; 40; 900; 500; 95]] |};
  v_Ur := {| ncols := 9; rows := [[0.5; 0; 0; 0; 0; 2; 4; 1; 0.25]] |};
  v_Us := {| ncols := 9; rows := [[0.125; 0; 0; 0; 0; 0; 0; 0; 0.25]] |};
  v_K := [0.5]; v_Kr := [0.125]; v_Ks := [0];
  v_CorrIndexArray := [100];
  v_corrData := [25]
|}.

Definition open_dataset (pfn : string) : result (@Dataset float64) :=
  if decide (pfn = "data/m02_n15.nc") then Ok ds_ref
  else if decide (pfn = "data/n15_n14.nc") then Ok ds_sen
  else Ok ds_narrow.

(** The series matrix of the two files. *)
Definition Hdata_series : array2 float := {| ncols := 14; rows :=
  [ [90; 1; 0; 1; 0; 0; 40; 900; 500; 95; 285; 0.5; 0; 1];
    [91; 1; 0; 1; 0; 0; 41; 901; 510; 96; 286; 0.25; 0; 1];
    [92; 1; 0; 1; 0; 0; 42; 902; 520; 97; 287; 0.125; 0; 1];
    [0; 0; 41; 901; 511; 96; 286; 43; 903; 530; 98; 288; 1; 2];
    [0; 0; 42; 902; 521; 97; 287; 44; 904; 540; 99; 289; 1; 2] ] |}.
Definition Hrnd_series : array2 float := {| ncols := 14; rows :=
  [ [0.5; 0; 0; 0; 0; 0; 2; 4; 1; 0.25; 0.5; 0.125; 1; 1];
    [0.5; 0; 0; 0; 0; 0; 2; 4; 1; 0.25; 0.5; 0.125; 1; 1];
    [0.5; 0; 0; 0; 0; 0; 2; 4; 1; 0.25; 0.5; 0.125; 1; 1];
    [0; 0; 2; 4; 1; 0.25; 0.5; 2; 4; 1; 0.25; 0.5; 1; 1];
    [0; 0; 2; 4; 1; 0.25; 0.5; 2; 4; 1; 0.25; 0.5; 1; 1] ] |}.
Definition Im_series : array2 Z := {| ncols := 3; rows :=
  [ [(-1)%Z; 15%Z; 3%Z]; [15%Z; 14%Z; 2%Z] ] |}.
Definition tidx_series : list float := [100; 100; 101; 200; 201].

End ExampleFiles.
(** ** A small matchup file to run the conversion on *)

Module ExampleMatchups.
Import np nd AVHRR AVHRR_to_updated_spec.
Local Open Scope float_scope.

(** Stand-ins for the modules that are not among the sources: a W matrix is
    kept as the rows it is made from. *)
Definition Wmatrix : Type := list (list float).
Definition generate_rolling_average_w_matrix (t : list float) (width : float)
    (u : array2 float) : Wmatrix * list float :=
  (rows u, (λ r, default 0 (r !! 0%nat)) <$> rows u).
Definition return_w_matrix_variables (ws : list Wmatrix) (us : list (list float))
  : @WVariables float64 := {|
  w_matrix_val := mjoin (mjoin ws);
  w_matrix_row := inl ((λ w, Z.of_nat (length w)) <$> ws);
  w_matrix_col := (λ w, Z.of_nat (length (mjoin w))) <$> ws;
  w_matrix_nnz := (λ w, Z.of_nat (length (mjoin w))) <$> ws;
  uncertainty_vector_row_count := (λ u, Z.of_nat (length u)) <$> us;
  uncertainty_vector := mjoin us
|}.
Definition is_zero (x : float) : bool := PrimFloat.eqb x 0.
Definition half : float := 0.5.

(** Three matchups of the sensors 14 and 15; the averaging kernel of the
    second is not complete. *)
Definition matchups : @Matchup float64 := {|
  H := {| ncols := 10; rows :=
    [ [41; 901; 511; 96; 286; 43; 903; 530; 98; 288];
      [42; 902; 521; 97; 287; 44; 904; 540; 99; 289];
      [43; 903; 531; 98; 288; 45; 905; 550; 100; 290] ] |};
  Us := {| ncols := 10; rows :=
    [ [0.125; 0; 0; 0.25; 0.5; 0; 0; 0; 0.25; 0.5];
      [0.125; 0; 0; 0.25; 0.5; 0; 0; 0; 0.25; 0.5];
      [0.125; 0; 0; 0.25; 0.5; 0; 0; 0; 0.25; 0.5] ] |};
  Ur := {| ncols := 10; rows :=
    [ [2; 4; 1; 0.25; 0.5; 2; 4; 1; 0.25; 0.5];
      [2; 4; 1; 0.25; 0.5; 2; 4; 1; 0.25; 0.5];
      [2; 4; 1; 0.25; 0.5; 2; 4; 1; 0.25; 0.5] ] |};
  K := [1.5; 1.25; 1];
  Kr := [0.125; 0.125; 0.125];
  Ks := [0; 0; 0];
  sensor_1_name := 14;
  sensor_2_name := 15;
  time_sensor_1 := [1000; 1000.5; 1001];
  time_sensor_2 := [1000.25; 1000.75; 1001.25];
  u_C_S_sensor_1 := {| ncols := 2; rows := [[2; 2]; [2; nan]; [2; 2]] |};
  u_C_ICT_sensor_1 := {| ncols := 2; rows := [[4; 4]; [4; 4]; [4; 4]] |};
  u_C_S_sensor_2 := {| ncols := 2; rows := [[0.5; 0.5]; [0.5; 0.5]; [0.5; 0.5]] |};
  u_C_ICT_sensor_2 := {| ncols := 2; rows := [[0.25; 0.25]; [0.25; 0.25]; [0.25; 0.25]] |}
|}.

(** The same file with nine columns of [H]. *)
Definition narrow : @Matchup float64 := {|
  H := {| ncols := 9; rows := [] |};
  Us := Us matchups; Ur := Ur matchups;
  K := K matchups; Kr := Kr matchups; Ks := Ks matchups;
  sensor_1_name := 14; sensor_2_name := 15;
  time_sensor_1 := time_sensor_1 matchups; time_sensor_2 := time_sensor_2 matchups;
  u_C_S_sensor_1 := u_C_S_sensor_1 matchups;
  u_C_ICT_sensor_1 := u_C_ICT_sensor_1 matchups;
  u_C_S_sensor_2 := u_C_S_sensor_2 matchups;
  u_C_ICT_sensor_2 := u_C_ICT_sensor_2 matchups
|}.

Definition read_matchup_data (path : string) : result (@Matchup float64) :=
  Ok (if decide (path = "narrow.nc") then narrow else matchups).

Definition convert (d : @Matchup float64) : result (@Converted float64 Wmatrix) :=
  AVHRR_to_updated_spec.convert Wmatrix generate_rolling_average_w_matrix
    return_w_matrix_variables is_zero half d.

Definition main (input output : string) : result (list (@ncop float64)) :=
  AVHRR_to_updated_spec.main Wmatrix generate_rolling_average_w_matrix
    return_w_matrix_variables read_matchup_data is_zero half input output.

End ExampleMatchups.
(** ** The script on a series without input coefficients for [n15] *)

Module ExampleNoCoefficients.
Import np Har.

Definition series : @Series float64 := {|
  nocoefs := nocoefs Example.series;
  novars := novars Example.series;
  nosensors := nosensors Example.series;
  sslab := sslab Example.series;
  preHcoef := ∅;
  measEq := measEq Example.series
|}.

Definition imports : @MCerrst.Imports float64 nat := {|
  MCerrst.pjoin := MCerrst.pjoin Example.imports;
  MCerrst.avhrr := λ _ _, series;
  MCerrst.rHDpair := MCerrst.rHDpair Example.imports;
  MCerrst.resetHs := MCerrst.resetHs Example.imports;
  MCerrst.odrP := MCerrst.odrP Example.imports;
  MCerrst.odr4MC := MCerrst.odr4MC Example.imports;
  MCerrst.genErr := MCerrst.genErr Example.imports
|}.

End ExampleNoCoefficients.


(** * Properties *)

(** ** The mask of valid averages *)

Section MaskFacts.
Context {Num : Scalar}.
Import np AVHRR.


Lemma where_count (k : nat) (mask : list bool) :
  length (filter (λ p : nat * bool, p.2 = true) (zip (seq k (length mask)) mask)) = 0
  ↔ Forall (λ b, b = false) mask.
Proof.
  revert k. induction mask as [|b mask IH]; intros k.
  - split; [constructor | done].
  - cbn [length seq zip zip_with]. destruct b.
    + rewrite filter_cons_True by done. split; [done | by inversion 1].
    + rewrite filter_cons_False by done. rewrite IH. split.
      * by constructor.
      * by inversion 1.
Qed.

Lemma where_nil_iff (mask : list bool) :
  length (where_ mask) = 0 ↔ Forall (λ b, b = false) mask.
Proof. unfold where_. rewrite length_fmap. apply where_count. Qed.

Lemma has_nan_true (row : vec) :
  has_nan row = true ↔ ∃ x, x ∈ row ∧ isnan x = true.
Proof.
  unfold has_nan, isnan_. rewrite negb_true_iff, Nat.eqb_neq, where_nil_iff.
  rewrite Forall_fmap, <- Exists_Forall_neg by (intros; simpl; destruct (isnan _); auto).
  rewrite Exists_exists. split; intros (x & Hx & Hn); exists x; split; auto.
  - simpl in Hn. by destruct (isnan x).
  - simpl. rewrite Hn. done.
Qed.


Lemma mark_loop (rows : list (vec * vec * vec * vec)) (k : nat) (va : list bool) :
  k + length rows ≤ length va →
  ∃ va', foldl mark (Ok va) (zip (seq k (length rows)) rows) = Ok va'
    ∧ length va' = length va
    ∧ (∀ i, i < k → va' !! i = va !! i)
    ∧ (∀ i, k + length rows ≤ i → va' !! i = va !! i)
    ∧ (∀ i q, rows !! i = Some q →
         va' !! (k + i) = if any_nan q then Some false else va !! (k + i)).
Proof.
  revert k va. induction rows as [|q rows IH]; intros k va Hlen; simpl in *.
  - exists va. split_and!; done.
  - assert (∃ va1, (if any_nan q then setitem va k false else Ok va) = Ok va1
              ∧ length va1 = length va
              ∧ (∀ i, i ≠ k → va1 !! i = va !! i)
              ∧ va1 !! k = if any_nan q then Some false else va !! k)
      as (va1 & -> & Hl1 & Hne1 & Hk1).
    { destruct (any_nan q).
      - unfold setitem. rewrite decide_True by lia. eexists. split; [done|].
        split_and!.
        + apply length_insert.
        + intros i Hi. by apply list_lookup_insert_ne.
        + apply list_lookup_insert_eq. lia.
      - by exists va. }
    destruct (IH (S k) va1) as (va' & Hf & Hl & Hlt & Hge & Hin); [lia|].
    exists va'. split_and!.
    + done.
    + lia.
    + intros i Hi. rewrite Hlt by lia. apply Hne1. lia.
    + intros i Hi. rewrite Hge by lia. apply Hne1. lia.
    + intros [|i] q' Hq; simpl in Hq.
      * injection Hq as ->. rewrite Nat.add_0_r, Hlt by lia. done.
      * replace (k + S i) with (S k + i) by lia. rewrite (Hin _ _ Hq).
        destruct (any_nan q'); [done|]. apply Hne1. lia.
Qed.
Lemma zip4_length {A} (a b c d : list A) : length (zip4 a b c d) ≤ length a.
Proof. unfold zip4. rewrite !length_zip. lia. Qed.

Lemma zip4_lookup {A} (a b c d : list A) i x1 x2 x3 x4 :
  a !! i = Some x1 → b !! i = Some x2 → c !! i = Some x3 → d !! i = Some x4 →
  zip4 a b c d !! i = Some (x1, x2, x3, x4).
Proof.
  intros H1 H2 H3 H4. unfold zip4.
  rewrite !lookup_zip_with. rewrite H1, H2, H3, H4. done.
Qed.


Lemma any_nan_true (r11 r12 r21 r22 : vec) :
  any_nan (r11, r12, r21, r22) = true
  ↔ ∃ x, isnan x = true ∧ (x ∈ r11 ∨ x ∈ r12 ∨ x ∈ r21 ∨ x ∈ r22).
Proof.
  unfold any_nan. rewrite !orb_true_iff, !has_nan_true. split.
  - intros [[[(x & ? & ?)|(x & ? & ?)]|(x & ? & ?)]|(x & ? & ?)]; exists x; auto.
  - intros (x & Hx & [?|[?|[?|?]]]); eauto 7.
Qed.

(** C10: the mask has one entry per row of [u11]; with a label that is not NaN
    every entry is true; with a NaN label (the default) the entry of a matchup
    whose four rows are there is false exactly when one of the four rows holds
    a NaN.  The function never raises. *)
Theorem valid_averages_mask_spec (u11 u12 u21 u22 : mat) (label : num) :
  ∃ mask,
    return_valid_averages_mask u11 u12 u21 u22 label = Ok mask
    ∧ length mask = length u11
    ∧ (isnan label = false → mask = replicate (length u11) true)
    ∧ (isnan label = true →
       ∀ i row11 row12 row21 row22,
         u11 !! i = Some row11 → u12 !! i = Some row12 →
         u21 !! i = Some row21 → u22 !! i = Some row22 →
         mask !! i = Some (negb (any_nan (row11, row12, row21, row22)))
         ∧ (mask !! i = Some false
            ↔ ∃ x, isnan x = true ∧ (x ∈ row11 ∨ x ∈ row12 ∨ x ∈ row21 ∨ x ∈ row22))).
Proof.
  unfold return_valid_averages_mask, ones, enumerate.
  destruct (isnan label) eqn:Hlab.
  - destruct (mark_loop (zip4 u11 u12 u21 u22) 0 (replicate (length u11) true))
      as (mask & Hrun & Hlen & _ & _ & Hin).
    { rewrite length_replicate. simpl. apply zip4_length. }
    exists mask. split_and!; [done | by rewrite Hlen, length_replicate | done |].
    intros _ i r11 r12 r21 r22 H11 H12 H21 H22.
    pose proof (Hin i _ (zip4_lookup _ _ _ _ _ _ _ _ _ H11 H12 H21 H22)) as Hi.
    change (0 + i) with i in Hi. rewrite lookup_replicate_2 in Hi by (by eapply lookup_lt_Some).
    assert (mask !! i = Some (negb (any_nan (r11, r12, r21, r22)))) as Hm.
    { rewrite Hi. by destruct (any_nan _). }
    split; [done|]. rewrite Hm, <- any_nan_true.
    destruct (any_nan _); simpl; split; congruence.
  - exists (replicate (length u11) true).
    split_and!; [done | by rewrite length_replicate | done | done].
Qed.
End MaskFacts.

(** ** Computations *)

Section MonadFacts.
Context {W : Type}.

Lemma bind_Ok {A B} (m : M W A) (f : A → M W B) (w w' : W) (b : B) :
  (m ≫= f) w = (Ok b, w') ↔ ∃ a w1, m w = (Ok a, w1) ∧ f a w1 = (Ok b, w').
Proof.
  unfold mbind, M_bind. destruct (m w) as [[a|e] w1]; split.
  - intros H. by exists a, w1.
  - by intros (a' & w1' & [= -> ->] & H).
  - intros [=].
  - by intros (a' & w1' & [=] & H).
Qed.

Lemma lift_Ok {A} (r : result A) (w w' : W) (a : A) :
  lift r w = (Ok a, w') ↔ r = Ok a ∧ w' = w.
Proof. unfold lift. split; [by intros [= -> ->] | by intros [-> ->]]. Qed.

Lemma ret_Ok {A} (x a : A) (w w' : W) :
  (mret x : M W A) w = (Ok a, w') ↔ a = x ∧ w' = w.
Proof. unfold mret, M_ret. split; [by intros [= -> ->] | by intros [-> ->]]. Qed.

End MonadFacts.

Section PlotFacts.
Context {Num : Scalar} {G : Type}.
Import np Har plotMCres.
Variable choose : G → list nat → nat → list nat * G.

Lemma sample_trace (population : list nat) (k : Z) (w : World G) :
  trace (sample choose population k w).2 = trace w.
Proof.
  unfold sample. case_decide; [|done]. by destruct (choose _ _ _).
Qed.

Lemma plotSDfit_unweighted_run (avhrrS : Series) (noMU nobj : Z) (slab : string)
    (muTime : vec) (Hrnd : mat) (odrSD : Output) (w : World G) :
  plotSDfit choose avhrrS noMU nobj slab muTime Hrnd odrSD None w =
  let r := sample choose (range noMU) nobj w in
  match r.1 with
  | Ok _ => (Raise (UnboundLocalError "wlab"), r.2)
  | Raise e => (Raise e, r.2)
  end.
Proof.
  unfold plotSDfit.
  unfold mbind at 1. unfold M_bind at 1. unfold mret at 1, M_ret at 1.
  unfold mbind at 1. unfold M_bind at 1.
  destruct (sample choose (range noMU) nobj w) as [[sel|e] w1]; done.
Qed.

(** C9 (as the function has it): with [weight=None] no graph is drawn and the
    call raises: the UnboundLocalError (a NameError) of the unassigned [wlab]
    when [random.sample] accepts the sample size, [0 <= nobj <= noMU], and the
    ValueError of [random.sample] otherwise, which comes first. *)
Theorem plotSDfit_unweighted (avhrrS : Series) (noMU nobj : Z) (slab : string)
    (muTime : vec) (Hrnd : mat) (odrSD : Output) (w : World G) :
  let r := plotSDfit choose avhrrS noMU nobj slab muTime Hrnd odrSD None w in
  r.1 = Raise (if decide (0 ≤ nobj ≤ Z.max 0 noMU)%Z
               then UnboundLocalError "wlab" else ValueError)
  ∧ trace r.2 = trace w
  ∧ graphs (log (plotSDfit choose avhrrS noMU nobj slab muTime Hrnd odrSD None) w) = [].
Proof.
  unfold log. rewrite plotSDfit_unweighted_run.
  pose proof (sample_trace (range noMU) nobj w) as Htr.
  assert ((sample choose (range noMU) nobj w).1 =
          if decide (0 ≤ nobj ≤ Z.max 0 noMU)%Z
          then Ok (choose (rng w) (range noMU) (Z.to_nat nobj)).1 else Raise ValueError) as Hs.
  { unfold sample, range. rewrite length_seq.
    replace (Z.of_nat (Z.to_nat noMU)) with (Z.max 0 noMU) by lia.
    case_decide; [|done]. by destruct (choose _ _ _). }
  destruct (sample choose (range noMU) nobj w) as [r w1]. simpl in *. subst r.
  case_decide; simpl; rewrite Htr, drop_all; done.
Qed.

End PlotFacts.

(** ** Arrays *)

Section ArrayFacts.
Context {Num : Scalar}.
Import np.

Lemma mapM_Ok {A B} (f : A → result B) (l : list A) (k : list B) :
  mapM f l = Ok k ↔ Forall2 (λ x y, f x = Ok y) l k.
Proof.
  revert k. induction l as [|x l IH]; intros k; cbn.
  - split; [intros [= <-]; constructor | by intros ->%Forall2_nil_inv_l].
  - split.
    + destruct (f x) as [y|e] eqn:Hx; cbn; [|done].
      destruct (mapM f l) as [k'|e] eqn:Hl; cbn; [|done].
      intros [= <-]. constructor; [done|]. by apply IH.
    + intros (y & k' & Hy & Hk & ->)%Forall2_cons_inv_l.
      apply IH in Hk. rewrite Hy. cbn. rewrite Hk. done.
Qed.

Lemma mapM_Ok_length {A B} (f : A → result B) (l : list A) (k : list B) :
  mapM f l = Ok k → length k = length l.
Proof. intros H%mapM_Ok. symmetry. by eapply Forall2_length. Qed.

Lemma mapM_Ok_lookup {A B} (f : A → result B) (l : list A) (k : list B) i x :
  mapM f l = Ok k → l !! i = Some x → ∃ y, k !! i = Some y ∧ f x = Ok y.
Proof. intros H%mapM_Ok Hx. by eapply Forall2_lookup_l in H as (y & ? & ?); eauto. Qed.

Lemma broadcast_lookup {A} (f : A → A → result A) (a b c : list A) i x y :
  length a = length b → broadcast f a b = Ok c →
  a !! i = Some x → b !! i = Some y →
  ∃ z, c !! i = Some z ∧ f x y = Ok z.
Proof.
  intros Hlen Hc Hx Hy. unfold broadcast in Hc. rewrite decide_True in Hc by done.
  destruct (mapM_Ok_lookup _ _ _ i (x, y) Hc) as (z & Hz & Hf).
  - rewrite lookup_zip_with, Hx, Hy. done.
  - by exists z.
Qed.

Lemma broadcast_length {A} (f : A → A → result A) (a b c : list A) :
  length a = length b → broadcast f a b = Ok c → length c = length a.
Proof.
  intros Hlen Hc. unfold broadcast in Hc. rewrite decide_True in Hc by done.
  apply mapM_Ok_length in Hc. rewrite length_zip in Hc. lia.
Qed.

Lemma add1_lookup (a b c : vec) i x y :
  length a = length b → add1 a b = Ok c →
  a !! i = Some x → b !! i = Some y → c !! i = Some (add x y).
Proof.
  intros Hlen Hc Hx Hy.
  destruct (broadcast_lookup _ _ _ _ _ _ _ Hlen Hc Hx Hy) as (z & Hz & [= <-]). done.
Qed.

Lemma add2_cell (a b c : mat) i j ra rb x y :
  length a = length b → add2 a b = Ok c →
  a !! i = Some ra → b !! i = Some rb → length ra = length rb →
  ra !! j = Some x → rb !! j = Some y →
  cell c i j = Some (add x y).
Proof.
  intros Hlen Hc Hra Hrb Hl Hx Hy.
  destruct (broadcast_lookup _ _ _ _ _ _ _ Hlen Hc Hra Hrb) as (rc & Hrc & Hadd).
  unfold cell. rewrite Hrc. cbn. by eapply add1_lookup.
Qed.

Lemma column_lookup (a : mat) (j : nat) (v : vec) i row :
  column a j = Ok v → a !! i = Some row → v !! i = row !! j ∧ is_Some (row !! j).
Proof.
  intros Hv Hrow. destruct (mapM_Ok_lookup _ _ _ _ _ Hv Hrow) as (y & Hy & Hg).
  unfold getitem in Hg. destruct (row !! j); [|done]. injection Hg as ->. eauto.
Qed.

Lemma columns_cell (a : mat) (lo hi i j : nat) :
  j < hi - lo → cell (columns a lo hi) i j = cell a i (lo + j).
Proof.
  intros Hj. unfold cell, columns. rewrite list_lookup_fmap.
  destruct (a !! i) as [row|]; [|done]. cbn.
  by rewrite lookup_take_lt, lookup_drop.
Qed.

Lemma transpose_cell (a : mat) (n i j : nat) :
  Forall (λ r, length r = n) a → i < length a → j < n →
  cell (transpose a) j i = cell a i j.
Proof.
  intros Hrect Hi Hj. unfold cell, transpose.
  destruct a as [|r0 a']; [simpl in Hi; lia|].
  assert (length r0 = n) as Hr0 by (by inversion Hrect).
  rewrite list_lookup_fmap, lookup_seq_lt by lia. cbn [fmap option_fmap option_map mbind option_bind].
  rewrite list_lookup_fmap.
  destruct ((r0 :: a') !! i) as [row|] eqn:Hrow.
  - cbn. assert (length row = n) as Hl by (eapply (Forall_lookup_1 _ _ _ _ Hrect Hrow)).
    destruct (lookup_lt_is_Some_2 row j) as [x Hx]; [lia|]. by rewrite Hx.
  - apply lookup_ge_None in Hrow. lia.
Qed.

Lemma transpose_shape (a : mat) (n : nat) :
  Forall (λ r, length r = n) a → a ≠ [] →
  length (transpose a) = n ∧ Forall (λ r, length r = length a) (transpose a).
Proof.
  intros Hrect Hne. destruct a as [|r0 a']; [done|]. unfold transpose.
  assert (length r0 = n) as Hr0 by (by inversion Hrect). split.
  - by rewrite length_fmap, length_seq.
  - apply Forall_fmap, Forall_forall. intros j _. cbn. by rewrite length_fmap.
Qed.

End ArrayFacts.

(** ** The driver script *)

Section DriverFacts.
Context {Num : Scalar} {G : Type}.
Import np Har MCerrst.
Variable imp : @Imports Num G.

Lemma fit_to_length (n : nat) (v v' : vec) : fit_to n v = Ok v' → length v' = n.
Proof.
  unfold fit_to. case_decide; [by intros [= <-]|].
  destruct v as [|x [|??]]; intros [=]. subst. apply length_replicate.
Qed.

Lemma fit_to_same (v : vec) : fit_to (length v) v = Ok v.
Proof. unfold fit_to. by rewrite decide_True. Qed.

Lemma trial_Ok (notime : bool) (series : Series) (p : nat) (f : Fit) (X : mat)
    (Y bodr : vec) (ga : genErr_args) (i : nat) (st st' : mat * option Output)
    (w w' : World G) :
  Forall (λ r, length r = p + 1) st.1 →
  trial imp notime series p f X Y bodr ga i st w = (Ok st', w') →
  ∃ E a v',
    genErr imp ga (rng w) = (E, rng w')
    ∧ uninit w' = uninit w
    ∧ trace w' = trace w ++ trial_events ga (E, a, odr4MC imp a)
    ∧ perturbed X Y E (m_X a) (m_Y a)
    ∧ m_Hr a = f_Hr f ∧ m_b0 a = bodr ∧ m_series a = series
    ∧ m_fixb a = (if notime then None else f_fixb f)
    ∧ m_fixx a = (if notime then None else f_fixx f)
    ∧ m_Hs a = (if notime then None else Some (f_Hs f))
    ∧ i < length st.1
    ∧ fit_to p (beta (odr4MC imp a)) = Ok v'
    ∧ st' = (<[i := v' ++ [of_int (info (odr4MC imp a))]]> st.1, Some (odr4MC imp a)).
Proof.
  intros Hshape Hrun. unfold trial in Hrun.
  apply bind_Ok in Hrun as (E & w1 & HE & Hrun).
  apply bind_Ok in Hrun as (Xdt & w2 & HX & Hrun). apply lift_Ok in HX as [HX ->].
  apply bind_Ok in Hrun as (e0 & w2 & He0 & Hrun). apply lift_Ok in He0 as [He0 ->].
  apply bind_Ok in Hrun as (Ye & w2 & HYe & Hrun). apply lift_Ok in HYe as [HYe ->].
  apply bind_Ok in Hrun as (e6 & w2 & He6 & Hrun). apply lift_Ok in He6 as [He6 ->].
  apply bind_Ok in Hrun as (Ydt & w2 & HY & Hrun). apply lift_Ok in HY as [HY ->].
  apply bind_Ok in Hrun as (mcodr & w2 & Hfit & Hrun).
  apply bind_Ok in Hrun as (mcb1 & w3 & Hset & Hrun). apply lift_Ok in Hset as [Hset ->].
  apply bind_Ok in Hrun as (mcb2 & w3 & Hset2 & Hrun). apply lift_Ok in Hset2 as [Hset2 ->].
  apply ret_Ok in Hrun as [-> ->].
  unfold call_genErr in HE. destruct (genErr imp ga (rng w)) as [E' g] eqn:Hgen.
  injection HE as -> <-.
  set (a := {| m_X := Xdt; m_Y := Ydt; m_Hr := f_Hr f; m_b0 := bodr; m_series := series;
               m_fixb := if notime then None else f_fixb f;
               m_fixx := if notime then None else f_fixx f;
               m_Hs := if notime then None else Some (f_Hs f) |}).
  assert (call_odr4MC imp a
            {| rng := g; uninit := uninit w; trace := trace w ++ [EvGenErr ga E] |}
          = (Ok mcodr, w2)) as Hcall.
  { subst a. by destruct notime. }
  clear Hfit. unfold call_odr4MC in Hcall. cbn in Hcall. injection Hcall as <- <-.
  (* the two stores into [mcb] *)
  unfold set_row_slice in Hset.
  unfold getitem in Hset. destruct (st.1 !! i) as [row|] eqn:Hi; [|done]. cbn in Hset.
  assert (length row = p + 1) as Hlen by (eapply (Forall_lookup_1 _ _ _ _ Hshape Hi)).
  rewrite Nat.sub_0_r, drop_0, length_take, Hlen in Hset.
  replace (p `min` (p + 1)) with p in Hset by lia.
  destruct (fit_to p (beta (odr4MC imp a))) as [v'|e] eqn:Hv; [|done]. cbn in Hset.
  injection Hset as <-.
  pose proof (fit_to_length _ _ _ Hv) as Hlv.
  unfold setitem2, getitem in Hset2.
  apply lookup_lt_Some in Hi as Hilt.
  rewrite list_lookup_insert_eq in Hset2 by done. cbn in Hset2.
  unfold setitem in Hset2. rewrite decide_True in Hset2.
  2:{ rewrite !length_app, length_drop. simpl. lia. }
  cbn in Hset2. injection Hset2 as <-.
  exists E, a, v'. split_and!; try done.
  - simpl. by rewrite <- app_assoc.
  - split; [done|]. by exists e0, Ye, e6.
  - f_equal. rewrite list_insert_insert_eq. f_equal.
    rewrite insert_app_r_alt by (simpl; lia). f_equal.
    replace (p - length v') with 0 by (simpl in *; lia).
    simpl. destruct (drop p row) as [|x [|??]] eqn:Hd; simpl.
    + apply (f_equal length) in Hd. rewrite length_drop in Hd. simpl in Hd. lia.
    + done.
    + apply (f_equal length) in Hd. rewrite length_drop in Hd. simpl in Hd. lia.
Qed.


Lemma loop_Ok (notime : bool) (series : Series) (p : nat) (f : Fit) (X : mat)
    (Y bodr : vec) (ga : genErr_args) (n k : nat) (st st' : mat * option Output)
    (w w' : World G) :
  Forall (λ r, length r = p + 1) st.1 →
  for_each (seq k n) (trial imp notime series p f X Y bodr ga) st w = (Ok st', w') →
  ∃ trs : list (mat * odr4MC_args * Output),
    length trs = n
    ∧ trace w' = trace w ++ (trs ≫= trial_events ga)
    ∧ uninit w' = uninit w
    ∧ drawn imp ga (rng w) trs (rng w')
    ∧ Forall (trial_call imp notime series f X Y bodr) trs
    ∧ length st'.1 = length st.1
    ∧ Forall (λ r, length r = p + 1) st'.1
    ∧ (n = 0 ∨ k + n ≤ length st.1)
    ∧ (∀ j, j < k ∨ k + n ≤ j → st'.1 !! j = st.1 !! j)
    ∧ (∀ j t, trs !! j = Some t →
         ∃ v', fit_to p (beta t.2) = Ok v'
               ∧ st'.1 !! (k + j) = Some (v' ++ [of_int (info t.2)]))
    ∧ st'.2 = match last trs with Some t => Some t.2 | None => st.2 end.
Proof.
  revert k st w. induction n as [|n IH]; intros k st w Hshape Hrun.
  - apply ret_Ok in Hrun as [-> ->]. exists [].
    split_and!; try done; [simpl; by rewrite app_nil_r | by left].
  - cbn [seq for_each] in Hrun.
    apply bind_Ok in Hrun as (st1 & w1 & Hstep & Hrun).
    apply trial_Ok in Hstep as (E & a & v' & Hgen & Hun & Htr & Hpert & HHr & Hb0 & Hser
                                  & Hfb & Hfx & HHs & Hi & Hv & ->); [|done].
    pose proof (fit_to_length _ _ _ Hv) as Hlv.
    apply IH in Hrun as (trs & Hlen & Htr' & Hun' & Hdr & Hcalls & Hl & Hsh & Hbound
                           & Hout & Hin & Hlast).
    2:{ simpl. apply Forall_insert; [done|]. rewrite length_app. simpl. lia. }
    simpl in *. rewrite length_insert in *.
    exists ((E, a, odr4MC imp a) :: trs). split_and!.
    + simpl. by rewrite Hlen.
    + rewrite Htr', Htr. simpl. by rewrite <- app_assoc.
    + congruence.
    + simpl. rewrite Hgen. done.
    + constructor; [|done]. by split_and!.
    + done.
    + done.
    + right. lia.
    + intros j Hj. rewrite Hout by lia. apply list_lookup_insert_ne. lia.
    + intros [|j] t Ht; simpl in Ht.
      * injection Ht as <-. simpl. exists v'. split; [done|].
        rewrite Nat.add_0_r, Hout by lia. by apply list_lookup_insert_eq.
      * replace (k + S j) with (S k + j) by lia. by apply Hin.
    + rewrite Hlast, last_cons. by destruct (last trs).
Qed.


Lemma emit_Ok (e : event) (w w' : World G) (u : ()) :
  emit e w = (Ok u, w') →
  rng w' = rng w ∧ uninit w' = uninit w ∧ trace w' = trace w ++ [e].
Proof. unfold emit. by intros [= _ <-]. Qed.

Lemma call_odrP_Ok (a : odrP_args) (w w' : World G) (o : Output) :
  call_odrP imp a w = (Ok o, w') →
  o = odrP imp a ∧ rng w' = rng w ∧ uninit w' = uninit w
  ∧ trace w' = trace w ++ [EvOdrP a (odrP imp a)].
Proof. unfold call_odrP. cbn. by intros [= <- <-]. Qed.

Lemma best_estimate_Ok (notime : bool) (c : vec) (f : Fit) (w w' : World G) :
  let series := avhrr imp datadir filelist in
  best_estimate imp notime series (nocoefs series) (novars series)
    "m02_n15.nc" "n15" (take (nocoefs series) c) w = (Ok f, w') →
  ∃ a0,
    (∀ R, r_coef R = c → r_fit R = f → r_call R = a0 → best_estimate_call imp notime R)
    ∧ rng w' = rng w ∧ uninit w' = uninit w
    ∧ trace w' = trace w ++ [EvOdrP a0 (f_podr f)].
Proof.
  intros series Hrun. unfold best_estimate in Hrun. destruct notime.
  - apply bind_Ok in Hrun as (d & w1 & Hd & Hrun). apply lift_Ok in Hd as [Hd ->].
    apply bind_Ok in Hrun as (Hr' & w1 & HHr & Hrun). apply lift_Ok in HHr as [HHr ->].
    apply bind_Ok in Hrun as (podr & w1 & Hfit & Hrun).
    apply ret_Ok in Hrun as [-> ->].
    apply call_odrP_Ok in Hfit as (-> & Hg & Hu & Ht).
    eexists. split; [|split_and!; [done..|exact Ht]].
    intros R Hc Hf Ha. unfold best_estimate_call, r_beta0, r_series.
    rewrite Hc, Hf, Ha. simpl. by split_and!.
  - apply bind_Ok in Hrun as (d & w1 & Hd & Hrun). apply lift_Ok in Hd as [Hd ->].
    apply bind_Ok in Hrun as (fixb & w1 & Hfb & Hrun). apply lift_Ok in Hfb as [Hfb ->].
    apply bind_Ok in Hrun as (fixx & w1 & Hfx & Hrun). apply lift_Ok in Hfx as [Hfx ->].
    apply bind_Ok in Hrun as (podr & w1 & Hfit & Hrun).
    apply ret_Ok in Hrun as [-> ->].
    apply call_odrP_Ok in Hfit as (-> & Hg & Hu & Ht).
    eexists. split; [|split_and!; [done..|exact Ht]].
    intros R Hc Hf Ha. unfold best_estimate_call, r_beta0, r_series.
    rewrite Hc, Hf, Ha. simpl. split_and!; try done; by eexists.
Qed.

Lemma empty_shape (r c : nat) (w : World G) :
  ∃ a, empty r c w = (Ok a, w) ∧ length a = r ∧ Forall (λ row, length row = c) a.
Proof.
  unfold empty. eexists. split; [done|]. split.
  - by rewrite length_fmap, length_seq.
  - apply Forall_fmap, Forall_forall. intros i _. simpl.
    by rewrite length_fmap, length_seq.
Qed.

Lemma run_completed (notime : bool) (notr : nat) (w w' : World G) :
  run imp notime notr w = (Ok (), w') → ∃ R, completed imp notime notr w w' R.
Proof.
  intros Hrun. unfold run in Hrun.
  apply bind_Ok in Hrun as (ncfile & w1 & Hnc & Hrun). apply lift_Ok in Hnc as [Hnc ->].
  cbn in Hnc. injection Hnc as <-.
  apply bind_Ok in Hrun as (c & w1 & Hc & Hrun). apply lift_Ok in Hc as [Hc ->].
  change (String.substring 4 3 "m02_n15.nc") with "n15" in *.
  unfold dict_get in Hc.
  destruct (preHcoef (avhrr imp datadir filelist) !! "n15") as [c'|] eqn:Hlook; [|done].
  injection Hc as ->.
  apply bind_Ok in Hrun as (f & w1 & Hbest & Hrun).
  apply best_estimate_Ok in Hbest as (a0 & Hcall & Hg1 & Hu1 & Ht1).
  apply bind_Ok in Hrun as (x & w2 & HIm & Hrun). apply lift_Ok in HIm as [_ ->].
  apply bind_Ok in Hrun as (sLict & w2 & HsL & Hrun). apply lift_Ok in HsL as [HsL ->].
  apply bind_Ok in Hrun as (sTo & w2 & HsT & Hrun). apply lift_Ok in HsT as [HsT ->].
  destruct (unique (corIdx (f_data f))) as [[slt midx] mcnt] eqn:Hun.
  apply bind_Ok in Hrun as (rCSar & w2 & Hcs & Hrun). apply lift_Ok in Hcs as [Hcs ->].
  apply bind_Ok in Hrun as (rCICTar & w2 & Hci & Hrun). apply lift_Ok in Hci as [Hci ->].
  apply bind_Ok in Hrun as (mcb & w2 & Hemp & Hrun).
  destruct (empty_shape notr (length (take (nocoefs (avhrr imp datadir filelist)) c) + 1) w1)
    as (mcb' & Hemp' & Hrows & Hshape).
  rewrite Hemp' in Hemp. injection Hemp as <- <-.
  apply bind_Ok in Hrun as (st & w2 & Hloop & Hrun).
  apply loop_Ok in Hloop as (trs & Hlen & Htr & Hu & Hdr & Hcalls & Hl & Hsh & Hbound
                               & Hout & Hin & Hlast); [|done].
  apply bind_Ok in Hrun as (mcodr & w3 & Hglob & Hrun).
  unfold global in Hglob. destruct st.2 as [o|] eqn:Hst2; [|done].
  apply ret_Ok in Hglob as [-> ->].
  apply emit_Ok in Hrun as (Hg3 & Hu3 & Ht3).
  exists {| r_coef := c; r_fit := f; r_call := a0; r_sLict := sLict; r_sTo := sTo;
            r_rCSar := rCSar; r_rCICTar := rCICTar; r_trials := trs; r_table := st.1 |}.
  assert (0 < notr) as Hpos.
  { destruct notr; [|lia]. destruct trs; [|done]. simpl in Hlast. congruence. }
  unfold completed, r_genErr_args, r_groups, r_beta0, r_series.
  cbn [r_coef r_fit r_call r_sLict r_sTo r_rCSar r_rCICTar r_trials r_table].
  rewrite Hun. cbn [fst snd].
  split_and!; try done.
  - by apply Hcall.
  - rewrite Hg3, <- Hg1. done.
  - by rewrite Hl.
  - congruence.
  - rewrite Ht3, Htr, Ht1. rewrite <- !app_assoc. done.
Qed.

(** *** The trace of a completed run *)

Lemma trial_events_fits (ga : genErr_args) (trs : list (mat * odr4MC_args * Output)) :
  trial_fits (trs ≫= trial_events ga) = (λ t, (t.1.2, t.2)) <$> trs.
Proof. induction trs as [|[[E a] o] trs IH]; [done|]. cbn. by rewrite <- IH. Qed.

Lemma trial_events_draws (ga : genErr_args) (trs : list (mat * odr4MC_args * Output)) :
  error_draws (trs ≫= trial_events ga) = (λ t, (ga, t.1.1)) <$> trs.
Proof. induction trs as [|[[E a] o] trs IH]; [done|]. cbn. by rewrite <- IH. Qed.

Lemma trial_events_best (ga : genErr_args) (trs : list (mat * odr4MC_args * Output)) :
  best_fits (trs ≫= trial_events ga) = [].
Proof. induction trs as [|[[E a] o] trs IH]; [done|]. cbn. by rewrite <- IH. Qed.

Lemma trial_events_saved (ga : genErr_args) (trs : list (mat * odr4MC_args * Output)) :
  saved (trs ≫= trial_events ga) = [].
Proof. induction trs as [|[[E a] o] trs IH]; [done|]. cbn. by rewrite <- IH. Qed.

Lemma completed_log (notime : bool) (notr : nat) (w w' : World G) (R : Run) :
  run imp notime notr w = (Ok (), w') →
  completed imp notime notr w w' R →
  log (run imp notime notr) w =
    EvOdrP (r_call R) (f_podr (r_fit R))
    :: (r_trials R ≫= trial_events (r_genErr_args R))
    ++ [EvSavetxt (pjoin imp (pjoin imp datadir "Results") (f_fn (r_fit R))) (r_table R) ","].
Proof.
  intros Hrun HR. unfold log. rewrite Hrun. cbn [snd].
  destruct HR as (_ & _ & _ & _ & _ & _ & _ & _ & _ & _ & _ & _ & _ & _ & ->).
  by rewrite drop_app_length.
Qed.

(** The four kinds of events of a completed run. *)
Lemma completed_events (notime : bool) (notr : nat) (w w' : World G) (R : Run) :
  run imp notime notr w = (Ok (), w') →
  completed imp notime notr w w' R →
  let L := log (run imp notime notr) w in
  best_fits L = [(r_call R, f_podr (r_fit R))]
  ∧ trial_fits L = (λ t, (t.1.2, t.2)) <$> r_trials R
  ∧ error_draws L = (λ t, (r_genErr_args R, t.1.1)) <$> r_trials R
  ∧ saved L = [(pjoin imp (pjoin imp datadir "Results") (f_fn (r_fit R)), r_table R, ",")].
Proof.
  intros Hrun HR L. subst L. rewrite (completed_log _ _ _ _ _ Hrun HR).
  unfold best_fits, trial_fits, error_draws, saved.
  cbn [omap list_omap]. rewrite !omap_app. cbn [omap list_omap].
  fold (best_fits (r_trials R ≫= trial_events (r_genErr_args R))).
  fold (trial_fits (r_trials R ≫= trial_events (r_genErr_args R))).
  fold (error_draws (r_trials R ≫= trial_events (r_genErr_args R))).
  fold (saved (r_trials R ≫= trial_events (r_genErr_args R))).
  rewrite trial_events_best, trial_events_fits, trial_events_draws, trial_events_saved.
  by rewrite !app_nil_r.
Qed.

(** *** The perturbed data, entry by entry *)

Lemma perturbed_entries (X : mat) (Y : vec) (E Xdt : mat) (Ydt : vec) (n : nat) :
  perturbed X Y E Xdt Ydt → shaped X Y E n → entrywise_sum X Y E Xdt Ydt n.
Proof.
  intros (HX & e0 & Ye & e6 & He0 & HYe & He6 & HY) (HlX & HrX & HlY & HlE & HrE).
  assert (X ≠ []) as HneX by (intros ->; done).
  destruct (transpose_shape X n HrX HneX) as [HlT HrT]. rewrite HlX in HrT.
  split.
  - intros r c Hr Hc.
    destruct (lookup_lt_is_Some_2 (transpose X) r) as [ra Hra]; [lia|].
    destruct (lookup_lt_is_Some_2 E r) as [row Hrow]; [lia|].
    assert (length ra = 5) as Hla by (eapply (Forall_lookup_1 _ _ _ _ HrT Hra)).
    assert (length row = 7) as Hlrow by (eapply (Forall_lookup_1 _ _ _ _ HrE Hrow)).
    destruct (lookup_lt_is_Some_2 ra c) as [x Hx]; [lia|].
    destruct (lookup_lt_is_Some_2 row (S c)) as [e He]; [lia|].
    exists x, e. split_and!.
    + rewrite <- (transpose_cell X n c r) by (done || lia).
      unfold cell. rewrite Hra. done.
    + unfold cell. rewrite Hrow. done.
    + eapply (add2_cell (transpose X) (columns E 1 6) Xdt r c ra (take 5 (drop 1 row)));
        try done.
      * unfold columns. rewrite length_fmap. lia.
      * unfold columns. rewrite list_lookup_fmap, Hrow. done.
      * rewrite length_take, length_drop. lia.
      * rewrite lookup_take_lt, lookup_drop by lia. done.
  - intros r Hr.
    destruct (lookup_lt_is_Some_2 Y r) as [yv Hyv]; [lia|].
    destruct (lookup_lt_is_Some_2 E r) as [row Hrow]; [lia|].
    destruct (column_lookup _ _ _ _ _ He0 Hrow) as [H0 [x0 Hx0]].
    destruct (column_lookup _ _ _ _ _ He6 Hrow) as [H6 [x6 Hx6]].
    exists yv, x0, x6.
    assert (length e0 = n) as Hle0 by (apply mapM_Ok_length in He0; lia).
    assert (length e6 = n) as Hle6 by (apply mapM_Ok_length in He6; lia).
    assert (length Ye = n) as HlYe.
    { erewrite (broadcast_length _ Y e0 Ye); [done|lia|done]. }
    split_and!; try done.
    + unfold cell. rewrite Hrow. done.
    + unfold cell. rewrite Hrow. done.
    + eapply (add1_lookup Ye e6); [lia|done| |congruence].
      eapply (add1_lookup Y e0); [lia|done|done|congruence].
Qed.

(** *** What every completed run does *)

Lemma trial_fits_lookup (R : Run) (L : list event) k a o :
  trial_fits L = (λ t, (t.1.2, t.2)) <$> r_trials R →
  trial_fits L !! k = Some (a, o) →
  ∃ E, r_trials R !! k = Some (E, a, o).
Proof.
  intros -> Hk. rewrite list_lookup_fmap in Hk.
  destruct (r_trials R !! k) as [[[E a'] o']|]; [|done].
  injection Hk as -> ->. by exists E.
Qed.

(** C2: in every trial the fit is called on the best estimates of the
    completed best-estimate fit ([xplus], [y] of its output) plus the trial's
    error matrix: the variables plus columns 1 to 5, the response plus column 0
    (response) plus column 6 (K) - as arrays, and entry by entry when the
    arrays have the shapes of the data model. *)
Theorem trial_data_is_best_estimate_plus_error (notime : bool) (notr : nat)
    (w w' : World G) :
  run imp notime notr w = (Ok (), w') →
  let L := log (run imp notime notr) w in
  ∃ a0 podr,
    L !! 0 = Some (EvOdrP a0 podr)
    ∧ best_fits L = [(a0, podr)]
    ∧ podr = odrP imp a0
    ∧ length (trial_fits L) = notr
    ∧ ∀ k a o, trial_fits L !! k = Some (a, o) →
        ∃ ga E,
          error_draws L !! k = Some (ga, E)
          ∧ perturbed (xplus podr) (y podr) E (m_X a) (m_Y a)
          ∧ ∀ n, shaped (xplus podr) (y podr) E n →
                 entrywise_sum (xplus podr) (y podr) E (m_X a) (m_Y a) n.
Proof.
  intros Hrun L. destruct (run_completed _ _ _ _ Hrun) as [R HR].
  destruct (completed_events _ _ _ _ _ Hrun HR) as (Hbest & Hfits & Hdraws & Hsaved).
  pose proof (completed_log _ _ _ _ _ Hrun HR) as HL. fold L in Hbest, Hfits, Hdraws, HL.
  destruct HR as (_ & Hcall & _ & _ & _ & _ & _ & Hlen & Hcalls & _).
  exists (r_call R), (f_podr (r_fit R)). split_and!.
  - by rewrite HL.
  - done.
  - by destruct Hcall as [-> _].
  - by rewrite Hfits, length_fmap.
  - intros k a o Hk. destruct (trial_fits_lookup R L k a o Hfits Hk) as [E Ht].
    exists (r_genErr_args R), E. split.
    { rewrite Hdraws, list_lookup_fmap, Ht. done. }
    pose proof (Forall_lookup_1 _ _ _ _ Hcalls Ht) as (_ & Hpert & _).
    split; [done|]. intros n Hshape. by apply perturbed_entries.
Qed.

(** C5: a run makes one best-estimate fit and then one trial fit per trial,
    [notr] of them, in the order of the trials; every trial fit is the
    solver's answer to a call that starts from the coefficients of the
    best-estimate fit and is given the coefficient fix-mask, the variable
    fix-mask and the systematic uncertainties that the best-estimate fit was
    given (none of them on the path without time dependence), with the same
    random uncertainties and the same sensor series. *)
Theorem trial_fit_reuses_best_estimate_settings (notime : bool) (notr : nat)
    (w w' : World G) :
  run imp notime notr w = (Ok (), w') →
  let L := log (run imp notime notr) w in
  ∃ a0 podr,
    L !! 0 = Some (EvOdrP a0 podr)
    ∧ best_fits L = [(a0, podr)]
    ∧ podr = odrP imp a0
    ∧ length (trial_fits L) = notr
    ∧ (∀ k, k < notr → ∃ a o, trial_fits L !! k = Some (a, o))
    ∧ ∀ k a o, trial_fits L !! k = Some (a, o) →
        o = odr4MC imp a
        ∧ m_b0 a = beta podr
        ∧ m_fixb a = p_fixb a0 ∧ m_fixx a = p_fixx a0 ∧ m_Hs a = p_Hs a0
        ∧ m_Hr a = p_Hr a0 ∧ m_series a = p_series a0.
Proof.
  intros Hrun L. destruct (run_completed _ _ _ _ Hrun) as [R HR].
  destruct (completed_events _ _ _ _ _ Hrun HR) as (Hbest & Hfits & _ & _).
  pose proof (completed_log _ _ _ _ _ Hrun HR) as HL. fold L in Hbest, Hfits, HL.
  destruct HR as (_ & Hcall & _ & _ & _ & _ & _ & Hlen & Hcalls & _).
  destruct Hcall as (Hpodr & _ & HHr & _ & Hser & Hfb & Hfx & Hbranch).
  assert (length (trial_fits L) = notr) as HlenL by (by rewrite Hfits, length_fmap).
  exists (r_call R), (f_podr (r_fit R)).
  split; [by rewrite HL|]. split; [done|]. split; [done|]. split; [done|].
  split.
  { intros k Hk. destruct (lookup_lt_is_Some_2 (trial_fits L) k) as [[a o] Hao]; [lia|].
    by exists a, o. }
  intros k a o Hk. destruct (trial_fits_lookup R L k a o Hfits Hk) as [E Ht].
  pose proof (Forall_lookup_1 _ _ _ _ Hcalls Ht)
    as (Hout & _ & HmHr & Hb0 & Hms & Hmfb & Hmfx & HmHs). cbn in *.
  rewrite Hb0, HmHr, Hms, Hmfb, Hmfx, HmHs, HHr, Hser, Hfb, Hfx.
  split; [done|].
  destruct notime.
  - destruct Hbranch as (_ & _ & _ & -> & -> & -> & _). done.
  - destruct Hbranch as (_ & _ & _ & -> & _). done.
Qed.

Lemma fit_to_exact (n : nat) (v c : vec) : fit_to n v = Ok c → length v = n → c = v.
Proof. unfold fit_to. intros H Hl. rewrite decide_True in H by done. congruence. Qed.

(** C3: whatever status the solver reports for a trial, the row of the saved
    table with the trial's number holds the trial's coefficients followed by
    its status code; the table has as many rows as there were trial fits. *)
Theorem every_trial_is_recorded (notime : bool) (notr : nat) (w w' : World G) :
  run imp notime notr w = (Ok (), w') →
  let L := log (run imp notime notr) w in
  ∃ a0 podr fn table,
    best_fits L = [(a0, podr)]
    ∧ saved L = [(fn, table, ",")]
    ∧ length table = length (trial_fits L)
    ∧ ∀ k a o, trial_fits L !! k = Some (a, o) →
        ∃ coefs,
          fit_to (length (p_beta a0)) (beta o) = Ok coefs
          ∧ table !! k = Some (coefs ++ [of_int (info o)])
          ∧ (length (beta o) = length (p_beta a0) → coefs = beta o).
Proof.
  intros Hrun L. destruct (run_completed _ _ _ _ Hrun) as [R HR].
  destruct (completed_events _ _ _ _ _ Hrun HR) as (Hbest & Hfits & _ & Hsaved).
  fold L in Hbest, Hfits, Hsaved.
  destruct HR as (_ & Hcall & _ & _ & _ & _ & _ & Hlen & _ & _ & Hrows & _ & Hrow & _).
  destruct Hcall as (_ & _ & _ & Hb & _).
  eexists _, _, _, _. split_and!; [done | done | by rewrite Hfits, length_fmap, Hlen |].
  intros k a o Hk. destruct (trial_fits_lookup R L k a o Hfits Hk) as [E Ht].
  destruct (Hrow k _ Ht) as (coefs & Hc & Hr). cbn in Hc, Hr.
  exists coefs. rewrite Hb. split_and!; [done..|]. by apply fit_to_exact.
Qed.

Lemma set_column_Ok (a a' : mat) (j : nat) (x : num) :
  set_column a j x = Ok a' →
  length a' = length a
  ∧ ∀ i row, a' !! i = Some row →
      row !! j = Some x ∧ ∃ row0, a !! i = Some row0 ∧ row = <[j:=x]> row0.
Proof.
  intros H. split; [by eapply mapM_Ok_length|].
  apply mapM_Ok in H. intros i row Hi.
  destruct (Forall2_lookup_r _ _ _ _ _ H Hi) as (row0 & H0 & Hset).
  unfold setitem in Hset. case_decide; [|done]. injection Hset as <-.
  split; [by apply list_lookup_insert_eq | by exists row0].
Qed.

Section PlaceholderFacts.

(** [x == 0] on a number, and the columns of the systematic uncertainties
    that the regression needs nonzero. *)
Variable is_zero : num → bool.
Variable needed : nat → Prop.

(** C7: the first thing a run logs is the best-estimate fit, there is a trial
    fit and an error draw for each of the [notr] trials, and what all of them
    are given has been changed before the first fit.  Without time dependence
    the orbit-temperature column (5) of the random uncertainties has been set
    to 1 in every row, whatever the file declares there, the other columns
    being left as read: no entry of that column that reaches a fit or the
    generator is zero.  With time dependence the systematic uncertainties are
    the ones [resetHs] returned for those of the file; [resetHs] is not among
    the sources, and when it does what the specification asks of it no entry
    of a needed column that reaches a fit is zero, nor is a systematic
    magnitude that the generator is given from a needed column. *)
Theorem uncertainties_are_replaced_before_any_fit (notime : bool) (notr : nat)
    (w w' : World G) :
  is_zero one = false →
  resetHs_contract imp is_zero needed →
  run imp notime notr w = (Ok (), w') →
  let L := log (run imp notime notr) w in
  ∃ d a0 podr,
    L !! 0 = Some (EvOdrP a0 podr)
    ∧ best_fits L = [(a0, podr)]
    ∧ length (trial_fits L) = notr
    ∧ length (error_draws L) = notr
    ∧ (∀ k a o, trial_fits L !! k = Some (a, o) → m_Hr a = p_Hr a0 ∧ m_Hs a = p_Hs a0)
    ∧ (∀ k ga E, error_draws L !! k = Some (ga, E) → g_Hr ga = p_Hr a0)
    ∧ if notime then
        rHDpair imp (pjoin imp datadir "newSim_notime") "m02_n15.nc" = Ok d
        ∧ set_column (Hr d) 5 one = Ok (p_Hr a0)
        ∧ length (p_Hr a0) = length (Hr d)
        ∧ (∀ i, i < length (Hr d) → cell (p_Hr a0) i 5 = Some one)
        ∧ (∀ i row, p_Hr a0 !! i = Some row →
             ∃ row0, Hr d !! i = Some row0 ∧ row = <[5 := one]> row0)
        ∧ (∀ i x, cell (p_Hr a0) i 5 = Some x → is_zero x = false)
      else
        rHDpair imp datadir "m02_n15.nc" = Ok d
        ∧ p_Hs a0 = Some (resetHs imp (Hs d) (rsp d))
        ∧ (∀ i j x, needed j → cell (resetHs imp (Hs d) (rsp d)) i j = Some x →
             is_zero x = false)
        ∧ ∀ k ga E, error_draws L !! k = Some (ga, E) →
            getitem2 (resetHs imp (Hs d) (rsp d)) 0 4 = Ok (g_sLict ga)
            ∧ getitem2 (resetHs imp (Hs d) (rsp d)) 0 5 = Ok (g_sTo ga)
            ∧ (needed 4 → is_zero (g_sLict ga) = false)
            ∧ (needed 5 → is_zero (g_sTo ga) = false).
Proof.
  intros Hone Hreset Hrun L. destruct (run_completed _ _ _ _ Hrun) as [R HR].
  destruct (completed_events _ _ _ _ _ Hrun HR) as (Hbest & Hfits & Hdraws & _).
  pose proof (completed_log _ _ _ _ _ Hrun HR) as HL. fold L in Hbest, Hfits, Hdraws, HL.
  destruct HR as (_ & Hcall & HsL & HsT & _ & _ & _ & Hlen & Hcalls & _).
  destruct Hcall as (_ & _ & HHr & _ & _ & _ & _ & Hbranch).
  assert (∀ k ga E, error_draws L !! k = Some (ga, E) → ga = r_genErr_args R) as Hga.
  { intros k ga E Hk. rewrite Hdraws, list_lookup_fmap in Hk.
    destruct (r_trials R !! k); [|done]. by injection Hk as <- _. }
  assert (∀ (a : mat) i j x, getitem2 a i j = Ok x → cell a i j = Some x) as Hcell.
  { intros a i j x. unfold getitem2, getitem, cell.
    destruct (a !! i) as [r|]; cbn; [|done]. by destruct (r !! j); intros [= ->]. }
  exists (f_data (r_fit R)), (r_call R), (f_podr (r_fit R)). split_and!.
  - by rewrite HL.
  - done.
  - by rewrite Hfits, length_fmap.
  - by rewrite Hdraws, length_fmap.
  - intros k a o Hk. destruct (trial_fits_lookup R L k a o Hfits Hk) as [E Ht].
    pose proof (Forall_lookup_1 _ _ _ _ Hcalls Ht) as (_ & _ & HmHr & _ & _ & _ & _ & HmHs).
    cbn in *. rewrite HmHr, HmHs, HHr. split; [done|]. destruct notime.
    + by destruct Hbranch as (_ & _ & _ & -> & _).
    + by destruct Hbranch as (_ & _ & _ & -> & _).
  - intros k ga E Hk. rewrite (Hga _ _ _ Hk). done.
  - destruct notime.
    + destruct Hbranch as (Hread & Hset & _). rewrite HHr.
      pose proof (set_column_Ok _ _ _ _ Hset) as [Hl Hrows].
      assert (∀ i, i < length (Hr (f_data (r_fit R))) →
                cell (f_Hr (r_fit R)) i 5 = Some one) as Hones.
      { intros i Hi.
        destruct (lookup_lt_is_Some_2 (f_Hr (r_fit R)) i) as [row Hrow]; [lia|].
        unfold cell. rewrite Hrow. cbn. by apply (Hrows i row). }
      split_and!; [done.. | |].
      * intros i row Hrow. by destruct (Hrows i row Hrow) as [_ ?].
      * intros i x Hx.
        assert (i < length (Hr (f_data (r_fit R)))) as Hi.
        { rewrite <- Hl. unfold cell in Hx.
          destruct (f_Hr (r_fit R) !! i) eqn:Hrow; [|done]. by eapply lookup_lt_Some. }
        rewrite (Hones i Hi) in Hx. by injection Hx as <-.
    + destruct Hbranch as (Hread & _ & HHs & HpHs & _). rewrite HpHs, HHs.
      split_and!; [done | done | by intros i j x; apply Hreset |].
      intros k ga E Hk. rewrite (Hga _ _ _ Hk). cbn. rewrite <- HHs.
      split_and!; [done | done | |].
      * intros Hn. apply Hcell in HsL. rewrite HHs in HsL. by eapply Hreset.
      * intros Hn. apply Hcell in HsT. rewrite HHs in HsT. by eapply Hreset.
Qed.

End PlaceholderFacts.
Lemma insert_last_replicate {A} (n : nat) (x y : A) :
  <[n:=x]> (replicate (S n) y) = replicate n y ++ [x].
Proof. induction n as [|n IH]; [done|]. cbn. f_equal. apply IH. Qed.

Lemma set_last_ones (n : nat) (l : list Z) :
  set_last (ones n 1%Z) 0%Z = Ok l → 0 < n ∧ l = replicate (n - 1) 1%Z ++ [0%Z].
Proof.
  unfold ones. destruct n as [|n]; [done|].
  change (replicate (S n) 1%Z) with (1%Z :: replicate n 1%Z) at 1.
  unfold set_last. change (1%Z :: replicate n 1%Z) with (replicate (S n) 1%Z).
  rewrite length_replicate. replace (S n - 1) with n by lia.
  rewrite insert_last_replicate. intros [= <-]. split; [lia | done].
Qed.

Lemma drawn_lookup (ga : genErr_args) (g g' : G) (trs : list (mat * odr4MC_args * Output))
    k t :
  drawn imp ga g trs g' → trs !! k = Some t → ∃ gk, t.1.1 = (genErr imp ga gk).1.
Proof.
  revert g k. induction trs as [|t0 trs IH]; intros g k Hd Hk; [done|].
  destruct Hd as [H0 Hd]. destruct k as [|k]; cbn in Hk.
  - injection Hk as <-. by exists g.
  - by eapply IH.
Qed.

(** C1 (as the script has it): with time dependence the two fix-masks are
    ones with a last entry 0, and every trial fit is given them; the error
    matrix of a trial is what the generator returns for arguments that do not
    include the masks, and the orbit-temperature entries of the trial data
    (variable 4, the one the mask fixes) are the best estimates plus column 5
    of that matrix, like those of every other variable.  If the regression
    returns the coefficients of the given length and returns a coefficient
    that the mask fixes as it was passed in, the column of the saved table
    for a fixed coefficient holds the best-estimate value in every row. *)
Theorem fixed_variable_gets_the_generated_error (notr : nat) (w w' : World G) :
  run imp false notr w = (Ok (), w') →
  let L := log (run imp false notr) w in
  let series := avhrr imp datadir filelist in
  ∃ a0 podr fn table,
    best_fits L = [(a0, podr)]
    ∧ saved L = [(fn, table, ",")]
    ∧ 0 < nocoefs series ∧ 0 < novars series
    ∧ p_fixb a0 = Some (replicate (nocoefs series - 1) 1%Z ++ [0%Z])
    ∧ p_fixx a0 = Some (replicate (novars series - 1) 1%Z ++ [0%Z])
    ∧ (∀ k a o, trial_fits L !! k = Some (a, o) →
         m_fixb a = p_fixb a0 ∧ m_fixx a = p_fixx a0
         ∧ ∃ ga E g,
             error_draws L !! k = Some (ga, E)
             ∧ E = (genErr imp ga g).1
             ∧ ∀ n, shaped (xplus podr) (y podr) E n →
                 ∀ r, r < n →
                   ∃ x e, cell (xplus podr) 4 r = Some x ∧ cell E r 5 = Some e
                          ∧ cell (m_X a) r 4 = Some (add x e))
    ∧ ((∀ a, length (beta (odr4MC imp a)) = length (m_b0 a)) →
       (∀ a fixb i, m_fixb a = Some fixb → fixb !! i = Some 0%Z →
                    beta (odr4MC imp a) !! i = m_b0 a !! i) →
       length (beta podr) = length (p_beta a0) →
       ∀ k row i b,
         table !! k = Some row →
         (replicate (nocoefs series - 1) 1%Z ++ [0%Z]) !! i = Some 0%Z →
         beta podr !! i = Some b →
         row !! i = Some b).
Proof.
  intros Hrun L series. destruct (run_completed _ _ _ _ Hrun) as [R HR].
  destruct (completed_events _ _ _ _ _ Hrun HR) as (Hbest & Hfits & Hdraws & Hsaved).
  fold L in Hbest, Hfits, Hdraws, Hsaved.
  destruct HR as (_ & Hcall & _ & _ & _ & _ & _ & Hlen & Hcalls & Hdrawn & Hrows & _ & Hrow & _).
  destruct Hcall as (Hpodr & _ & _ & Hb & _ & Hfb & Hfx & Hbranch).
  destruct Hbranch as (_ & _ & _ & _ & (fixb & Hsb & Hfb') & (fixx & Hsx & Hfx') & _).
  apply set_last_ones in Hsb as [Hp ->]. apply set_last_ones in Hsx as [Hm ->].
  unfold r_series in Hp, Hm, Hfb', Hfx'. fold series in Hp, Hm, Hfb', Hfx'.
  exists (r_call R), (f_podr (r_fit R)). eexists _, (r_table R).
  split_and!; [done | done | done | done | congruence | congruence | |].
  - intros k a o Hk. destruct (trial_fits_lookup R L k a o Hfits Hk) as [E Ht].
    pose proof (Forall_lookup_1 _ _ _ _ Hcalls Ht)
      as (_ & Hpert & _ & _ & _ & Hmfb & Hmfx & _). cbn in *.
    split_and!; [congruence..|].
    destruct (drawn_lookup _ _ _ _ _ _ Hdrawn Ht) as [g Hg]. cbn in Hg.
    exists (r_genErr_args R), E, g. split_and!.
    + rewrite Hdraws, list_lookup_fmap, Ht. done.
    + done.
    + intros n Hshape r Hr.
      destruct (perturbed_entries _ _ _ _ _ _ Hpert Hshape) as [HX _].
      apply (HX r 4); lia.
  - intros Hlen_solver Hfixed Hlen_best k row i b Hk Hi Hbi.
    destruct (lookup_lt_is_Some_2 (r_trials R) k) as [[[E a] o] Ht].
    { rewrite Hlen, <- Hrows. by eapply lookup_lt_Some. }
    destruct (Hrow k _ Ht) as (coefs & Hc & Hr). cbn in Hc, Hr.
    pose proof (Forall_lookup_1 _ _ _ _ Hcalls Ht)
      as (Ho & _ & _ & Hb0 & _ & Hmfb & _). cbn in *.
    assert (length (beta o) = length (r_beta0 imp R)) as Hlo.
    { rewrite Ho, Hlen_solver, Hb0, Hlen_best, Hb. done. }
    rewrite (fit_to_exact _ _ _ Hc Hlo) in Hr.
    assert (row = beta o ++ [of_int (info o)]) as -> by congruence.
    assert (beta o !! i = Some b) as Hoi.
    { rewrite Ho, (Hfixed a (replicate (nocoefs series - 1) 1%Z ++ [0%Z]) i).
      - by rewrite Hb0.
      - by rewrite Hmfb, Hfb'.
      - done. }
    by apply lookup_app_l_Some.
Qed.

(** *** Runs from the same generator state *)

Lemma agree_bind {A B} (R : A → A → Prop) (R' : B → B → Prop)
    (m1 m2 : M (World G) A) (f1 f2 : A → M (World G) B) :
  agree R m1 m2 →
  (∀ a1 a2, R a1 a2 → agree R' (f1 a1) (f2 a2)) →
  agree R' (m1 ≫= f1) (m2 ≫= f2).
Proof.
  intros Hm Hf w1 w2 Hg. destruct (Hm w1 w2 Hg) as (evs & Ht1 & Ht2 & Hg' & Hres).
  unfold mbind, M_bind.
  destruct (m1 w1) as [[a1|e1] w1'], (m2 w2) as [[a2|e2] w2']; cbn in *; try done.
  - destruct (Hf a1 a2 Hres w1' w2' Hg') as (evs' & Ht1' & Ht2' & Hg'' & Hres').
    exists (evs ++ evs'). rewrite Ht1', Ht2', Ht1, Ht2, !app_assoc. done.
  - exists evs. done.
Qed.

Lemma agree_same_bind {A B} (R' : B → B → Prop) (m : M (World G) A)
    (f1 f2 : A → M (World G) B) :
  agree eq m m → (∀ a, agree R' (f1 a) (f2 a)) → agree R' (m ≫= f1) (m ≫= f2).
Proof. intros Hm Hf. eapply agree_bind; [done|]. by intros a ? <-. Qed.

Lemma agree_ret {A} (R : A → A → Prop) (a1 a2 : A) :
  R a1 a2 → agree R (mret a1 : M (World G) A) (mret a2).
Proof. intros HR w1 w2 Hg. exists []. cbn. by rewrite !app_nil_r. Qed.

Lemma agree_lift {A} (r : result A) : agree eq (lift r : M (World G) A) (lift r).
Proof. intros w1 w2 Hg. exists []. cbn. rewrite !app_nil_r. by destruct r. Qed.

Lemma agree_raise {A} (R : A → A → Prop) (e : exn) :
  agree R (raise e : M (World G) A) (raise e).
Proof. intros w1 w2 Hg. exists []. cbn. by rewrite !app_nil_r. Qed.

Lemma agree_emit (e : event) : agree eq (emit e : M (World G) ()) (emit e).
Proof. intros w1 w2 Hg. exists [e]. done. Qed.

Lemma agree_call_odrP (a : odrP_args) : agree eq (call_odrP imp a) (call_odrP imp a).
Proof. intros w1 w2 Hg. exists [EvOdrP a (odrP imp a)]. done. Qed.

Lemma agree_call_odr4MC (a : odr4MC_args) :
  agree eq (call_odr4MC imp a) (call_odr4MC imp a).
Proof. intros w1 w2 Hg. exists [EvOdr4MC a (odr4MC imp a)]. done. Qed.

Lemma agree_call_genErr (a : genErr_args) :
  agree eq (call_genErr imp a) (call_genErr imp a).
Proof.
  intros w1 w2 Hg. unfold call_genErr. rewrite Hg.
  destruct (genErr imp a (rng w2)) as [E g]. exists [EvGenErr a E]. done.
Qed.

Lemma agree_empty (r c : nat) :
  agree (λ a1 a2, length a1 = r ∧ length a2 = r
                  ∧ Forall (λ row, length row = c) a1 ∧ Forall (λ row, length row = c) a2)
        (empty r c : M (World G) mat) (empty r c).
Proof.
  intros w1 w2 Hg. exists [].
  destruct (empty_shape r c w1) as (a1 & -> & Hl1 & Hs1).
  destruct (empty_shape r c w2) as (a2 & -> & Hl2 & Hs2).
  cbn. by rewrite !app_nil_r.
Qed.

Lemma agree_best_estimate (notime : bool) (series : Series) (p m : nat)
    (ncfile s2 : string) (beta0 : vec) :
  agree eq (best_estimate imp notime series p m ncfile s2 beta0)
           (best_estimate imp notime series p m ncfile s2 beta0).
Proof.
  unfold best_estimate. destruct notime.
  - apply agree_same_bind; [apply agree_lift|]. intros d.
    apply agree_same_bind; [apply agree_lift|]. intros Hr'.
    apply agree_same_bind; [apply agree_call_odrP|]. intros podr.
    by apply agree_ret.
  - apply agree_same_bind; [apply agree_lift|]. intros d.
    apply agree_same_bind; [apply agree_lift|]. intros fixb.
    apply agree_same_bind; [apply agree_lift|]. intros fixx.
    apply agree_same_bind; [apply agree_call_odrP|]. intros podr.
    by apply agree_ret.
Qed.

(** The two stores of a trial into the table, in one step. *)
Lemma store_row (mcb : mat) (i p : nat) (v : vec) (x : num) :
  Forall (λ r, length r = p + 1) mcb →
  (m ← set_row_slice mcb i 0 p v; setitem2 m i p x) =
  if decide (i < length mcb)
  then c ← fit_to p v; Ok (<[i := c ++ [x]]> mcb)
  else Raise IndexError.
Proof.
  intros Hshape. unfold set_row_slice, getitem. case_decide as Hi.
  - destruct (lookup_lt_is_Some_2 mcb i Hi) as [row Hrow]. rewrite Hrow. cbn.
    assert (length row = p + 1) as Hlen by (eapply (Forall_lookup_1 _ _ _ _ Hshape Hrow)).
    rewrite Nat.sub_0_r, drop_0, length_take, Hlen.
    replace (p `min` (p + 1)) with p by lia.
    destruct (fit_to p v) as [c|e] eqn:Hc; [|done]. cbn.
    pose proof (fit_to_length _ _ _ Hc) as Hlc.
    unfold setitem2, getitem. rewrite list_lookup_insert_eq by done. cbn.
    unfold setitem. rewrite decide_True.
    2:{ rewrite !length_app, length_drop. lia. }
    cbn. rewrite list_insert_insert_eq. do 2 f_equal.
    rewrite take_0, app_nil_l. rewrite insert_app_r_alt by lia. f_equal.
    replace (p - length c) with 0 by lia.
    destruct (drop p row) as [|y [|??]] eqn:Hd; cbn.
    + apply (f_equal length) in Hd. rewrite length_drop in Hd. cbn in Hd. lia.
    + done.
    + apply (f_equal length) in Hd. rewrite length_drop in Hd. cbn in Hd. lia.
  - rewrite lookup_ge_None_2 by lia. done.
Qed.

Lemma store_run (p i : nat) (st : mat * option Output) (o : Output) (w : World G) :
  Forall (λ r, length r = p + 1) st.1 →
  (mcb ← lift (set_row_slice st.1 i 0 p (beta o));
   mcb ← lift (setitem2 mcb i p (of_int (info o)));
   mret (mcb, Some o)) w =
  (if decide (i < length st.1)
   then c ← fit_to p (beta o); Ok (<[i := c ++ [of_int (info o)]]> st.1, Some o)
   else Raise IndexError, w).
Proof.
  intros Hshape.
  pose proof (store_row st.1 i p (beta o) (of_int (info o)) Hshape) as H.
  unfold mbind at 1, M_bind at 1, lift at 1.
  destruct (set_row_slice st.1 i 0 p (beta o)) as [m|e]; cbn in H.
  - unfold mbind at 1, M_bind at 1, lift at 1. rewrite H.
    case_decide; [|done]. by destruct (fit_to p (beta o)).
  - case_decide; [destruct (fit_to p (beta o)); cbn in *|]; congruence.
Qed.

Lemma agree_store (p n i : nat) (st1 st2 : mat * option Output) (o : Output) :
  same_so_far p n i st1 st2 →
  agree (G:=G) (same_so_far p n (S i))
    (mcb ← lift (set_row_slice st1.1 i 0 p (beta o));
     mcb ← lift (setitem2 mcb i p (of_int (info o)));
     mret (mcb, Some o))
    (mcb ← lift (set_row_slice st2.1 i 0 p (beta o));
     mcb ← lift (setitem2 mcb i p (of_int (info o)));
     mret (mcb, Some o)).
Proof.
  intros (Hlast & Hl1 & Hl2 & Hs1 & Hs2 & Htake) w1 w2 Hg. exists [].
  rewrite !store_run by done. rewrite Hl1, Hl2. cbn [fst snd]. rewrite !app_nil_r.
  split_and!; [done..|].
  case_decide as Hi; [|done].
  destruct (fit_to p (beta o)) as [c|e] eqn:Hc; [|done]. cbn.
  pose proof (fit_to_length _ _ _ Hc) as Hlc.
  split_and!; cbn [fst snd].
  - done.
  - by rewrite length_insert.
  - by rewrite length_insert.
  - apply Forall_insert; [done|]. rewrite length_app. cbn. lia.
  - apply Forall_insert; [done|]. rewrite length_app. cbn. lia.
  - rewrite (take_S_r _ i (c ++ [of_int (info o)])), (take_S_r _ i (c ++ [of_int (info o)])).
    + rewrite !take_insert_ge by lia. by rewrite Htake.
    + apply list_lookup_insert_eq. lia.
    + apply list_lookup_insert_eq. lia.
Qed.

Lemma agree_trial (notime : bool) (series : Series) (p n : nat) (f : Fit) (X : mat)
    (Y bodr : vec) (ga : genErr_args) (i : nat) (st1 st2 : mat * option Output) :
  same_so_far p n i st1 st2 →
  agree (same_so_far p n (S i))
    (trial imp notime series p f X Y bodr ga i st1)
    (trial imp notime series p f X Y bodr ga i st2).
Proof.
  intros Hst. unfold trial. cbv zeta.
  apply agree_same_bind; [apply agree_call_genErr|]. intros errStr.
  apply agree_same_bind; [apply agree_lift|]. intros Xdt.
  apply agree_same_bind; [apply agree_lift|]. intros e0.
  apply agree_same_bind; [apply agree_lift|]. intros Ye.
  apply agree_same_bind; [apply agree_lift|]. intros e6.
  apply agree_same_bind; [apply agree_lift|]. intros Ydt.
  apply agree_same_bind; [destruct notime; apply agree_call_odr4MC|]. intros mcodr.
  by apply agree_store.
Qed.

Lemma agree_loop (notime : bool) (series : Series) (p n : nat) (f : Fit) (X : mat)
    (Y bodr : vec) (ga : genErr_args) (m k : nat) (st1 st2 : mat * option Output) :
  same_so_far p n k st1 st2 →
  agree (same_so_far p n (k + m))
    (for_each (seq k m) (trial imp notime series p f X Y bodr ga) st1)
    (for_each (seq k m) (trial imp notime series p f X Y bodr ga) st2).
Proof.
  revert k st1 st2. induction m as [|m IH]; intros k st1 st2 Hst.
  - rewrite Nat.add_0_r. by apply agree_ret.
  - cbn [seq for_each]. eapply agree_bind; [by apply agree_trial|].
    intros st1' st2' Hst'. replace (k + S m) with (S k + m) by lia. by apply IH.
Qed.

Lemma agree_run (notime : bool) (notr : nat) :
  agree eq (run imp notime notr) (run imp notime notr).
Proof.
  unfold run.
  apply agree_same_bind; [apply agree_lift|]. intros ncfile.
  apply agree_same_bind; [apply agree_lift|]. intros c.
  apply agree_same_bind; [apply agree_best_estimate|]. intros f.
  apply agree_same_bind; [apply agree_lift|]. intros x.
  apply agree_same_bind; [apply agree_lift|]. intros sLict.
  apply agree_same_bind; [apply agree_lift|]. intros sTo.
  destruct (unique (corIdx (f_data f))) as [[slt midx] mcnt].
  apply agree_same_bind; [apply agree_lift|]. intros rCSar.
  apply agree_same_bind; [apply agree_lift|]. intros rCICTar.
  eapply agree_bind; [apply agree_empty|].
  intros mcb1 mcb2 (Hl1 & Hl2 & Hs1 & Hs2).
  eapply agree_bind.
  { apply (agree_loop _ _ _ notr _ _ _ _ _ notr 0 (mcb1, None) (mcb2, None)).
    by split_and!. }
  intros st1 st2 (Hlast & Hl1' & Hl2' & _ & _ & Htake). cbn in Htake.
  rewrite !take_ge in Htake by lia. rewrite Hlast, Htake.
  apply agree_same_bind.
  { unfold global. destruct st2.2; [by apply agree_ret | apply agree_raise]. }
  intros _. apply agree_emit.
Qed.

(** C8: two runs of the script that start from the same state of the random
    generator (the same seed), with the same imported modules and files,
    end the same way, log the same calls and save identical tables - whatever
    the memory that [empty] hands out holds and whatever was logged before. *)
Theorem same_seed_same_table (notime : bool) (notr : nat) (w1 w2 : World G) :
  rng w1 = rng w2 →
  (run imp notime notr w1).1 = (run imp notime notr w2).1
  ∧ log (run imp notime notr) w1 = log (run imp notime notr) w2
  ∧ saved (log (run imp notime notr) w1) = saved (log (run imp notime notr) w2)
  ∧ rng (run imp notime notr w1).2 = rng (run imp notime notr w2).2.
Proof.
  intros Hg. destruct (agree_run notime notr w1 w2 Hg) as (evs & Ht1 & Ht2 & Hg' & Hres).
  assert (log (run imp notime notr) w1 = log (run imp notime notr) w2) as Hlog.
  { unfold log. by rewrite Ht1, Ht2, !drop_app_length. }
  split_and!; [|done|by rewrite Hlog|done].
  destruct (run imp notime notr w1).1, (run imp notime notr w2).1; try done; congruence.
Qed.

(** *** Runs that complete *)

Lemma mapM_is_Ok {A B} (f : A → result B) (l : list A) :
  Forall (λ x, ∃ y, f x = Ok y) l → ∃ k, mapM f l = Ok k.
Proof.
  induction 1 as [|x l [y Hy] _ [k Hk]]; [by exists []|].
  exists (y :: k). cbn. rewrite Hy. cbn. rewrite Hk. done.
Qed.

Lemma column_is_Ok (a : mat) (j : nat) :
  Forall (λ r, j < length r) a → ∃ v, column a j = Ok v.
Proof.
  intros H. apply mapM_is_Ok. eapply Forall_impl; [exact H|]. intros r Hr. cbn in Hr.
  destruct (lookup_lt_is_Some_2 r j Hr) as [x Hx]. exists x. unfold getitem. by rewrite Hx.
Qed.

Lemma set_column_is_Ok (a : mat) (j : nat) (x : num) :
  Forall (λ r, j < length r) a → ∃ a', set_column a j x = Ok a'.
Proof.
  intros H. apply mapM_is_Ok. eapply Forall_impl; [exact H|]. intros r Hr. cbn in Hr.
  eexists. unfold setitem. by rewrite decide_True.
Qed.

Lemma add1_is_Ok (a b : vec) : length a = length b → ∃ c, add1 a b = Ok c.
Proof.
  intros Hl. unfold add1, broadcast. rewrite decide_True by done.
  apply mapM_is_Ok, Forall_forall. intros [x y] _. by eexists.
Qed.

Lemma add2_is_Ok (a b : mat) (n : nat) :
  length a = length b →
  Forall (λ r, length r = n) a → Forall (λ r, length r = n) b →
  ∃ c, add2 a b = Ok c.
Proof.
  intros Hl Ha Hb. unfold add2, broadcast. rewrite decide_True by done.
  apply mapM_is_Ok, Forall_forall. intros [ra rb] Hin. cbn.
  apply elem_of_zip_l in Hin as Hra. apply elem_of_zip_r in Hin as Hrb. cbn in *.
  rewrite Forall_forall in Ha, Hb. apply add1_is_Ok.
  by rewrite (Ha ra Hra), (Hb rb Hrb).
Qed.

Lemma perturbed_is_Ok (X : mat) (Y : vec) (E : mat) (n : nat) :
  shaped X Y E n → ∃ Xdt Ydt, perturbed X Y E Xdt Ydt.
Proof.
  intros (HlX & HrX & HlY & HlE & HrE). unfold perturbed.
  assert (X ≠ []) as Hne by (by intros ->).
  destruct (transpose_shape X n HrX Hne) as [HlT HrT]. rewrite HlX in HrT.
  destruct (add2_is_Ok (transpose X) (columns E 1 6) 5) as [Xdt HXdt].
  - unfold columns. rewrite length_fmap. lia.
  - done.
  - unfold columns. apply Forall_fmap. eapply Forall_impl; [exact HrE|].
    intros r Hr. cbn in *. rewrite length_take, length_drop. lia.
  - destruct (column_is_Ok E 0) as [e0 He0].
    { eapply Forall_impl; [exact HrE|]. intros r Hr. cbn in *. lia. }
    destruct (column_is_Ok E 6) as [e6 He6].
    { eapply Forall_impl; [exact HrE|]. intros r Hr. cbn in *. lia. }
    pose proof (mapM_Ok_length _ _ _ He0) as Hl0.
    pose proof (mapM_Ok_length _ _ _ He6) as Hl6.
    destruct (add1_is_Ok Y e0) as [Ye HYe]; [lia|].
    assert (length Ye = length Y) as HlYe.
    { eapply (broadcast_length _ Y e0 Ye); [lia | exact HYe]. }
    destruct (add1_is_Ok Ye e6) as [Ydt HYdt]; [lia|].
    exists Xdt, Ydt. split; [done|]. by exists e0, Ye, e6.
Qed.

Lemma trial_completes (notime : bool) (series : Series) (p : nat) (f : Fit) (X : mat)
    (Y bodr : vec) (ga : genErr_args) (i : nat) (st : mat * option Output)
    (w : World G) (n : nat) :
  Forall (λ r, length r = p + 1) st.1 →
  i < length st.1 →
  shaped X Y (genErr imp ga (rng w)).1 n →
  (∀ a, m_b0 a = bodr → length (beta (odr4MC imp a)) = p) →
  ∃ st' w', trial imp notime series p f X Y bodr ga i st w = (Ok st', w').
Proof.
  intros Hshape Hi HE Hlen.
  destruct (perturbed_is_Ok _ _ _ _ HE) as (Xdt & Ydt & HX & e0 & Ye & e6 & He0 & HYe & He6 & HY).
  unfold trial. cbv zeta.
  destruct (genErr imp ga (rng w)) as [E g] eqn:Hgen. cbn [fst] in *.
  set (a := {| m_X := Xdt; m_Y := Ydt; m_Hr := f_Hr f; m_b0 := bodr; m_series := series;
               m_fixb := if notime then None else f_fixb f;
               m_fixx := if notime then None else f_fixx f;
               m_Hs := if notime then None else Some (f_Hs f) |}).
  pose proof (Hlen a eq_refl) as Hla.
  eexists _, _. apply bind_Ok. eexists E, _. split.
  { unfold call_genErr. rewrite Hgen. done. }
  apply bind_Ok. eexists Xdt, _. split; [by apply lift_Ok|].
  apply bind_Ok. eexists e0, _. split; [by apply lift_Ok|].
  apply bind_Ok. eexists Ye, _. split; [by apply lift_Ok|].
  apply bind_Ok. eexists e6, _. split; [by apply lift_Ok|].
  apply bind_Ok. eexists Ydt, _. split; [by apply lift_Ok|].
  apply bind_Ok.
  exists (odr4MC imp a),
    {| rng := g; uninit := uninit w;
       trace := (trace w ++ [EvGenErr ga E]) ++ [EvOdr4MC a (odr4MC imp a)] |}.
  split.
  { subst a. destruct notime; reflexivity. }
  rewrite (store_run p i st (odr4MC imp a)) by done.
  rewrite decide_True by done. rewrite <- Hla, fit_to_same. done.
Qed.

Lemma loop_completes (notime : bool) (series : Series) (p : nat) (f : Fit) (X : mat)
    (Y bodr : vec) (ga : genErr_args) (n m k : nat) (st : mat * option Output)
    (w : World G) :
  Forall (λ r, length r = p + 1) st.1 →
  k + m ≤ length st.1 →
  (∀ g, shaped X Y (genErr imp ga g).1 n) →
  (∀ a, m_b0 a = bodr → length (beta (odr4MC imp a)) = p) →
  ∃ st' w', for_each (seq k m) (trial imp notime series p f X Y bodr ga) st w = (Ok st', w').
Proof.
  intros Hshape Hk HE Hlen. revert k st w Hshape Hk.
  induction m as [|m IH]; intros k st w Hshape Hk.
  - by eexists _, _.
  - cbn [seq for_each].
    destruct (trial_completes notime series p f X Y bodr ga k st w n) as (st1 & w1 & Hstep);
      [done | lia | done | done |].
    pose proof Hstep as Hinv.
    apply trial_Ok in Hinv as (E & a & v' & _ & _ & _ & _ & _ & _ & _ & _ & _ & _ & _ & Hv & ->);
      [|done].
    pose proof (fit_to_length _ _ _ Hv) as Hlv.
    destruct (IH (S k) (<[k:=v' ++ [of_int (info (odr4MC imp a))]]> st.1, Some (odr4MC imp a)) w1)
      as (st' & w' & Hrest).
    + cbn. apply Forall_insert; [done|]. rewrite length_app. cbn. lia.
    + cbn. rewrite length_insert. lia.
    + exists st', w'. apply bind_Ok. eauto.
Qed.

Lemma set_last_is_Ok (n : nat) : 0 < n → ∃ l, set_last (ones n 1%Z) 0%Z = Ok l.
Proof. intros Hn. destruct n as [|n]; [lia|]. by eexists. Qed.

Lemma best_estimate_completes (notime : bool) (c : vec) (d : HDpair) (w : World G) :
  data_ok imp notime c d →
  ∃ f w' a0,
    best_estimate imp notime (r_series imp) (nocoefs (r_series imp)) (novars (r_series imp))
      "m02_n15.nc" "n15" (take (nocoefs (r_series imp)) c) w = (Ok f, w')
    ∧ rng w' = rng w
    ∧ f_data f = d
    ∧ length (f_Hr f) = length (Hr d)
    ∧ f_Hs f = (if notime then Hs d else resetHs imp (Hs d) (rsp d))
    ∧ f_podr f = odrP imp a0
    ∧ p_Hd a0 = Hd d
    ∧ p_beta a0 = take (nocoefs (r_series imp)) c.
Proof.
  intros (_ & Hread & Hbranch & _). unfold best_estimate. destruct notime.
  - destruct (set_column_is_Ok (Hr d) 5 one Hbranch) as [Hr' HHr'].
    pose proof (mapM_Ok_length _ _ _ HHr') as Hl.
    eexists _, _, _. split.
    { apply bind_Ok. eexists d, _. split; [by apply lift_Ok|].
      apply bind_Ok. eexists Hr', _. split; [by apply lift_Ok|].
      apply bind_Ok. eexists _, _. split; [reflexivity|]. reflexivity. }
    by split_and!.
  - destruct Hbranch as [Hp Hm].
    destruct (set_last_is_Ok _ Hp) as [fixb Hfb].
    destruct (set_last_is_Ok _ Hm) as [fixx Hfx].
    eexists _, _, _. split.
    { apply bind_Ok. eexists d, _. split; [by apply lift_Ok|].
      apply bind_Ok. eexists fixb, _. split; [by apply lift_Ok|].
      apply bind_Ok. eexists fixx, _. split; [by apply lift_Ok|].
      apply bind_Ok. eexists _, _. split; [reflexivity|]. reflexivity. }
    by split_and!.
Qed.

Lemma getitem2_is_Ok {A} (a : list (list A)) (row : list A) (i j : nat) :
  a !! i = Some row → j < length row → ∃ x, getitem2 a i j = Ok x.
Proof.
  intros Hrow Hj. destruct (lookup_lt_is_Some_2 row j Hj) as [x Hx].
  exists x. unfold getitem2, getitem. rewrite Hrow. cbn. by rewrite Hx.
Qed.

(** Under the contracts of the imported modules and on well-formed data the
    script runs through, for any positive number of trials. *)
Lemma run_completes (notime : bool) (notr : nat) (c : vec) (d : HDpair) (w : World G) :
  solver_contract imp → generator_contract imp → data_ok imp notime c d → 0 < notr →
  ∃ w', run imp notime notr w = (Ok (), w').
Proof.
  intros [HodrP Hodr4MC] Hgen Hdata Hpos.
  destruct (best_estimate_completes notime c d w Hdata)
    as (f & w1 & a0 & Hbest & _ & Hfd & HlHr & HHs & Hpodr & HpHd & Hpb).
  destruct Hdata as (Hc & _ & _ & [x HIm] & (row & Hrow & Hlrow) & [rCSar HCs]
                       & [rCICTar HCict] & HlHd & Hshape).
  rewrite <- HHs in Hrow. rewrite <- Hfd in HIm, HCs, HCict.
  destruct (getitem2_is_Ok (f_Hs f) row 0 4 Hrow) as [sLict HsL]; [lia|].
  destruct (getitem2_is_Ok (f_Hs f) row 0 5 Hrow) as [sTo HsT]; [lia|].
  destruct (Hshape a0 HpHd) as (HlX & HrX & HlY). rewrite <- Hpodr in HlX, HrX, HlY.
  set (p := length (take (nocoefs (r_series imp)) c)).
  destruct (empty_shape notr (p + 1) w1) as (mcb & Hemp & Hlmcb & Hsmcb).
  destruct (unique (corIdx (f_data f))) as [[slt midx] mcnt] eqn:Hun.
  cbn in HCs, HCict.
  set (ga := {| g_Hr := f_Hr f; g_sLict := sLict; g_sTo := sTo; g_rCSar := rCSar;
                g_rCICTar := rCICTar; g_slt := slt; g_corLen := corLen (f_data f);
                g_mcnt := mcnt |}).
  destruct (loop_completes notime (r_series imp) p f (xplus (f_podr f)) (y (f_podr f))
              (beta (f_podr f)) ga (length (Hd d)) notr 0 (mcb, None) w1)
    as (st & w2 & Hloop).
  { done. }
  { cbn. lia. }
  { intros g. destruct (Hgen ga g) as [HlE HrE]. unfold shaped.
    split_and!; try done. cbn in HlE. lia. }
  { intros a Ha. rewrite Hodr4MC, Ha, Hpodr, HodrP, Hpb. done. }
  pose proof Hloop as Hinv.
  apply loop_Ok in Hinv as (trs & Hlen & _ & _ & _ & _ & _ & _ & _ & _ & _ & Hlast); [|done].
  assert (∃ o, st.2 = Some o) as [o Ho].
  { rewrite Hlast. destruct (last trs) as [t|] eqn:Hl; [by eexists|].
    apply last_None in Hl. subst trs. cbn in Hlen. lia. }
  eexists. unfold run. unfold r_series in *.
  apply bind_Ok. eexists "m02_n15.nc", _. split; [by apply lift_Ok|].
  change (String.substring 4 3 "m02_n15.nc") with "n15".
  apply bind_Ok. eexists c, _. split.
  { apply lift_Ok. split; [|done]. unfold dict_get. by rewrite Hc. }
  apply bind_Ok. eexists f, w1. split; [exact Hbest|].
  apply bind_Ok. eexists x, _. split; [by apply lift_Ok|].
  apply bind_Ok. eexists sLict, _. split; [by apply lift_Ok|].
  apply bind_Ok. eexists sTo, _. split; [by apply lift_Ok|].
  rewrite Hun.
  apply bind_Ok. eexists rCSar, _. split; [by apply lift_Ok|].
  apply bind_Ok. eexists rCICTar, _. split; [by apply lift_Ok|].
  apply bind_Ok. eexists mcb, _. split; [exact Hemp|].
  apply bind_Ok. eexists st, w2. split.
  { exact Hloop. }
  apply bind_Ok. eexists o, _. split.
  { rewrite Ho. reflexivity. }
  reflexivity.
Qed.

(** C4: under the contracts of the imported modules and on well-formed data,
    the script with N >= 1 trials runs through and writes exactly one file,
    comma-delimited: a table of N rows of p + 1 entries, p the number of
    coefficients the fit starts from; row k holds the p coefficients of trial k
    and then its status code. *)
Theorem one_table_is_saved (notime : bool) (notr : nat) (c : vec) (d : HDpair)
    (w : World G) :
  solver_contract imp → generator_contract imp → data_ok imp notime c d → 0 < notr →
  let L := log (run imp notime notr) w in
  let p := length (take (nocoefs (avhrr imp datadir filelist)) c) in
  ∃ w' table,
    run imp notime notr w = (Ok (), w')
    ∧ saved L = [(pjoin imp (pjoin imp datadir "Results")
                    (if notime then "n15_notd_mcerrst_beta.txt" else "n15_mcerrst_beta.txt"),
                  table, ",")]
    ∧ length (trial_fits L) = notr
    ∧ length table = notr
    ∧ Forall (λ row, length row = p + 1) table
    ∧ ∀ k row, table !! k = Some row →
        ∃ a o,
          trial_fits L !! k = Some (a, o)
          ∧ length (beta o) = p
          ∧ row = beta o ++ [of_int (info o)].
Proof.
  intros [HodrP Hodr4MC] Hgen Hdata Hpos L p.
  destruct (run_completes notime notr c d w (conj HodrP Hodr4MC) Hgen Hdata Hpos)
    as [w' Hrun].
  destruct (run_completed _ _ _ _ Hrun) as [R HR].
  destruct (completed_events _ _ _ _ _ Hrun HR) as (_ & Hfits & _ & Hsaved).
  fold L in Hfits, Hsaved.
  destruct HR as (Hc & Hcall & _ & _ & _ & _ & _ & Hlen & Hcalls & _ & Hrows & Hshape & Hrow & _).
  destruct Hcall as (Hpodr & _ & _ & Hbeta & _ & _ & _ & Hbranch).
  assert (r_beta0 imp R = take (nocoefs (avhrr imp datadir filelist)) c) as Hb0.
  { destruct Hdata as (Hc' & _). unfold r_beta0. unfold r_series in *.
    rewrite Hc in Hc'. by injection Hc' as ->. }
  rewrite Hb0 in Hshape, Hrow, Hbeta. fold p in Hshape, Hrow.
  exists w', (r_table R). split_and!.
  - done.
  - rewrite Hsaved. destruct notime.
    + by destruct Hbranch as (_ & _ & _ & _ & _ & _ & ->).
    + by destruct Hbranch as (_ & _ & _ & _ & _ & _ & ->).
  - by rewrite Hfits, length_fmap.
  - done.
  - done.
  - intros k row Hk.
    destruct (lookup_lt_is_Some_2 (r_trials R) k) as [[[E a] o] Ht].
    { rewrite Hlen, <- Hrows. by eapply lookup_lt_Some. }
    destruct (Hrow k _ Ht) as (coefs & Hcoefs & Hr). cbn in Hcoefs, Hr.
    pose proof (Forall_lookup_1 _ _ _ _ Hcalls Ht) as (Hout & _ & _ & Hstart & _).
    cbn in Hout, Hstart.
    assert (length (beta o) = p) as Hlo.
    { rewrite Hout, Hodr4MC, Hstart, Hpodr, HodrP, Hbeta. done. }
    exists a, o. split_and!.
    + rewrite Hfits, list_lookup_fmap, Ht. done.
    + done.
    + rewrite (fit_to_exact _ _ _ Hcoefs Hlo) in Hr. congruence.
Qed.

End DriverFacts.

(** ** The generator of the specification *)

Section GeneratorFacts.
Context {Num : Scalar} {G : Type}.
Import np Har MCerrst errStruct.
Variable normal : G → num * G.
Variable group_unc : vec → num.

Lemma expand_cons {A} (v : A) (vals : list A) (c : nat) (cnts : list nat) :
  expand (v :: vals) (c :: cnts) = replicate c v ++ expand vals cnts.
Proof. done. Qed.

Lemma draws_length (n : nat) (g : G) : length (draws normal n g).1 = n.
Proof.
  revert g. induction n as [|n IH]; intros g; [done|]. cbn.
  destruct (normal g) as [z g1]. specialize (IH g1).
  destruct (draws normal n g1) as [zs g2]. cbn in *. by rewrite IH.
Qed.

(** In a block expansion of distinct keys, the value at a position is the
    value of the block whose key is at that position. *)
Lemma expand_lookup_key {K V} (keys : list K) (vals : list V) (cnts : list nat)
    (r k : nat) (s : K) :
  NoDup keys → length vals = length keys →
  expand keys cnts !! r = Some s → keys !! k = Some s →
  expand vals cnts !! r = vals !! k.
Proof.
  revert vals cnts r k.
  induction keys as [|key keys IH]; intros vals cnts r k Hnd Hlen Hr Hk; [done|].
  destruct vals as [|v vals]; [done|]. destruct cnts as [|c cnts]; [done|].
  rewrite expand_cons in Hr. rewrite expand_cons.
  apply NoDup_cons in Hnd as [Hnotin Hnd]. cbn in Hlen.
  destruct (decide (r < c)) as [Hlt|Hge].
  - rewrite lookup_app_l in Hr by (by rewrite length_replicate).
    apply lookup_replicate in Hr as [-> _].
    destruct k as [|k].
    + rewrite lookup_app_l by (by rewrite length_replicate).
      by rewrite lookup_replicate_2.
    + cbn in Hk. apply list_elem_of_lookup_2 in Hk. done.
  - rewrite lookup_app_r in Hr by (rewrite length_replicate; lia).
    rewrite length_replicate in Hr.
    rewrite lookup_app_r by (rewrite length_replicate; lia).
    rewrite length_replicate.
    destruct k as [|k].
    + cbn in Hk. injection Hk as ->.
      assert (s ∈ keys); [|done].
      assert (s ∈ expand keys cnts) as Hin by (by eapply list_elem_of_lookup_2).
      clear -Hin. revert cnts Hin. induction keys as [|k' keys IH']; intros cnts Hin.
      * by destruct cnts.
      * destruct cnts as [|c' cnts]; [by apply elem_of_nil in Hin|].
        rewrite expand_cons in Hin. apply elem_of_app in Hin as [Hin|Hin].
        -- apply elem_of_replicate in Hin as [-> _]. by left.
        -- right. by eapply IH'.
    + cbn in Hk. cbn. eapply IH; eauto.
Qed.

Lemma sorted_merge_sort (l : list Z) : Sorted Z.le l → merge_sort Z.le l = l.
Proof.
  intros Hs. apply (Sorted_unique Z.le); [|done|apply merge_sort_Permutation].
  apply (Sorted_merge_sort Z.le).
Qed.

Lemma count_cons_ne (l : list Z) (x v : Z) : v ≠ x → count (x :: l) v = count l v.
Proof. intros Hne. unfold count. by rewrite filter_cons_False by congruence. Qed.

Lemma count_cons_eq (l : list Z) (x : Z) : count (x :: l) x = S (count l x).
Proof. unfold count. by rewrite filter_cons_True. Qed.

Lemma count_notin (l : list Z) (x : Z) : x ∉ l → count l x = 0.
Proof.
  intros Hx. unfold count. induction l as [|y l IH]; [done|].
  apply not_elem_of_cons in Hx as [Hne Hx].
  rewrite filter_cons_False by congruence. by apply IH.
Qed.

Lemma expand_ext {A} (vals : list A) (f g : A → nat) :
  Forall (λ v, f v = g v) vals → expand vals (f <$> vals) = expand vals (g <$> vals).
Proof.
  induction 1 as [|v vals Hv _ IH]; [done|]. cbn [fmap list_fmap].
  rewrite !expand_cons. rewrite Hv. f_equal. apply IH.
Qed.

Lemma sorted_head_in (x : Z) (l : list Z) :
  StronglySorted Z.le (x :: l) → x ∈ l → ∃ l', l = x :: l'.
Proof.
  intros Hs Hin. apply StronglySorted_inv in Hs as [Hs Hall].
  destruct l as [|y l']; [by apply elem_of_nil in Hin|]. exists l'. f_equal.
  apply StronglySorted_inv in Hs as [_ Hall'].
  apply Forall_cons in Hall as [Hxy _].
  apply elem_of_cons in Hin as [->|Hin]; [done|].
  rewrite Forall_forall in Hall'. specialize (Hall' x Hin). lia.
Qed.

Lemma remove_dups_head (x : Z) (l : list Z) :
  StronglySorted Z.le (x :: l) → ∃ r, remove_dups (x :: l) = x :: r.
Proof.
  revert x. induction l as [|y l IH]; intros x Hs.
  - by exists [].
  - cbn [remove_dups]. destruct (decide_rel elem_of x (y :: l)) as [Hin|Hnotin].
    + destruct (sorted_head_in x (y :: l) Hs Hin) as [l' [= -> ->]].
      apply IH. by apply StronglySorted_inv in Hs as [Hs _].
    + by eexists.
Qed.

(** [numpy.repeat] of the distinct values by their counts gives a sorted array
    back. *)
Lemma expand_remove_dups (l : list Z) :
  StronglySorted Z.le l → expand (remove_dups l) (count l <$> remove_dups l) = l.
Proof.
  induction l as [|x l IH]; intros Hs; [done|].
  pose proof Hs as [Hs' Hall]%StronglySorted_inv. specialize (IH Hs').
  cbn [remove_dups]. destruct (decide_rel elem_of x l) as [Hin|Hnotin].
  - destruct (sorted_head_in x l Hs Hin) as [l' ->].
    destruct (remove_dups_head x l' Hs') as [r Hr]. rewrite Hr in IH |- *.
    pose proof (NoDup_remove_dups (x :: l')) as Hnd. rewrite Hr in Hnd.
    apply NoDup_cons in Hnd as [Hxr _].
    cbn [fmap list_fmap] in IH |- *. rewrite expand_cons in IH. rewrite expand_cons.
    rewrite count_cons_eq. cbn [replicate]. rewrite <- app_comm_cons. f_equal.
    etrans; [|exact IH]. f_equal.
    apply (expand_ext r (count (x :: x :: l')) (count (x :: l'))), Forall_forall.
    intros v Hv. apply count_cons_ne. intros ->. done.
  - cbn [fmap list_fmap]. rewrite expand_cons, count_cons_eq, count_notin by done.
    cbn. f_equal. etrans; [|exact IH].
    apply expand_ext, Forall_forall. intros v Hv. apply count_cons_ne.
    intros ->. apply Hnotin. by apply elem_of_remove_dups.
Qed.

Lemma first_index_lookup (a : list Z) (v : Z) :
  v ∈ a → a !! first_index a v = Some v.
Proof.
  intros Hv. unfold first_index.
  destruct (list_find (λ x, x = v) a) as [[i y]|] eqn:Hf.
  - apply list_find_Some in Hf as (Hi & -> & _). done.
  - apply list_find_None in Hf. rewrite Forall_forall in Hf. by specialize (Hf v Hv).
Qed.

(** The generator of the specification returns one row of seven entries per
    row of the random uncertainties. *)
Lemma genErr_shape (a : genErr_args) (g : G) :
  length (genErr normal group_unc a g).1 = length (g_Hr a)
  ∧ Forall (λ r, length r = 7) (genErr normal group_unc a g).1.
Proof.
  unfold genErr.
  destruct (draws normal (length (g_slt a)) g) as [zCs g1].
  destruct (draws normal (length (g_slt a)) g1) as [zCict g2].
  destruct (draws normal (length (g_Hr a)) g2) as [zL g3].
  destruct (draws normal (length (g_Hr a)) g3) as [zCE g4].
  destruct (draws normal (length (g_Hr a)) g4) as [zLict g5].
  destruct (draws normal (length (g_Hr a)) g5) as [zTo g6].
  destruct (draws normal (length (g_Hr a)) g6) as [zK g7].
  destruct (normal g7) as [zsLict g8]. destruct (normal g8) as [zsTo g9].
  cbn [fst]. split; [apply length_imap|].
  apply Forall_lookup. intros i row Hi. rewrite list_lookup_imap in Hi.
  destruct (g_Hr a !! i); [|done]. by injection Hi as <-.
Qed.

Lemma genErr_scanline_cells (a : genErr_args) (g : G) (r : nat) :
  r < length (g_Hr a) →
  let zCs := (draws normal (length (g_slt a)) g).1 in
  let zCict := (draws normal (length (g_slt a)) (draws normal (length (g_slt a)) g).2).1 in
  let E := (genErr normal group_unc a g).1 in
  cell E r 1 = Some (add (add zero (at_ (scanline_error group_unc zCs (g_rCSar a) (g_mcnt a)) r)) zero)
  ∧ cell E r 2 = Some (add (add zero (at_ (scanline_error group_unc zCict (g_rCICTar a) (g_mcnt a)) r)) zero).
Proof.
  intros Hr. cbv zeta. unfold genErr.
  destruct (draws normal (length (g_slt a)) g) as [zCs g1]. cbn [fst snd].
  destruct (draws normal (length (g_slt a)) g1) as [zCict g2]. cbn [fst snd].
  destruct (draws normal (length (g_Hr a)) g2) as [zL g3].
  destruct (draws normal (length (g_Hr a)) g3) as [zCE g4].
  destruct (draws normal (length (g_Hr a)) g4) as [zLict g5].
  destruct (draws normal (length (g_Hr a)) g5) as [zTo g6].
  destruct (draws normal (length (g_Hr a)) g6) as [zK g7].
  destruct (normal g7) as [zsLict g8]. destruct (normal g8) as [zsTo g9].
  cbn [fst]. destruct (lookup_lt_is_Some_2 (g_Hr a) r Hr) as [hr Hhr].
  unfold cell. rewrite list_lookup_imap, Hhr. done.
Qed.

Lemma scanline_error_lookup (z : vec) (rU : mat) (slt : list Z) (corIdx : list Z)
    (r k : nat) (s : Z) :
  StronglySorted Z.le corIdx → slt = remove_dups corIdx →
  length z = length slt → length rU = length slt →
  corIdx !! r = Some s → slt !! k = Some s →
  ∃ zk row, z !! k = Some zk ∧ rU !! k = Some row
    ∧ at_ (scanline_error group_unc z rU (count corIdx <$> slt)) r
      = mul zk (group_unc row).
Proof.
  intros Hs -> Hlz Hlr Hr Hk.
  destruct (lookup_lt_is_Some_2 z k) as [zk Hzk].
  { rewrite Hlz. by eapply lookup_lt_Some. }
  destruct (lookup_lt_is_Some_2 rU k) as [row Hrow].
  { rewrite Hlr. by eapply lookup_lt_Some. }
  exists zk, row. split_and!; [done..|].
  unfold at_, scanline_error.
  rewrite (expand_lookup_key (remove_dups corIdx) _ _ r k s).
  - by rewrite lookup_zip_with, Hzk, list_lookup_fmap, Hrow.
  - apply NoDup_remove_dups.
  - rewrite length_zip_with, length_fmap. lia.
  - by rewrite expand_remove_dups.
  - done.
Qed.

(** C6 (amended; for the generator of the specification, on the groups the
    driver computes): when the matchups are stored in the order of their
    scanlines, which the generator relies on as it is given the scanlines and
    their counts and not the scanline of each matchup,
    two records [r1], [r2] of one scanline [s] get the same error in the
    space-count column (1) and in the internal-target-count column (2): the
    draw made for the group of [s], times the scanline uncertainty of that
    group, which is read from the row of the group's first matchup. *)
Theorem scanline_error_is_shared_within_a_group
    (Hr csUr cictUr : mat) (corIdx : list Z) (corLen : vec) (sLict sTo : num) (g : G)
    (rCSar rCICTar : mat) (r1 r2 : nat) (s : Z) :
  let u := unique corIdx in
  let ga := {| g_Hr := Hr; g_sLict := sLict; g_sTo := sTo; g_rCSar := rCSar;
               g_rCICTar := rCICTar; g_slt := u.1.1; g_corLen := corLen;
               g_mcnt := u.2 |} in
  let E := (genErr normal group_unc ga g).1 in
  let zCs := (draws normal (length u.1.1) g).1 in
  let zCict := (draws normal (length u.1.1) (draws normal (length u.1.1) g).2).1 in
  take_rows csUr u.1.2 = Ok rCSar →
  take_rows cictUr u.1.2 = Ok rCICTar →
  Sorted Z.le corIdx →
  length Hr = length corIdx →
  corIdx !! r1 = Some s → corIdx !! r2 = Some s →
  ∃ k m z1 z2 rowCs rowCict,
    u.1.1 !! k = Some s ∧ u.1.2 !! k = Some m ∧ corIdx !! m = Some s
    ∧ csUr !! m = Some rowCs ∧ cictUr !! m = Some rowCict
    ∧ zCs !! k = Some z1 ∧ zCict !! k = Some z2
    ∧ cell E r1 1 = Some (add (add zero (mul z1 (group_unc rowCs))) zero)
    ∧ cell E r2 1 = cell E r1 1
    ∧ cell E r1 2 = Some (add (add zero (mul z2 (group_unc rowCict))) zero)
    ∧ cell E r2 2 = cell E r1 2.
Proof.
  intros u ga E zCs zCict HCs HCict Hsorted Hlen H1 H2.
  assert (StronglySorted Z.le corIdx) as Hss.
  { first [ by apply (Sorted_StronglySorted Z.le)
          | apply Sorted_StronglySorted; [intros ???; lia | done] ]. }
  assert (u.1.1 = remove_dups corIdx) as Hslt.
  { subst u. unfold unique. cbn. by rewrite sorted_merge_sort. }
  assert (u.1.2 = first_index corIdx <$> u.1.1) as Hmidx by done.
  assert (u.2 = count corIdx <$> u.1.1) as Hmcnt by done.
  assert (s ∈ u.1.1) as Hin.
  { rewrite Hslt. apply elem_of_remove_dups. by eapply list_elem_of_lookup_2. }
  apply list_elem_of_lookup in Hin as [k Hk].
  pose proof (mapM_Ok_length _ _ _ HCs) as HlCs.
  pose proof (mapM_Ok_length _ _ _ HCict) as HlCict.
  rewrite Hmidx, length_fmap in HlCs, HlCict.
  assert (u.1.2 !! k = Some (first_index corIdx s)) as Hm.
  { by rewrite Hmidx, list_lookup_fmap, Hk. }
  destruct (scanline_error_lookup zCs rCSar u.1.1 corIdx r1 k s) as (z1 & rowCs & Hz1 & HrowCs & He1);
    [done | done | apply draws_length | done | done | done |].
  destruct (scanline_error_lookup zCs rCSar u.1.1 corIdx r2 k s) as (z1' & rowCs' & Hz1' & HrowCs' & He1');
    [done | done | apply draws_length | done | done | done |].
  destruct (scanline_error_lookup zCict rCICTar u.1.1 corIdx r1 k s)
    as (z2 & rowCict & Hz2 & HrowCict & He2);
    [done | done | apply draws_length | done | done | done |].
  destruct (scanline_error_lookup zCict rCICTar u.1.1 corIdx r2 k s)
    as (z2' & rowCict' & Hz2' & HrowCict' & He2');
    [done | done | apply draws_length | done | done | done |].
  assert (z1' = z1) as -> by congruence. assert (rowCs' = rowCs) as -> by congruence.
  assert (z2' = z2) as -> by congruence. assert (rowCict' = rowCict) as -> by congruence.
  destruct (mapM_Ok_lookup _ _ _ _ _ HCs Hm) as (row & Hrow & Hget).
  destruct (mapM_Ok_lookup _ _ _ _ _ HCict Hm) as (row' & Hrow' & Hget').
  assert (row = rowCs) as -> by congruence. assert (row' = rowCict) as -> by congruence.
  unfold getitem in Hget, Hget'.
  destruct (csUr !! first_index corIdx s) as [c1|] eqn:Hc1; [|done].
  destruct (cictUr !! first_index corIdx s) as [c2|] eqn:Hc2; [|done].
  injection Hget as ->. injection Hget' as ->.
  destruct (genErr_scanline_cells ga g r1) as [Hc11 Hc12].
  { cbn. rewrite Hlen. by eapply lookup_lt_Some. }
  destruct (genErr_scanline_cells ga g r2) as [Hc21 Hc22].
  { cbn. rewrite Hlen. by eapply lookup_lt_Some. }
  cbn [g_slt g_rCSar g_rCICTar g_mcnt ga] in Hc11, Hc12, Hc21, Hc22.
  fold zCs zCict E in Hc11, Hc12, Hc21, Hc22.
  rewrite Hmcnt in Hc11, Hc12, Hc21, Hc22.
  rewrite He1 in Hc11. rewrite He1' in Hc21. rewrite He2 in Hc12. rewrite He2' in Hc22.
  exists k, (first_index corIdx s), z1, z2, rowCs, rowCict.
  split_and!; try done.
  - apply first_index_lookup. by eapply list_elem_of_lookup_2.
  - by rewrite Hc21, Hc11.
  - by rewrite Hc22, Hc12.
Qed.

End GeneratorFacts.
(** ** readHD.py: the sensors of a list of files and their coefficients *)

Section ReaderFacts.
Import np readHD.

Lemma append_new_elem (fsl : list string) (s x : string) :
  x ∈ append_new fsl s ↔ x ∈ fsl ∨ x = s.
Proof.
  unfold append_new. case_decide as Hin.
  - split; [by left | by intros [?| ->]].
  - rewrite elem_of_app, list_elem_of_singleton. done.
Qed.

Lemma append_new_NoDup (fsl : list string) (s : string) :
  NoDup fsl → NoDup (append_new fsl s).
Proof.
  intros Hnd. unfold append_new. case_decide as Hin; [done|].
  apply NoDup_app. split_and!; [done | | apply NoDup_singleton].
  intros x Hx ->%list_elem_of_singleton. done.
Qed.

Lemma append_new_prefix (fsl : list string) (s : string) : fsl `prefix_of` append_new fsl s.
Proof. unfold append_new. case_decide; [done | by apply prefix_app_r]. Qed.

Lemma sensors_loop (acc nclist : list string) :
  let r := foldl sensors_step acc nclist in
  (NoDup acc → NoDup r)
  ∧ acc `prefix_of` r
  ∧ ∀ x, x ∈ r ↔ x ∈ acc ∨ ∃ f, f ∈ nclist ∧ (x = slice f 0 3 ∨ x = slice f 4 7).
Proof.
  revert acc. induction nclist as [|f l IH]; intros acc; cbn.
  - split_and!; [done | done |]. intros x. split; [by left|].
    intros [?|(f & []%elem_of_nil & _)]. done.
  - destruct (IH (sensors_step acc f)) as (Hnd & Hpre & Hin). split_and!.
    + intros Ha. apply Hnd. unfold sensors_step. by do 2 apply append_new_NoDup.
    + etrans; [|exact Hpre]. unfold sensors_step.
      etrans; apply append_new_prefix.
    + intros x. rewrite Hin. unfold sensors_step. rewrite !append_new_elem. split.
      * intros [[[?| ->]| ->]|(f' & Hf' & Hx)].
        -- by left.
        -- right. exists f. split; [by left | by left].
        -- right. exists f. split; [by left | by right].
        -- right. exists f'. split; [by right | done].
      * intros [?|(f' & Hf' & Hx)]; [by left; left; left|].
        apply elem_of_cons in Hf' as [->|Hf'].
        -- left. destruct Hx as [->| ->]; [left; by right | by right].
        -- right. by exists f'.
Qed.

Lemma sensors_NoDup (nclist : list string) : NoDup (sensors nclist).
Proof. destruct (sensors_loop [] nclist) as (Hnd & _ & _). apply Hnd. constructor. Qed.

Lemma sensors_elem (nclist : list string) (s : string) :
  s ∈ sensors nclist ↔ ∃ f, f ∈ nclist ∧ (s = slice f 0 3 ∨ s = slice f 4 7).
Proof.
  destruct (sensors_loop [] nclist) as (_ & _ & Hin).
  rewrite (Hin s). split; [|by right]. intros [[]%elem_of_nil|?]. done.
Qed.

(** A sensor label is listed once, and the labels listed are the characters
    0 to 2 and 4 to 6 of the file names. *)
Theorem sensors_lists_each_label_once (nclist : list string) :
  NoDup (sensors nclist)
  ∧ ∀ s, s ∈ sensors nclist ↔ ∃ f, f ∈ nclist ∧ (s = slice f 0 3 ∨ s = slice f 4 7).
Proof.
  destruct (sensors_loop [] nclist) as (Hnd & _ & Hin). split.
  - apply Hnd. constructor.
  - intros s. rewrite (Hin s). split; [|by right].
    intros [Hnil|Hfile]; [|exact Hfile]. by apply elem_of_nil in Hnil.
Qed.

Lemma sensors_app (l l' : list string) :
  sensors (l ++ l') = foldl sensors_step (sensors l) l'.
Proof. unfold sensors. apply foldl_app. Qed.

(** Files added at the end of the list leave the sensors of the files before
    them at their positions: the new labels come after, and none of them was
    listed already. *)
Theorem sensors_keep_their_index (l l' : list string) :
  ∃ new, sensors (l ++ l') = sensors l ++ new
         ∧ ∀ s, s ∈ new → s ∉ sensors l.
Proof.
  destruct (sensors_loop (sensors l) l') as (_ & [new Hnew] & _).
  exists new. rewrite sensors_app. split; [done|].
  intros s Hs Hin.
  pose proof (sensors_NoDup (l ++ l')) as Hnd.
  rewrite sensors_app, Hnew in Hnd.
  apply NoDup_app in Hnd as (_ & Hdisj & _). by apply (Hdisj s).
Qed.

End ReaderFacts.

Section CoefficientFacts.
Context {Num : Scalar}.
Import np readHD.
Variable pjoin : string → string → string.
Variable files : string → option (list (list string)).
Variable float_ : string → option num.

Lemma astype_float_Raise (l : list string) (e : exn) :
  astype_float float_ l = Raise e → e = ValueError ∧ ∃ s, s ∈ l ∧ float_ s = None.
Proof.
  induction l as [|s l IH]; cbn; [done|].
  destruct (float_ s) as [x|] eqn:Hs; cbn.
  - destruct (mapM _ l) as [k|e'] eqn:Hl; cbn; [done|].
    intros [= <-]. destruct (IH Hl) as [-> (s' & ? & ?)].
    split; [done|]. exists s'. split; [by right | done].
  - intros [= <-]. split; [done|]. exists s. split; [by left | done].
Qed.

Lemma astype_float_Ok (l : list string) (v : vec) :
  astype_float float_ l = Ok v → length v = length l ∧ Forall (λ s, is_Some (float_ s)) l.
Proof.
  intros H. split; [by eapply mapM_Ok_length|].
  apply mapM_Ok in H. induction H as [|s x l k Hs _ IH]; constructor; [|done].
  by destruct (float_ s).
Qed.

Lemma slice_list_length {A} (l : list A) (lo hi : nat) : length (slice_list l lo hi) ≤ hi - lo.
Proof. unfold slice_list. rewrite length_take. lia. Qed.

Lemma coefficient_loop_Raise (fsl : list string) (rows : list (list string)) (e : exn) :
  foldl (λ acc row, inCc ← acc; sInCoeff_row float_ fsl inCc row) (Raise e) rows = Raise e.
Proof. induction rows as [|row rows IH]; [done|]. cbn. apply IH. Qed.

(** What the loop over the rows leaves in the dictionary. *)
Lemma coefficient_loop_Ok (fsl : list string) (rows : list (list string))
    (d : gmap string vec) :
  foldl (λ acc row, inCc ← acc; sInCoeff_row float_ fsl inCc row) (Ok ∅) rows = Ok d →
  ∀ sl coefs,
    d !! sl = Some coefs ↔
    sl ∈ fsl ∧ ∃ i row,
      rows !! i = Some row ∧ row !! 0 = Some sl
      ∧ astype_float float_ (slice_list row 1 5) = Ok coefs
      ∧ ∀ j row', i < j → rows !! j = Some row' → row' !! 0 ≠ Some sl.
Proof.
  revert d. induction rows as [|r rows IH] using rev_ind; intros d.
  - cbn. intros [= <-] sl coefs. rewrite lookup_empty. split; [done|].
    intros (_ & i & row & Hi & _). done.
  - rewrite foldl_app. cbn [foldl].
    destruct (foldl _ (Ok ∅) rows) as [d1|e] eqn:Hloop; cbn [mbind result_bind]; [|done].
    specialize (IH d1 eq_refl).
    unfold sInCoeff_row, getitem.
    destruct (r !! 0) as [slr|] eqn:Hr0; cbn [mbind result_bind]; [|done].
    destruct (astype_float float_ (slice_list r 1 5)) as [cr|e] eqn:Hcr;
      cbn [mbind result_bind]; [|done].
    intros [= <-] sl coefs.
    assert (∀ i row, i < length rows → (rows ++ [r]) !! i = Some row ↔ rows !! i = Some row)
      as Hold.
    { intros i row Hi. by rewrite lookup_app_l. }
    assert ((rows ++ [r]) !! length rows = Some r) as Hnew.
    { rewrite lookup_app_r by lia. by rewrite Nat.sub_diag. }
    destruct (decide (slr ∈ fsl ∧ sl = slr)) as [[Hin ->]|Hne].
    + rewrite decide_True by done. rewrite lookup_insert_eq. split.
      * intros [= <-]. split; [done|]. exists (length rows), r. split_and!; [done..|].
        intros j row' Hj Hrow'. apply lookup_lt_Some in Hrow'.
        rewrite length_app in Hrow'. simpl in Hrow'. lia.
      * intros (_ & i & row & Hi & Hsl & Hc & Hlater).
        destruct (decide (i < length rows)) as [Hlt|Hge].
        -- exfalso. by apply (Hlater (length rows) r Hlt Hnew).
        -- assert (i = length rows) as ->.
           { apply lookup_lt_Some in Hi. rewrite length_app in Hi. simpl in Hi. lia. }
           rewrite Hnew in Hi. injection Hi as <-. congruence.
    + assert ((if decide (slr ∈ fsl) then <[slr:=cr]> d1 else d1) !! sl = d1 !! sl) as ->.
      { case_decide; [|done]. apply lookup_insert_ne. intros ->. by apply Hne. }
      rewrite IH. split.
      * intros (Hin & i & row & Hi & Hsl & Hc & Hlater). split; [done|].
        exists i, row. pose proof (lookup_lt_Some _ _ _ Hi) as Hlt.
        split_and!; [by apply Hold | done | done |].
        intros j row' Hj Hrow'.
        destruct (decide (j < length rows)) as [Hjl|Hjg].
        -- apply Hold in Hrow'; [|done]. by eapply Hlater.
        -- assert (j = length rows) as ->.
           { apply lookup_lt_Some in Hrow'. rewrite length_app in Hrow'. simpl in Hrow'. lia. }
           rewrite Hnew in Hrow'. injection Hrow' as <-. rewrite Hr0.
           intros [= ->]. by apply Hne.
      * intros (Hin & i & row & Hi & Hsl & Hc & Hlater). split; [done|].
        destruct (decide (i < length rows)) as [Hlt|Hge].
        -- exists i, row. split_and!; [by apply Hold | done | done |].
           intros j row' Hj Hrow'. apply (Hlater j row' Hj).
           apply Hold; [|done]. by eapply lookup_lt_Some.
        -- assert (i = length rows) as ->.
           { apply lookup_lt_Some in Hi. rewrite length_app in Hi. simpl in Hi. lia. }
           rewrite Hnew in Hi. injection Hi as <-. exfalso. apply Hne.
           split; congruence.
Qed.

(** When [sInCoeff] returns, a label has coefficients exactly when it is a
    sensor of the file list and a row of the file after the header starts
    with it; the coefficients are then columns 1 to 4 (those there are) of the
    last such row, as numbers. *)
Theorem sInCoeff_gives_the_last_row_of_each_sensor (csvfolder : string)
    (nclist : list string) (header : list string) (rows : list (list string))
    (inCc : gmap string vec) :
  files (pjoin csvfolder "CalCoeff.csv") = Some (header :: rows) →
  sInCoeff pjoin files float_ csvfolder nclist = inr inCc →
  ∀ sl coefs,
    inCc !! sl = Some coefs ↔
    sl ∈ sensors nclist ∧ ∃ i row,
      rows !! i = Some row ∧ row !! 0 = Some sl
      ∧ astype_float float_ (slice_list row 1 5) = Ok coefs
      ∧ length coefs ≤ 4
      ∧ ∀ j row', i < j → rows !! j = Some row' → row' !! 0 ≠ Some sl.
Proof.
  intros Hfile Hrun sl coefs. unfold sInCoeff in Hrun. rewrite Hfile in Hrun.
  destruct (foldl _ (Ok ∅) rows) as [d|e] eqn:Hloop; [|done]. injection Hrun as ->.
  rewrite (coefficient_loop_Ok _ _ _ Hloop). split.
  - intros (Hin & i & row & Hi & Hsl & Hc & Hlater). split; [done|].
    exists i, row. split_and!; try done.
    apply astype_float_Ok in Hc as [-> _]. apply (slice_list_length row 1 5).
  - intros (Hin & i & row & Hi & Hsl & Hc & _ & Hlater). split; [done|].
    by exists i, row.
Qed.

Lemma coefficient_loop_bad (fsl : list string) (rows : list (list string))
    (d0 : gmap string vec) :
  Forall (λ row, row ≠ []) rows →
  Exists (λ row, ∃ s, s ∈ slice_list row 1 5 ∧ float_ s = None) rows →
  foldl (λ acc row, inCc ← acc; sInCoeff_row float_ fsl inCc row) (Ok d0) rows
  = Raise ValueError.
Proof.
  revert d0. induction rows as [|r rows IH]; intros d0 Hne Hbad.
  - by apply Exists_nil in Hbad.
  - apply Forall_cons in Hne as [Hr Hne]. cbn.
    unfold sInCoeff_row at 2, getitem. destruct r as [|sl r']; [done|]. cbn [lookup list_lookup].
    cbn [mbind result_bind].
    destruct (astype_float float_ (slice_list (sl :: r') 1 5)) as [c|e] eqn:Hc; cbn.
    + apply IH; [done|]. apply Exists_cons in Hbad as [(s & Hs & Hnone)|?]; [|done].
      apply astype_float_Ok in Hc as [_ Hall].
      rewrite Forall_forall in Hall. destruct (Hall s Hs) as [x Hx]. congruence.
    + apply astype_float_Raise in Hc as [-> _]. apply coefficient_loop_Raise.
Qed.

(** A row with something that is not a number in columns 1 to 4 makes
    [sInCoeff] raise ValueError, whether or not the row's sensor is in the
    file list (no row being empty). *)
Theorem sInCoeff_converts_every_row (csvfolder : string) (nclist : list string)
    (header : list string) (rows : list (list string)) (i : nat) (row : list string)
    (s : string) :
  files (pjoin csvfolder "CalCoeff.csv") = Some (header :: rows) →
  Forall (λ row, row ≠ []) rows →
  rows !! i = Some row → s ∈ slice_list row 1 5 → float_ s = None →
  sInCoeff pjoin files float_ csvfolder nclist = inl (Exception ValueError).
Proof.
  intros Hfile Hne Hi Hs Hnone. unfold sInCoeff. rewrite Hfile.
  rewrite coefficient_loop_bad; [done | done |].
  apply Exists_exists. exists row. split; [by eapply list_elem_of_lookup_2|]. by exists s.
Qed.

End CoefficientFacts.

(** ** The driver script: failures, the generator, the scanline groups *)

Section TrialFacts.
Context {Num : Scalar} {G : Type}.
Import np Har MCerrst Trials.
Variable imp : @Imports Num G.

Lemma bind_step {W A B} (m : M W A) (f : A → M W B) (w w1 : W) (a : A) :
  m w = (Ok a, w1) → (m ≫= f) w = f a w1.
Proof. intros H. unfold mbind, M_bind. by rewrite H. Qed.

Lemma bind_Raise {W A B} (m : M W A) (f : A → M W B) (w w1 : W) (e : exn) :
  m w = (Raise e, w1) → (m ≫= f) w = (Raise e, w1).
Proof. intros H. unfold mbind, M_bind. by rewrite H. Qed.


(** *** Nothing is written before [savetxt] *)















(** *** The script without a trial *)

(** With no trial ([notr = 0]) and well-formed data the script makes the
    best-estimate fit and then stops with the NameError of [mcodr.pprint()]:
    [mcodr] is only assigned in the loop.  Nothing else is called, nothing
    is saved. *)
Theorem no_trial_no_table (notime : bool) (c : vec) (d : HDpair) (w : World G) :
  data_ok imp notime c d →
  ∃ w' a0,
    run imp notime 0 w = (Raise (NameError "mcodr"), w')
    ∧ log (run imp notime 0) w = [EvOdrP a0 (odrP imp a0)]
    ∧ p_Hd a0 = Hd d
    ∧ rng w' = rng w.
Proof.
  intros Hdata.
  destruct (best_estimate_completes imp notime c d w Hdata)
    as (f & w1 & a0 & Hbest & Hrng & Hfd & HlHr & HHs & Hpodr & HpHd & Hpb).
  pose proof Hbest as Hb'. apply best_estimate_Ok in Hb' as (a0' & Hcall & _ & Hu1 & Ht1).
  destruct Hdata as (Hc & _ & _ & [x HIm] & (row & Hrow & Hlrow) & [rCSar HCs]
                       & [rCICTar HCict] & HlHd & Hshape).
  rewrite <- HHs in Hrow. rewrite <- Hfd in HIm, HCs, HCict.
  destruct (getitem2_is_Ok (f_Hs f) row 0 4 Hrow) as [sLict HsL]; [lia|].
  destruct (getitem2_is_Ok (f_Hs f) row 0 5 Hrow) as [sTo HsT]; [lia|].
  assert (run imp notime 0 w = (Raise (NameError "mcodr"), w1)) as Hrun.
  { unfold run. unfold r_series in *.
    erewrite bind_step by (by apply lift_Ok).
    change (String.substring 4 3 "m02_n15.nc") with "n15".
    erewrite bind_step by (apply lift_Ok; split; [|done]; unfold dict_get; by rewrite Hc).
    erewrite bind_step by exact Hbest.
    erewrite bind_step by (by apply lift_Ok).
    erewrite bind_step by (by apply lift_Ok).
    erewrite bind_step by (by apply lift_Ok).
    destruct (unique (corIdx (f_data f))) as [[slt midx] mcnt] eqn:Hun.
    cbn in HCs, HCict.
    erewrite bind_step by (by apply lift_Ok).
    erewrite bind_step by (by apply lift_Ok).
    erewrite bind_step by reflexivity.
    cbn [seq for_each]. erewrite bind_step by reflexivity.
    reflexivity. }
  destruct (Hcall {| r_coef := c; r_fit := f; r_call := a0'; r_sLict := sLict; r_sTo := sTo;
                      r_rCSar := []; r_rCICTar := []; r_trials := []; r_table := [] |}
              eq_refl eq_refl eq_refl) as (Hout & HHd & _).
  cbn in Hout, HHd.
  exists w1, a0'. split_and!; [done | | congruence | done].
  unfold log. rewrite Hrun. cbn [snd]. rewrite Ht1, drop_app_length. by rewrite Hout.
Qed.

(** *** The random generator *)

Lemma drawn_rng_after (ga : genErr_args) (g g' : G)
    (trs : list (mat * odr4MC_args * Output)) :
  drawn imp ga g trs g' →
  g' = rng_after imp ga (length trs) g
  ∧ ∀ k t, trs !! k = Some t → t.1.1 = (genErr imp ga (rng_after imp ga k g)).1.
Proof.
  revert g. induction trs as [|t trs IH]; intros g Hd; cbn in *.
  - split; [done|]. intros k t Hk. done.
  - destruct Hd as [Ht Hd]. destruct (IH _ Hd) as [Hg' Hk]. split; [done|].
    intros [|k] t' Ht'; cbn in *.
    + by injection Ht' as <-.
    + by apply Hk.
Qed.

(** Only the error generator consumes randomness: trial [k] gets the error
    matrix the generator returns in the state that [k] earlier calls with the
    same arguments have left, starting from the state the script started in;
    the fits do not touch the state. *)
Theorem only_the_generator_draws (notime : bool) (notr : nat) (w w' : World G) :
  run imp notime notr w = (Ok (), w') →
  let L := log (run imp notime notr) w in
  ∃ ga,
    length (error_draws L) = notr
    ∧ (∀ k, k < notr →
         error_draws L !! k = Some (ga, (genErr imp ga (rng_after imp ga k (rng w))).1))
    ∧ rng w' = rng_after imp ga notr (rng w).
Proof.
  intros Hrun L. destruct (run_completed _ _ _ _ _ Hrun) as [R HR].
  destruct (completed_events _ _ _ _ _ _ Hrun HR) as (_ & _ & Hdraws & _).
  fold L in Hdraws.
  destruct HR as (_ & _ & _ & _ & _ & _ & _ & Hlen & _ & Hdrawn & _).
  apply drawn_rng_after in Hdrawn as [Hg Hk]. rewrite Hlen in Hg.
  exists (r_genErr_args R). split_and!.
  - by rewrite Hdraws, length_fmap.
  - intros k Hlt. rewrite Hdraws, list_lookup_fmap.
    destruct (lookup_lt_is_Some_2 (r_trials R) k) as [t Ht]; [lia|].
    rewrite Ht. cbn. by rewrite (Hk k t Ht).
  - done.
Qed.

(** *** The scanline groups *)

Lemma remove_dups_sorted (l : list Z) :
  StronglySorted Z.le l → StronglySorted Z.lt (remove_dups l).
Proof.
  induction 1 as [|x l Hs IH Hall]; cbn; [constructor|].
  destruct (decide_rel elem_of x l) as [Hin|Hnotin]; [done|].
  constructor; [done|]. apply Forall_forall. intros y Hy. apply (proj1 (elem_of_remove_dups _ _)) in Hy.
  rewrite Forall_forall in Hall. specialize (Hall y Hy).
  assert (x ≠ y) by (by intros ->). lia.
Qed.

Lemma sum_count (a vals : list Z) :
  NoDup vals → (∀ x, x ∈ a → x ∈ vals) → sum_list (count a <$> vals) = length a.
Proof.
  intros Hnd. induction a as [|x a IH]; intros Hsub.
  - clear. induction vals as [|v vals IH]; [done|]. cbn. by rewrite IH.
  - assert (x ∈ vals) as Hx by (apply Hsub; by left).
    cbn [length]. rewrite <- IH by (intros y Hy; apply Hsub; by right).
    clear IH Hsub. induction vals as [|v vals IHv]; [by apply elem_of_nil in Hx|].
    apply NoDup_cons in Hnd as [Hv Hnd]. rewrite !fmap_cons. cbn [sum_list_with id].
    destruct (decide (v = x)) as [->|Hne].
    + rewrite count_cons_eq.
      assert (count (x :: a) <$> vals = count a <$> vals) as ->; [|lia].
      apply list_fmap_ext. intros i y Hy. apply count_cons_ne. intros ->.
      apply Hv. by eapply list_elem_of_lookup_2.
    + rewrite count_cons_ne by done.
      apply elem_of_cons in Hx as [->|Hx]; [done|]. specialize (IHv Hnd Hx). lia.
Qed.

Lemma first_index_first (a : list Z) (v : Z) :
  v ∈ a → a !! first_index a v = Some v ∧ ∀ j, j < first_index a v → a !! j ≠ Some v.
Proof.
  intros Hv. unfold first_index.
  destruct (list_find (λ x, x = v) a) as [[i y]|] eqn:Hf.
  - apply list_find_Some in Hf as (Hi & -> & Hbefore). cbn. split; [done|].
    intros j Hj Hjv. by apply (Hbefore j v Hjv Hj).
  - apply list_find_None in Hf. rewrite Forall_forall in Hf. by specialize (Hf v Hv).
Qed.

Lemma count_pos (a : list Z) (v : Z) : v ∈ a → 0 < count a v.
Proof.
  induction a as [|x a IH]; [by intros ?%elem_of_nil|].
  intros [->|Hin]%elem_of_cons.
  - rewrite count_cons_eq. lia.
  - destruct (decide (v = x)) as [->|Hne]; [rewrite count_cons_eq; lia|].
    rewrite count_cons_ne by done. by apply IH.
Qed.

(** What [unique(a, return_index=True, return_counts=True)] returns. *)
Lemma unique_groups (a : list Z) :
  StronglySorted Z.lt (unique a).1.1
  ∧ (∀ v, v ∈ (unique a).1.1 ↔ v ∈ a)
  ∧ (unique a).1.2 = first_index a <$> (unique a).1.1
  ∧ (unique a).2 = count a <$> (unique a).1.1
  ∧ sum_list (unique a).2 = length a.
Proof.
  unfold unique. cbn [fst snd].
  assert (∀ v, v ∈ remove_dups (merge_sort Z.le a) ↔ v ∈ a) as Hel.
  { intros v. rewrite elem_of_remove_dups. by rewrite merge_sort_Permutation. }
  split_and!; [|done|done|done|].
  - apply remove_dups_sorted.
    first [ by apply (Sorted_StronglySorted Z.le), (Sorted_merge_sort Z.le)
          | apply Sorted_StronglySorted; [intros ???; lia | apply (Sorted_merge_sort Z.le)] ].
  - apply sum_count; [apply NoDup_remove_dups|]. intros x Hx. by apply Hel.
Qed.

(** The generator is given the scanline groups of the matchups: the
    distinct scanline values in increasing order, for each of them the
    number of matchups on it - every matchup is in one group - and the rows of
    the space-count and internal-target-count uncertainties of the first
    matchup on it. *)
Theorem generator_gets_the_scanline_groups (notime : bool) (notr : nat) (w w' : World G) :
  run imp notime notr w = (Ok (), w') →
  let L := log (run imp notime notr) w in
  ∃ d,
    rHDpair imp (if notime then pjoin imp datadir "newSim_notime" else datadir)
      "m02_n15.nc" = Ok d
    ∧ ∀ k ga E, error_draws L !! k = Some (ga, E) →
        StronglySorted Z.lt (g_slt ga)
        ∧ (∀ v, v ∈ g_slt ga ↔ v ∈ corIdx d)
        ∧ length (g_mcnt ga) = length (g_slt ga)
        ∧ length (g_rCSar ga) = length (g_slt ga)
        ∧ length (g_rCICTar ga) = length (g_slt ga)
        ∧ sum_list (g_mcnt ga) = length (corIdx d)
        ∧ ∀ j v, g_slt ga !! j = Some v →
            ∃ i, corIdx d !! i = Some v
                 ∧ (∀ i', i' < i → corIdx d !! i' ≠ Some v)
                 ∧ g_mcnt ga !! j = Some (count (corIdx d) v)
                 ∧ 0 < count (corIdx d) v
                 ∧ g_rCSar ga !! j = csUr d !! i
                 ∧ g_rCICTar ga !! j = cictUr d !! i.
Proof.
  intros Hrun L. destruct (run_completed _ _ _ _ _ Hrun) as [R HR].
  destruct (completed_events _ _ _ _ _ _ Hrun HR) as (_ & _ & Hdraws & _).
  fold L in Hdraws.
  destruct HR as (_ & Hcall & _ & _ & HCs & HCi & _).
  destruct Hcall as (_ & _ & _ & _ & _ & _ & _ & Hbranch).
  set (d := f_data (r_fit R)) in *.
  exists d. split.
  { destruct notime; by destruct Hbranch as (? & _). }
  intros k ga E Hk. rewrite Hdraws, list_lookup_fmap in Hk.
  destruct (r_trials R !! k) as [t|]; [|done]. injection Hk as <- _.
  unfold r_genErr_args, r_groups. cbn [g_slt g_mcnt g_rCSar g_rCICTar]. fold d.
  unfold r_groups in HCs, HCi. fold d in HCs, HCi.
  destruct (unique_groups (corIdx d)) as (Hsorted & Hel & Hidx & Hcnt & Hsum).
  rewrite Hidx in HCs, HCi.
  split_and!; [done | done | | | | done |].
  - by rewrite Hcnt, length_fmap.
  - apply mapM_Ok_length in HCs. by rewrite length_fmap in HCs.
  - apply mapM_Ok_length in HCi. by rewrite length_fmap in HCi.
  - intros j v Hj.
    assert (v ∈ corIdx d) as Hv by (apply Hel; by eapply list_elem_of_lookup_2).
    destruct (first_index_first _ _ Hv) as [Hfirst Hbefore].
    exists (first_index (corIdx d) v). split_and!; [done | done | | by apply count_pos | |].
    + by rewrite Hcnt, list_lookup_fmap, Hj.
    + destruct (mapM_Ok_lookup _ _ _ j (first_index (corIdx d) v) HCs) as (y & Hy & Hg).
      { by rewrite list_lookup_fmap, Hj. }
      unfold getitem in Hg. destruct (csUr d !! _); [|done]. congruence.
    + destruct (mapM_Ok_lookup _ _ _ j (first_index (corIdx d) v) HCi) as (y & Hy & Hg).
      { by rewrite list_lookup_fmap, Hj. }
      unfold getitem in Hg. destruct (cictUr d !! _); [|done]. congruence.
Qed.

(** *** Missing input *)

(** When the series has no input coefficients for the sensor [n15] (KeyError)
    or the file of the pair cannot be read, the script stops with that
    exception before any fit: nothing has been logged, no random number drawn. *)
Theorem missing_input_stops_the_script (notime : bool) (notr : nat) (w : World G) (e : exn) :
  (dict_get (preHcoef (avhrr imp datadir filelist)) "n15" ≫= λ _,
     rHDpair imp (if notime then pjoin imp datadir "newSim_notime" else datadir)
       "m02_n15.nc") = Raise e →
  run imp notime notr w = (Raise e, w).
Proof.
  intros Hin. unfold run.
  erewrite bind_step by (by apply lift_Ok).
  change (String.substring 4 3 "m02_n15.nc") with "n15".
  destruct (dict_get (preHcoef (avhrr imp datadir filelist)) "n15") as [c|e'] eqn:Hc;
    cbn in Hin.
  - erewrite bind_step by (by apply lift_Ok).
    apply bind_Raise. unfold best_estimate. destruct notime.
    + apply bind_Raise. by rewrite Hin.
    + apply bind_Raise. by rewrite Hin.
  - injection Hin as ->. by apply bind_Raise.
Qed.

End TrialFacts.

(** ** The graphs of the fit residuals *)

Section GraphFacts.
Context {Num : Scalar} {G : Type}.
Import np Har plotMCres Graphs.
Variable choose : G → list nat → nat → list nat * G.

Lemma take_items_Ok {A} (a : list A) (sel : list nat) :
  Forall (λ i, i < length a) sel →
  ∃ v, take_items a sel = Ok v ∧ length v = length sel
       ∧ Forall2 (λ i x, a !! i = Some x) sel v.
Proof.
  intros Hsel. unfold take_items.
  destruct (mapM_is_Ok (getitem a) sel) as [v Hv].
  { eapply Forall_impl; [exact Hsel|]. intros i Hi. cbn in Hi.
    destruct (lookup_lt_is_Some_2 a i Hi) as [x Hx]. exists x. unfold getitem. by rewrite Hx. }
  exists v. split; [done|]. split; [by eapply mapM_Ok_length|].
  apply mapM_Ok in Hv. eapply Forall2_impl; [exact Hv|].
  intros i x Hg. unfold getitem in Hg. destruct (a !! i); [|done]. congruence.
Qed.

Lemma take_column_Ok (a : mat) (sel : list nat) (j : nat) :
  Forall (λ i, i < length a) sel → Forall (λ r, j < length r) a →
  ∃ v, take_column a sel j = Ok v ∧ length v = length sel
       ∧ Forall2 (λ i x, cell a i j = Some x) sel v.
Proof.
  intros Hsel Hcols. unfold take_column, take_rows.
  destruct (take_items_Ok a sel Hsel) as (rows & Hrows & Hlen & Hall).
  unfold take_items in Hrows. rewrite Hrows. cbn [mbind result_bind].
  assert (Forall (λ r, j < length r) rows) as Hcols'.
  { apply Forall_forall. intros r Hr.
    apply list_elem_of_lookup_1 in Hr as [k Hk].
    destruct (Forall2_lookup_r _ _ _ _ _ Hall Hk) as (i & _ & Hi).
    by eapply (Forall_lookup_1 _ _ _ _ Hcols Hi). }
  destruct (column_is_Ok rows j Hcols') as [v Hv]. exists v. split; [done|].
  pose proof (mapM_Ok_length _ _ _ Hv) as Hlv. split; [lia|].
  apply Forall2_same_length_lookup. split; [lia|]. intros k i x Hi Hx.
  destruct (Forall2_lookup_l _ _ _ _ _ Hall Hi) as (row & Hrow & Hai).
  destruct (column_lookup _ _ _ _ _ Hv Hrow) as [Hvk _].
  unfold cell. rewrite Hai. cbn. congruence.
Qed.

Lemma div1_Ok (a b : vec) :
  length a = length b →
  ∃ c, div1 a b = Ok c ∧ length c = length a
       ∧ ∀ i x y, a !! i = Some x → b !! i = Some y → c !! i = Some (div x y).
Proof.
  intros Hlen. unfold div1, broadcast. rewrite decide_True by done.
  destruct (mapM_is_Ok (λ p : num * num, lift2 div p.1 p.2) (zip a b)) as [c Hc].
  { apply Forall_forall. intros p _. by eexists. }
  exists c. split; [done|]. pose proof (mapM_Ok_length _ _ _ Hc) as Hl.
  rewrite length_zip in Hl. split; [lia|]. intros i x y Hx Hy.
  destruct (mapM_Ok_lookup _ _ _ i (x, y) Hc) as (z & Hz & [= <-]); [|done].
  by rewrite lookup_zip_with, Hx; cbn; rewrite Hy.
Qed.

Lemma div2_Ok (a b : mat) (m : nat) :
  length a = length b →
  Forall (λ r, length r = m) a → Forall (λ r, length r = m) b →
  ∃ c, div2 a b = Ok c ∧ length c = length a
       ∧ Forall (λ r, length r = m) c
       ∧ ∀ i j x y, cell a i j = Some x → cell b i j = Some y → cell c i j = Some (div x y).
Proof.
  intros Hlen Ha Hb. unfold div2, broadcast. rewrite decide_True by done.
  destruct (mapM_is_Ok (λ p : vec * vec, div1 p.1 p.2) (zip a b)) as [c Hc].
  { apply Forall_forall. intros [ra rb] Hin.
    apply elem_of_zip_l in Hin as Hina. apply elem_of_zip_r in Hin as Hinb.
    rewrite Forall_forall in Ha, Hb. cbn in *.
    destruct (div1_Ok ra rb) as (rc & Hrc & _); [|by exists rc].
    by rewrite (Ha _ Hina), (Hb _ Hinb). }
  exists c. split; [done|]. pose proof (mapM_Ok_length _ _ _ Hc) as Hl.
  rewrite length_zip in Hl. split; [lia|]. split.
  - apply Forall_forall. intros rc Hrc. apply list_elem_of_lookup_1 in Hrc as [i Hi].
    apply mapM_Ok in Hc. destruct (Forall2_lookup_r _ _ _ _ _ Hc Hi) as ([ra rb] & Hz & Hd).
    apply lookup_zip_with_Some in Hz as (ra' & rb' & [= <- <-] & Hra & Hrb). cbn in Hd.
    assert (length ra = length rb) as Hlr.
    { rewrite (Forall_lookup_1 _ _ _ _ Ha Hra), (Forall_lookup_1 _ _ _ _ Hb Hrb). done. }
    destruct (div1_Ok ra rb Hlr) as (rc' & Hrc' & Hlrc & _).
    assert (rc = rc') as -> by congruence.
    by rewrite Hlrc, (Forall_lookup_1 _ _ _ _ Ha Hra).
  - intros i j x y Hx Hy. unfold cell in *.
    destruct (a !! i) as [ra|] eqn:Hra; [|done].
    destruct (b !! i) as [rb|] eqn:Hrb; [|done]. cbn in Hx, Hy.
    destruct (mapM_Ok_lookup _ _ _ i (ra, rb) Hc) as (rc & Hrc & Hd).
    { by rewrite lookup_zip_with, Hra; cbn; rewrite Hrb. }
    cbn in Hd. rewrite Hrc. cbn.
    assert (length ra = length rb) as Hlr.
    { rewrite (Forall_lookup_1 _ _ _ _ Ha Hra), (Forall_lookup_1 _ _ _ _ Hb Hrb). done. }
    destruct (div1_Ok ra rb Hlr) as (rc' & Hrc' & _ & Hcells).
    assert (rc = rc') as -> by congruence. by apply Hcells.
Qed.

Lemma square_length (a : vec) : length (square a) = length a.
Proof. unfold square. by rewrite length_fmap. Qed.

Lemma square_lookup (a : vec) (i : nat) (x : num) :
  a !! i = Some x → square a !! i = Some (mul x x).
Proof. intros H. unfold square. by rewrite list_lookup_fmap, H. Qed.

Lemma Forall2_refine {A B} (P Q : A → B → Prop) (R : A → Prop) (l : list A) (k : list B) :
  Forall R l → Forall2 P l k → (∀ a b, R a → P a b → Q a b) → Forall2 Q l k.
Proof.
  intros HR HP Himp. induction HP as [|a b l k Hab _ IH]; [constructor|].
  apply Forall_cons in HR as [Ha HR]. constructor; [by apply Himp | by apply IH].
Qed.

(** A call with a weight, on the arrays of [n] matchups, for a sample that
    [random.sample] accepts. *)
Lemma plotSDfit_weighted_run (avhrrS : Series) (noMU nobj : Z) (slab : string)
    (muTime : vec) (Hrnd : mat) (odrSD : Output) (wt : Z) (w : World G) (n : nat) :
  sample_contract choose →
  plot_data avhrrS muTime Hrnd odrSD n →
  (0 < nobj ≤ noMU)%Z → (noMU ≤ Z.of_nat n)%Z →
  let sel := (choose (rng w) (range noMU) (Z.to_nat nobj)).1 in
  let calL := measEq avhrrS (transpose (xplus odrSD)) (beta odrSD) in
  let ttl := slab +:+ " weighted" +:+ " residuals from ODR fit" in
  let ttl' := slab +:+ " weighted" +:+ " ODR evaluated true error of " in
  ∃ w' res calLs sLict sTo t e0 e1 e2 e3 e4,
    plotSDfit choose avhrrS noMU nobj slab muTime Hrnd odrSD (Some wt) w = (Ok (), w')
    ∧ rng w' = (choose (rng w) (range noMU) (Z.to_nat nobj)).2
    ∧ trace w' = trace w ++
        [ EvResLfit res calLs "Radiance" "Fit residuals" ttl;
          EvResLfit res sLict "ICT radiance" "Fit residuals" ttl;
          EvResLfit res sTo "Orbit temperature (K)" "Fit residuals" ttl;
          EvResLfit e0 t "Time" "Counts" (ttl' +:+ "space counts");
          EvResLfit e1 t "Time" "Counts" (ttl' +:+ "ICT counts");
          EvResLfit e2 t "Time" "Counts" (ttl' +:+ "Earth counts");
          EvResLfit e3 t "Time" "Radiance" (ttl' +:+ "ICT radiance");
          EvResLfit e4 t "Time" "Temperature" (ttl' +:+ "orbit temperature") ]
    ∧ length sel = Z.to_nat nobj
    ∧ Forall (λ i, i < Z.to_nat noMU) sel
    ∧ Forall2 (λ i x, weighted_residual odrSD Hrnd i = Some x) sel res
    ∧ Forall2 (λ i x, calL !! i = Some x) sel calLs
    ∧ Forall2 (λ i x, cell (xplus odrSD) 3 i = Some x) sel sLict
    ∧ Forall2 (λ i x, cell (xplus odrSD) 4 i = Some x) sel sTo
    ∧ Forall2 (λ i x, muTime !! i = Some x) sel t
    ∧ Forall2 (λ i x, weighted_error odrSD Hrnd 0 i = Some x) sel e0
    ∧ Forall2 (λ i x, weighted_error odrSD Hrnd 1 i = Some x) sel e1
    ∧ Forall2 (λ i x, weighted_error odrSD Hrnd 2 i = Some x) sel e2
    ∧ Forall2 (λ i x, weighted_error odrSD Hrnd 3 i = Some x) sel e3
    ∧ Forall2 (λ i x, weighted_error odrSD Hrnd 4 i = Some x) sel e4.
Proof.
  intros Hsample (HlX & HrX & HlD & HrD & HlE & HlH & HrH & HlT & HlC) Hnobj HnoMU
    sel calL ttl ttl'.
  (* the shapes *)
  assert (xplus odrSD ≠ []) as HneX by (intros Hnil; by rewrite Hnil in HlX).
  assert (delta odrSD ≠ []) as HneD by (intros Hnil; by rewrite Hnil in HlD).
  destruct (transpose_shape _ n HrX HneX) as [HlXT HrXT]. rewrite HlX in HrXT.
  destruct (transpose_shape _ n HrD HneD) as [HlDT HrDT]. rewrite HlD in HrDT.
  (* the weights *)
  destruct (column_is_Ok Hrnd 0) as [h0 Hh0].
  { eapply Forall_impl; [exact HrH|]. cbn. lia. }
  destruct (column_is_Ok Hrnd 6) as [h6 Hh6].
  { eapply Forall_impl; [exact HrH|]. cbn. lia. }
  pose proof (mapM_Ok_length _ _ _ Hh0) as Hlh0.
  pose proof (mapM_Ok_length _ _ _ Hh6) as Hlh6.
  destruct (add1_is_Ok (square h0) (square h6)) as [s Hs].
  { rewrite !square_length. lia. }
  assert (length (square h0) = length (square h6)) as Hsq0
    by (rewrite !square_length; lia).
  pose proof (broadcast_length _ _ _ _ Hsq0 Hs) as Hls.
  rewrite square_length in Hls.
  destruct (div1_Ok (eps odrSD) (sqrt <$> s)) as (LEres & HLE & HlLE & HLEcell).
  { rewrite length_fmap. lia. }
  destruct (div2_Ok (transpose (delta odrSD)) (columns Hrnd 1 6) 5)
    as (Xerr & HXerr & HlXerr & HrXerr & HXcell).
  { unfold columns. rewrite length_fmap. lia. }
  { done. }
  { unfold columns. apply Forall_fmap. eapply Forall_impl; [exact HrH|].
    intros r Hr. cbn in *. rewrite length_take, length_drop. lia. }
  (* the sample *)
  assert (Z.to_nat nobj ≤ length (range noMU)) as Hk.
  { unfold range. rewrite length_seq. lia. }
  destruct (Hsample (rng w) (range noMU) (Z.to_nat nobj) Hk) as [Hlsel Hin].
  fold sel in Hlsel, Hin.
  assert (Forall (λ i, i < Z.to_nat noMU) sel) as Hsel.
  { eapply Forall_impl; [exact Hin|]. intros i Hi. cbn in Hi.
    unfold range in Hi. apply elem_of_seq in Hi. lia. }
  assert (Forall (λ i, i < n) sel) as Hseln.
  { eapply Forall_impl; [exact Hsel|]. cbn. lia. }
  (* what is plotted *)
  destruct (take_items_Ok LEres sel) as (res & Hres & _ & Hres2); [by rewrite HlLE, HlE|].
  destruct (take_items_Ok calL sel) as (calLs & HcalLs & _ & HcalLs2);
    [by unfold calL; rewrite HlC|].
  destruct (take_column_Ok (transpose (xplus odrSD)) sel 3) as (sLict & HsLict & _ & HsLict2).
  { by rewrite HlXT. } { eapply Forall_impl; [exact HrXT|]. cbn. lia. }
  destruct (take_column_Ok (transpose (xplus odrSD)) sel 4) as (sTo & HsTo & _ & HsTo2).
  { by rewrite HlXT. } { eapply Forall_impl; [exact HrXT|]. cbn. lia. }
  destruct (take_items_Ok muTime sel) as (t & Ht & _ & Ht2); [by rewrite HlT|].
  assert (∀ j, j < 5 → ∃ e, take_column Xerr sel j = Ok e
            ∧ Forall2 (λ i x, cell Xerr i j = Some x) sel e) as Herr.
  { intros j Hj. destruct (take_column_Ok Xerr sel j) as (e & He & _ & He2).
    - by rewrite HlXerr, HlDT.
    - eapply Forall_impl; [exact HrXerr|]. cbn. lia.
    - by exists e. }
  destruct (Herr 0 ltac:(lia)) as (e0 & He0 & He02).
  destruct (Herr 1 ltac:(lia)) as (e1 & He1 & He12).
  destruct (Herr 2 ltac:(lia)) as (e2 & He2 & He22).
  destruct (Herr 3 ltac:(lia)) as (e3 & He3 & He32).
  destruct (Herr 4 ltac:(lia)) as (e4 & He4 & He42).
  exists {| rng := (choose (rng w) (range noMU) (Z.to_nat nobj)).2;
            uninit := uninit w;
            trace := trace w ++
              [ EvResLfit res calLs "Radiance" "Fit residuals" ttl;
                EvResLfit res sLict "ICT radiance" "Fit residuals" ttl;
                EvResLfit res sTo "Orbit temperature (K)" "Fit residuals" ttl;
                EvResLfit e0 t "Time" "Counts" (ttl' +:+ "space counts");
                EvResLfit e1 t "Time" "Counts" (ttl' +:+ "ICT counts");
                EvResLfit e2 t "Time" "Counts" (ttl' +:+ "Earth counts");
                EvResLfit e3 t "Time" "Radiance" (ttl' +:+ "ICT radiance");
                EvResLfit e4 t "Time" "Temperature" (ttl' +:+ "orbit temperature") ] |},
    res, calLs, sLict, sTo, t, e0, e1, e2, e3, e4.
  split.
  { unfold plotSDfit. cbv beta iota zeta.
    unfold mbind, M_bind, lift, local, mret, M_ret, resLfit, emit, sample.
    rewrite Hh0. cbv beta iota. rewrite Hh6. cbv beta iota. rewrite Hs. cbv beta iota.
    rewrite HLE. cbv beta iota. rewrite HXerr. cbv beta iota.
    rewrite decide_True by (unfold range; rewrite length_seq; lia).
    rewrite (surjective_pairing (choose (rng w) (range noMU) (Z.to_nat nobj))).
    cbv beta iota. fold sel.
    rewrite Hres. cbv beta iota. fold calL. rewrite HcalLs. cbv beta iota.
    rewrite HsLict. cbv beta iota. rewrite HsTo. cbv beta iota.
    rewrite He0. cbv beta iota. rewrite Ht. cbv beta iota.
    rewrite He1. cbv beta iota. rewrite He2. cbv beta iota.
    rewrite He3. cbv beta iota. rewrite He4. cbv beta iota.
    cbn [rng uninit trace]. rewrite <- !app_assoc. reflexivity. }
  assert (∀ i, i < n → ∃ row, Hrnd !! i = Some row ∧ 7 ≤ length row) as Hrow.
  { intros i Hi. destruct (lookup_lt_is_Some_2 Hrnd i) as [row Hrow]; [lia|].
    exists row. split; [done|]. by eapply (Forall_lookup_1 _ _ _ _ HrH Hrow). }
  assert (∀ j e, j < 5 → Forall2 (λ i x, cell Xerr i j = Some x) sel e →
            Forall2 (λ i x, weighted_error odrSD Hrnd j i = Some x) sel e) as Hwe.
  { intros j e Hj He. eapply Forall2_refine; [exact Hseln | exact He |].
    intros i x Hi Hx. cbn in Hi.
    destruct (Hrow i Hi) as (row & Hr & Hlr).
    destruct (lookup_lt_is_Some_2 row (S j)) as [h Hh]; [lia|].
    destruct (lookup_lt_is_Some_2 (delta odrSD) j) as [dr Hdr]; [lia|].
    pose proof (Forall_lookup_1 _ _ _ _ HrD Hdr) as Hldr. cbn in Hldr.
    destruct (lookup_lt_is_Some_2 dr i) as [d Hd]; [lia|].
    assert (cell (delta odrSD) j i = Some d) as Hcd by (unfold cell; by rewrite Hdr).
    assert (cell Hrnd i (S j) = Some h) as Hch by (unfold cell; by rewrite Hr).
    assert (cell (transpose (delta odrSD)) i j = Some d) as Hct.
    { rewrite (transpose_cell _ n); [done | done | lia | done]. }
    assert (cell (columns Hrnd 1 6) i j = Some h) as Hcc.
    { rewrite columns_cell by lia. done. }
    pose proof (HXcell i j d h Hct Hcc) as Hq.
    unfold weighted_error. rewrite Hcd, Hch. cbn. congruence. }
  split; [reflexivity|]. split; [reflexivity|]. split; [exact Hlsel|]. split; [exact Hsel|].
  split_and!.
  - eapply Forall2_refine; [exact Hseln | exact Hres2 |]. intros i x Hi Hx. cbn in Hi.
    destruct (Hrow i Hi) as (row & Hr & Hlr).
    destruct (lookup_lt_is_Some_2 (eps odrSD) i) as [e He]; [lia|].
    destruct (lookup_lt_is_Some_2 row 0) as [a Ha]; [lia|].
    destruct (lookup_lt_is_Some_2 row 6) as [b Hb]; [lia|].
    destruct (column_lookup _ _ _ _ _ Hh0 Hr) as [H0 _].
    destruct (column_lookup _ _ _ _ _ Hh6 Hr) as [H6 _].
    rewrite Ha in H0. rewrite Hb in H6.
    pose proof (add1_lookup _ _ _ i _ _ Hsq0 Hs
                  (square_lookup _ _ _ H0) (square_lookup _ _ _ H6)) as Hsi.
    assert ((sqrt <$> s) !! i = Some (sqrt (add (mul a a) (mul b b)))) as Hsq.
    { by rewrite list_lookup_fmap, Hsi. }
    pose proof (HLEcell i _ _ He Hsq) as HLi.
    unfold weighted_residual, cell. rewrite He, Hr. cbn. rewrite Ha, Hb. cbn. congruence.
  - done.
  - eapply Forall2_refine; [exact Hseln | exact HsLict2 |]. intros i x Hi Hx. cbn in Hi.
    rewrite <- Hx. symmetry. apply (transpose_cell _ n); [done | lia | done].
  - eapply Forall2_refine; [exact Hseln | exact HsTo2 |]. intros i x Hi Hx. cbn in Hi.
    rewrite <- Hx. symmetry. apply (transpose_cell _ n); [done | lia | done].
  - done.
  - apply Hwe; [lia | done].
  - apply Hwe; [lia | done].
  - apply Hwe; [lia | done].
  - apply Hwe; [lia | done].
  - apply Hwe; [lia | done].
Qed.

(** With a weight, on the arrays of [n] matchups and for a sample size
    between 1 and [noMU <= n], [plotSDfit] returns after drawing eight graphs
    of [nobj] points each: the residuals against radiance, internal-target
    radiance and orbit temperature, then the errors of the five variables
    against time, all titled with the sensor label and [ weighted]. *)
Theorem plotSDfit_weighted_draws_eight_graphs (avhrrS : Series) (noMU nobj : Z)
    (slab : string) (muTime : vec) (Hrnd : mat) (odrSD : Output) (wt : Z)
    (w : World G) (n : nat) :
  sample_contract choose →
  plot_data avhrrS muTime Hrnd odrSD n →
  (0 < nobj ≤ noMU)%Z → (noMU ≤ Z.of_nat n)%Z →
  let m := plotSDfit choose avhrrS noMU nobj slab muTime Hrnd odrSD (Some wt) in
  let ttl := slab +:+ " weighted" +:+ " residuals from ODR fit" in
  let ttl' := slab +:+ " weighted" +:+ " ODR evaluated true error of " in
  (m w).1 = Ok ()
  ∧ log m w = graphs (log m w) ≫= (λ g, [EvResLfit g.1.1.1.1 g.1.1.1.2 g.1.1.2 g.1.2 g.2])
  ∧ (λ g, (g.1.1.2, g.1.2, g.2)) <$> graphs (log m w) =
      [ ("Radiance", "Fit residuals", ttl);
        ("ICT radiance", "Fit residuals", ttl);
        ("Orbit temperature (K)", "Fit residuals", ttl);
        ("Time", "Counts", ttl' +:+ "space counts");
        ("Time", "Counts", ttl' +:+ "ICT counts");
        ("Time", "Counts", ttl' +:+ "Earth counts");
        ("Time", "Radiance", ttl' +:+ "ICT radiance");
        ("Time", "Temperature", ttl' +:+ "orbit temperature") ]
  ∧ Forall (λ g, length g.1.1.1.1 = Z.to_nat nobj ∧ length g.1.1.1.2 = Z.to_nat nobj)
           (graphs (log m w)).
Proof.
  intros Hsample Hdata Hnobj HnoMU m ttl ttl'.
  destruct (plotSDfit_weighted_run avhrrS noMU nobj slab muTime Hrnd odrSD wt w n
              Hsample Hdata Hnobj HnoMU)
    as (w' & res & calLs & sLict & sTo & t & e0 & e1 & e2 & e3 & e4 & Hrun & _ & Htr
        & Hlsel & _ & Hres & HcalLs & HsLict & HsTo & Ht & He0 & He1 & He2 & He3 & He4).
  fold m in Hrun. unfold log. rewrite Hrun. cbn [fst snd].
  rewrite Htr, drop_app_length.
  apply Forall2_length in Hres, HcalLs, HsLict, HsTo, Ht, He0, He1, He2, He3, He4.
  split_and!; [done | done | done |].
  repeat constructor; cbn; lia.
Qed.

(** What the graphs of a call with a weight show, point by point: the points
    are the matchups that [random.sample] picked, in that order; a residual is
    the estimated error of the response over the square root of the summed
    squares of the random uncertainties of reference radiance (column 0) and
    K (column 6); the error of variable [j] is the estimated error over the
    random uncertainty in column [j + 1]; they are drawn against the fitted
    radiance, the internal-target radiance and the orbit temperature of the
    matchup (variables 3 and 4), and against its time. *)
Theorem plotSDfit_weighted_points (avhrrS : Series) (noMU nobj : Z)
    (slab : string) (muTime : vec) (Hrnd : mat) (odrSD : Output) (wt : Z)
    (w : World G) (n : nat) :
  sample_contract choose →
  plot_data avhrrS muTime Hrnd odrSD n →
  (0 < nobj ≤ noMU)%Z → (noMU ≤ Z.of_nat n)%Z →
  let m := plotSDfit choose avhrrS noMU nobj slab muTime Hrnd odrSD (Some wt) in
  let sel := (choose (rng w) (range noMU) (Z.to_nat nobj)).1 in
  let calL := measEq avhrrS (transpose (xplus odrSD)) (beta odrSD) in
  ∃ res calLs sLict sTo t errs,
    (λ g, (g.1.1.1.1, g.1.1.1.2)) <$> graphs (log m w) =
      [(res, calLs); (res, sLict); (res, sTo)] ++ ((λ e, (e, t)) <$> errs)
    ∧ Forall2 (λ i x, weighted_residual odrSD Hrnd i = Some x) sel res
    ∧ Forall2 (λ i x, calL !! i = Some x) sel calLs
    ∧ Forall2 (λ i x, cell (xplus odrSD) 3 i = Some x) sel sLict
    ∧ Forall2 (λ i x, cell (xplus odrSD) 4 i = Some x) sel sTo
    ∧ Forall2 (λ i x, muTime !! i = Some x) sel t
    ∧ length errs = 5
    ∧ ∀ j e, errs !! j = Some e →
        Forall2 (λ i x, weighted_error odrSD Hrnd j i = Some x) sel e.
Proof.
  intros Hsample Hdata Hnobj HnoMU m sel calL.
  destruct (plotSDfit_weighted_run avhrrS noMU nobj slab muTime Hrnd odrSD wt w n
              Hsample Hdata Hnobj HnoMU)
    as (w' & res & calLs & sLict & sTo & t & e0 & e1 & e2 & e3 & e4 & Hrun & _ & Htr
        & Hlsel & _ & Hres & HcalLs & HsLict & HsTo & Ht & He0 & He1 & He2 & He3 & He4).
  fold m in Hrun. fold sel in Hres, HcalLs, HsLict, HsTo, Ht, He0, He1, He2, He3, He4.
  exists res, calLs, sLict, sTo, t, [e0; e1; e2; e3; e4].
  split_and!; try done.
  - unfold log. rewrite Hrun. cbn [fst snd]. by rewrite Htr, drop_app_length.
  - intros [|[|[|[|[|j]]]]] e He; cbn in He; try done; by injection He as <-.
Qed.

End GraphFacts.

(** ** Arrays with a shape *)

Section ShapedFacts.
Import np nd.
Context {A : Type}.

Lemma filter_zip_mask_length {B} (mask : list bool) (v : list B) :
  length mask = length v →
  length (filter (λ p : bool * B, p.1 = true) (zip mask v)) = length (where_ mask).
Proof.
  unfold where_. rewrite length_fmap. generalize 0 as k.
  revert v. induction mask as [|b mask IH]; intros [|x v] k Hlen; try done.
  cbn [length seq zip zip_with]. injection Hlen as Hlen. destruct b.
  - rewrite !filter_cons_True by done. cbn. by rewrite (IH v (S k)).
  - rewrite !filter_cons_False by done. by apply IH.
Qed.

Lemma filter_zip_mask_where {B} (mask : list bool) (v : list B) (k : nat) :
  length mask = length v →
  Forall2 (λ i x, k ≤ i ∧ v !! (i - k) = Some x ∧ mask !! (i - k) = Some true)
    ((λ p, p.1) <$> filter (λ p : nat * bool, p.2 = true) (zip (seq k (length mask)) mask))
    ((λ p, p.2) <$> filter (λ p : bool * B, p.1 = true) (zip mask v)).
Proof.
  revert v k. induction mask as [|b mask IH]; intros [|x v] k Hlen; try done.
  cbn [length seq zip zip_with]. injection Hlen as Hlen.
  assert (Forall2 (λ i y, k ≤ i ∧ (x :: v) !! (i - k) = Some y
                          ∧ (b :: mask) !! (i - k) = Some true)
            ((λ p, p.1) <$> filter (λ p : nat * bool, p.2 = true)
                              (zip (seq (S k) (length mask)) mask))
            ((λ p, p.2) <$> filter (λ p : bool * B, p.1 = true) (zip mask v))) as Htail.
  { eapply Forall2_impl; [apply (IH v (S k) Hlen)|].
    intros i y (Hi & Hv & Hm). replace (i - k) with (S (i - S k)) by lia.
    split; [lia | done]. }
  destruct b.
  - rewrite !filter_cons_True by done. cbn [fmap list_fmap]. constructor; [|done].
    cbn. rewrite Nat.sub_diag. done.
  - rewrite !filter_cons_False by done. done.
Qed.

Lemma mask_items_where {B} (v v' : list B) (mask : list bool) :
  mask_items v mask = Ok v' →
  Forall2 (λ i x, v !! i = Some x ∧ mask !! i = Some true) (where_ mask) v'.
Proof.
  unfold mask_items. case_decide as Hlen; [|done]. intros [= <-].
  eapply Forall2_impl; [apply (filter_zip_mask_where mask v 0 Hlen)|].
  intros i x (_ & Hv & Hm). by rewrite Nat.sub_0_r in Hv, Hm.
Qed.

Lemma mask_items_Ok {B} (v v' : list B) (mask : list bool) :
  mask_items v mask = Ok v' →
  length mask = length v
  ∧ length v' = length (where_ mask)
  ∧ ∀ x, x ∈ v' → x ∈ v.
Proof.
  unfold mask_items. case_decide as Hlen; [|done]. intros [= <-]. split_and!.
  - done.
  - rewrite length_fmap. by apply filter_zip_mask_length.
  - intros x Hx. apply list_elem_of_fmap in Hx as ([b y] & -> & Hin).
    apply list_elem_of_filter in Hin as [_ Hin]. by apply elem_of_zip_r in Hin.
Qed.

Lemma mask_rows_Ok (a a' : array2 A) (mask : list bool) :
  mask_rows a mask = Ok a' →
  length mask = nrows a
  ∧ ncols a' = ncols a
  ∧ nrows a' = length (where_ mask)
  ∧ (∀ r, r ∈ rows a' → r ∈ rows a)
  ∧ (wf a → wf a').
Proof.
  unfold mask_rows. destruct (mask_items (rows a) mask) as [rs|e] eqn:Hrs; [|done].
  cbn. intros [= <-]. apply mask_items_Ok in Hrs as (Hlen & Hl & Hin).
  split_and!; try done. intros Hwf. unfold wf in *. cbn.
  rewrite Forall_forall in Hwf |- *. intros r Hr. by apply Hwf, Hin.
Qed.

Lemma mask_rows_where (a a' : array2 A) (mask : list bool) :
  mask_rows a mask = Ok a' →
  Forall2 (λ i r, rows a !! i = Some r ∧ mask !! i = Some true) (where_ mask) (rows a').
Proof.
  unfold mask_rows. destruct (mask_items (rows a) mask) as [rs|e] eqn:Hrs; [|done].
  cbn. intros [= <-]. by apply mask_items_where.
Qed.

Lemma slice_cols_wf (a : array2 A) (lo hi : nat) : wf a → wf (slice_cols a lo hi).
Proof.
  unfold wf, slice_cols. cbn. intros Hwf. apply Forall_fmap.
  eapply Forall_impl; [exact Hwf|]. intros r Hr. cbn in *.
  rewrite length_take, length_drop, Hr. lia.
Qed.

Lemma slice_cols_nrows (a : array2 A) (lo hi : nat) : nrows (slice_cols a lo hi) = nrows a.
Proof. unfold nrows, slice_cols. cbn. by rewrite length_fmap. Qed.

Lemma col_Ok (a : array2 A) (j : nat) (v : list A) :
  col a j = Ok v → j < ncols a ∧ length v = nrows a.
Proof.
  unfold col. case_decide; [|done]. intros Hv. split; [done|].
  by apply mapM_Ok_length in Hv.
Qed.

Lemma col_lookup (a : array2 A) (j : nat) (v : list A) (i : nat) (r : list A) :
  col a j = Ok v → rows a !! i = Some r → ∃ x, r !! j = Some x ∧ v !! i = Some x.
Proof.
  unfold col. case_decide; [|done]. intros Hv Hr.
  destruct (mapM_Ok_lookup _ _ _ _ _ Hv Hr) as (x & Hx & Hget). exists x. split; [|done].
  unfold getitem in Hget. by destruct (r !! j); simplify_eq.
Qed.

Lemma fill_row_length (r : list A) (idx : list nat) (x : A) :
  length (foldl (λ r j, <[j := x]> r) r idx) = length r.
Proof.
  revert r. induction idx as [|j idx IH]; intros r; [done|]. cbn.
  by rewrite IH, length_insert.
Qed.

Lemma fill_row_lookup (r : list A) (idx : list nat) (x : A) (j : nat) :
  j < length r →
  foldl (λ r j, <[j := x]> r) r idx !! j = if decide (j ∈ idx) then Some x else r !! j.
Proof.
  revert r. induction idx as [|k idx IH]; intros r Hj; cbn.
  - by rewrite decide_False by (by intros ?%elem_of_nil).
  - rewrite IH by (by rewrite length_insert).
    destruct (decide (j ∈ idx)) as [Hin|Hnotin].
    + rewrite decide_True by (by right). done.
    + destruct (decide (j = k)) as [->|Hne].
      * rewrite decide_True by (by left). by apply list_lookup_insert_eq.
      * rewrite decide_False by (by intros [?|?]%elem_of_cons).
        by apply list_lookup_insert_ne.
Qed.

Lemma fill_cols_Ok (a a' : array2 A) (idx : list nat) (x : A) :
  fill_cols a idx x = Ok a' →
  Forall (λ j, j < ncols a) idx
  ∧ ncols a' = ncols a
  ∧ nrows a' = nrows a
  ∧ (wf a → wf a')
  ∧ (wf a → ∀ i r', rows a' !! i = Some r' →
       ∃ r, rows a !! i = Some r
            ∧ ∀ j, j < ncols a → r' !! j = if decide (j ∈ idx) then Some x else r !! j).
Proof.
  unfold fill_cols. case_decide as Hidx; [|done]. intros [= <-]. cbn.
  split_and!; try done.
  - unfold nrows. cbn. by rewrite length_fmap.
  - unfold wf. cbn. intros Hwf. apply Forall_fmap.
    eapply Forall_impl; [exact Hwf|]. intros r Hr. cbn in *. by rewrite fill_row_length.
  - intros Hwf i r' Hi. rewrite list_lookup_fmap in Hi.
    destruct (rows a !! i) as [r|] eqn:Hr; [|done]. injection Hi as <-.
    exists r. split; [done|]. intros j Hj. apply fill_row_lookup.
    by rewrite (Forall_lookup_1 _ _ _ _ Hwf Hr).
Qed.

Lemma fill_cols_rows (a a' : array2 A) (idx : list nat) (x : A) :
  fill_cols a idx x = Ok a' →
  ncols a' = ncols a ∧ nrows a' = nrows a
  ∧ rows a' = (λ r, foldl (λ r j, <[j := x]> r) r idx) <$> rows a.
Proof.
  unfold fill_cols. case_decide; [|done]. intros [= <-]. cbn. split_and!; [done| |done].
  unfold nrows. cbn. by rewrite length_fmap.
Qed.

Lemma append0_Ok (a b c : array2 A) :
  append0 a b = Ok c → ncols a = ncols b ∧ c = {| ncols := ncols a; rows := rows a ++ rows b |}.
Proof. unfold append0. case_decide; [|done]. by intros [= <-]. Qed.

Lemma filled_rows (a a' : array2 A) (idx : list nat) (x : A) :
  fill_cols a idx x = Ok a' → wf a →
  ∀ r j, r ∈ rows a' → j ∈ idx → r !! j = Some x.
Proof.
  intros Hf Hwf r j Hr Hj. apply fill_cols_Ok in Hf as (Hidx & _ & _ & _ & Hrows).
  apply list_elem_of_lookup_1 in Hr as [i Hi].
  destruct (Hrows Hwf i r Hi) as (r0 & _ & Hcells).
  rewrite Forall_forall in Hidx. rewrite (Hcells j (Hidx j Hj)). by rewrite decide_True.
Qed.

Lemma slice_cols_rows (a : array2 A) (lo hi : nat) (r : list A) :
  r ∈ rows (slice_cols a lo hi) → ∃ r0, r0 ∈ rows a ∧ r = take (hi - lo) (drop lo r0).
Proof.
  unfold slice_cols. cbn [rows]. intros (r0 & -> & Hr0)%list_elem_of_fmap. by exists r0.
Qed.

End ShapedFacts.

(** ** The conversion of a matchup file *)

Section ToolFacts.
Context {Num : Scalar}.
Import np nd AVHRR AVHRR_to_updated_spec Written.
Variable Wmatrix : Type.
Variable generate_rolling_average_w_matrix : vec → num → array2 num → Wmatrix * vec.
Variable return_w_matrix_variables : list Wmatrix → list vec → WVariables.
Variable read_matchup_data : string → result Matchup.
Variable is_zero : num → bool.
Variable half : num.

Abbreviation convert' := (convert Wmatrix generate_rolling_average_w_matrix
                       return_w_matrix_variables is_zero half).
Abbreviation main' := (main Wmatrix generate_rolling_average_w_matrix
                    return_w_matrix_variables read_matchup_data is_zero half).
Abbreviation return_w_matrices' :=
  (return_w_matrices Wmatrix generate_rolling_average_w_matrix).

(** What [main] has gone through when it starts to write. *)
Lemma convert_Ok (d : Matchup) (c : Converted Wmatrix) :
  convert' d = Ok c →
  ∃ Ur' Us' m1 m2 HM UrM UsM,
    return_valid_averages_mask (rows (u_C_S_sensor_1 d)) (rows (u_C_ICT_sensor_1 d))
      (rows (u_C_S_sensor_2 d)) (rows (u_C_ICT_sensor_2 d)) nan = Ok (c_valid _ c)
    ∧ (if decide (sensor_1_name d ≠ (-1)%Z)
       then fill_cols (Ur d) [0; 1; 5; 6] zero = Ok Ur' ∧ Us' = Us d
       else fill_cols (Ur d) [5; 6] zero = Ok Ur' ∧ fill_cols (Us d) [0] zero = Ok Us')
    ∧ 9 < ncols (H d)
    ∧ (m2 = 4 ∨ m2 = 5)
    ∧ m1 = (if decide (sensor_1_name d = (-1)%Z) then 1 else m2)
    ∧ mask_rows (H d) (c_valid _ c) = Ok HM
    ∧ mask_rows Ur' (c_valid _ c) = Ok UrM
    ∧ mask_rows Us' (c_valid _ c) = Ok UsM
    ∧ c_X1 _ c = slice_cols HM 0 m1 ∧ c_X2 _ c = slice_cols HM 5 (5 + m2)
    ∧ c_Ur1 _ c = slice_cols UrM 0 m1 ∧ c_Ur2 _ c = slice_cols UrM 5 (5 + m2)
    ∧ c_Us1 _ c = slice_cols UsM 0 m1 ∧ c_Us2 _ c = slice_cols UsM 5 (5 + m2)
    ∧ mask_rows (u_C_S_sensor_1 d) (c_valid _ c) = Ok (c_u11 _ c)
    ∧ mask_rows (u_C_ICT_sensor_1 d) (c_valid _ c) = Ok (c_u12 _ c)
    ∧ mask_rows (u_C_S_sensor_2 d) (c_valid _ c) = Ok (c_u21 _ c)
    ∧ mask_rows (u_C_ICT_sensor_2 d) (c_valid _ c) = Ok (c_u22 _ c)
    ∧ mask_items (time_sensor_1 d) (c_valid _ c) = Ok (c_time1 _ c)
    ∧ mask_items (time_sensor_2 d) (c_valid _ c) = Ok (c_time2 _ c)
    ∧ mask_items (K d) (c_valid _ c) = Ok (c_K _ c)
    ∧ mask_items (Kr d) (c_valid _ c) = Ok (c_Kr _ c)
    ∧ mask_items (Ks d) (c_valid _ c) = Ok (c_Ks _ c)
    ∧ (c_w_matrices _ c, c_uncertainty_vectors _ c) =
        return_w_matrices' (c_u11 _ c) (c_u12 _ c) (c_u21 _ c) (c_u22 _ c)
          (c_time1 _ c) half (c_time2 _ c) half (sensor_1_name d)
    ∧ c_wvars _ c = return_w_matrix_variables (c_w_matrices _ c) (c_uncertainty_vectors _ c)
    ∧ (c_w_matrix_use1 _ c, c_w_matrix_use2 _ c, c_uncertainty_vector_use1 _ c,
       c_uncertainty_vector_use2 _ c, c_uncertainty_type1 _ c, c_uncertainty_type2 _ c) =
        use_arrays (sensor_1_name d) (ncols (c_X2 _ c)).
Proof.
  unfold AVHRR_to_updated_spec.convert. intros Hc.
  destruct (return_valid_averages_mask _ _ _ _ _) as [valid|e] eqn:Hvalid; [|discriminate Hc].
  cbn [mbind result_bind] in Hc.
  assert (∃ Ur' Us',
    (if decide (sensor_1_name d ≠ (-1)%Z)
     then fill_cols (Ur d) [0; 1; 5; 6] zero ≫= λ Ur, Ok (Ur, Us d)
     else fill_cols (Ur d) [5; 6] zero ≫= λ Ur,
            fill_cols (Us d) [0] zero ≫= λ Us, Ok (Ur, Us)) = Ok (Ur', Us')
    ∧ (if decide (sensor_1_name d ≠ (-1)%Z)
       then fill_cols (Ur d) [0; 1; 5; 6] zero = Ok Ur' ∧ Us' = Us d
       else fill_cols (Ur d) [5; 6] zero = Ok Ur' ∧ fill_cols (Us d) [0] zero = Ok Us'))
    as (Ur' & Us' & Hfill & Hfill').
  { destruct (decide (sensor_1_name d ≠ (-1)%Z)).
    - destruct (fill_cols (Ur d) [0; 1; 5; 6] zero) as [Ur'|e]; [|done].
      by exists Ur', (Us d).
    - destruct (fill_cols (Ur d) [5; 6] zero) as [Ur'|e]; [|done].
      destruct (fill_cols (Us d) [0] zero) as [Us'|e]; [|done].
      by exists Ur', Us'. }
  rewrite Hfill in Hc. cbn [mbind result_bind] in Hc.
  destruct (col (H d) 9) as [c9|e] eqn:Hc9.
  2:{ destruct (decide (sensor_1_name d = (-1)%Z)); cbn [mbind result_bind] in Hc; [discriminate Hc|]. discriminate Hc. }
  apply col_Ok in Hc9 as [Hcols _].
  pose (m2 := if all_zero is_zero c9 then 4 else 5).
  pose (m1 := if decide (sensor_1_name d = (-1)%Z) then 1 else m2).
  assert ((if decide (sensor_1_name d = (-1)%Z) then Ok 1
           else Ok c9 ≫= λ c9 : vec, Ok (if all_zero is_zero c9 then 4 else 5)) = Ok m1) as Hm1.
  { subst m1 m2. by destruct (decide (sensor_1_name d = (-1)%Z)). }
  rewrite Hm1 in Hc. cbn [mbind result_bind] in Hc.
  destruct (mask_rows (H d) valid) as [HM|e] eqn:HHM;
    cbn [mbind result_bind] in Hc; [|discriminate Hc]. cbn [mbind result_bind] in Hc.
  destruct (mask_rows Ur' valid) as [UrM|e] eqn:HUrM;
    cbn [mbind result_bind] in Hc; [|discriminate Hc]. cbn [mbind result_bind] in Hc.
  destruct (mask_rows Us' valid) as [UsM|e] eqn:HUsM;
    cbn [mbind result_bind] in Hc; [|discriminate Hc]. cbn [mbind result_bind] in Hc.
  destruct (mask_rows (u_C_S_sensor_1 d) valid) as [u11|e] eqn:Hu11;
    cbn [mbind result_bind] in Hc; [|discriminate Hc].
  cbn [mbind result_bind] in Hc.
  destruct (mask_rows (u_C_ICT_sensor_1 d) valid) as [u12|e] eqn:Hu12;
    cbn [mbind result_bind] in Hc; [|discriminate Hc].
  cbn [mbind result_bind] in Hc.
  destruct (mask_rows (u_C_S_sensor_2 d) valid) as [u21|e] eqn:Hu21;
    cbn [mbind result_bind] in Hc; [|discriminate Hc].
  cbn [mbind result_bind] in Hc.
  destruct (mask_rows (u_C_ICT_sensor_2 d) valid) as [u22|e] eqn:Hu22;
    cbn [mbind result_bind] in Hc; [|discriminate Hc].
  cbn [mbind result_bind] in Hc.
  destruct (mask_items (time_sensor_1 d) valid) as [t1|e] eqn:Ht1;
    cbn [mbind result_bind] in Hc; [|discriminate Hc].
  cbn [mbind result_bind] in Hc.
  destruct (mask_items (time_sensor_2 d) valid) as [t2|e] eqn:Ht2;
    cbn [mbind result_bind] in Hc; [|discriminate Hc].
  cbn [mbind result_bind] in Hc.
  destruct (return_w_matrices' u11 u12 u21 u22 t1 half t2 half (sensor_1_name d))
    as [ws uvs] eqn:Hw.
  destruct (use_arrays _ _) as [[[[[wu1 wu2] uu1] uu2] ty1] ty2] eqn:Huse.
  cbv beta iota zeta in Hc.
  destruct (mask_items (K d) valid) as [Kv|e] eqn:HK;
    cbn [mbind result_bind] in Hc; [|discriminate Hc]. cbn [mbind result_bind] in Hc.
  destruct (mask_items (Kr d) valid) as [Krv|e] eqn:HKr;
    cbn [mbind result_bind] in Hc; [|discriminate Hc]. cbn [mbind result_bind] in Hc.
  destruct (mask_items (Ks d) valid) as [Ksv|e] eqn:HKs;
    cbn [mbind result_bind] in Hc; [|discriminate Hc]. cbn [mbind result_bind] in Hc.
  injection Hc as <-. cbn.
  exists Ur', Us', m1, m2, HM, UrM, UsM.
  split_and!; try done.
  subst m2. destruct (all_zero is_zero c9); auto.
Qed.

Lemma mask_lookup (u11 u12 u21 u22 : mat) (mask : list bool) :
  return_valid_averages_mask u11 u12 u21 u22 nan = Ok mask →
  length mask = length u11
  ∧ ∀ i r11 r12 r21 r22,
      u11 !! i = Some r11 → u12 !! i = Some r12 → u21 !! i = Some r21 → u22 !! i = Some r22 →
      mask !! i = Some (negb (any_nan (r11, r12, r21, r22))).
Proof.
  unfold return_valid_averages_mask, ones, enumerate. rewrite isnan_nan.
  destruct (mark_loop (zip4 u11 u12 u21 u22) 0 (replicate (length u11) true))
    as (mask' & Hrun & Hlen & _ & _ & Hin).
  { rewrite length_replicate. simpl. apply zip4_length. }
  rewrite Hrun. intros [= <-]. split; [by rewrite Hlen, length_replicate|].
  intros i r11 r12 r21 r22 H11 H12 H21 H22.
  pose proof (Hin i _ (zip4_lookup _ _ _ _ _ _ _ _ _ H11 H12 H21 H22)) as Hi.
  change (0 + i) with i in Hi. rewrite lookup_replicate_2 in Hi by (by eapply lookup_lt_Some).
  rewrite Hi. by destruct (any_nan _).
Qed.

(** The mask of a conversion, and the number of rows of its arrays. *)
Lemma convert_mask (d : Matchup) (c : Converted Wmatrix) :
  convert' d = Ok c →
  let M := nrows (H d) in
  nrows (u_C_S_sensor_1 d) = M ∧ nrows (u_C_ICT_sensor_1 d) = M
  ∧ nrows (u_C_S_sensor_2 d) = M ∧ nrows (u_C_ICT_sensor_2 d) = M
  ∧ c_valid _ c = complete d <$> seq 0 M.
Proof.
  intros Hc M. apply convert_Ok in Hc
    as (Ur' & Us' & m1 & m2 & HM & UrM & UsM & Hmask & _ & _ & _ & _ & HHM & _ & _ & _ & _
        & _ & _ & _ & _ & Hu11 & Hu12 & Hu21 & Hu22 & _).
  apply mask_rows_Ok in HHM as (HlH & _). apply mask_rows_Ok in Hu11 as (Hl11 & _).
  apply mask_rows_Ok in Hu12 as (Hl12 & _). apply mask_rows_Ok in Hu21 as (Hl21 & _).
  apply mask_rows_Ok in Hu22 as (Hl22 & _).
  apply mask_lookup in Hmask as [Hlen Hlook]. subst M. unfold nrows in *.
  split_and!; [lia..|].
  apply list_eq_same_length with (length (rows (H d)));
    [by rewrite length_fmap, length_seq | lia |].
  intros i b b' Hi Hb Hb'.
  destruct (lookup_lt_is_Some_2 (rows (u_C_S_sensor_1 d)) i) as [r11 H11]; [lia|].
  destruct (lookup_lt_is_Some_2 (rows (u_C_ICT_sensor_1 d)) i) as [r12 H12]; [lia|].
  destruct (lookup_lt_is_Some_2 (rows (u_C_S_sensor_2 d)) i) as [r21 H21]; [lia|].
  destruct (lookup_lt_is_Some_2 (rows (u_C_ICT_sensor_2 d)) i) as [r22 H22]; [lia|].
  rewrite (Hlook i _ _ _ _ H11 H12 H21 H22) in Hb.
  rewrite list_lookup_fmap, lookup_seq_lt in Hb' by done. cbn in Hb'.
  unfold complete in Hb'. rewrite H11, H12, H21, H22 in Hb'.
  cbn [from_option id fmap option_fmap option_map] in Hb'. congruence.
Qed.

(** The matchups that are written are those whose four rows of scanline
    uncertainties hold no NaN (the averaging kernel is complete), in the
    order of the file: the mask of [main] is that test, matchup by matchup,
    and the rows of [X1], the entries of [K] and of the times, and the rows
    of scanline uncertainties that go into the W matrices are those of the
    matchups that pass it - so no NaN is left in the latter. *)
Theorem conversion_keeps_the_complete_matchups (d : Matchup) (c : Converted Wmatrix) :
  convert' d = Ok c →
  let kept := where_ (c_valid _ c) in
  c_valid _ c = complete d <$> seq 0 (nrows (H d))
  ∧ Forall2 (λ i r, ∃ r0, rows (H d) !! i = Some r0 ∧ r = take (ncols (c_X1 _ c)) r0)
      kept (rows (c_X1 _ c))
  ∧ Forall2 (λ i r, ∃ r0, rows (H d) !! i = Some r0
                          ∧ r = take (ncols (c_X2 _ c)) (drop 5 r0))
      kept (rows (c_X2 _ c))
  ∧ Forall2 (λ i x, K d !! i = Some x) kept (c_K _ c)
  ∧ Forall2 (λ i x, time_sensor_1 d !! i = Some x) kept (c_time1 _ c)
  ∧ Forall2 (λ i x, time_sensor_2 d !! i = Some x) kept (c_time2 _ c)
  ∧ Forall2 (λ i r, rows (u_C_S_sensor_1 d) !! i = Some r ∧ Forall (λ x, isnan x = false) r)
      kept (rows (c_u11 _ c))
  ∧ Forall2 (λ i r, rows (u_C_ICT_sensor_1 d) !! i = Some r ∧ Forall (λ x, isnan x = false) r)
      kept (rows (c_u12 _ c))
  ∧ Forall2 (λ i r, rows (u_C_S_sensor_2 d) !! i = Some r ∧ Forall (λ x, isnan x = false) r)
      kept (rows (c_u21 _ c))
  ∧ Forall2 (λ i r, rows (u_C_ICT_sensor_2 d) !! i = Some r ∧ Forall (λ x, isnan x = false) r)
      kept (rows (c_u22 _ c)).
Proof.
  intros Hc kept. destruct (convert_mask d c Hc) as (_ & _ & _ & _ & Hvalid).
  pose proof Hc as Hc'. apply convert_Ok in Hc'
    as (Ur' & Us' & m1 & m2 & HM & UrM & UsM & _ & _ & Hcols & Hm2 & Hm1 & HHM & _ & _
        & HX1 & HX2 & _ & _ & _ & _ & Hu11 & Hu12 & Hu21 & Hu22 & Ht1 & Ht2 & HK & _).
  assert (ncols HM = ncols (H d)) as HcHM by (by apply mask_rows_Ok in HHM as (_ & ? & _)).
  assert (m1 ≤ 5) as Hm1' by (subst m1; case_decide; lia).
  assert (∀ i, complete d i = true →
            Forall (λ x, isnan x = false) (default [] (rows (u_C_S_sensor_1 d) !! i))
            ∧ Forall (λ x, isnan x = false) (default [] (rows (u_C_ICT_sensor_1 d) !! i))
            ∧ Forall (λ x, isnan x = false) (default [] (rows (u_C_S_sensor_2 d) !! i))
            ∧ Forall (λ x, isnan x = false) (default [] (rows (u_C_ICT_sensor_2 d) !! i)))
    as Hfree.
  { intros i Hi. unfold complete in Hi. apply negb_true_iff in Hi.
    assert (∀ x, x ∈ default [] (rows (u_C_S_sensor_1 d) !! i)
                 ∨ x ∈ default [] (rows (u_C_ICT_sensor_1 d) !! i)
                 ∨ x ∈ default [] (rows (u_C_S_sensor_2 d) !! i)
                 ∨ x ∈ default [] (rows (u_C_ICT_sensor_2 d) !! i) → isnan x = false) as Hx.
    { intros x Hin. destruct (isnan x) eqn:Hn; [|done].
      assert (any_nan (default [] (rows (u_C_S_sensor_1 d) !! i),
                       default [] (rows (u_C_ICT_sensor_1 d) !! i),
                       default [] (rows (u_C_S_sensor_2 d) !! i),
                       default [] (rows (u_C_ICT_sensor_2 d) !! i)) = true); [|congruence].
      apply any_nan_true. by exists x. }
    split_and!; apply Forall_forall; intros x Hin; apply Hx; auto. }
  assert (∀ i, c_valid _ c !! i = Some true → complete d i = true) as Hcomp.
  { intros i Hi. rewrite Hvalid, list_lookup_fmap in Hi.
    destruct (seq 0 (nrows (H d)) !! i) as [i'|] eqn:Hs; [|done].
    apply lookup_seq in Hs as [-> _]. cbn in Hi. congruence. }
  split_and!.
  - done.
  - rewrite HX1. unfold slice_cols. cbn [rows ncols]. apply Forall2_fmap_r.
    eapply Forall2_impl; [apply (mask_rows_where _ _ _ HHM)|].
    intros i r [Hr _]. exists r. split; [done|]. rewrite drop_0. f_equal. lia.
  - rewrite HX2. unfold slice_cols. cbn [rows ncols]. apply Forall2_fmap_r.
    eapply Forall2_impl; [apply (mask_rows_where _ _ _ HHM)|].
    intros i r [Hr _]. exists r. split; [done|]. f_equal. lia.
  - eapply Forall2_impl; [apply (mask_items_where _ _ _ HK)|]. by intros i x [? _].
  - eapply Forall2_impl; [apply (mask_items_where _ _ _ Ht1)|]. by intros i x [? _].
  - eapply Forall2_impl; [apply (mask_items_where _ _ _ Ht2)|]. by intros i x [? _].
  - eapply Forall2_impl; [apply (mask_rows_where _ _ _ Hu11)|].
    intros i r [Hr Hm]. split; [done|].
    destruct (Hfree i (Hcomp i Hm)) as (Hf & _). by rewrite Hr in Hf.
  - eapply Forall2_impl; [apply (mask_rows_where _ _ _ Hu12)|].
    intros i r [Hr Hm]. split; [done|].
    destruct (Hfree i (Hcomp i Hm)) as (_ & Hf & _). by rewrite Hr in Hf.
  - eapply Forall2_impl; [apply (mask_rows_where _ _ _ Hu21)|].
    intros i r [Hr Hm]. split; [done|].
    destruct (Hfree i (Hcomp i Hm)) as (_ & _ & Hf & _). by rewrite Hr in Hf.
  - eapply Forall2_impl; [apply (mask_rows_where _ _ _ Hu22)|].
    intros i r [Hr Hm]. split; [done|].
    destruct (Hfree i (Hcomp i Hm)) as (_ & _ & _ & Hf). by rewrite Hr in Hf.
Qed.

(** The shapes of what a conversion has computed. *)
Lemma convert_shapes (d : Matchup) (c : Converted Wmatrix) :
  convert' d = Ok c → same_columns d →
  let M := length (where_ (c_valid _ c)) in
  ∃ m1 m2,
    (m2 = 4 ∨ m2 = 5)
    ∧ m1 = (if decide (sensor_1_name d = (-1)%Z) then 1 else m2)
    ∧ (wf (c_X1 _ c) ∧ nrows (c_X1 _ c) = M ∧ ncols (c_X1 _ c) = m1)
    ∧ (wf (c_Ur1 _ c) ∧ nrows (c_Ur1 _ c) = M ∧ ncols (c_Ur1 _ c) = m1)
    ∧ (wf (c_Us1 _ c) ∧ nrows (c_Us1 _ c) = M ∧ ncols (c_Us1 _ c) = m1)
    ∧ (wf (c_X2 _ c) ∧ nrows (c_X2 _ c) = M ∧ ncols (c_X2 _ c) = m2)
    ∧ (wf (c_Ur2 _ c) ∧ nrows (c_Ur2 _ c) = M ∧ ncols (c_Ur2 _ c) = m2)
    ∧ (wf (c_Us2 _ c) ∧ nrows (c_Us2 _ c) = M ∧ ncols (c_Us2 _ c) = m2)
    ∧ length (c_K _ c) = M ∧ length (c_Kr _ c) = M ∧ length (c_Ks _ c) = M
    ∧ length (c_time1 _ c) = M ∧ length (c_time2 _ c) = M
    ∧ (c_w_matrix_use1 _ c, c_w_matrix_use2 _ c, c_uncertainty_vector_use1 _ c,
       c_uncertainty_vector_use2 _ c, c_uncertainty_type1 _ c, c_uncertainty_type2 _ c) =
        use_arrays (sensor_1_name d) m2.
Proof.
  intros Hc (HwH & HwUr & HwUs & HcUr & HcUs) M.
  apply convert_Ok in Hc
    as (Ur' & Us' & m1 & m2 & HM & UrM & UsM & _ & Hfill & Hcols & Hm2 & Hm1 & HHM & HUrM
        & HUsM & HX1 & HX2 & HUr1 & HUr2 & HUs1 & HUs2 & _ & _ & _ & _ & Ht1 & Ht2 & HK
        & HKr & HKs & _ & _ & Huse).
  assert (wf Ur' ∧ ncols Ur' = ncols (H d) ∧ wf Us' ∧ ncols Us' = ncols (H d))
    as (HwUr' & HcUr' & HwUs' & HcUs').
  { destruct (decide (sensor_1_name d ≠ (-1)%Z)).
    - destruct Hfill as [Hf ->]. apply fill_cols_Ok in Hf as (_ & Hn & _ & Hw & _).
      split_and!; [by apply Hw | congruence | done | done].
    - destruct Hfill as [Hf Hf']. apply fill_cols_Ok in Hf as (_ & Hn & _ & Hw & _).
      apply fill_cols_Ok in Hf' as (_ & Hn' & _ & Hw' & _).
      split_and!; [by apply Hw | congruence | by apply Hw' | congruence]. }
  apply mask_rows_Ok in HHM as (_ & HcHM & HnHM & _ & HwHM).
  apply mask_rows_Ok in HUrM as (_ & HcUrM & HnUrM & _ & HwUrM).
  apply mask_rows_Ok in HUsM as (_ & HcUsM & HnUsM & _ & HwUsM).
  apply mask_items_Ok in Ht1 as (_ & Hlt1 & _). apply mask_items_Ok in Ht2 as (_ & Hlt2 & _).
  apply mask_items_Ok in HK as (_ & HlK & _). apply mask_items_Ok in HKr as (_ & HlKr & _).
  apply mask_items_Ok in HKs as (_ & HlKs & _).
  assert (m1 ≤ 5) as Hm1' by (subst m1; case_decide; lia).
  assert (ncols (c_X2 _ c) = m2) as HcX2.
  { rewrite HX2. unfold slice_cols. cbn [ncols]. lia. }
  rewrite HcX2 in Huse.
  exists m1, m2. rewrite HX1, HX2, HUr1, HUr2, HUs1, HUs2, !slice_cols_nrows.
  unfold slice_cols at 2 4 6 8 10 12. cbn [ncols].
  split_and!; try done; try (apply slice_cols_wf; auto); lia.
Qed.

Lemma use_arrays_cases (s : Z) (m2 : nat) :
  m2 = 4 ∨ m2 = 5 →
  let rest := replicate (m2 - 2) 0%Z in
  let types := [3; 3; 1]%Z ++ replicate (m2 - 3) (if decide (m2 = 4) then 1%Z else 2%Z) in
  use_arrays s m2 =
    if decide (s = (-1)%Z) then
      ([0%Z], [1%Z; 1%Z] ++ rest, [0%Z], [1%Z; 2%Z] ++ rest, [1%Z], types)
    else
      ([1%Z; 1%Z] ++ rest, [2%Z; 2%Z] ++ rest, [1%Z; 2%Z] ++ rest, [3%Z; 4%Z] ++ rest,
       types, types).
Proof.
  unfold use_arrays. intros [-> | ->]; destruct (decide (s = (-1)%Z)); done.
Qed.

(** Where a column has correlation type 3 (structured: the space and
    internal-target counts), the random uncertainties that are written for it
    are zero in every matchup; for a reference pair so is the systematic
    uncertainty of the reference radiance. *)
Theorem structured_columns_have_no_random_uncertainty (d : Matchup) (c : Converted Wmatrix) :
  convert' d = Ok c → same_columns d →
  (∀ j, c_uncertainty_type1 _ c !! j = Some 3%Z →
     ∀ r, r ∈ rows (c_Ur1 _ c) → r !! j = Some zero)
  ∧ (∀ j, c_uncertainty_type2 _ c !! j = Some 3%Z →
       ∀ r, r ∈ rows (c_Ur2 _ c) → r !! j = Some zero)
  ∧ (sensor_1_name d = (-1)%Z → ∀ r, r ∈ rows (c_Us1 _ c) → r !! 0 = Some zero).
Proof.
  intros Hc Hsame.
  destruct (convert_shapes d c Hc Hsame) as (m1 & m2 & Hm2 & Hm1 & _ & _ & _ & (_ & _ & HcX2)
    & _ & _ & _ & _ & _ & _ & _ & Huse).
  destruct Hsame as (HwH & HwUr & HwUs & HcUr & HcUs).
  apply convert_Ok in Hc
    as (Ur' & Us' & m1' & m2' & HM & UrM & UsM & _ & Hfill & Hcols & Hm2' & Hm1' & HHM & HUrM
        & HUsM & HX1 & HX2 & HUr1 & HUr2 & HUs1 & HUs2 & _).
  apply mask_rows_Ok in HHM as (_ & HcHM & _).
  assert (m2' = m2) as ->.
  { rewrite HX2 in HcX2. unfold slice_cols in HcX2. cbn [ncols] in HcX2. lia. }
  assert (m1' = m1) as -> by congruence.
  rewrite (use_arrays_cases _ _ Hm2) in Huse. cbv zeta in Huse.
  apply mask_rows_Ok in HUrM as (_ & _ & _ & HinUr & _).
  apply mask_rows_Ok in HUsM as (_ & _ & _ & HinUs & _).
  assert (∀ r j, r ∈ rows Ur' → j = 5 ∨ j = 6 → r !! j = Some zero) as H56.
  { intros r j Hr Hj. destruct (decide (sensor_1_name d ≠ (-1)%Z)).
    - destruct Hfill as [Hf _]. eapply (filled_rows _ _ _ _ Hf); [done..|].
      destruct Hj as [-> | ->]; repeat constructor.
    - destruct Hfill as [Hf _]. eapply (filled_rows _ _ _ _ Hf); [done..|].
      destruct Hj as [-> | ->]; repeat constructor. }
  assert (∀ j, ([3; 3; 1]%Z ++ replicate (m2 - 3) (if decide (m2 = 4) then 1%Z else 2%Z)) !! j
               = Some 3%Z → j = 0 ∨ j = 1) as Htypes.
  { intros [|[|[|j]]] Hj; auto; cbn in Hj; [done|].
    apply lookup_replicate in Hj as [Hj _]. by case_decide. }
  pose proof (f_equal (λ t, t.1.2) Huse) as Ht1. pose proof (f_equal (λ t, t.2) Huse) as Ht2.
  cbn [fst snd] in Ht1, Ht2. clear Huse.
  split_and!.
  - intros j Hj r Hr. destruct (decide (sensor_1_name d = (-1)%Z)) as [Hs|Hs].
    { cbn [fst snd] in Ht1. rewrite Ht1 in Hj. by destruct j. }
    cbn [fst snd] in Ht1. rewrite Ht1 in Hj. apply Htypes in Hj.
    rewrite HUr1 in Hr. apply slice_cols_rows in Hr as (r0 & Hr0 & ->).
    rewrite drop_0, lookup_take_lt by lia.
    rewrite decide_True in Hfill by done. destruct Hfill as [Hf _].
    eapply (filled_rows _ _ _ _ Hf); [done | by apply HinUr |].
    destruct Hj as [-> | ->]; repeat constructor.
  - intros j Hj r Hr.
    assert (j = 0 ∨ j = 1) as Hj'.
    { apply Htypes. rewrite Ht2 in Hj.
      by destruct (decide (sensor_1_name d = (-1)%Z)). }
    rewrite HUr2 in Hr. apply slice_cols_rows in Hr as (r0 & Hr0 & ->).
    rewrite lookup_take_lt, lookup_drop by lia.
    apply H56; [by apply HinUr | lia].
  - intros Hs r Hr. rewrite decide_False in Hfill by (by intros ?).
    destruct Hfill as [_ Hf].
    rewrite HUs1 in Hr. apply slice_cols_rows in Hr as (r0 & Hr0 & ->).
    rewrite drop_0, lookup_take_lt by (subst m1; rewrite decide_True by done; lia).
    eapply (filled_rows _ _ _ _ Hf); [done | by apply HinUs | repeat constructor].
Qed.



(** A file whose [H] has fewer than ten columns, or whose [Ur] has fewer than
    seven, is rejected with an IndexError: by the conversion, and so by
    [main] before it writes anything. *)
Theorem narrow_arrays_are_rejected (input_file_path output_file_path : string) (d : Matchup) :
  read_matchup_data input_file_path = Ok d →
  ncols (H d) < 10 ∨ ncols (Ur d) < 7 →
  convert' d = Raise IndexError
  ∧ main' input_file_path output_file_path = Raise IndexError.
Proof.
  intros Hread Hnarrow.
  assert (convert' d = Raise IndexError) as Hc.
  { unfold AVHRR_to_updated_spec.convert.
    destruct (return_valid_averages_mask _ _ _ _ _) as [valid|e] eqn:Hvalid.
    2:{ unfold return_valid_averages_mask, ones, enumerate in Hvalid.
        rewrite isnan_nan in Hvalid.
        destruct (mark_loop (zip4 (rows (u_C_S_sensor_1 d)) (rows (u_C_ICT_sensor_1 d))
                               (rows (u_C_S_sensor_2 d)) (rows (u_C_ICT_sensor_2 d))) 0
                    (replicate (length (rows (u_C_S_sensor_1 d))) true))
          as (mask' & Hrun & _).
        { rewrite length_replicate. simpl. apply zip4_length. }
        congruence. }
    cbn [mbind result_bind].
    assert (∀ (a : array2 num) idx x, (∃ j, j ∈ idx ∧ ncols a ≤ j) →
              fill_cols a idx x = Raise IndexError) as Hfill.
    { intros a idx x (j & Hj & Hge). unfold fill_cols. rewrite decide_False; [done|].
      intros Hall. rewrite Forall_forall in Hall. specialize (Hall j Hj). lia. }
    assert (∀ (a : array2 num) idx x, ∃ r, fill_cols a idx x = r
              ∧ (r = Raise IndexError ∨ ∃ a', r = Ok a')) as Hfill'.
    { intros a idx x. unfold fill_cols. case_decide; eauto. }
    assert (ncols (H d) < 10 → col (H d) 9 = Raise IndexError) as Hcol.
    { intros Hlt. unfold col. rewrite decide_False by lia. done. }
    destruct (decide (sensor_1_name d ≠ (-1)%Z)) as [Hs|Hs].
    - destruct (Hfill' (Ur d) [0; 1; 5; 6] zero) as (r & Hr & [->|[Ur' ->]]).
      + by rewrite Hr.
      + rewrite Hr. cbn [mbind result_bind]. rewrite decide_False by done.
        destruct Hnarrow as [Hn|Hn].
        * by rewrite (Hcol Hn).
        * rewrite Hfill in Hr; [done|]. exists 6. split; [repeat constructor | lia].
    - destruct (Hfill' (Ur d) [5; 6] zero) as (r & Hr & [->|[Ur' ->]]).
      + by rewrite Hr.
      + rewrite Hr. cbn [mbind result_bind].
        destruct (Hfill' (Us d) [0] zero) as (r' & Hr' & [->|[Us' ->]]).
        * by rewrite Hr'.
        * rewrite Hr'. cbn [mbind result_bind].
          rewrite decide_True by (by destruct (decide (sensor_1_name d = (-1)%Z)); [|exfalso; apply Hs; intros ?]).
          cbn [mbind result_bind].
          destruct Hnarrow as [Hn|Hn].
          -- by rewrite (Hcol Hn).
          -- rewrite Hfill in Hr; [done|]. exists 6. split; [repeat constructor | lia]. }
  split; [done|].
  unfold AVHRR_to_updated_spec.main. rewrite Hread. cbn [mbind result_bind]. by rewrite Hc.
Qed.

Lemma main_Ok (input_file_path output_file_path : string) (ops : list ncop) :
  main' input_file_path output_file_path = Ok ops →
  ∃ d c,
    read_matchup_data input_file_path = Ok d ∧ convert' d = Ok c
    ∧ ops =
        write_input_file output_file_path
          (c_X1 _ c) (c_X2 _ c) (c_Ur1 _ c) (c_Ur2 _ c) (c_Us1 _ c) (c_Us2 _ c)
          (c_uncertainty_type1 _ c) (c_uncertainty_type2 _ c)
          (c_K _ c) (c_Kr _ c) (c_Ks _ c) (c_time1 _ c) (c_time2 _ c)
          (sensor_1_name d) (sensor_2_name d) None
        ++ append_W_to_input_file output_file_path
             (w_matrix_val (c_wvars _ c)) (w_matrix_row (c_wvars _ c))
             (w_matrix_col (c_wvars _ c)) (w_matrix_nnz (c_wvars _ c))
             (uncertainty_vector_row_count (c_wvars _ c)) (uncertainty_vector (c_wvars _ c))
             (c_w_matrix_use1 _ c) (c_w_matrix_use2 _ c)
             (c_uncertainty_vector_use1 _ c) (c_uncertainty_vector_use2 _ c)
        ++ [TestInputFile output_file_path].
Proof.
  unfold AVHRR_to_updated_spec.main. intros Hm.
  destruct (read_matchup_data input_file_path) as [d|e]; [|done]. cbn [mbind result_bind] in Hm.
  destruct (convert' d) as [c|e] eqn:Hc; [|done]. cbn [mbind result_bind] in Hm.
  injection Hm as <-. by exists d, c.
Qed.

Lemma use_arrays_lengths (s : Z) (m2 : nat) :
  m2 = 4 ∨ m2 = 5 →
  let m1 := if decide (s = (-1)%Z) then 1 else m2 in
  let u := use_arrays s m2 in
  length u.1.1.1.1.1 = m1 ∧ length u.1.1.1.1.2 = m2
  ∧ length u.1.1.1.2 = m1 ∧ length u.1.1.2 = m2
  ∧ length u.1.2 = m1 ∧ length u.2 = m2.
Proof.
  unfold use_arrays. intros [-> | ->]; destruct (decide (s = (-1)%Z)); done.
Qed.

(** In the file that [main] writes, the dimensions [M], [m1] and [m2] are
    created once each, [m2] is 4 or 5 and [m1] is 1 for a reference pair and
    [m2] otherwise, and every variable over these dimensions is given data of
    the shape it was created with: [X1], [Ur1], [Us1] are [M] by [m1],
    [X2], [Ur2], [Us2] are [M] by [m2], the K arrays and the times have [M]
    entries, the correlation types and the arrays mapping columns to W
    matrices and uncertainty vectors have [m1] or [m2]. *)
Theorem written_variables_have_their_dimensions (input_file_path output_file_path : string)
    (d : Matchup) (ops : list ncop) :
  read_matchup_data input_file_path = Ok d → same_columns d →
  main' input_file_path output_file_path = Ok ops →
  NoDup (created_dimensions ops)
  ∧ ∃ M m1 m2 : nat,
      NcCreateDimension "M" (Z.of_nat M) ∈ ops
      ∧ NcCreateDimension "m1" (Z.of_nat m1) ∈ ops
      ∧ NcCreateDimension "m2" (Z.of_nat m2) ∈ ops
      ∧ (m2 = 4 ∨ m2 = 5)
      ∧ m1 = (if decide (sensor_1_name d = (-1)%Z) then 1 else m2)
      ∧ ∀ var dtype dims value,
          NcCreateVariable var dtype dims ∈ ops → NcAssign var value ∈ ops →
          Forall (λ dim, dim ∈ ["M"; "m1"; "m2"]) dims →
          has_shape value
            ((λ dim, Z.of_nat (if decide (dim = "M") then M
                               else if decide (dim = "m1") then m1 else m2)) <$> dims).
Proof.
  intros Hread Hsame Hmain.
  apply main_Ok in Hmain as (d' & c & Hread' & Hc & ->).
  assert (d' = d) as -> by congruence.
  destruct (convert_shapes d c Hc Hsame)
    as (m1 & m2 & Hm2 & Hm1 & (HwX1 & HnX1 & HcX1) & (HwUr1 & HnUr1 & HcUr1)
        & (HwUs1 & HnUs1 & HcUs1) & (HwX2 & HnX2 & HcX2) & (HwUr2 & HnUr2 & HcUr2)
        & (HwUs2 & HnUs2 & HcUs2) & HlK & HlKr & HlKs & Hlt1 & Hlt2 & Huse).
  destruct (use_arrays_lengths (sensor_1_name d) m2 Hm2) as (Hl1 & Hl2 & Hl3 & Hl4 & Hl5 & Hl6).
  cbv zeta in Hl1, Hl3, Hl5. rewrite <- Hm1 in Hl1, Hl3, Hl5.
  rewrite <- Huse in Hl1, Hl2, Hl3, Hl4, Hl5, Hl6.
  cbn [fst snd] in Hl1, Hl2, Hl3, Hl4, Hl5, Hl6.
  set (M := length (where_ (c_valid _ c))) in *.
  unfold write_input_file, append_W_to_input_file, variable. cbn [app].
  split.
  { unfold created_dimensions. cbn [omap list_omap app].
    apply (bool_decide_unpack _). by vm_compute. }
  exists M, m1, m2. rewrite HnX1, HcX1, HcX2.
  split_and!; try done.
  { repeat first [ apply list_elem_of_here | apply list_elem_of_further ]. }
  { repeat first [ apply list_elem_of_here | apply list_elem_of_further ]. }
  { repeat first [ apply list_elem_of_here | apply list_elem_of_further ]. }
  intros var dtype dims value Hcreate Hassign Hdims.
  match type of Hcreate with _ ∈ ?l =>
    assert ((var, dims) ∈ omap (λ op, match op with
                                      | NcCreateVariable v _ ds => Some (v, ds)
                                      | _ => None
                                      end) l) as Hcreate'
      by (apply list_elem_of_omap; eexists; split; [exact Hcreate | reflexivity]);
    assert ((var, value) ∈ omap (λ op, match op with
                                       | NcAssign v x => Some (v, x)
                                       | _ => None
                                       end) l) as Hassign'
      by (apply list_elem_of_omap; eexists; split; [exact Hassign | reflexivity])
  end.
  clear Hcreate Hassign. cbn [omap list_omap] in Hcreate', Hassign'.
  repeat (apply elem_of_cons in Hcreate' as [Hcreate'|Hcreate']).
  all: try (by apply elem_of_nil in Hcreate').
  all: injection Hcreate' as -> ->.
  all: try (exfalso; revert Hdims; apply (proj1 (bool_decide_eq_false _)); by vm_compute).
  all: repeat (apply elem_of_cons in Hassign' as [Hassign'|Hassign'];
               [try discriminate Hassign'|]).
  all: try (by apply elem_of_nil in Hassign').
  all: injection Hassign' as ->.
  all: unfold has_shape; cbn [fmap list_fmap];
       rewrite ?(decide_True (P := "M" = "M")), ?(decide_False (P := "m1" = "M")),
               ?(decide_False (P := "m2" = "M")), ?(decide_True (P := "m1" = "m1")),
               ?(decide_False (P := "m2" = "m1")) by done;
       rewrite ?HnX1, ?HcX1, ?HcX2, ?HnUr1, ?HnUs1, ?HnX2, ?HnUr2, ?HnUs2, ?HcUr1, ?HcUs1,
               ?HcUr2, ?HcUs2,
               ?HlK, ?HlKr, ?HlKs, ?Hlt1, ?Hlt2, ?Hl1, ?Hl2, ?Hl3, ?Hl4, ?Hl5, ?Hl6;
       try done.
  exfalso. revert Hdims.
  destruct (w_matrix_row (c_wvars _ c)); apply (proj1 (bool_decide_eq_false _)); by vm_compute.
Qed.

End ToolFacts.

(** ** readHD.py: the harmonisation arrays of a pair *)

Section AssembleFacts.
Context {Num : Scalar}.
Import np nd readHD readHDarrays.

Lemma zeros_Ok (r : Z) (c : nat) (a : array2 num) :
  zeros r c = Ok a →
  (0 ≤ r)%Z ∧ a = {| ncols := c; rows := replicate (Z.to_nat r) (replicate c zero) |}.
Proof. unfold zeros. case_decide; [done|]. intros [= <-]. split; [lia | done]. Qed.

Lemma zeros_wf (n c : nat) :
  wf ({| ncols := c; rows := replicate n (replicate c zero) |} : array2 num).
Proof.
  unfold wf. cbn. apply Forall_forall. intros r [-> _]%elem_of_replicate.
  apply length_replicate.
Qed.

Lemma stretch_length {A} (w : nat) (srow : list A) :
  length srow = w ∨ length srow = 1 → length (stretch w srow) = w.
Proof.
  intros [Hl|Hl].
  - destruct srow as [|x [|y srow]]; cbn in *; try done. by rewrite length_replicate.
  - destruct srow as [|x [|y srow]]; cbn in *; try done. by rewrite length_replicate.
Qed.

Lemma stretch_same {A} (w : nat) (srow : list A) : length srow = w → stretch w srow = srow.
Proof. intros <-. by destruct srow as [|x [|y srow]]. Qed.

(** [a[:, lo:hi] = src] when [src] has the rows and columns of the slice. *)
Lemma set_slice_Ok {A} (a a' src : array2 A) (lo hi : nat) :
  set_slice a lo hi src = Ok a' →
  ∀ w, w = (hi `min` ncols a) - lo →
  (nrows src = nrows a ∨ nrows src = 1) ∧ (ncols src = w ∨ ncols src = 1)
  ∧ ncols a' = ncols a ∧ nrows a' = nrows a
  ∧ (wf a → wf src → lo ≤ ncols a → wf a')
  ∧ (nrows src = nrows a → ncols src = w → wf src →
     ∀ i r s, rows a !! i = Some r → rows src !! i = Some s →
       rows a' !! i = Some (take lo r ++ s ++ drop (lo + w) r)).
Proof.
  unfold set_slice. intros Hset w ->. cbv zeta in Hset.
  case_decide as Hshape; [|done]. injection Hset as <-. destruct Hshape as [Hr Hc].
  cbn [ncols rows]. unfold nrows. cbn [rows]. rewrite length_imap.
  split_and!; try done.
  - intros Hwf Hwfs Hlo. unfold wf in *. cbn [rows ncols].
    apply Forall_forall. intros r' Hr'. apply list_elem_of_lookup_1 in Hr' as [i Hi].
    apply list_lookup_imap_Some in Hi as (r & Hri & ->).
    pose proof (Forall_lookup_1 _ _ _ _ Hwf Hri) as Hlr. cbn in Hlr.
    destruct (if decide (length (rows src) = 1) then rows src !! 0 else rows src !! i)
      as [srow|] eqn:Hs; [|done].
    assert (length srow = ncols src) as Hls.
    { case_decide; by eapply (Forall_lookup_1 _ _ _ _ Hwfs). }
    rewrite !length_app, length_take, length_drop, stretch_length by lia. lia.
  - intros Hrows Hcols Hwfs i r s Hri Hsi. rewrite list_lookup_imap, Hri. cbn.
    assert ((if decide (length (rows src) = 1) then rows src !! 0 else rows src !! i) = Some s)
      as ->.
    { case_decide as H1; [|done]. unfold nrows in Hrows.
      apply lookup_lt_Some in Hri. replace i with 0 in Hsi by lia. done. }
    rewrite stretch_same; [done|]. rewrite <- Hcols.
    by eapply (Forall_lookup_1 _ _ _ _ Hwfs).
Qed.

(** [a[:, j] = v] when [v] has an entry per row. *)
Lemma set_col_Ok {A} (a a' : array2 A) (j : nat) (v : list A) :
  set_col a j v = Ok a' →
  j < ncols a ∧ (length v = nrows a ∨ length v = 1)
  ∧ ncols a' = ncols a ∧ nrows a' = nrows a
  ∧ (wf a → wf a')
  ∧ (length v = nrows a →
     ∀ i r x, rows a !! i = Some r → v !! i = Some x → rows a' !! i = Some (<[j := x]> r)).
Proof.
  unfold set_col. case_decide as Hj; [|done]. case_decide as Hlen; [|done].
  intros [= <-]. cbn [ncols rows]. unfold nrows. cbn [rows]. rewrite length_imap.
  split_and!; try done.
  - unfold wf. cbn [rows ncols]. intros Hwf. apply Forall_forall. intros r' Hr'.
    apply list_elem_of_lookup_1 in Hr' as [i Hi].
    apply list_lookup_imap_Some in Hi as (r & Hri & ->).
    pose proof (Forall_lookup_1 _ _ _ _ Hwf Hri) as Hlr. cbn in Hlr.
    destruct (if decide (length v = 1) then v !! 0 else v !! i); [|done].
    by rewrite length_insert.
  - intros Hl i r x Hri Hx. rewrite list_lookup_imap, Hri. cbn.
    assert ((if decide (length v = 1) then v !! 0 else v !! i) = Some x) as ->; [|done].
    case_decide as H1; [|done]. unfold nrows in Hl.
    apply lookup_lt_Some in Hri. replace i with 0 in Hx by lia. done.
Qed.

(** [A = np.zeros((nor, noc)); A[:, lo:hi] = B; A[:, noc-1] = k]: the shape
    of [A], and its rows when [B] fills the slice and [B] and [k] have [nor]
    rows. *)
Lemma assemble_Ok (nor : Z) (noc lo hi : nat) (B : array2 num) (k : vec) (A : array2 num) :
  assemble nor noc lo hi B k = Ok A →
  (0 ≤ nor)%Z ∧ ncols A = noc ∧ nrows A = Z.to_nat nor ∧ 0 < noc
  ∧ (ncols B = (hi `min` noc) - lo ∨ ncols B = 1)
  ∧ (wf B → lo ≤ noc → wf A)
  ∧ (wf B → nrows B = Z.to_nat nor → length k = Z.to_nat nor →
     lo + ncols B = hi → hi < noc →
     ∀ i row x, rows B !! i = Some row → k !! i = Some x →
       rows A !! i = Some (replicate lo zero ++ row ++ replicate (noc - 1 - hi) zero ++ [x])).
Proof.
  unfold assemble. intros HA.
  destruct (zeros nor noc) as [A0|e] eqn:H0; [|done]. cbn [mbind result_bind] in HA.
  destruct (set_slice A0 lo hi B) as [A1|e] eqn:H1; [|done]. cbn [mbind result_bind] in HA.
  apply zeros_Ok in H0 as [Hnor ->].
  pose proof (zeros_wf (Z.to_nat nor) noc) as Hwf0.
  set (A0 := {| ncols := noc; rows := replicate (Z.to_nat nor) (replicate noc zero) |}) in *.
  assert (nrows A0 = Z.to_nat nor) as Hn0 by (unfold nrows; cbn; apply length_replicate).
  assert (ncols A0 = noc) as Hc0 by done.
  destruct (set_slice_Ok _ _ _ _ _ H1 _ eq_refl) as (Hr1 & Hc1 & Hnc1 & Hnr1 & Hwf1 & Hrows1).
  apply set_col_Ok in HA as (Hj & Hlk & Hnc & Hnr & Hwf & Hrows).
  rewrite Hc0 in *.
  split_and!; [done | congruence | congruence | lia | done | |].
  - intros HwB Hlo. apply Hwf, Hwf1; done.
  - intros HwB HnB Hlk' Hfill Hhi i row x Hrow Hx.
    assert (rows A0 !! i = Some (replicate noc zero)) as HA0.
    { unfold A0. cbn. apply lookup_replicate. split; [done|].
      apply lookup_lt_Some in Hrow. unfold nrows in HnB. lia. }
    assert (ncols B = hi `min` noc - lo) as HcB by lia.
    pose proof (Hrows1 ltac:(congruence) HcB HwB i _ _ HA0 Hrow) as HA1.
    rewrite (Hrows ltac:(congruence) i _ x HA1 Hx). f_equal.
    rewrite take_replicate, drop_replicate.
    replace (lo `min` noc) with lo by lia.
    replace (noc - (lo + (hi `min` noc - lo))) with (S (noc - 1 - hi)) by lia.
    assert (length row = ncols B) as Hlrow by (by eapply (Forall_lookup_1 _ _ _ _ HwB)).
    rewrite !app_assoc. rewrite insert_app_r_alt.
    2:{ rewrite length_app, length_replicate. lia. }
    rewrite length_app, length_replicate.
    replace (noc - 1 - (lo + length row)) with (noc - 1 - hi) by lia.
    by rewrite insert_last_replicate, <- !app_assoc.
Qed.

Lemma assemble_is_Ok (nor : Z) (noc lo hi : nat) (B : array2 num) (k : vec) :
  (0 ≤ nor)%Z → 0 < noc →
  nrows B = Z.to_nat nor → length k = Z.to_nat nor → ncols B = (hi `min` noc) - lo →
  ∃ A, assemble nor noc lo hi B k = Ok A.
Proof.
  intros Hnor Hnoc HnB Hlk HcB. unfold assemble, zeros.
  rewrite decide_False by lia. cbn [mbind result_bind].
  set (A0 := {| ncols := noc; rows := replicate (Z.to_nat nor) (replicate noc zero) |}).
  assert (nrows A0 = Z.to_nat nor) as Hn0 by (unfold nrows; cbn; apply length_replicate).
  assert (ncols A0 = noc) as Hc0 by done.
  destruct (set_slice A0 lo hi B) as [A1|e] eqn:H1.
  2:{ exfalso. unfold set_slice in H1. rewrite Hc0, Hn0 in H1.
      rewrite decide_True in H1 by (split; by left). done. }
  cbn [mbind result_bind].
  destruct (set_slice_Ok _ _ _ _ _ H1 _ eq_refl) as (_ & _ & Hnc1 & Hnr1 & _).
  unfold set_col. rewrite Hnc1, Hnr1, Hc0, Hn0.
  rewrite decide_True by lia. rewrite decide_True by (by left). by eexists.
Qed.

Lemma take_cols_Ok {A} (a : array2 A) (idx : list nat) :
  wf a → Forall (λ j, j < ncols a) idx →
  ∃ a', take_cols a idx = Ok a'
        ∧ wf a' ∧ ncols a' = length idx ∧ nrows a' = nrows a
        ∧ ∀ i row, rows a !! i = Some row →
            ∃ out, rows a' !! i = Some out ∧ Forall2 (λ j x, row !! j = Some x) idx out.
Proof.
  intros Hwf Hidx. unfold take_cols. rewrite decide_True by done.
  destruct (mapM_is_Ok (λ r, mapM (getitem r) idx) (rows a)) as [rs Hrs].
  { apply Forall_forall. intros r Hr. apply mapM_is_Ok.
    eapply Forall_impl; [exact Hidx|]. intros j Hj. cbn in Hj.
    unfold wf in Hwf. rewrite Forall_forall in Hwf. rewrite <- (Hwf r Hr) in Hj.
    destruct (lookup_lt_is_Some_2 r j Hj) as [x Hx]. exists x. unfold getitem. by rewrite Hx. }
  rewrite Hrs. cbn [mbind result_bind]. eexists. split; [done|].
  pose proof (mapM_Ok_length _ _ _ Hrs) as Hl.
  assert (∀ i row, rows a !! i = Some row →
            ∃ out, rs !! i = Some out ∧ Forall2 (λ j x, row !! j = Some x) idx out) as Hrows.
  { intros i row Hrow. destruct (mapM_Ok_lookup _ _ _ _ _ Hrs Hrow) as (out & Hout & Hm).
    exists out. split; [done|]. apply mapM_Ok in Hm.
    eapply Forall2_impl; [exact Hm|]. intros j x Hg. unfold getitem in Hg.
    destruct (row !! j); [|done]. congruence. }
  split_and!; try done.
  unfold wf. cbn [rows ncols]. apply Forall_forall. intros out Hout.
  apply list_elem_of_lookup_1 in Hout as [i Hi].
  destruct (lookup_lt_is_Some_2 (rows a) i) as [row Hrow].
  { apply lookup_lt_Some in Hi. lia. }
  destruct (Hrows i row Hrow) as (out' & Hout' & Hall).
  assert (out' = out) as -> by congruence. symmetry. by eapply Forall2_length.
Qed.

End AssembleFacts.

Section PairFacts.
Context {Num : Scalar}.
Import np nd readHD readHDarrays Layout.
Variable pjoin : string → string → string.
Variable open_dataset : string → result Dataset.

Abbreviation rHDpair' := (rHDpair pjoin open_dataset).

(** The arrays of a reference pair, from one array of the file. *)
Lemma reference_array (nor : Z) (B : array2 num) (k : vec) :
  (0 ≤ nor)%Z → wf B → nrows B = Z.to_nat nor → length k = Z.to_nat nor → 10 ≤ ncols B →
  ∃ B' A,
    take_cols B [0; 5; 6; 7; 8; 9] = Ok B' ∧ ncols B' = 6
    ∧ assemble nor 7 0 6 B' k = Ok A
    ∧ ncols A = 7 ∧ laid_out reference_row B k A.
Proof.
  intros Hnor Hwf HnB Hlk Hc.
  destruct (take_cols_Ok B [0; 5; 6; 7; 8; 9] Hwf)
    as (B' & HB' & HwB' & HcB' & HnB' & Hrows').
  { repeat constructor; lia. }
  cbn in HcB'.
  destruct (assemble_is_Ok nor 7 0 6 B' k) as [A HA]; [lia.. | congruence | done | by rewrite HcB' |].
  exists B', A. split_and!; [done | done | done | |].
  - by apply assemble_Ok in HA as (_ & ? & _).
  - apply assemble_Ok in HA as (_ & HcA & HnA & _ & _ & HwA & HrA).
    split_and!; [apply HwA; [done | lia] | congruence |].
    intros i row x Hrow Hx. destruct (Hrows' i row Hrow) as (out & Hout & Hall).
    assert (nrows B' = Z.to_nat nor) as Ha by congruence.
    assert (0 + ncols B' = 6) as Hb by lia. assert (6 < 7) as Hc' by lia.
    rewrite (HrA HwB' Ha Hlk Hb Hc' i out x Hout Hx).
    eexists. split; [done|].
    apply Forall2_cons_inv_l in Hall as (x0 & o1 & H0 & Hall & ->).
    apply Forall2_cons_inv_l in Hall as (x5 & o2 & H5 & Hall & ->).
    apply Forall2_cons_inv_l in Hall as (x6 & o3 & H6 & Hall & ->).
    apply Forall2_cons_inv_l in Hall as (x7 & o4 & H7 & Hall & ->).
    apply Forall2_cons_inv_l in Hall as (x8 & o5 & H8 & Hall & ->).
    apply Forall2_cons_inv_l in Hall as (x9 & o6 & H9 & Hall & ->).
    apply Forall2_nil_inv_l in Hall as ->.
    exists x0, x5, x6, x7, x8, x9. split_and!; done.
Qed.

(** The arrays of a sensor pair, from one array of the file. *)
Lemma sensor_array (nor : Z) (B : array2 num) (k : vec) :
  (0 ≤ nor)%Z → wf B → nrows B = Z.to_nat nor → length k = Z.to_nat nor → ncols B = 10 →
  ∃ A, assemble nor 12 1 11 B k = Ok A ∧ ncols A = 12 ∧ laid_out sensor_row B k A.
Proof.
  intros Hnor Hwf HnB Hlk Hc.
  destruct (assemble_is_Ok nor 12 1 11 B k) as [A HA]; [lia.. | done | done | by rewrite Hc |].
  exists A. split; [done|].
  apply assemble_Ok in HA as (_ & HcA & HnA & _ & _ & HwA & HrA).
  split; [done|]. unfold laid_out.
  split_and!; [apply HwA; [done | lia] | congruence |].
  intros i row x Hrow Hx.
  assert (1 + ncols B = 11) as Ha by lia. assert (11 < 12) as Hb by lia.
  rewrite (HrA Hwf HnB Hlk Ha Hb i row x Hrow Hx).
  eexists. split; [done|]. split; [|done].
  rewrite <- Hc. by eapply (Forall_lookup_1 _ _ _ _ Hwf).
Qed.

Lemma consistent_arrays (ds : Dataset) (nor : Z) (c : nat) :
  consistent ds nor c →
  get2 (v_lm ds) 0 2 = Ok nor ∧ (0 ≤ nor)%Z
  ∧ (wf (v_H ds) ∧ nrows (v_H ds) = Z.to_nat nor ∧ ncols (v_H ds) = c)
  ∧ (wf (v_Ur ds) ∧ nrows (v_Ur ds) = Z.to_nat nor ∧ ncols (v_Ur ds) = c)
  ∧ (wf (v_Us ds) ∧ nrows (v_Us ds) = Z.to_nat nor ∧ ncols (v_Us ds) = c)
  ∧ length (v_K ds) = Z.to_nat nor ∧ length (v_Kr ds) = Z.to_nat nor
  ∧ length (v_Ks ds) = Z.to_nat nor.
Proof.
  intros (Hnor & Hpos & Harr & Hk).
  apply Forall_cons in Harr as [HH Harr]. apply Forall_cons in Harr as [HUr Harr].
  apply Forall_cons in Harr as [HUs _].
  apply Forall_cons in Hk as [HK Hk]. apply Forall_cons in Hk as [HKr Hk].
  apply Forall_cons in Hk as [HKs _]. done.
Qed.

(** What [rHDpair] makes of the file of a reference pair. *)
Lemma pair_of_reference_file (folder filename : string) (ds : Dataset) (nor : Z) (c : nat) :
  open_dataset (pjoin folder filename) = Ok ds →
  consistent ds nor c → 10 ≤ c →
  get2 (v_lm ds) 0 0 = Ok (-1)%Z →
  ∃ p,
    rHDpair' folder filename = Ok p
    ∧ rsp p = 1%Z ∧ lm p = v_lm ds
    ∧ corIdx p = v_CorrIndexArray ds ∧ corLen p = v_corrData ds
    ∧ ncols (Hd p) = 7 ∧ ncols (Hr p) = 7 ∧ ncols (Hs p) = 7
    ∧ laid_out reference_row (v_H ds) (v_K ds) (Hd p)
    ∧ laid_out reference_row (v_Ur ds) (v_Kr ds) (Hr p)
    ∧ laid_out reference_row (v_Us ds) (v_Ks ds) (Hs p).
Proof.
  intros Hopen Hcons Hc Hi00.
  apply consistent_arrays in Hcons
    as (Hnor & Hpos & (HwH & HnH & HcH) & (HwUr & HnUr & HcUr) & (HwUs & HnUs & HcUs)
        & HlK & HlKr & HlKs).
  destruct (reference_array nor (v_H ds) (v_K ds)) as (H' & A1 & HH' & HcH' & HA1 & Hc1 & Hl1);
    [done.. | lia |].
  destruct (reference_array nor (v_Ur ds) (v_Kr ds)) as (Ur' & A2 & HUr' & HcUr' & HA2 & Hc2 & Hl2);
    [done.. | lia |].
  destruct (reference_array nor (v_Us ds) (v_Ks ds)) as (Us' & A3 & HUs' & HcUs' & HA3 & Hc3 & Hl3);
    [done.. | lia |].
  eexists. split.
  { unfold rHDpair. rewrite Hopen. cbn [mbind result_bind]. rewrite Hnor.
    cbn [mbind result_bind]. rewrite Hi00. cbn [mbind result_bind].
    rewrite decide_True by done. rewrite HH', HUr', HUs'. cbn [mbind result_bind].
    rewrite HcH'. change (6 + 1) with 7. change (7 - 1) with 6.
    rewrite HA1, HA2, HA3. cbn [mbind result_bind]. reflexivity. }
  cbn. split_and!; done.
Qed.

(** A reference pair ([lm[0, 0] == -1]) whose file holds [nor] matchups in at
    least ten columns: [rHDpair] returns arrays of [nor] rows and seven
    columns - reference radiance, space counts, internal-target counts, Earth
    counts, internal-target radiance, orbit temperature (columns 0 and 5 to 9
    of the file) and K - for the data, the random and the systematic
    uncertainties. *)
Theorem rHDpair_reference_pair (folder filename : string) (ds : Dataset) (nor : Z) (c : nat) :
  open_dataset (pjoin folder filename) = Ok ds →
  consistent ds nor c → 10 ≤ c →
  get2 (v_lm ds) 0 0 = Ok (-1)%Z →
  ∃ p,
    rHDpair' folder filename = Ok p
    ∧ rsp p = 1%Z ∧ lm p = v_lm ds
    ∧ corIdx p = v_CorrIndexArray ds ∧ corLen p = v_corrData ds
    ∧ ncols (Hd p) = 7 ∧ ncols (Hr p) = 7 ∧ ncols (Hs p) = 7
    ∧ laid_out reference_row (v_H ds) (v_K ds) (Hd p)
    ∧ laid_out reference_row (v_Ur ds) (v_Kr ds) (Hr p)
    ∧ laid_out reference_row (v_Us ds) (v_Ks ds) (Hs p).
Proof.
  intros Hopen Hcons Hc Hi00.
  apply consistent_arrays in Hcons
    as (Hnor & Hpos & (HwH & HnH & HcH) & (HwUr & HnUr & HcUr) & (HwUs & HnUs & HcUs)
        & HlK & HlKr & HlKs).
  destruct (reference_array nor (v_H ds) (v_K ds)) as (H' & A1 & HH' & HcH' & HA1 & Hc1 & Hl1);
    [done.. | lia |].
  destruct (reference_array nor (v_Ur ds) (v_Kr ds)) as (Ur' & A2 & HUr' & HcUr' & HA2 & Hc2 & Hl2);
    [done.. | lia |].
  destruct (reference_array nor (v_Us ds) (v_Ks ds)) as (Us' & A3 & HUs' & HcUs' & HA3 & Hc3 & Hl3);
    [done.. | lia |].
  eexists. split.
  { unfold rHDpair. rewrite Hopen. cbn [mbind result_bind]. rewrite Hnor.
    cbn [mbind result_bind]. rewrite Hi00. cbn [mbind result_bind].
    rewrite decide_True by done. rewrite HH', HUr', HUs'. cbn [mbind result_bind].
    rewrite HcH'. change (6 + 1) with 7. change (7 - 1) with 6.
    rewrite HA1, HA2, HA3. cbn [mbind result_bind]. reflexivity. }
  cbn. split_and!; done.
Qed.

(** What [rHDpair] makes of the file of a sensor pair. *)
Lemma pair_of_sensor_file (folder filename : string) (ds : Dataset) (nor i00 : Z) :
  open_dataset (pjoin folder filename) = Ok ds →
  consistent ds nor 10 →
  get2 (v_lm ds) 0 0 = Ok i00 → i00 ≠ (-1)%Z →
  ∃ p,
    rHDpair' folder filename = Ok p
    ∧ rsp p = 0%Z ∧ lm p = v_lm ds
    ∧ corIdx p = v_CorrIndexArray ds ∧ corLen p = v_corrData ds
    ∧ ncols (Hd p) = 12 ∧ ncols (Hr p) = 12 ∧ ncols (Hs p) = 12
    ∧ laid_out sensor_row (v_H ds) (v_K ds) (Hd p)
    ∧ laid_out sensor_row (v_Ur ds) (v_Kr ds) (Hr p)
    ∧ laid_out sensor_row (v_Us ds) (v_Ks ds) (Hs p).
Proof.
  intros Hopen Hcons Hi00 Hne.
  apply consistent_arrays in Hcons
    as (Hnor & Hpos & (HwH & HnH & HcH) & (HwUr & HnUr & HcUr) & (HwUs & HnUs & HcUs)
        & HlK & HlKr & HlKs).
  destruct (sensor_array nor (v_H ds) (v_K ds)) as (A1 & HA1 & Hc1 & Hl1); [done..|].
  destruct (sensor_array nor (v_Ur ds) (v_Kr ds)) as (A2 & HA2 & Hc2 & Hl2); [done..|].
  destruct (sensor_array nor (v_Us ds) (v_Ks ds)) as (A3 & HA3 & Hc3 & Hl3); [done..|].
  eexists. split.
  { unfold rHDpair. rewrite Hopen. cbn [mbind result_bind]. rewrite Hnor.
    cbn [mbind result_bind]. rewrite Hi00. cbn [mbind result_bind].
    rewrite decide_False by done. rewrite HcH. change (10 + 2) with 12.
    rewrite HA1, HA2, HA3. cbn [mbind result_bind]. reflexivity. }
  cbn. split_and!; done.
Qed.

(** A sensor pair ([lm[0, 0]] is a sensor number) whose file holds [nor]
    matchups in ten columns: [rHDpair] returns arrays of [nor] rows and twelve
    columns: a column of zeros (no reference radiance), the ten columns of the
    file, and K. *)
Theorem rHDpair_sensor_pair (folder filename : string) (ds : Dataset) (nor i00 : Z) :
  open_dataset (pjoin folder filename) = Ok ds →
  consistent ds nor 10 →
  get2 (v_lm ds) 0 0 = Ok i00 → i00 ≠ (-1)%Z →
  ∃ p,
    rHDpair' folder filename = Ok p
    ∧ rsp p = 0%Z ∧ lm p = v_lm ds
    ∧ corIdx p = v_CorrIndexArray ds ∧ corLen p = v_corrData ds
    ∧ ncols (Hd p) = 12 ∧ ncols (Hr p) = 12 ∧ ncols (Hs p) = 12
    ∧ laid_out sensor_row (v_H ds) (v_K ds) (Hd p)
    ∧ laid_out sensor_row (v_Ur ds) (v_Kr ds) (Hr p)
    ∧ laid_out sensor_row (v_Us ds) (v_Ks ds) (Hs p).
Proof.
  intros Hopen Hcons Hi00 Hne.
  apply consistent_arrays in Hcons
    as (Hnor & Hpos & (HwH & HnH & HcH) & (HwUr & HnUr & HcUr) & (HwUs & HnUs & HcUs)
        & HlK & HlKr & HlKs).
  destruct (sensor_array nor (v_H ds) (v_K ds)) as (A1 & HA1 & Hc1 & Hl1); [done..|].
  destruct (sensor_array nor (v_Ur ds) (v_Kr ds)) as (A2 & HA2 & Hc2 & Hl2); [done..|].
  destruct (sensor_array nor (v_Us ds) (v_Ks ds)) as (A3 & HA3 & Hc3 & Hl3); [done..|].
  eexists. split.
  { unfold rHDpair. rewrite Hopen. cbn [mbind result_bind]. rewrite Hnor.
    cbn [mbind result_bind]. rewrite Hi00. cbn [mbind result_bind].
    rewrite decide_False by done. rewrite HcH. change (10 + 2) with 12.
    rewrite HA1, HA2, HA3. cbn [mbind result_bind]. reflexivity. }
  cbn. split_and!; done.
Qed.

(** The number of columns that [rHDpair] needs: a reference pair with fewer
    than ten columns of [H] raises IndexError; a sensor pair whose [H] has
    neither ten columns nor one raises ValueError. *)
Theorem rHDpair_needs_ten_columns (folder filename : string) (ds : Dataset) (nor i00 : Z) :
  open_dataset (pjoin folder filename) = Ok ds →
  get2 (v_lm ds) 0 2 = Ok nor → get2 (v_lm ds) 0 0 = Ok i00 →
  (if decide (i00 = (-1)%Z) then ncols (v_H ds) < 10
   else ncols (v_H ds) ≠ 10 ∧ ncols (v_H ds) ≠ 1) →
  rHDpair' folder filename = Raise (if decide (i00 = (-1)%Z) then IndexError else ValueError).
Proof.
  intros Hopen Hnor Hi00 Hcols. unfold rHDpair. rewrite Hopen. cbn [mbind result_bind].
  rewrite Hnor. cbn [mbind result_bind]. rewrite Hi00. cbn [mbind result_bind].
  destruct (decide (i00 = (-1)%Z)) as [Hi|Hi].
  - assert (take_cols (v_H ds) [0; 5; 6; 7; 8; 9] = Raise IndexError) as ->; [|done].
    unfold take_cols. rewrite decide_False; [done|].
    intros Hall. apply Forall_cons in Hall as [_ Hall]. apply Forall_cons in Hall as [_ Hall].
    apply Forall_cons in Hall as [_ Hall]. apply Forall_cons in Hall as [_ Hall].
    apply Forall_cons in Hall as [_ Hall]. apply Forall_cons in Hall as [H9 _]. lia.
  - assert (assemble nor (ncols (v_H ds) + 2) 1 11 (v_H ds) (v_K ds) = Raise ValueError)
      as ->; [|done].
    unfold assemble, zeros. case_decide; [done|]. cbn [mbind result_bind].
    unfold set_slice. cbn [ncols]. rewrite decide_False; [done|].
    intros [_ [Hw|Hw]]; lia.
Qed.

End PairFacts.

(** ** readHD.py: the harmonisation arrays of a series *)

Section SeriesFacts.
Context {Num : Scalar}.
Import np nd readHD readHDarrays Layout SeriesLayout.
Variable pjoin : string → string → string.
Variable open_dataset : string → result Dataset.

Abbreviation rHDpair'' := (rHDpair pjoin open_dataset).
Abbreviation rHData_step' := (rHData_step pjoin open_dataset).
Abbreviation rHData' := (rHData pjoin open_dataset).
Abbreviation matchups' := (matchups pjoin open_dataset).

Lemma index_Ok (l : list string) (x : string) (i : nat) :
  index l x = Ok i → l !! i = Some x ∧ ∀ j, j < i → l !! j ≠ Some x.
Proof.
  unfold index. destruct (list_find (λ y, y = x) l) as [[i' y]|] eqn:Hf; [|done].
  intros [= <-]. apply list_find_Some in Hf as (Hi & -> & Hbefore). split; [done|].
  intros j Hj Hjx. by apply (Hbefore j x Hjx Hj).
Qed.

Lemma index_is_Ok (l : list string) (x : string) : x ∈ l → ∃ i, index l x = Ok i.
Proof.
  intros Hin. unfold index.
  destruct (list_find (λ y, y = x) l) as [[i y]|] eqn:Hf; [by eexists|].
  apply list_find_None in Hf. rewrite Forall_forall in Hf. by specialize (Hf x Hin).
Qed.

Lemma index_Raise (l : list string) (x : string) : x ∉ l → index l x = Raise ValueError.
Proof.
  intros Hnotin. unfold index.
  destruct (list_find (λ y, y = x) l) as [[i y]|] eqn:Hf; [|done].
  apply list_find_Some in Hf as (Hi & -> & _). exfalso. apply Hnotin.
  by eapply list_elem_of_lookup_2.
Qed.

Ltac bind_inv H x Hx :=
  match type of H with
  | (?m ≫= _) = Ok _ =>
      destruct m as [x|?] eqn:Hx; cbn [mbind result_bind] in H; [|discriminate H]
  end.

Lemma zeros14_lookup (n r : nat) (row : vec) :
  replicate n (replicate 14 zero) !! r = Some row → row = replicate 14 zero.
Proof. by intros [-> _]%lookup_replicate. Qed.

(** The block of a reference pair: [tH[:,0] = Hd[:,0]], the two columns of
    ones, and [tH[:,6:12] = Hd[:,1:7]]. *)
Lemma reference_block (n : nat) (Hd tH1 tH2 tH3 tH4 : array2 num) (c : vec) :
  let tH0 := {| ncols := 14; rows := replicate n (replicate 14 zero) |} in
  col Hd 0 = Ok c → set_col tH0 0 c = Ok tH1 →
  fill_cols tH1 [1] one = Ok tH2 → fill_cols tH2 [3] one = Ok tH3 →
  set_slice tH3 6 12 (slice_cols Hd 1 7) = Ok tH4 →
  ncols tH4 = 14 ∧ nrows tH4 = n
  ∧ (wf Hd → nrows Hd = n → ncols Hd = 7 →
     ∀ r hdrow, rows Hd !! r = Some hdrow →
       ∃ x0, hdrow !! 0 = Some x0
         ∧ rows tH4 !! r = Some ([x0; one; zero; one; zero; zero] ++ drop 1 hdrow
                                  ++ [zero; zero])).
Proof.
  intros tH0 Hc H1 H2 H3 H4.
  assert (nrows tH0 = n) as Hn0 by (unfold nrows; cbn; apply length_replicate).
  pose proof (col_Ok _ _ _ Hc) as [_ Hlc].
  apply set_col_Ok in H1 as (_ & _ & Hc1 & Hn1 & _ & Hr1).
  apply fill_cols_rows in H2 as (Hc2 & Hn2 & Hr2).
  apply fill_cols_rows in H3 as (Hc3 & Hn3 & Hr3).
  apply (λ H, set_slice_Ok _ _ _ _ _ H 6) in H4 as (_ & _ & Hc4 & Hn4 & _ & Hr4);
    [|rewrite Hc3, Hc2, Hc1; reflexivity].
  split; [by rewrite Hc4, Hc3, Hc2, Hc1|]. split; [by rewrite Hn4, Hn3, Hn2, Hn1|].
  intros Hwf HnH HcH r hdrow Hrow.
  destruct (col_lookup _ _ _ _ _ Hc Hrow) as (x0 & Hx0 & Hcr). exists x0. split; [done|].
  assert (r < n) as Hr by (rewrite <- HnH; unfold nrows; by eapply lookup_lt_Some).
  assert (rows tH0 !! r = Some (replicate 14 zero)) as Hrow0
    by (cbn; by apply lookup_replicate_2).
  specialize (Hr1 ltac:(congruence) r _ x0 Hrow0 Hcr).
  assert (rows tH3 !! r = Some [x0; one; zero; one; zero; zero; zero; zero; zero; zero;
                                zero; zero; zero; zero]) as Hrow3.
  { rewrite Hr3, Hr2, <- list_fmap_compose, list_lookup_fmap, Hr1. done. }
  assert (length hdrow = 7) as Hlen.
  { unfold wf in Hwf. rewrite Forall_forall in Hwf. rewrite <- HcH. apply Hwf.
    by eapply list_elem_of_lookup_2. }
  assert (nrows (slice_cols Hd 1 7) = nrows tH3) as Hsn
    by (rewrite slice_cols_nrows; congruence).
  assert (ncols (slice_cols Hd 1 7) = 6) as Hsc
    by (unfold slice_cols; cbn [ncols]; rewrite HcH; reflexivity).
  assert (rows (slice_cols Hd 1 7) !! r = Some (take 6 (drop 1 hdrow))) as Hsr
    by (unfold slice_cols; cbn [rows]; by rewrite list_lookup_fmap, Hrow).
  rewrite (Hr4 Hsn Hsc (slice_cols_wf _ _ _ Hwf) r _ _ Hrow3 Hsr).
  f_equal. do 8 (destruct hdrow as [|? hdrow]; try done).
Qed.

(** The block of a sensor pair: [tH[:,1:12] = Hd[:,0:11]]. *)
Lemma sensor_block (n : nat) (Hd tH1 : array2 num) :
  let tH0 := {| ncols := 14; rows := replicate n (replicate 14 zero) |} in
  set_slice tH0 1 12 (slice_cols Hd 0 11) = Ok tH1 →
  ncols tH1 = 14 ∧ nrows tH1 = n
  ∧ (wf Hd → nrows Hd = n → ncols Hd = 12 →
     ∀ r hdrow, rows Hd !! r = Some hdrow →
       rows tH1 !! r = Some (zero :: take 11 hdrow ++ [zero; zero])).
Proof.
  intros tH0 H1.
  assert (nrows tH0 = n) as Hn0 by (unfold nrows; cbn; apply length_replicate).
  apply (λ H, set_slice_Ok _ _ _ _ _ H 11) in H1 as (_ & _ & Hc1 & Hn1 & _ & Hr1); [|done].
  split; [done|]. split; [congruence|].
  intros Hwf HnH HcH r hdrow Hrow.
  assert (r < n) as Hr by (rewrite <- HnH; unfold nrows; by eapply lookup_lt_Some).
  assert (rows tH0 !! r = Some (replicate 14 zero)) as Hrow0
    by (cbn; by apply lookup_replicate_2).
  assert (nrows (slice_cols Hd 0 11) = nrows tH0) as Hsn
    by (rewrite slice_cols_nrows; congruence).
  assert (ncols (slice_cols Hd 0 11) = 11) as Hsc
    by (unfold slice_cols; cbn [ncols]; rewrite HcH; reflexivity).
  assert (rows (slice_cols Hd 0 11) !! r = Some (take 11 hdrow)) as Hsr
    by (unfold slice_cols; cbn [rows]; by rewrite list_lookup_fmap, Hrow).
  by rewrite (Hr1 Hsn Hsc (slice_cols_wf _ _ _ Hwf) r _ _ Hrow0 Hsr).
Qed.

(** The two columns of sensor indices. *)
Lemma index_columns (tH tH1 tH2 : array2 num) (x y : num) :
  fill_cols tH [12] x = Ok tH1 → fill_cols tH1 [13] y = Ok tH2 →
  ncols tH2 = ncols tH ∧ nrows tH2 = nrows tH
  ∧ ∀ r row, rows tH !! r = Some row → rows tH2 !! r = Some (<[13 := y]> (<[12 := x]> row)).
Proof.
  intros (Hc1 & Hn1 & Hr1)%fill_cols_rows (Hc2 & Hn2 & Hr2)%fill_cols_rows.
  split; [congruence|]. split; [congruence|]. intros r row Hrow.
  by rewrite Hr2, Hr1, <- list_fmap_compose, list_lookup_fmap, Hrow.
Qed.

(** One file of the loop of [rHData]. *)
Lemma rHData_step_Ok (folder : string) (fsl : list string) (ncfile : string)
    (Im Im' : array2 Z) (Hdata Hdata' Hrnd Hrnd' : array2 num) (tidx tidx' : vec) :
  rHData_step' folder fsl (Im, Hdata, Hrnd, tidx) ncfile = Ok (Im', Hdata', Hrnd', tidx') →
  ∃ p nor tH tHr sl1 sidx1 l01 sidx2,
    rHDpair'' folder ncfile = Ok p
    ∧ get2 (lm p) 0 2 = Ok nor ∧ (0 ≤ nor)%Z
    ∧ ncols tH = 14 ∧ nrows tH = Z.to_nat nor
    ∧ ncols tHr = 14 ∧ nrows tHr = Z.to_nat nor
    ∧ (if decide (rsp p ≠ 0%Z) then sl1 = "m02"
       else ∃ l00, get2 (lm p) 0 0 = Ok l00 ∧ sl1 = "n" +:+ pretty.pretty l00)
    ∧ index fsl sl1 = Ok sidx1
    ∧ get2 (lm p) 0 1 = Ok l01
    ∧ index fsl ("n" +:+ pretty.pretty l01) = Ok sidx2
    ∧ ncols Im = ncols (lm p) ∧ ncols Hdata = 14 ∧ ncols Hrnd = 14
    ∧ Im' = {| ncols := ncols Im; rows := rows Im ++ rows (lm p) |}
    ∧ Hdata' = {| ncols := ncols Hdata; rows := rows Hdata ++ rows tH |}
    ∧ Hrnd' = {| ncols := ncols Hrnd; rows := rows Hrnd ++ rows tHr |}
    ∧ tidx' = tidx ++ corIdx p
    ∧ (wf (Hd p) → nrows (Hd p) = Z.to_nat nor →
       ∀ r hdrow, rows (Hd p) !! r = Some hdrow →
         if decide (rsp p ≠ 0%Z) then
           ncols (Hd p) = 7 →
           ∃ x0, hdrow !! 0 = Some x0
             ∧ rows tH !! r = Some ([x0; one; zero; one; zero; zero] ++ drop 1 hdrow
                                     ++ [of_int (Z.of_nat sidx1); of_int (Z.of_nat sidx2)])
         else
           ncols (Hd p) = 12 →
           rows tH !! r = Some (zero :: take 11 hdrow
                                 ++ [of_int (Z.of_nat sidx1); of_int (Z.of_nat sidx2)])).
Proof.
  unfold rHData_step. intros Hstep.
  bind_inv Hstep p Hp. cbv zeta in Hstep.
  bind_inv Hstep nor Hnor. bind_inv Hstep tH0 H0.
  apply zeros_Ok in H0 as [Hpos ->].
  bind_inv Hstep blocks Hblocks. destruct blocks as [[tH tHr] sl1].
  bind_inv Hstep sidx1 Hs1. bind_inv Hstep l01 Hl01. bind_inv Hstep sidx2 Hs2.
  bind_inv Hstep tH1 Hf1. bind_inv Hstep tH2 Hf2.
  bind_inv Hstep tHr1 Hg1. bind_inv Hstep tHr2 Hg2.
  bind_inv Hstep Im1 Ha1. bind_inv Hstep Hdata1 Ha2. bind_inv Hstep Hrnd1 Ha3.
  injection Hstep as <- <- <- <-.
  destruct (index_columns _ _ _ _ _ Hf1 Hf2) as (HcT & HnT & HrT).
  destruct (index_columns _ _ _ _ _ Hg1 Hg2) as (HcR & HnR & _).
  apply append0_Ok in Ha1 as [HcI ->]. apply append0_Ok in Ha2 as [HcH ->].
  apply append0_Ok in Ha3 as [HcHr ->].
  exists p, nor, tH2, tHr2, sl1, sidx1, l01, sidx2.
  destruct (decide (rsp p ≠ 0%Z)) as [Hrsp|Hrsp].
  - bind_inv Hblocks c Hc. bind_inv Hblocks a1 Hb1. bind_inv Hblocks a2 Hb2.
    bind_inv Hblocks a3 Hb3. bind_inv Hblocks a4 Hb4. bind_inv Hblocks cr Hcr.
    bind_inv Hblocks b1 Hd1. bind_inv Hblocks b2 Hd2. injection Hblocks as <- <- <-.
    destruct (reference_block _ _ _ _ _ _ _ Hc Hb1 Hb2 Hb3 Hb4) as (Hc4 & Hn4 & Hrows).
    apply set_col_Ok in Hd1 as (_ & _ & Hcb1 & Hnb1 & _).
    apply (λ H, set_slice_Ok _ _ _ _ _ H _ eq_refl) in Hd2 as (_ & _ & Hcb2 & Hnb2 & _).
    assert (ncols b2 = 14) as HcB by (by rewrite Hcb2, Hcb1).
    assert (nrows b2 = Z.to_nat nor) as HnB
      by (rewrite Hnb2, Hnb1; unfold nrows; cbn; apply length_replicate).
    split_and!; try done; try congruence.
    intros Hwf HnH r hdrow Hrow HcHd.
    destruct (Hrows Hwf HnH HcHd r hdrow Hrow) as (x0 & Hx0 & Hrow4).
    exists x0. split; [done|]. rewrite (HrT _ _ Hrow4). f_equal.
    assert (length hdrow = 7) as Hlen.
    { unfold wf in Hwf. rewrite Forall_forall in Hwf. rewrite <- HcHd. apply Hwf.
      by eapply list_elem_of_lookup_2. }
    do 8 (destruct hdrow as [|? hdrow]; try done).
  - bind_inv Hblocks a1 Hb1. bind_inv Hblocks b1 Hd1. bind_inv Hblocks l00 Hl00.
    injection Hblocks as <- <- <-.
    destruct (sensor_block _ _ _ Hb1) as (Hc1 & Hn1 & Hrows).
    destruct (sensor_block _ _ _ Hd1) as (Hcb & Hnb & _).
    split_and!; try done; try congruence.
    + by exists l00.
    + intros Hwf HnH r hdrow Hrow HcHd.
      rewrite (HrT _ _ (Hrows Hwf HnH HcHd r hdrow Hrow)). f_equal.
      assert (length hdrow = 12) as Hlen.
      { unfold wf in Hwf. rewrite Forall_forall in Hwf. rewrite <- HcHd. apply Hwf.
        by eapply list_elem_of_lookup_2. }
      do 13 (destruct hdrow as [|? hdrow]; try done).
Qed.

Lemma series_loop_Raise (folder : string) (fsl l : list string) (e : exn) :
  foldl (λ acc ncfile, st ← acc; rHData_step' folder fsl st ncfile) (Raise e) l = Raise e.
Proof. by induction l. Qed.

(** What the loop of [rHData] adds to the arrays it starts from. *)
Lemma series_loop_Ok (folder : string) (fsl l : list string)
    (Im Im' : array2 Z) (Hdata Hdata' Hrnd Hrnd' : array2 num) (tidx tidx' : vec) :
  foldl (λ acc ncfile, st ← acc; rHData_step' folder fsl st ncfile)
    (Ok (Im, Hdata, Hrnd, tidx)) l = Ok (Im', Hdata', Hrnd', tidx') →
  ncols Hdata = 14 → ncols Hrnd = 14 →
  ncols Im' = ncols Im ∧ ncols Hdata' = 14 ∧ ncols Hrnd' = 14
  ∧ (∃ more, rows Hdata' = rows Hdata ++ more
             ∧ length more = sum_list (matchups' folder <$> l))
  ∧ nrows Hrnd' = nrows Hrnd + sum_list (matchups' folder <$> l)
  ∧ Forall (λ f, ∃ p, rHDpair'' folder f = Ok p ∧ labelled fsl p) l.
Proof.
  revert Im Hdata Hrnd tidx. induction l as [|f l IH]; intros Im Hdata Hrnd tidx Hloop HcH HcR.
  - cbn in Hloop. injection Hloop as <- <- <- <-. split_and!; try done.
    exists []. by rewrite app_nil_r.
  - cbn [foldl mbind result_bind] in Hloop.
    destruct (rHData_step' folder fsl (Im, Hdata, Hrnd, tidx) f) as [[[[Im1 Hdata1] Hrnd1] tidx1]|e]
      eqn:Hstep; [|by rewrite series_loop_Raise in Hloop].
    apply rHData_step_Ok in Hstep
      as (p & nor & tH & tHr & sl1 & sidx1 & l01 & sidx2 & Hp & Hnor & Hpos & HcT & HnT & HcTr
          & HnTr & Hsl1 & Hs1 & Hl01 & Hs2 & HcI & _ & _ & -> & -> & -> & -> & _).
    apply IH in Hloop as (HcI' & HcH' & HcR' & (more & Hmore & Hlen) & HnR & Hall); [|done..].
    cbn [ncols rows] in *.
    assert (matchups' folder f = Z.to_nat nor) as Hm by (unfold matchups; by rewrite Hp, Hnor).
    rewrite fmap_cons.
    change (sum_list (matchups' folder f :: (matchups' folder <$> l)))
      with (matchups' folder f + sum_list (matchups' folder <$> l)).
    rewrite Hm.
    split_and!; try done.
    + exists (rows tH ++ more). split; [by rewrite Hmore, <- (assoc_L (++))|].
      rewrite length_app. unfold nrows in HnT. lia.
    + rewrite HnR. unfold nrows in *. cbn. rewrite length_app. lia.
    + constructor; [|done]. exists p. split; [done|]. split.
      * exists l01. split; [done|]. apply index_Ok in Hs2 as [Hs2 _].
        by eapply list_elem_of_lookup_2.
      * apply index_Ok in Hs1 as [Hs1 _]. apply list_elem_of_lookup_2 in Hs1.
        destruct (decide (rsp p ≠ 0%Z)); [by subst|].
        destruct Hsl1 as (l00 & Hl00 & ->). by exists l00.
Qed.

(** The rows that the loop adds for one file of the list. *)
Lemma series_loop_rows (folder : string) (fsl before after : list string) (f : string)
    (Im : array2 Z) (Hdata Hrnd : array2 num) (tidx : vec) :
  foldl (λ acc ncfile, st ← acc; rHData_step' folder fsl st ncfile)
    (Ok ({| ncols := 3; rows := [] |}, {| ncols := 14; rows := [] |},
         {| ncols := 14; rows := [] |}, [])) (before ++ f :: after)
    = Ok (Im, Hdata, Hrnd, tidx) →
  ∃ p nor tH sidx1 l01 sidx2,
    rHDpair'' folder f = Ok p
    ∧ get2 (lm p) 0 2 = Ok nor
    ∧ (if decide (rsp p ≠ 0%Z) then fsl !! sidx1 = Some "m02"
       else ∃ l00, get2 (lm p) 0 0 = Ok l00 ∧ fsl !! sidx1 = Some ("n" +:+ pretty.pretty l00))
    ∧ get2 (lm p) 0 1 = Ok l01
    ∧ fsl !! sidx2 = Some ("n" +:+ pretty.pretty l01)
    ∧ (∀ r row, rows tH !! r = Some row →
         rows Hdata !! (sum_list (matchups' folder <$> before) + r) = Some row)
    ∧ (wf (Hd p) → nrows (Hd p) = Z.to_nat nor →
       ∀ r hdrow, rows (Hd p) !! r = Some hdrow →
         if decide (rsp p ≠ 0%Z) then
           ncols (Hd p) = 7 →
           ∃ x0, hdrow !! 0 = Some x0
             ∧ rows tH !! r = Some ([x0; one; zero; one; zero; zero] ++ drop 1 hdrow
                                     ++ [of_int (Z.of_nat sidx1); of_int (Z.of_nat sidx2)])
         else
           ncols (Hd p) = 12 →
           rows tH !! r = Some (zero :: take 11 hdrow
                                 ++ [of_int (Z.of_nat sidx1); of_int (Z.of_nat sidx2)])).
Proof.
  rewrite foldl_app. cbn [foldl]. intros Hloop.
  destruct (foldl _ _ before) as [[[[Im1 Hdata1] Hrnd1] tidx1]|e] eqn:Hbefore;
    cbn [mbind result_bind] in Hloop; [|by rewrite series_loop_Raise in Hloop].
  destruct (rHData_step' folder fsl (Im1, Hdata1, Hrnd1, tidx1) f)
    as [[[[Im2 Hdata2] Hrnd2] tidx2]|e] eqn:Hstep; [|by rewrite series_loop_Raise in Hloop].
  apply series_loop_Ok in Hbefore as (_ & HcH1 & HcR1 & (rows1 & Hrows1 & Hlen1) & _); [|done..].
  cbn [rows app] in Hrows1.
  apply rHData_step_Ok in Hstep
    as (p & nor & tH & tHr & sl1 & sidx1 & l01 & sidx2 & Hp & Hnor & Hpos & HcT & HnT & HcTr
        & HnTr & Hsl1 & Hs1 & Hl01 & Hs2 & HcI & _ & _ & -> & -> & -> & -> & Hlay).
  apply series_loop_Ok in Hloop as (_ & _ & _ & (more & Hmore & _) & _); [|done..].
  cbn [rows] in Hmore.
  apply index_Ok in Hs1 as [Hs1 _]. apply index_Ok in Hs2 as [Hs2 _].
  exists p, nor, tH, sidx1, l01, sidx2. split_and!; try done.
  - destruct (decide (rsp p ≠ 0%Z)); [by subst|].
    destruct Hsl1 as (l00 & Hl00 & ->). by exists l00.
  - intros r row Hrow. rewrite Hmore, Hrows1, <- Hlen1.
    rewrite lookup_app_l by (rewrite length_app; apply lookup_lt_Some in Hrow; lia).
    by rewrite lookup_app_r, Nat.add_comm, Nat.add_sub by lia.
Qed.

(** [rHData] stacks the files: the series matrices have 14 columns and as
    many rows as the files of the list announce matchups in [lm[0, 2]], and a
    series is returned only when every file could be read and the sensors its
    [lm] names are among the labels cut from the file names. *)
Theorem rHData_stacks_the_files (folder : string) (nclist : list string)
    (Im : array2 Z) (Hdata Hrnd : array2 num) (tidx : vec) :
  rHData' folder nclist = Ok (Im, Hdata, Hrnd, tidx) →
  ncols Im = 3 ∧ ncols Hdata = 14 ∧ ncols Hrnd = 14
  ∧ nrows Hdata = sum_list (matchups' folder <$> nclist)
  ∧ nrows Hrnd = sum_list (matchups' folder <$> nclist)
  ∧ ∀ f, f ∈ nclist → ∃ p, rHDpair'' folder f = Ok p ∧ labelled (sensors nclist) p.
Proof.
  unfold rHData.
  intros (HcI & HcH & HcR & (more & Hmore & Hlen) & HnR & Hall)%series_loop_Ok; [|done..].
  cbn [ncols rows nrows length app] in *. split_and!; try done.
  - unfold nrows. by rewrite Hmore.
  - intros f Hf. rewrite Forall_forall in Hall. by apply Hall.
Qed.

(** The matchups of a reference pair in the series matrix: they follow the
    rows of the files before it; a row holds the reference radiance in column
    0, ones in columns 1 and 3, zeros in columns 2, 4 and 5, columns 5 to 9 of
    the file and K in columns 6 to 11, and in columns 12 and 13 the positions
    of ['m02'] and of the second sensor in the list of sensors. *)
Theorem rHData_reference_rows (folder : string) (nclist before after : list string)
    (f : string) (ds : Dataset) (nor : Z) (c : nat)
    (Im : array2 Z) (Hdata Hrnd : array2 num) (tidx : vec) :
  rHData' folder nclist = Ok (Im, Hdata, Hrnd, tidx) →
  nclist = before ++ f :: after →
  open_dataset (pjoin folder f) = Ok ds →
  consistent ds nor c → 10 ≤ c →
  get2 (v_lm ds) 0 0 = Ok (-1)%Z →
  ∃ l01 sidx1 sidx2,
    get2 (v_lm ds) 0 1 = Ok l01
    ∧ sensors nclist !! sidx1 = Some "m02"
    ∧ sensors nclist !! sidx2 = Some ("n" +:+ pretty.pretty l01)
    ∧ ∀ r row k, rows (v_H ds) !! r = Some row → v_K ds !! r = Some k →
        ∃ out, rows Hdata !! (sum_list (matchups' folder <$> before) + r) = Some out
               ∧ series_reference_row row k sidx1 sidx2 out.
Proof.
  intros Hall -> Hopen Hcons Hc Hi00. unfold rHData in Hall.
  destruct (pair_of_reference_file pjoin open_dataset folder f ds nor c Hopen Hcons Hc Hi00)
    as (p & Hp & Hrsp & Hlm & _ & _ & HcHd & _ & _ & (HwHd & HnHd & Hlaid) & _).
  apply consistent_arrays in Hcons as (Hnor & Hpos & (HwH & HnH & HcH) & _).
  apply series_loop_rows in Hall
    as (p' & nor' & tH & sidx1 & l01 & sidx2 & Hp' & Hnor' & Hs1 & Hl01 & Hs2 & Hat & Hlay).
  rewrite Hp in Hp'. injection Hp' as <-. rewrite Hlm, Hnor in Hnor'. injection Hnor' as <-.
  rewrite Hlm in Hl01. rewrite decide_True in Hs1 by (rewrite Hrsp; lia).
  exists l01, sidx1, sidx2. split_and!; try done.
  intros r row k Hrow Hk.
  destruct (Hlaid r row k Hrow Hk) as (hdrow & Hhd & (x0 & x5 & x6 & x7 & x8 & x9 & H0 & H5
    & H6 & H7 & H8 & H9 & ->)).
  specialize (Hlay HwHd ltac:(congruence) r _ Hhd).
  rewrite decide_True in Hlay by (rewrite Hrsp; lia).
  destruct (Hlay HcHd) as (y0 & Hy0 & HtH). injection Hy0 as <-.
  eexists. split; [by apply Hat|]. by exists x0, x5, x6, x7, x8, x9.
Qed.

(** The matchups of a sensor pair in the series matrix: they follow the rows
    of the files before it; a row holds zeros in columns 0 and 1, the ten
    columns of the file in columns 2 to 11, and in columns 12 and 13 the
    positions of the two sensors in the list of sensors. The K values of the
    file are not in the matrix. *)
Theorem rHData_sensor_rows (folder : string) (nclist before after : list string)
    (f : string) (ds : Dataset) (nor l00 : Z)
    (Im : array2 Z) (Hdata Hrnd : array2 num) (tidx : vec) :
  rHData' folder nclist = Ok (Im, Hdata, Hrnd, tidx) →
  nclist = before ++ f :: after →
  open_dataset (pjoin folder f) = Ok ds →
  consistent ds nor 10 →
  get2 (v_lm ds) 0 0 = Ok l00 → l00 ≠ (-1)%Z →
  ∃ l01 sidx1 sidx2,
    get2 (v_lm ds) 0 1 = Ok l01
    ∧ sensors nclist !! sidx1 = Some ("n" +:+ pretty.pretty l00)
    ∧ sensors nclist !! sidx2 = Some ("n" +:+ pretty.pretty l01)
    ∧ ∀ r row, rows (v_H ds) !! r = Some row →
        ∃ out, rows Hdata !! (sum_list (matchups' folder <$> before) + r) = Some out
               ∧ series_sensor_row row sidx1 sidx2 out.
Proof.
  intros Hall -> Hopen Hcons Hi00 Hne. unfold rHData in Hall.
  destruct (pair_of_sensor_file pjoin open_dataset folder f ds nor l00 Hopen Hcons Hi00 Hne)
    as (p & Hp & Hrsp & Hlm & _ & _ & HcHd & _ & _ & (HwHd & HnHd & Hlaid) & _).
  apply consistent_arrays in Hcons as (Hnor & Hpos & (HwH & HnH & HcH) & _ & _ & HlK & _).
  apply series_loop_rows in Hall
    as (p' & nor' & tH & sidx1 & l01 & sidx2 & Hp' & Hnor' & Hs1 & Hl01 & Hs2 & Hat & Hlay).
  rewrite Hp in Hp'. injection Hp' as <-. rewrite Hlm, Hnor in Hnor'. injection Hnor' as <-.
  rewrite Hlm in Hl01. rewrite decide_False in Hs1 by (rewrite Hrsp; lia).
  destruct Hs1 as (l00' & Hl00' & Hs1). rewrite Hlm, Hi00 in Hl00'. injection Hl00' as <-.
  exists l01, sidx1, sidx2. split_and!; try done.
  intros r row Hrow.
  assert (r < length (v_K ds)) as Hr
    by (rewrite HlK, <- HnH; unfold nrows; by eapply lookup_lt_Some).
  destruct (lookup_lt_is_Some_2 _ _ Hr) as [k Hk].
  destruct (Hlaid r row k Hrow Hk) as (hdrow & Hhd & Hlen & ->).
  specialize (Hlay HwHd ltac:(congruence) r _ Hhd).
  rewrite decide_False in Hlay by (rewrite Hrsp; lia).
  specialize (Hlay HcHd).
  eexists. split; [by apply Hat|]. split; [done|].
  do 11 (destruct row as [|? row]; try done).
Qed.

End SeriesFacts.


(** ** The programs on the small data set *)

Section Examples.
Import np Har.
Local Open Scope float_scope.

Lemma example_run_completes :
  MCerrst.run Example.imports false 3 Example.world = (Ok (), Example.final).
Proof. vm_compute. reflexivity. Qed.

Lemma example_run_notime_completes :
  MCerrst.run Example.imports true 2 Example.world = (Ok (), Example.final_notime).
Proof. vm_compute. reflexivity. Qed.

(** The table the script saves for the data set: three trials, four
    coefficients and the status; the first trial ends with status 1, the other
    two with status 4, and all three are there. *)
Example example_table :
  saved Example.L =
  [("D:\Projects\FIDUCEO\Data\Simulated/Results/n15_mcerrst_beta.txt",
    [[70.375; 90.875; 90.4375; 0; 1];
     [70.03125; 90.53125; 90.09375; 0; 4];
     [69.5625; 90.0625; 89.625; 0; 4]],
    ",")].
Proof. vm_compute. reflexivity. Qed.

(** With no trial at all the script stops at [mcodr.pprint()], before it
    saves anything. *)
Example example_no_trial :
  (MCerrst.run Example.imports false 0 Example.world).1 = Raise (NameError "mcodr")
  ∧ saved (log (MCerrst.run Example.imports false 0) Example.world) = [].
Proof. split; vm_compute; reflexivity. Qed.

(** C1 fails on the script as the claim states it: in the first trial of the
    run on the data set the fit is given the variable mask [1;1;1;1;0], which
    fixes the orbit temperature, and yet the generated error of the first
    matchup's orbit temperature is -0.125, not 0, and the fit is given
    285 - 0.125 = 284.875 where the best estimate is 285. *)
Lemma fixed_variable_gets_nonzero_error :
  ∃ a0 podr a o ga E,
    best_fits Example.L = [(a0, podr)]
    ∧ trial_fits Example.L !! 0%nat = Some (a, o)
    ∧ error_draws Example.L !! 0%nat = Some (ga, E)
    ∧ m_fixx a = Some [1%Z; 1%Z; 1%Z; 1%Z; 0%Z]
    ∧ cell E 0 5 = Some (-0.125)
    ∧ (-0.125) ≠ (zero : float)
    ∧ cell (xplus podr) 4 0 = Some 285
    ∧ cell (m_X a) 0 4 = Some 284.875
    ∧ 284.875 ≠ 285.
Proof.
  eexists _, _, _, _, _, _. split_and!.
  - vm_compute. reflexivity.
  - vm_compute. reflexivity.
  - vm_compute. reflexivity.
  - vm_compute. reflexivity.
  - vm_compute. reflexivity.
  - intros H. apply (f_equal (λ x, PrimFloat.eqb x 0)) in H. vm_compute in H. discriminate.
  - vm_compute. reflexivity.
  - vm_compute. reflexivity.
  - intros H. apply (f_equal (λ x, PrimFloat.eqb x 285)) in H. vm_compute in H. discriminate.
Qed.

(** The solver of the data set returns as many coefficients as it is given
    and leaves a coefficient that the mask fixes as it is given. *)
Lemma example_solver_length (a : @odr4MC_args float64) :
  length (beta (Example.odr4MC a)) = length (m_b0 a).
Proof. unfold Example.odr4MC. cbn [beta]. by rewrite length_imap. Qed.

Lemma example_solver_fixed (a : @odr4MC_args float64) (fixb : list Z) (i : nat) :
  m_fixb a = Some fixb → fixb !! i = Some 0%Z →
  beta (Example.odr4MC a) !! i = m_b0 a !! i.
Proof.
  intros Hm Hi. unfold Example.odr4MC. cbn [beta].
  rewrite list_lookup_imap. unfold Example.free. rewrite Hm.
  rewrite bool_decide_eq_true_2 by done. cbn [negb]. apply option_fmap_id.
Qed.

(** C1, witness: the script on the data set; the last coefficient, which the
    mask fixes, is 0 in every row of the table, as in the best estimate. *)
Lemma fixed_variable_witness :
  ∃ a0 podr fn table,
    best_fits Example.L = [(a0, podr)]
    ∧ saved Example.L = [(fn, table, ",")]
    ∧ p_fixx a0 = Some [1%Z; 1%Z; 1%Z; 1%Z; 0%Z]
    ∧ (∀ k a o, trial_fits Example.L !! k = Some (a, o) → m_fixx a = p_fixx a0)
    ∧ (∀ k row, table !! k = Some row → row !! 3%nat = Some 0).
Proof.
  destruct (fixed_variable_gets_the_generated_error Example.imports 3 Example.world
              Example.final example_run_completes)
    as (a0 & podr & fn & table & Hbest & Hsaved & _ & _ & _ & Hfx & Htrials & Hcol).
  exists a0, podr, fn, table. split_and!; [done | done | done | |].
  - intros k a o Hk. by destruct (Htrials k a o Hk) as (_ & ? & _).
  - intros k row Hk.
    assert (Hb := Hbest). vm_compute in Hb. injection Hb as Ha Hp.
    apply (Hcol example_solver_length example_solver_fixed) with (k := k) (i := 3%nat).
    + rewrite <- Ha, <- Hp. reflexivity.
    + done.
    + reflexivity.
    + rewrite <- Hp. reflexivity.
Defined.

(** C2, witness: the script on the data set. *)
Lemma trial_data_witness :
  MCerrst.run Example.imports false 3 Example.world = (Ok (), Example.final)
  ∧ ∃ a0 podr,
      Example.L !! 0%nat = Some (EvOdrP a0 podr)
      ∧ best_fits Example.L = [(a0, podr)]
      ∧ podr = Example.odrP a0
      ∧ length (trial_fits Example.L) = 3%nat
      ∧ ∀ k a o, trial_fits Example.L !! k = Some (a, o) →
          ∃ ga E,
            error_draws Example.L !! k = Some (ga, E)
            ∧ MCerrst.perturbed (xplus podr) (y podr) E (m_X a) (m_Y a)
            ∧ ∀ n, MCerrst.shaped (xplus podr) (y podr) E n →
                   MCerrst.entrywise_sum (xplus podr) (y podr) E (m_X a) (m_Y a) n.
Proof.
  split; [exact example_run_completes|].
  exact (trial_data_is_best_estimate_plus_error Example.imports false 3 Example.world
           Example.final example_run_completes).
Defined.

(** The shapes of the data model hold on the data set, with three matchups. *)
Example example_shapes :
  ∃ a0 podr,
    best_fits Example.L = [(a0, podr)]
    ∧ ∀ k ga E, error_draws Example.L !! k = Some (ga, E) →
        MCerrst.shaped (xplus podr) (y podr) E 3.
Proof.
  eexists _, _. split; [vm_compute; reflexivity|].
  intros k ga E Hk.
  destruct k as [|[|[|k]]]; vm_compute in Hk; [| | |done];
    injection Hk as _ <-; repeat split; repeat constructor.
Qed.

(** C3, witness: the script on the data set. *)
Lemma every_trial_witness :
  MCerrst.run Example.imports false 3 Example.world = (Ok (), Example.final)
  ∧ ∃ a0 podr fn table,
      best_fits Example.L = [(a0, podr)]
      ∧ saved Example.L = [(fn, table, ",")]
      ∧ length table = length (trial_fits Example.L)
      ∧ ∀ k a o, trial_fits Example.L !! k = Some (a, o) →
          ∃ coefs,
            MCerrst.fit_to (length (p_beta a0)) (beta o) = Ok coefs
            ∧ table !! k = Some (coefs ++ [of_int (info o)])
            ∧ (length (beta o) = length (p_beta a0) → coefs = beta o).
Proof.
  split; [exact example_run_completes|].
  exact (every_trial_is_recorded Example.imports false 3 Example.world
           Example.final example_run_completes).
Defined.

(** The stand-ins of the data set meet the contracts, and the data set is
    well-formed. *)
Lemma example_solver_contract : MCerrst.solver_contract Example.imports.
Proof. split; [done | exact example_solver_length]. Qed.

Lemma example_generator_contract : MCerrst.generator_contract Example.imports.
Proof. exact (genErr_shape Example.normal Example.group_unc). Qed.

Lemma example_data_ok :
  MCerrst.data_ok Example.imports false Example.coef_n15 Example.pair.
Proof.
  unfold MCerrst.data_ok. split_and!.
  - vm_compute. reflexivity.
  - reflexivity.
  - vm_compute. lia.
  - vm_compute. lia.
  - eexists. vm_compute. reflexivity.
  - eexists. split; [vm_compute; reflexivity|]. vm_compute. lia.
  - eexists. vm_compute. reflexivity.
  - eexists. vm_compute. reflexivity.
  - reflexivity.
  - intros a0 Ha0. change (MCerrst.odrP Example.imports a0) with (Example.odrP a0).
    unfold Example.odrP. cbn [xplus y]. rewrite Ha0. split_and!.
    + reflexivity.
    + vm_compute. repeat constructor.
    + reflexivity.
Qed.

(** C4, witness: the script on the data set. *)
Lemma one_table_witness :
  MCerrst.solver_contract Example.imports
  ∧ MCerrst.generator_contract Example.imports
  ∧ MCerrst.data_ok Example.imports false Example.coef_n15 Example.pair
  ∧ (0 < 3)%nat
  ∧ ∃ w' table,
      MCerrst.run Example.imports false 3 Example.world = (Ok (), w')
      ∧ saved Example.L =
          [("D:\Projects\FIDUCEO\Data\Simulated/Results/n15_mcerrst_beta.txt", table, ",")]
      ∧ length (trial_fits Example.L) = 3%nat
      ∧ length table = 3%nat
      ∧ Forall (λ row, length row = (4 + 1)%nat) table
      ∧ ∀ k row, table !! k = Some row →
          ∃ a o,
            trial_fits Example.L !! k = Some (a, o)
            ∧ length (beta o) = 4%nat
            ∧ row = beta o ++ [of_int (info o)].
Proof.
  assert (0 < 3)%nat as Hpos by lia.
  split_and!;
    [exact example_solver_contract | exact example_generator_contract
    | exact example_data_ok | exact Hpos |].
  exact (one_table_is_saved Example.imports false 3 Example.coef_n15 Example.pair
           Example.world example_solver_contract example_generator_contract
           example_data_ok Hpos).
Defined.

(** C5, witness: the script on the data set; its three trials have a fit
    each. *)
Lemma trial_fit_settings_witness :
  MCerrst.run Example.imports false 3 Example.world = (Ok (), Example.final)
  ∧ ∃ a0 podr,
      Example.L !! 0%nat = Some (EvOdrP a0 podr)
      ∧ best_fits Example.L = [(a0, podr)]
      ∧ podr = Example.odrP a0
      ∧ length (trial_fits Example.L) = 3%nat
      ∧ (∀ k, (k < 3)%nat → ∃ a o, trial_fits Example.L !! k = Some (a, o))
      ∧ ∀ k a o, trial_fits Example.L !! k = Some (a, o) →
          o = Example.odr4MC a
          ∧ m_b0 a = beta podr
          ∧ m_fixb a = p_fixb a0 ∧ m_fixx a = p_fixx a0 ∧ m_Hs a = p_Hs a0
          ∧ m_Hr a = p_Hr a0 ∧ m_series a = p_series a0.
Proof.
  split; [exact example_run_completes|].
  exact (trial_fit_reuses_best_estimate_settings Example.imports false 3 Example.world
           Example.final example_run_completes).
Defined.

(** The stand-in for [resetHs] of the data set with zeros does what the
    specification asks: it leaves no zero in columns 4 and 5. *)
Lemma example_resetHs_contract :
  MCerrst.resetHs_contract ExampleZero.imports ExampleZero.is_zero ExampleZero.needed.
Proof.
  intros S rsp i j x Hj Hx.
  change (MCerrst.resetHs ExampleZero.imports S rsp) with (ExampleZero.resetHs S rsp) in Hx.
  unfold ExampleZero.resetHs, cell in Hx.
  apply bind_Some in Hx as (r & Hr & Hx). rewrite list_lookup_fmap in Hr.
  apply fmap_Some in Hr as (row & _ & ->). rewrite list_lookup_imap in Hx.
  apply fmap_Some in Hx as (x0 & _ & ->).
  rewrite bool_decide_eq_true_2 by done. cbn [andb].
  by destruct (ExampleZero.is_zero x0) eqn:Hz.
Qed.

Lemma example_zero_run_completes :
  MCerrst.run ExampleZero.imports false 3 Example.world = (Ok (), ExampleZero.final).
Proof. vm_compute. reflexivity. Qed.

Lemma example_zero_run_notime_completes :
  MCerrst.run ExampleZero.imports true 2 Example.world = (Ok (), ExampleZero.final_notime).
Proof. vm_compute. reflexivity. Qed.

(** C7, witness: the script as it stands (with time dependence, three trials)
    and with [notime = True] and two trials, on the data set whose file
    declares 0 for the systematic uncertainties of the internal-target
    radiance and the orbit temperature and for the random uncertainty of the
    orbit temperature.  With time dependence the fits get 0.0625 where the
    file has 0, without it they get 1. *)
Lemma uncertainties_replaced_witness :
  (cell (Hs ExampleZero.pair) 0 4 = Some 0 ∧ cell (Hs ExampleZero.pair) 0 5 = Some 0
   ∧ cell (Hr ExampleZero.pair) 0 5 = Some 0 ∧ ExampleZero.is_zero 0 = true)
  ∧ (∃ d a0 podr,
      ExampleZero.L !! 0%nat = Some (EvOdrP a0 podr)
      ∧ best_fits ExampleZero.L = [(a0, podr)]
      ∧ length (trial_fits ExampleZero.L) = 3%nat
      ∧ length (error_draws ExampleZero.L) = 3%nat
      ∧ (∀ k a o, trial_fits ExampleZero.L !! k = Some (a, o) →
           m_Hr a = p_Hr a0 ∧ m_Hs a = p_Hs a0)
      ∧ (∀ k ga E, error_draws ExampleZero.L !! k = Some (ga, E) → g_Hr ga = p_Hr a0)
      ∧ MCerrst.rHDpair ExampleZero.imports MCerrst.datadir "m02_n15.nc" = Ok d
      ∧ p_Hs a0 = Some (ExampleZero.resetHs (Hs d) (rsp d))
      ∧ (∀ i j x, ExampleZero.needed j →
           cell (ExampleZero.resetHs (Hs d) (rsp d)) i j = Some x →
           ExampleZero.is_zero x = false)
      ∧ ∀ k ga E, error_draws ExampleZero.L !! k = Some (ga, E) →
          getitem2 (ExampleZero.resetHs (Hs d) (rsp d)) 0 4 = Ok (g_sLict ga)
          ∧ getitem2 (ExampleZero.resetHs (Hs d) (rsp d)) 0 5 = Ok (g_sTo ga)
          ∧ (ExampleZero.needed 4 → ExampleZero.is_zero (g_sLict ga) = false)
          ∧ (ExampleZero.needed 5 → ExampleZero.is_zero (g_sTo ga) = false))
  ∧ (∃ d a0 podr,
      ExampleZero.L_notime !! 0%nat = Some (EvOdrP a0 podr)
      ∧ best_fits ExampleZero.L_notime = [(a0, podr)]
      ∧ length (trial_fits ExampleZero.L_notime) = 2%nat
      ∧ length (error_draws ExampleZero.L_notime) = 2%nat
      ∧ (∀ k a o, trial_fits ExampleZero.L_notime !! k = Some (a, o) →
           m_Hr a = p_Hr a0 ∧ m_Hs a = p_Hs a0)
      ∧ (∀ k ga E, error_draws ExampleZero.L_notime !! k = Some (ga, E) →
           g_Hr ga = p_Hr a0)
      ∧ MCerrst.rHDpair ExampleZero.imports
          (MCerrst.pjoin ExampleZero.imports MCerrst.datadir "newSim_notime") "m02_n15.nc"
        = Ok d
      ∧ set_column (Hr d) 5 one = Ok (p_Hr a0)
      ∧ length (p_Hr a0) = length (Hr d)
      ∧ (∀ i, (i < length (Hr d))%nat → cell (p_Hr a0) i 5 = Some one)
      ∧ (∀ i row, p_Hr a0 !! i = Some row →
           ∃ row0, Hr d !! i = Some row0 ∧ row = <[5%nat := one]> row0)
      ∧ (∀ i x, cell (p_Hr a0) i 5 = Some x → ExampleZero.is_zero x = false)).
Proof.
  split; [by vm_compute|]. split.
  - exact (uncertainties_are_replaced_before_any_fit ExampleZero.imports
             ExampleZero.is_zero ExampleZero.needed false 3 Example.world ExampleZero.final
             eq_refl example_resetHs_contract example_zero_run_completes).
  - exact (uncertainties_are_replaced_before_any_fit ExampleZero.imports
             ExampleZero.is_zero ExampleZero.needed true 2 Example.world
             ExampleZero.final_notime
             eq_refl example_resetHs_contract example_zero_run_notime_completes).
Defined.

(** What the fits of the two runs are given in the first row: 0.0625 for the
    two systematic uncertainties declared as 0, and 1 for the random
    uncertainty of the orbit temperature declared as 0. *)
Example example_placeholders :
  (∃ a0 podr Hs', best_fits ExampleZero.L = [(a0, podr)] ∧ p_Hs a0 = Some Hs'
     ∧ Hs' !! 0%nat = Some [0; 0; 0; 0; 0.0625; 0.0625; 0])
  ∧ (∃ a0 podr, best_fits ExampleZero.L_notime = [(a0, podr)]
       ∧ p_Hr a0 !! 0%nat = Some [0.5; 0; 0; 1; 0.25; 1; 0.125]).
Proof. split; [eexists _, _, _ | eexists _, _]; vm_compute; split_and!; reflexivity. Qed.

(** C8, witness: the script on the data set, from two worlds with the same
    generator state and different memory contents. *)
Lemma same_seed_witness :
  rng Example.world = rng Example.world'
  ∧ uninit Example.world 0%nat 0%nat ≠ uninit Example.world' 0%nat 0%nat
  ∧ (MCerrst.run Example.imports false 3 Example.world).1
    = (MCerrst.run Example.imports false 3 Example.world').1
  ∧ log (MCerrst.run Example.imports false 3) Example.world
    = log (MCerrst.run Example.imports false 3) Example.world'
  ∧ saved (log (MCerrst.run Example.imports false 3) Example.world)
    = saved (log (MCerrst.run Example.imports false 3) Example.world')
  ∧ rng (MCerrst.run Example.imports false 3 Example.world).2
    = rng (MCerrst.run Example.imports false 3 Example.world').2.
Proof.
  split; [reflexivity|]. split.
  { intros H. apply (f_equal (λ x, PrimFloat.eqb x 0)) in H. vm_compute in H. discriminate. }
  exact (same_seed_same_table Example.imports false 3 Example.world Example.world' eq_refl).
Defined.

(** C9 fails as the claim states it: the script asks for 5000 matchups to
    plot; with the three matchups of the data set and [weight=None],
    [random.sample] raises ValueError, which is no NameError, before the title
    is built. *)
Lemma plotSDfit_sample_too_large :
  ∃ e,
    (plotMCres.plotSDfit Example.choose Example.series 3 5000 "n15" [100; 100; 101]
       Example.Hr0 Example.podr None Example.world).1 = Raise e
    ∧ e = ValueError
    ∧ is_NameError e = false.
Proof. exists ValueError. split_and!; vm_compute; reflexivity. Qed.

(** With two matchups to plot out of three the title is reached. *)
Example plotSDfit_unbound_title :
  (plotMCres.plotSDfit Example.choose Example.series 3 2 "n15" [100; 100; 101]
     Example.Hr0 Example.podr None Example.world).1 = Raise (UnboundLocalError "wlab").
Proof. vm_compute. reflexivity. Qed.

(** With [weight=1], as the script calls it, and two matchups the eight graphs
    are drawn. *)
Example plotSDfit_weighted :
  let r := plotMCres.plotSDfit Example.choose Example.series 3 2 "n15" [100; 100; 101]
             Example.Hr0 Example.podr (Some 1%Z) Example.world in
  r.1 = Ok () ∧ length (graphs (trace r.2)) = 8%nat.
Proof. vm_compute. split; reflexivity. Qed.

(** C6 fails as the claim states it, for every scanline group that [unique]
    computes: with the matchups on scanlines 101, 100, 101 - not in scanline
    order - [unique] returns the scanlines 100 and 101, first met at matchups 1
    and 0, with one and two matchups.  The generator is given the scanlines and
    the counts, not the scanline of each matchup, and takes the first matchup
    for the group of scanline 100 and the next two for that of scanline 101:
    matchups 0 and 2, both on scanline 101 and with the same scanline
    uncertainties, get the space-count errors 0.5 and -2 and the
    internal-target-count errors 0.125 and 8. *)
Lemma scanline_error_differs_when_unsorted :
  let corIdx := [101; 100; 101]%Z in
  let csUr : list (list float) := [[2; 2]; [0.5; 0.5]; [2; 2]] in
  let cictUr : list (list float) := [[4; 4]; [0.25; 0.25]; [4; 4]] in
  let u := MCerrst.unique corIdx in
  let ga := {| g_Hr := Example.Hr0; g_sLict := 0.25; g_sTo := 0.5;
               g_rCSar := [[0.5; 0.5]; [2; 2]]; g_rCICTar := [[0.25; 0.25]; [4; 4]];
               g_slt := u.1.1; g_corLen := [25]; g_mcnt := u.2 |} in
  let E := (errStruct.genErr Example.normal Example.group_unc ga 0%nat).1 in
  u = ([100; 101]%Z, [1; 0]%nat, [1; 2]%nat)
  ∧ take_rows csUr u.1.2 = Ok (g_rCSar ga)
  ∧ take_rows cictUr u.1.2 = Ok (g_rCICTar ga)
  ∧ length Example.Hr0 = length corIdx
  ∧ corIdx !! 0%nat = Some 101%Z ∧ corIdx !! 2%nat = Some 101%Z
  ∧ csUr !! 0%nat = csUr !! 2%nat ∧ cictUr !! 0%nat = cictUr !! 2%nat
  ∧ cell E 0 1 = Some 0.5 ∧ cell E 2 1 = Some (-2)
  ∧ cell E 0 2 = Some 0.125 ∧ cell E 2 2 = Some 8
  ∧ cell E 0 1 ≠ cell E 2 1
  ∧ cell E 0 2 ≠ cell E 2 2
  ∧ ¬ Sorted Z.le corIdx.
Proof.
  cbv zeta. split_and!; try (vm_compute; reflexivity).
  - intros H.
    apply (f_equal (λ o, match o with Some x => PrimFloat.eqb x 0.5 | None => false end)) in H.
    vm_compute in H. discriminate.
  - intros H.
    apply (f_equal (λ o, match o with Some x => PrimFloat.eqb x 0.125 | None => false end)) in H.
    vm_compute in H. discriminate.
  - intros H. apply Sorted_inv in H as [_ H]. apply HdRel_inv in H. lia.
Qed.

(** C6, witness: the three matchups of the data set on scanlines 100, 100,
    101; the first two share the errors of the space counts (the group's draw
    1 times 0.5) and of the internal-target counts (the draw 0.5 times 0.25). *)
Lemma scanline_error_witness :
  take_rows (csUr Example.pair) (MCerrst.unique [100; 100; 101]%Z).1.2
    = Ok [[0.5; 0.5]; [2; 2]]
  ∧ take_rows (cictUr Example.pair) (MCerrst.unique [100; 100; 101]%Z).1.2
    = Ok [[0.25; 0.25]; [4; 4]]
  ∧ Sorted Z.le [100; 100; 101]%Z
  ∧ length Example.Hr0 = length [100; 100; 101]%Z
  ∧ let u := MCerrst.unique [100; 100; 101]%Z in
    let ga := {| g_Hr := Example.Hr0; g_sLict := 0.25; g_sTo := 0.5;
                 g_rCSar := [[0.5; 0.5]; [2; 2]]; g_rCICTar := [[0.25; 0.25]; [4; 4]];
                 g_slt := u.1.1; g_corLen := [25]; g_mcnt := u.2 |} in
    let E := (errStruct.genErr Example.normal Example.group_unc ga 0%nat).1 in
    let zCs := (errStruct.draws Example.normal (length u.1.1) 0%nat).1 in
    let zCict := (errStruct.draws Example.normal (length u.1.1)
                    (errStruct.draws Example.normal (length u.1.1) 0%nat).2).1 in
    ∃ k m z1 z2 rowCs rowCict,
      u.1.1 !! k = Some 100%Z ∧ u.1.2 !! k = Some m
      ∧ [100; 100; 101]%Z !! m = Some 100%Z
      ∧ csUr Example.pair !! m = Some rowCs ∧ cictUr Example.pair !! m = Some rowCict
      ∧ zCs !! k = Some z1 ∧ zCict !! k = Some z2
      ∧ cell E 0 1 = Some (add (add zero (mul z1 (Example.group_unc rowCs))) zero)
      ∧ cell E 1 1 = cell E 0 1
      ∧ cell E 0 2 = Some (add (add zero (mul z2 (Example.group_unc rowCict))) zero)
      ∧ cell E 1 2 = cell E 0 2.
Proof.
  assert (Sorted Z.le [100; 100; 101]%Z) as Hsorted by (repeat constructor; lia).
  split_and!; [reflexivity | reflexivity | exact Hsorted | reflexivity |].
  exact (scanline_error_is_shared_within_a_group Example.normal Example.group_unc
           Example.Hr0 (csUr Example.pair) (cictUr Example.pair) [100; 100; 101]%Z [25]
           0.25 0.5 0%nat [[0.5; 0.5]; [2; 2]] [[0.25; 0.25]; [4; 4]] 0 1 100%Z
           eq_refl eq_refl Hsorted eq_refl eq_refl eq_refl).
Defined.

(** The error matrix of the first trial on the data set: the first two rows
    (scanline 100) agree in columns 1 and 2, the third (scanline 101) differs. *)
Example example_error_matrix :
  (snd <$> error_draws Example.L) !! 0%nat =
  Some [[(-0.25); 0.5; 0.125; 1.5; 0.625; (-0.125); 0.125];
        [0.125; 0.5; 0.125; 1; 1; (-1.25); (-0.125)];
        [(-1); (-2); 8; (-1); 0.375; 0.5; 0.0625]].
Proof. vm_compute. reflexivity. Qed.

End Examples.
(** ** The readers, the conversion and the plots on the small files *)

Section ReaderExamples.
Import np readHD.
Local Open Scope float_scope.

Example example_sensors : sensors ExampleFiles.nclist = ["m02"; "n15"; "n14"].
Proof. reflexivity. Qed.

Example example_coefficients :
  sInCoeff ExampleFiles.pjoin ExampleFiles.files ExampleFiles.float_ "csv" ExampleFiles.nclist
  = inr ExampleFiles.coefficients.
Proof. vm_compute. reflexivity. Qed.

(** The coefficients of [n15] are those of its second row; [n16] has a row
    and no coefficients, for it is not in the series. *)
Lemma last_row_witness :
  ExampleFiles.coefficients !! "n15" = Some [1; 0.5; 2; 0] ↔
  "n15" ∈ sensors ExampleFiles.nclist ∧ ∃ i row,
    ExampleFiles.csv_rows !! i = Some row ∧ row !! 0%nat = Some "n15"
    ∧ astype_float ExampleFiles.float_ (slice_list row 1 5) = Ok [1; 0.5; 2; 0]
    ∧ (length [1%float; 0.5%float; 2%float; 0%float] ≤ 4)%nat
    ∧ ∀ j row', (i < j)%nat → ExampleFiles.csv_rows !! j = Some row' →
        row' !! 0%nat ≠ Some "n15".
Proof.
  apply (sInCoeff_gives_the_last_row_of_each_sensor (Num := float64) ExampleFiles.pjoin
           ExampleFiles.files ExampleFiles.float_ "csv" ExampleFiles.nclist
           ExampleFiles.header).
  - reflexivity.
  - vm_compute. reflexivity.
Defined.

(** In the folder [bad] the row of [n16], a sensor that is not in the series,
    stops the reading. *)
Lemma bad_row_witness :
  sInCoeff ExampleFiles.pjoin ExampleFiles.files ExampleFiles.float_ "bad" ExampleFiles.nclist
  = inl (Exception ValueError).
Proof.
  apply (sInCoeff_converts_every_row (Num := float64) ExampleFiles.pjoin ExampleFiles.files ExampleFiles.float_
           "bad" ExampleFiles.nclist ExampleFiles.header ExampleFiles.bad_rows 1
           ["n16"; "1"; "n/a"; "0.5"; "0"] "n/a").
  - reflexivity.
  - repeat constructor; discriminate.
  - reflexivity.
  - apply (list_elem_of_lookup_2 _ 1%nat). reflexivity.
  - vm_compute. reflexivity.
Defined.

End ReaderExamples.

Section DriverExamples.
Import np Har Trials Graphs.
Local Open Scope float_scope.


Lemma no_trial_witness :
  ∃ w' a0,
    MCerrst.run Example.imports false 0 Example.world = (Raise (NameError "mcodr"), w')
    ∧ log (MCerrst.run Example.imports false 0) Example.world
      = [EvOdrP a0 (MCerrst.odrP Example.imports a0)]
    ∧ p_Hd a0 = Hd Example.pair
    ∧ rng w' = rng Example.world.
Proof.
  exact (no_trial_no_table Example.imports false Example.coef_n15 Example.pair Example.world
           example_data_ok).
Defined.

(** The three trials of the script on the data set draw from the states that
    zero, one and two calls of the generator leave. *)
Lemma generator_draws_witness :
  ∃ ga,
    length (error_draws Example.L) = 3%nat
    ∧ (∀ k, (k < 3)%nat →
         error_draws Example.L !! k
         = Some (ga, (MCerrst.genErr Example.imports ga
                        (rng_after Example.imports ga k (rng Example.world))).1))
    ∧ rng Example.final = rng_after Example.imports ga 3 (rng Example.world).
Proof.
  exact (only_the_generator_draws Example.imports false 3 Example.world Example.final
           example_run_completes).
Defined.

(** The three matchups of the data set are on two scanlines. *)
Lemma scanline_groups_witness :
  ∃ d,
    MCerrst.rHDpair Example.imports MCerrst.datadir "m02_n15.nc" = Ok d
    ∧ ∀ k ga E, error_draws Example.L !! k = Some (ga, E) →
        StronglySorted Z.lt (g_slt ga)
        ∧ (∀ v, v ∈ g_slt ga ↔ v ∈ corIdx d)
        ∧ sum_list (g_mcnt ga) = length (corIdx d).
Proof.
  destruct (generator_gets_the_scanline_groups Example.imports false 3 Example.world
              Example.final example_run_completes) as (d & Hd & Hgroups).
  exists d. split; [exact Hd|]. intros k ga E Hk.
  destruct (Hgroups k ga E Hk) as (Hsorted & Hin & _ & _ & _ & Hsum & _).
  exact (conj Hsorted (conj Hin Hsum)).
Defined.

(** Without coefficients for [n15] the script stops with the KeyError, in the
    world it started in. *)
Lemma missing_input_witness :
  MCerrst.run ExampleNoCoefficients.imports false 3 Example.world
  = (Raise KeyError, Example.world).
Proof.
  apply (missing_input_stops_the_script ExampleNoCoefficients.imports false 3 Example.world).
  vm_compute. reflexivity.
Defined.

Lemma example_sample_contract : sample_contract Example.choose.
Proof.
  intros g population k Hk. unfold Example.choose. cbn [fst]. split.
  - rewrite length_take. lia.
  - apply Forall_forall. intros i Hi. apply (subseteq_take k population). exact Hi.
Qed.

Lemma example_plot_data :
  plot_data Example.series [100; 100; 101] Example.Hr0 Example.podr 3.
Proof.
  unfold plot_data. split_and!; try (vm_compute; reflexivity).
  - vm_compute. repeat constructor.
  - vm_compute. repeat constructor.
  - vm_compute. repeat constructor; lia.
Qed.

(** The call of the script, with two matchups to plot out of three. *)
Lemma weighted_graphs_witness :
  let m := plotMCres.plotSDfit Example.choose Example.series 3 2 "n15" [100; 100; 101]
             Example.Hr0 Example.podr (Some 1%Z) in
  (m Example.world).1 = Ok ()
  ∧ Forall (λ g, length g.1.1.1.1 = 2%nat ∧ length g.1.1.1.2 = 2%nat)
           (graphs (log m Example.world)).
Proof.
  destruct (plotSDfit_weighted_draws_eight_graphs Example.choose Example.series 3 2 "n15"
              [100; 100; 101] Example.Hr0 Example.podr 1 Example.world 3
              example_sample_contract example_plot_data ltac:(lia) ltac:(lia))
    as (Hok & _ & _ & Hlen).
  split; [exact Hok | exact Hlen].
Defined.

Lemma weighted_points_witness :
  let m := plotMCres.plotSDfit Example.choose Example.series 3 2 "n15" [100; 100; 101]
             Example.Hr0 Example.podr (Some 1%Z) in
  ∃ res calLs sLict sTo t errs,
    (λ g, (g.1.1.1.1, g.1.1.1.2)) <$> graphs (log m Example.world) =
      [(res, calLs); (res, sLict); (res, sTo)] ++ ((λ e, (e, t)) <$> errs)
    ∧ Forall2 (λ i x, weighted_residual Example.podr Example.Hr0 i = Some x) [0; 1]%nat res
    ∧ Forall2 (λ i x, ([100; 100; 101] : list float) !! i = Some x) [0; 1]%nat t.
Proof.
  destruct (plotSDfit_weighted_points Example.choose Example.series 3 2 "n15"
              [100; 100; 101] Example.Hr0 Example.podr 1 Example.world 3
              example_sample_contract example_plot_data ltac:(lia) ltac:(lia))
    as (res & calLs & sLict & sTo & t & errs & Hgraphs & Hres & _ & _ & _ & Ht & _).
  exists res, calLs, sLict, sTo, t, errs. split_and!; [exact Hgraphs | exact Hres | exact Ht].
Defined.

End DriverExamples.

Section ConversionExamples.
Import np nd AVHRR AVHRR_to_updated_spec Written.
Local Open Scope float_scope.

Lemma example_same_columns : same_columns ExampleMatchups.matchups.
Proof. unfold same_columns, wf. split_and!; try reflexivity; repeat constructor. Qed.

(** The second matchup of the file is left out. *)
Example example_conversion_mask :
  c_valid _ <$> ExampleMatchups.convert ExampleMatchups.matchups = Ok [true; false; true].
Proof. vm_compute. reflexivity. Qed.

Lemma complete_matchups_witness :
  ∃ c, ExampleMatchups.convert ExampleMatchups.matchups = Ok c
    ∧ c_valid _ c = complete ExampleMatchups.matchups <$> seq 0 3
    ∧ Forall2 (λ i x, K ExampleMatchups.matchups !! i = Some x) (where_ (c_valid _ c)) (c_K _ c).
Proof.
  destruct (ExampleMatchups.convert ExampleMatchups.matchups) as [c|e] eqn:Hc;
    [|vm_compute in Hc; discriminate Hc].
  exists c. split; [reflexivity|].
  destruct (conversion_keeps_the_complete_matchups (Num := float64) ExampleMatchups.Wmatrix
              ExampleMatchups.generate_rolling_average_w_matrix
              ExampleMatchups.return_w_matrix_variables ExampleMatchups.is_zero
              ExampleMatchups.half
              ExampleMatchups.matchups c Hc)
    as (Hvalid & _ & _ & HK & _).
  split; [exact Hvalid | exact HK].
Defined.

Lemma structured_columns_witness :
  ∃ c, ExampleMatchups.convert ExampleMatchups.matchups = Ok c
    ∧ (∀ j, c_uncertainty_type1 _ c !! j = Some 3%Z →
         ∀ r, r ∈ rows (c_Ur1 _ c) → r !! j = Some (zero : float))
    ∧ (∀ j, c_uncertainty_type2 _ c !! j = Some 3%Z →
         ∀ r, r ∈ rows (c_Ur2 _ c) → r !! j = Some (zero : float)).
Proof.
  destruct (ExampleMatchups.convert ExampleMatchups.matchups) as [c|e] eqn:Hc;
    [|vm_compute in Hc; discriminate Hc].
  exists c. split; [reflexivity|].
  destruct (structured_columns_have_no_random_uncertainty (Num := float64) ExampleMatchups.Wmatrix
              ExampleMatchups.generate_rolling_average_w_matrix
              ExampleMatchups.return_w_matrix_variables ExampleMatchups.is_zero
              ExampleMatchups.half
              ExampleMatchups.matchups c
              Hc example_same_columns) as (H1 & H2 & _).
  split; [exact H1 | exact H2].
Defined.


Lemma narrow_arrays_witness :
  ExampleMatchups.convert ExampleMatchups.narrow = Raise IndexError
  ∧ ExampleMatchups.main "narrow.nc" "out.nc" = Raise IndexError.
Proof.
  apply (narrow_arrays_are_rejected (Num := float64) ExampleMatchups.Wmatrix
           ExampleMatchups.generate_rolling_average_w_matrix
           ExampleMatchups.return_w_matrix_variables ExampleMatchups.read_matchup_data
           ExampleMatchups.is_zero ExampleMatchups.half "narrow.nc" "out.nc"
           ExampleMatchups.narrow).
  - reflexivity.
  - left. vm_compute. lia.
Defined.

Lemma written_dimensions_witness :
  ∃ ops, ExampleMatchups.main "matchups.nc" "out.nc" = Ok ops
    ∧ NoDup (created_dimensions ops)
    ∧ ∃ M m1 m2 : nat,
        NcCreateDimension "M" (Z.of_nat M) ∈ ops
        ∧ NcCreateDimension "m1" (Z.of_nat m1) ∈ ops
        ∧ NcCreateDimension "m2" (Z.of_nat m2) ∈ ops
        ∧ (m2 = 4 ∨ m2 = 5)%nat.
Proof.
  destruct (ExampleMatchups.main "matchups.nc" "out.nc") as [ops|e] eqn:Hops;
    [|vm_compute in Hops; discriminate Hops].
  exists ops. split; [reflexivity|].
  destruct (written_variables_have_their_dimensions (Num := float64) ExampleMatchups.Wmatrix
              ExampleMatchups.generate_rolling_average_w_matrix
              ExampleMatchups.return_w_matrix_variables ExampleMatchups.read_matchup_data
              ExampleMatchups.is_zero ExampleMatchups.half
              "matchups.nc" "out.nc"
              ExampleMatchups.matchups ops eq_refl example_same_columns Hops)
    as (Hnd & M & m1 & m2 & HM & Hm1 & Hm2 & Hm & _).
  split; [exact Hnd|]. exists M, m1, m2.
  exact (conj HM (conj Hm1 (conj Hm2 Hm))).
Defined.

End ConversionExamples.

Section SeriesExamples.
Import np nd readHD readHDarrays Layout SeriesLayout.
Local Open Scope float_scope.

Lemma example_consistent_reference : consistent ExampleFiles.ds_ref 3 10.
Proof.
  unfold consistent, wf. split_and!; [reflexivity | lia | | repeat constructor].
  repeat constructor.
Qed.

Lemma example_consistent_sensor : consistent ExampleFiles.ds_sen 2 10.
Proof.
  unfold consistent, wf. split_and!; [reflexivity | lia | | repeat constructor].
  repeat constructor.
Qed.

Lemma reference_pair_witness :
  ∃ p,
    rHDpair ExampleFiles.pjoin ExampleFiles.open_dataset "data" "m02_n15.nc" = Ok p
    ∧ rsp p = 1%Z ∧ lm p = v_lm ExampleFiles.ds_ref
    ∧ corIdx p = v_CorrIndexArray ExampleFiles.ds_ref
    ∧ corLen p = v_corrData ExampleFiles.ds_ref
    ∧ ncols (Hd p) = 7%nat ∧ ncols (Hr p) = 7%nat ∧ ncols (Hs p) = 7%nat
    ∧ laid_out reference_row (v_H ExampleFiles.ds_ref) (v_K ExampleFiles.ds_ref) (Hd p)
    ∧ laid_out reference_row (v_Ur ExampleFiles.ds_ref) (v_Kr ExampleFiles.ds_ref) (Hr p)
    ∧ laid_out reference_row (v_Us ExampleFiles.ds_ref) (v_Ks ExampleFiles.ds_ref) (Hs p).
Proof.
  apply (rHDpair_reference_pair (Num := float64) ExampleFiles.pjoin ExampleFiles.open_dataset "data"
           "m02_n15.nc" ExampleFiles.ds_ref 3 10).
  - reflexivity.
  - exact example_consistent_reference.
  - lia.
  - reflexivity.
Defined.

Lemma sensor_pair_witness :
  ∃ p,
    rHDpair ExampleFiles.pjoin ExampleFiles.open_dataset "data" "n15_n14.nc" = Ok p
    ∧ rsp p = 0%Z ∧ lm p = v_lm ExampleFiles.ds_sen
    ∧ corIdx p = v_CorrIndexArray ExampleFiles.ds_sen
    ∧ corLen p = v_corrData ExampleFiles.ds_sen
    ∧ ncols (Hd p) = 12%nat ∧ ncols (Hr p) = 12%nat ∧ ncols (Hs p) = 12%nat
    ∧ laid_out sensor_row (v_H ExampleFiles.ds_sen) (v_K ExampleFiles.ds_sen) (Hd p)
    ∧ laid_out sensor_row (v_Ur ExampleFiles.ds_sen) (v_Kr ExampleFiles.ds_sen) (Hr p)
    ∧ laid_out sensor_row (v_Us ExampleFiles.ds_sen) (v_Ks ExampleFiles.ds_sen) (Hs p).
Proof.
  apply (rHDpair_sensor_pair (Num := float64) ExampleFiles.pjoin ExampleFiles.open_dataset "data"
           "n15_n14.nc" ExampleFiles.ds_sen 2 15).
  - reflexivity.
  - exact example_consistent_sensor.
  - reflexivity.
  - lia.
Defined.

(** A file of a reference pair with nine columns. *)
Lemma nine_columns_witness :
  rHDpair ExampleFiles.pjoin ExampleFiles.open_dataset "data" "m02_n16.nc" = Raise IndexError.
Proof.
  apply (rHDpair_needs_ten_columns (Num := float64) ExampleFiles.pjoin ExampleFiles.open_dataset "data"
           "m02_n16.nc" ExampleFiles.ds_narrow 1 (-1)).
  - reflexivity.
  - reflexivity.
  - reflexivity.
  - vm_compute. lia.
Defined.

Example example_series :
  rHData ExampleFiles.pjoin ExampleFiles.open_dataset "data" ExampleFiles.nclist
  = Ok (ExampleFiles.Im_series, ExampleFiles.Hdata_series, ExampleFiles.Hrnd_series,
        ExampleFiles.tidx_series).
Proof. vm_compute. reflexivity. Qed.

(** The series of the two files has five matchups. *)
Lemma stacked_files_witness :
  ncols ExampleFiles.Im_series = 3%nat
  ∧ ncols ExampleFiles.Hdata_series = 14%nat ∧ ncols ExampleFiles.Hrnd_series = 14%nat
  ∧ nrows ExampleFiles.Hdata_series
    = sum_list (matchups ExampleFiles.pjoin ExampleFiles.open_dataset "data"
                  <$> ExampleFiles.nclist)
  ∧ nrows ExampleFiles.Hrnd_series
    = sum_list (matchups ExampleFiles.pjoin ExampleFiles.open_dataset "data"
                  <$> ExampleFiles.nclist)
  ∧ ∀ f, f ∈ ExampleFiles.nclist →
      ∃ p, rHDpair ExampleFiles.pjoin ExampleFiles.open_dataset "data" f = Ok p
           ∧ labelled (sensors ExampleFiles.nclist) p.
Proof.
  exact (rHData_stacks_the_files (Num := float64) ExampleFiles.pjoin ExampleFiles.open_dataset "data"
           ExampleFiles.nclist _ _ _ _ example_series).
Defined.

(** The matchups of the reference pair are the first three rows. *)
Lemma reference_rows_witness :
  ∃ l01 sidx1 sidx2,
    get2 (v_lm ExampleFiles.ds_ref) 0 1 = Ok l01
    ∧ sensors ExampleFiles.nclist !! sidx1 = Some "m02"
    ∧ sensors ExampleFiles.nclist !! sidx2 = Some ("n" +:+ pretty.pretty l01)
    ∧ ∀ r row k, rows (v_H ExampleFiles.ds_ref) !! r = Some row →
        v_K ExampleFiles.ds_ref !! r = Some k →
        ∃ out, rows ExampleFiles.Hdata_series
                 !! (sum_list (matchups ExampleFiles.pjoin ExampleFiles.open_dataset "data"
                                 <$> []) + r)%nat = Some out
               ∧ series_reference_row row k sidx1 sidx2 out.
Proof.
  apply (rHData_reference_rows (Num := float64) ExampleFiles.pjoin ExampleFiles.open_dataset "data"
           ExampleFiles.nclist [] ["n15_n14.nc"] "m02_n15.nc" ExampleFiles.ds_ref 3 10
           _ _ _ _ example_series).
  - reflexivity.
  - reflexivity.
  - exact example_consistent_reference.
  - lia.
  - reflexivity.
Defined.

(** The matchups of the sensor pair follow them. *)
Lemma sensor_rows_witness :
  ∃ l01 sidx1 sidx2,
    get2 (v_lm ExampleFiles.ds_sen) 0 1 = Ok l01
    ∧ sensors ExampleFiles.nclist !! sidx1 = Some ("n" +:+ pretty.pretty 15%Z)
    ∧ sensors ExampleFiles.nclist !! sidx2 = Some ("n" +:+ pretty.pretty l01)
    ∧ ∀ r row, rows (v_H ExampleFiles.ds_sen) !! r = Some row →
        ∃ out, rows ExampleFiles.Hdata_series
                 !! (sum_list (matchups ExampleFiles.pjoin ExampleFiles.open_dataset "data"
                                 <$> ["m02_n15.nc"]) + r)%nat = Some out
               ∧ series_sensor_row row sidx1 sidx2 out.
Proof.
  apply (rHData_sensor_rows (Num := float64) ExampleFiles.pjoin ExampleFiles.open_dataset "data"
           ExampleFiles.nclist ["m02_n15.nc"] [] "n15_n14.nc" ExampleFiles.ds_sen 2 15
           _ _ _ _ example_series).
  - reflexivity.
  - reflexivity.
  - exact example_consistent_sensor.
  - reflexivity.
  - lia.
Defined.

End SeriesExamples.

